(** * pcapng reader and writer (wiretap/pcapng.c): a shallow embedding

    The file follows the C source function by function.  Unsigned C
    integers are integers of [Z] with the wrap-around written out, the
    capture file is a list of bytes with a read position, a function that
    reports failure through [*err] returns a [res], and the loops over
    options, records and blocks are bounded by the bytes left in the file. *)

From Stdlib Require Import ZArith List Lia Bool.
From Stdlib Require Import Strings.Byte.
Import ListNotations.
Open Scope Z_scope.

(** ** Machine integers *)

Module Int.

Definition guint8 (x : Z) : Z := x mod 2 ^ 8.
Definition guint16 (x : Z) : Z := x mod 2 ^ 16.
Definition guint32 (x : Z) : Z := x mod 2 ^ 32.
Definition guint64 (x : Z) : Z := x mod 2 ^ 64.

Definition G_MAXUINT64 : Z := 2 ^ 64 - 1.

(** Conversion of an unsigned value to the signed type of [w] bits
    (two's complement), as a C cast does on the supported platforms. *)
Definition to_signed (w : Z) (x : Z) : Z :=
  let m := x mod 2 ^ w in
  if m <? 2 ^ (w - 1) then m else m - 2 ^ w.

(** [(int)x]: [int] has 32 bits. *)
Definition c_int (x : Z) : Z := to_signed 32 x.

(** [(time_t)x]: [time_t] is the 64-bit signed type. *)
Definition time_t (x : Z) : Z := to_signed 64 x.

(** glib's byte-swapping macros. *)
Definition GUINT16_SWAP_LE_BE (v : Z) : Z :=
  guint16 (Z.lor (Z.shiftr (guint16 v) 8) (Z.shiftl (guint16 v) 8)).

Definition GUINT32_SWAP_LE_BE (v : Z) : Z :=
  guint32
    (Z.lor (Z.lor (Z.shiftl (Z.land v 0x000000ff) 24)
                  (Z.shiftl (Z.land v 0x0000ff00) 8))
           (Z.lor (Z.shiftr (Z.land v 0x00ff0000) 8)
                  (Z.shiftr (Z.land v 0xff000000) 24))).

Definition GUINT64_SWAP_LE_BE (v : Z) : Z :=
  guint64
    (Z.lor (Z.shiftl (GUINT32_SWAP_LE_BE (Z.land v 0xffffffff)) 32)
           (GUINT32_SWAP_LE_BE (Z.shiftr (Z.land v 0xffffffff00000000) 32))).

(** [ROUND_TO_4BYTE(len)] and [PADDING4(x)]. *)
Definition ROUND_TO_4BYTE (len : Z) : Z := Z.land (len + 3) (Z.lnot 3).
Definition PADDING4 (x : Z) : Z :=
  Z.shiftl (Z.shiftr (x + 3) 2) 2 - x.

End Int.
Import Int.

(** ** Bytes in memory

    The host is little-endian: [memcpy] of file bytes into an integer
    variable, and reading a struct straight from the file, give the
    little-endian value of the bytes. *)

Definition byte_val (b : byte) : Z := Z.of_N (Byte.to_N b).

Definition byte_of_Z (z : Z) : byte :=
  match Byte.of_N (Z.to_N (z mod 256)) with
  | Some b => b
  | None => x00
  end.

Fixpoint le_uint (bs : list byte) : Z :=
  match bs with
  | [] => 0
  | b :: r => byte_val b + 256 * le_uint r
  end.

(** The integer field of [len] bytes at offset [off] of a struct image. *)
Definition field (off len : nat) (bs : list byte) : Z :=
  le_uint (firstn len (skipn off bs)).

(** The [len] bytes of [v], least significant first. *)
Fixpoint le_bytes (len : nat) (v : Z) : list byte :=
  match len with
  | O => []
  | S n => byte_of_Z v :: le_bytes n (v / 256)
  end.

(** ** Errors and results *)

(** The values [*err] takes in this file.  [ERR_NONE] is [*err == 0]: a
    read that failed at a clean end of file.  [ERR_PLUGIN] stands for an
    error code set by a registered plugin routine.  [ERR_LOOP_BOUND] is
    not a code of the source: it marks a loop of the model that stopped
    because its bound ran out, which never happens ([errs_while],
    [pcapng_read_terminates], [pcapng_open_terminates]). *)
Inductive wtap_err : Type :=
| ERR_NONE
| WTAP_ERR_UNSUPPORTED
| WTAP_ERR_SHORT_READ
| WTAP_ERR_BAD_FILE
| WTAP_ERR_UNWRITABLE_ENCAP
| WTAP_ERR_PACKET_TOO_LARGE
| WTAP_ERR_UNWRITABLE_REC_TYPE
| WTAP_ERR_INTERNAL
| ERR_PLUGIN (code : Z)
| ERR_LOOP_BOUND.

Definition wtap_err_eqb (a b : wtap_err) : bool :=
  match a, b with
  | ERR_NONE, ERR_NONE => true
  | WTAP_ERR_UNSUPPORTED, WTAP_ERR_UNSUPPORTED => true
  | WTAP_ERR_SHORT_READ, WTAP_ERR_SHORT_READ => true
  | WTAP_ERR_BAD_FILE, WTAP_ERR_BAD_FILE => true
  | WTAP_ERR_UNWRITABLE_ENCAP, WTAP_ERR_UNWRITABLE_ENCAP => true
  | WTAP_ERR_PACKET_TOO_LARGE, WTAP_ERR_PACKET_TOO_LARGE => true
  | WTAP_ERR_UNWRITABLE_REC_TYPE, WTAP_ERR_UNWRITABLE_REC_TYPE => true
  | WTAP_ERR_INTERNAL, WTAP_ERR_INTERNAL => true
  | ERR_PLUGIN x, ERR_PLUGIN y => x =? y
  | ERR_LOOP_BOUND, ERR_LOOP_BOUND => true
  | _, _ => false
  end.

Inductive res (E A : Type) : Type :=
| Ok (a : A)
| Err (e : E).
Arguments Ok {E A} a.
Arguments Err {E A} e.

(** ** The input file *)

Record FILE_T : Type := mkFile {
  file_data : list byte;
  file_pos : nat
}.

Definition file_tell (fh : FILE_T) : Z := Z.of_nat (file_pos fh).

Definition file_seek (fh : FILE_T) (off : Z) : FILE_T :=
  mkFile (file_data fh) (Z.to_nat off).

(** Bytes between the read position and the end of the file. *)
Definition file_left (fh : FILE_T) : nat :=
  length (file_data fh) - file_pos fh.

(** [file_read]: up to [count] bytes from the read position, which moves
    past the bytes returned; no more than the bytes left can be had. *)
Definition file_read (count : Z) (fh : FILE_T) : list byte * FILE_T :=
  let n := Z.to_nat (Z.min count (Z.of_nat (file_left fh))) in
  let got := firstn n (skipn (file_pos fh) (file_data fh)) in
  (got, mkFile (file_data fh) (file_pos fh + length got)).

(** A computation that reads the file and may fail with an error of [E]. *)
Definition reader (E A : Type) : Type := FILE_T -> res E (A * FILE_T).

Definition ret {E A} (a : A) : reader E A := fun fh => Ok (a, fh).

Definition bind {E A B} (m : reader E A) (k : A -> reader E B) : reader E B :=
  fun fh =>
    match m fh with
    | Ok (a, fh') => k a fh'
    | Err e => Err e
    end.

Definition raise {E A} (e : E) : reader E A := fun _ => Err e.

Definition map_err {E F A} (f : E -> F) (m : reader E A) : reader F A :=
  fun fh =>
    match m fh with
    | Ok r => Ok r
    | Err e => Err (f e)
    end.

Declare Scope reader_scope.
Delimit Scope reader_scope with reader.
Notation "x <- m ;; k" := (bind m (fun x => k))
  (at level 61, m at next level, right associativity) : reader_scope.
Notation "m ;;; k" := (bind m (fun _ => k))
  (at level 61, right associativity) : reader_scope.
Open Scope reader_scope.

(** Modelled from the spec: [wtap_read_bytes] and [wtap_read_bytes_or_eof]
    of wiretap/wtap.c, which is not among the sources ("length-checked read
    of bounded byte runs from a stream, with short-read detected as
    end-of-file only at block boundaries").  The file is in memory, so the
    only failure is a read that gets fewer bytes than asked for:
    [wtap_read_bytes] reports it as a short read, [wtap_read_bytes_or_eof]
    reports no error when not a single byte was left. *)
Definition wtap_read_bytes (count : Z) : reader wtap_err (list byte) :=
  fun fh =>
    let (got, fh') := file_read count fh in
    if Z.of_nat (length got) =? count then Ok (got, fh')
    else Err WTAP_ERR_SHORT_READ.

Definition wtap_read_bytes_or_eof (count : Z) : reader wtap_err (list byte) :=
  fun fh =>
    let (got, fh') := file_read count fh in
    if Z.of_nat (length got) =? count then Ok (got, fh')
    else if 0 <? Z.of_nat (length got) then Err WTAP_ERR_SHORT_READ
    else Err ERR_NONE.

(** [wtap_read_packet_bytes] reads into a [Buffer]; the bytes are the value. *)
Definition wtap_read_packet_bytes (count : Z) : reader wtap_err (list byte) :=
  wtap_read_bytes count.

(** ** Loops

    [while bound out step s]: run [step] from state [s] until it answers
    [inr r].  Every loop of the reader consumes file bytes in each turn
    that continues, so the bytes left in the file bound the turns; [out] is
    the error given when the bound is used up. *)
Fixpoint while {E S R} (bound : nat) (out : E)
         (step : S -> reader E (S + R)) (s : S) : reader E R :=
  fun fh =>
    match bound with
    | O => Err out
    | S n =>
        match step s fh with
        | Err e => Err e
        | Ok (inr r, fh') => Ok (r, fh')
        | Ok (inl s', fh') => while n out step s' fh'
        end
    end.

(** ** Constants of the file format

    The values below come from headers that are not among the sources
    (pcapng.h, pcapng_module.h, wtap.h, wtap_opttypes.h); they are the
    published pcapng block types and option codes and the sizes of the
    fixed-length structs. *)

Definition BLOCK_TYPE_SHB : Z := 0x0A0D0D0A.
Definition BLOCK_TYPE_IDB : Z := 0x00000001.
Definition BLOCK_TYPE_PB : Z := 0x00000002.
Definition BLOCK_TYPE_SPB : Z := 0x00000003.
Definition BLOCK_TYPE_NRB : Z := 0x00000004.
Definition BLOCK_TYPE_ISB : Z := 0x00000005.
Definition BLOCK_TYPE_EPB : Z := 0x00000006.
Definition BLOCK_TYPE_SYSTEMD_JOURNAL : Z := 0x00000009.
Definition BLOCK_TYPE_DSB : Z := 0x0000000A.
Definition BLOCK_TYPE_SYSDIG_EVENT : Z := 0x00000204.
Definition BLOCK_TYPE_SYSDIG_EVENT_V2 : Z := 0x00000216.

(** [sizeof] of the structs read straight from the file. *)
Definition sizeof_block_header : Z := 8.       (* type:u32, total_length:u32 *)
Definition sizeof_shb : Z := 16.               (* magic, major, minor, section_length *)
Definition sizeof_idb : Z := 8.                (* linktype:u16, reserved:u16, snaplen:u32 *)
Definition sizeof_pb : Z := 20.
Definition sizeof_epb : Z := 20.
Definition sizeof_spb : Z := 4.
Definition sizeof_nrb : Z := 4.
Definition sizeof_isb : Z := 12.
Definition sizeof_dsb : Z := 8.
Definition sizeof_option_header : Z := 4.

Definition MIN_BLOCK_SIZE : Z := guint32 (sizeof_block_header + 4).
Definition MIN_SHB_SIZE : Z := guint32 (MIN_BLOCK_SIZE + sizeof_shb).
Definition MIN_IDB_SIZE : Z := guint32 (MIN_BLOCK_SIZE + sizeof_idb).
Definition MIN_PB_SIZE : Z := guint32 (MIN_BLOCK_SIZE + sizeof_pb).
Definition MIN_EPB_SIZE : Z := guint32 (MIN_BLOCK_SIZE + sizeof_epb).
Definition MIN_SPB_SIZE : Z := guint32 (MIN_BLOCK_SIZE + sizeof_spb).
Definition MIN_NRB_SIZE : Z := guint32 (MIN_BLOCK_SIZE + sizeof_nrb).
Definition MIN_ISB_SIZE : Z := guint32 (MIN_BLOCK_SIZE + sizeof_isb).
Definition MIN_DSB_SIZE : Z := guint32 (MIN_BLOCK_SIZE + sizeof_dsb).

Definition SYSDIG_EVENT_HEADER_SIZE : Z := (16 + 64 + 64 + 32 + 16) / 8.
Definition MIN_SYSDIG_EVENT_SIZE : Z := guint32 (MIN_BLOCK_SIZE + SYSDIG_EVENT_HEADER_SIZE).
Definition SYSDIG_EVENT_V2_HEADER_SIZE : Z := (16 + 64 + 64 + 32 + 16 + 32) / 8.
Definition MIN_SYSDIG_EVENT_V2_SIZE : Z := guint32 (MIN_BLOCK_SIZE + SYSDIG_EVENT_V2_HEADER_SIZE).

Definition MIN_SYSTEMD_JOURNAL_EXPORT_ENTRY_SIZE : Z := 23.
Definition MIN_SYSTEMD_JOURNAL_EXPORT_BLOCK_SIZE : Z :=
  guint32 (MIN_SYSTEMD_JOURNAL_EXPORT_ENTRY_SIZE + MIN_BLOCK_SIZE).

Definition WTAP_MAX_PACKET_SIZE_DBUS : Z := 128 * 1024 * 1024.
Definition MAX_BLOCK_SIZE : Z := MIN_EPB_SIZE + WTAP_MAX_PACKET_SIZE_DBUS + 131072.

Definition OPT_EOFOPT : Z := 0.
Definition OPT_COMMENT : Z := 1.
Definition OPT_SHB_HARDWARE : Z := 2.
Definition OPT_SHB_OS : Z := 3.
Definition OPT_SHB_USERAPPL : Z := 4.
Definition OPT_IDB_NAME : Z := 2.
Definition OPT_IDB_DESCR : Z := 3.
Definition OPT_IDB_IP4ADDR : Z := 4.
Definition OPT_IDB_IP6ADDR : Z := 5.
Definition OPT_IDB_MACADDR : Z := 6.
Definition OPT_IDB_EUIADDR : Z := 7.
Definition OPT_IDB_SPEED : Z := 8.
Definition OPT_IDB_TSRESOL : Z := 9.
Definition OPT_IDB_TZONE : Z := 10.
Definition OPT_IDB_FILTER : Z := 11.
Definition OPT_IDB_OS : Z := 12.
Definition OPT_IDB_FCSLEN : Z := 13.
Definition OPT_IDB_TSOFFSET : Z := 14.
Definition OPT_IDB_HARDWARE : Z := 15.
Definition OPT_ISB_STARTTIME : Z := 2.
Definition OPT_ISB_ENDTIME : Z := 3.
Definition OPT_ISB_IFRECV : Z := 4.
Definition OPT_ISB_IFDROP : Z := 5.
Definition OPT_ISB_FILTERACCEPT : Z := 6.
Definition OPT_ISB_OSDROP : Z := 7.
Definition OPT_ISB_USRDELIV : Z := 8.
Definition OPT_EPB_FLAGS : Z := 0x0002.
Definition OPT_EPB_HASH : Z := 0x0003.
Definition OPT_EPB_DROPCOUNT : Z := 0x0004.
Definition OPT_EPB_PACKETID : Z := 0x0005.
Definition OPT_EPB_QUEUE : Z := 0x0006.
Definition OPT_EPB_VERDICT : Z := 0x0007.
Definition OPT_VERDICT_TYPE_HW : Z := 0.
Definition OPT_VERDICT_TYPE_TC : Z := 1.
Definition OPT_VERDICT_TYPE_XDP : Z := 2.

Definition BT_INDEX_SHB : Z := 0.
Definition BT_INDEX_IDB : Z := 1.
Definition BT_INDEX_PBS : Z := 2.
Definition BT_INDEX_NRB : Z := 3.
Definition BT_INDEX_ISB : Z := 4.
Definition BT_INDEX_EVT : Z := 5.
Definition BT_INDEX_DSB : Z := 6.

Definition WTAP_ENCAP_PER_PACKET : Z := -1.
Definition WTAP_ENCAP_UNKNOWN : Z := 0.

Definition WTAP_TSPREC_UNKNOWN : Z := -2.
Definition WTAP_TSPREC_PER_PACKET : Z := -1.
Definition WTAP_TSPREC_SEC : Z := 0.
Definition WTAP_TSPREC_DSEC : Z := 1.
Definition WTAP_TSPREC_CSEC : Z := 2.
Definition WTAP_TSPREC_MSEC : Z := 3.
Definition WTAP_TSPREC_USEC : Z := 6.
Definition WTAP_TSPREC_NSEC : Z := 9.

Definition WTAP_HAS_TS : Z := 0x00000001.
Definition WTAP_HAS_CAP_LEN : Z := 0x00000002.
Definition WTAP_HAS_INTERFACE_ID : Z := 0x00000004.
Definition WTAP_HAS_COMMENTS : Z := 0x00000008.
Definition WTAP_HAS_DROP_COUNT : Z := 0x00000010.
Definition WTAP_HAS_PACK_FLAGS : Z := 0x00000020.
Definition WTAP_HAS_PACKET_ID : Z := 0x00000040.
Definition WTAP_HAS_INT_QUEUE : Z := 0x00000080.
Definition WTAP_HAS_VERDICT : Z := 0x00000100.

Definition PACK_FLAGS_FCS_LENGTH (val : Z) : Z :=
  Z.shiftr (Z.land val 0x000001E0) 5.

Inductive rec_type_t : Type :=
| REC_TYPE_PACKET
| REC_TYPE_FT_SPECIFIC_EVENT
| REC_TYPE_FT_SPECIFIC_REPORT
| REC_TYPE_SYSCALL
| REC_TYPE_SYSTEMD_JOURNAL.

(** ** Data model *)

(** [pcapng_block_header_t]. *)
Record pcapng_block_header_t : Type := mkBh {
  block_type : Z;
  block_total_length : Z
}.

(** [pcapng_option_header_t]. *)
Record pcapng_option_header_t : Type := mkOh {
  option_code : Z;
  option_length : Z
}.

(** [interface_info_t]. *)
Record interface_info_t : Type := mkIface {
  wtap_encap : Z;
  snap_len : Z;
  time_units_per_second : Z;
  tsprecision : Z;
  fcslen : Z
}.

(** [section_info_t]; [interfaces] is the [GArray] of the section. *)
Record section_info_t : Type := mkSection {
  byte_swapped : bool;
  version_major : Z;
  version_minor : Z;
  interfaces : list interface_info_t;
  shb_off : Z
}.

(** Option values kept in a [wtap_block_t]. *)
Record wtap_bpf_insn_t : Type := mkInsn {
  insn_code : Z;
  insn_jt : Z;
  insn_jf : Z;
  insn_k : Z
}.

Inductive if_filter_opt_t : Type :=
| if_filter_pcap (filter_str : list byte)
| if_filter_bpf (bpf_prog : list wtap_bpf_insn_t).

Inductive wtap_optval_t : Type :=
| OptString (stringval : list byte)
| OptUint8 (uint8val : Z)
| OptUint64 (uint64val : Z)
| OptIfFilter (if_filterval : if_filter_opt_t).

Definition wtap_options : Type := list (Z * wtap_optval_t).

(** [wtapng_if_stats_mandatory_t]. *)
Record wtapng_if_stats_mandatory_t : Type := mkIfStats {
  isb_interface_id : Z;
  isb_ts_high : Z;
  isb_ts_low : Z
}.

(** An interface statistics block as stored with its interface. *)
Record if_stats_block : Type := mkIfStatsBlock {
  if_stats_mand : wtapng_if_stats_mandatory_t;
  if_stats_options : wtap_options
}.

(** [wtapng_if_descr_mandatory_t]. *)
Record wtapng_if_descr_mandatory_t : Type := mkIfDescr {
  idb_wtap_encap : Z;
  idb_time_units_per_second : Z;
  idb_tsprecision : Z;
  idb_snap_len : Z;
  num_stat_entries : Z;
  interface_statistics : list if_stats_block
}.

(** [wtapng_dsb_mandatory_t]. *)
Record wtapng_dsb_mandatory_t : Type := mkDsb {
  secrets_type : Z;
  secrets_len : Z;
  secrets_data : list byte
}.

(** The mandatory part of a [wtap_block_t], by block kind. *)
Inductive wtap_mandatory : Type :=
| WTAP_BLOCK_SECTION (section_length : Z)
| WTAP_BLOCK_IF_ID_AND_INFO (m : wtapng_if_descr_mandatory_t)
| WTAP_BLOCK_NAME_RESOLUTION
| WTAP_BLOCK_IF_STATISTICS (m : wtapng_if_stats_mandatory_t)
| WTAP_BLOCK_DECRYPTION_SECRETS (m : wtapng_dsb_mandatory_t).

Record wtap_block_t : Type := mkBlock {
  block_mand : wtap_mandatory;
  block_options : wtap_options
}.

(** The packet, system-call and journal headers of a [wtap_rec]; the C
    union [rec_header] is kept as three separate fields. *)
Record wtap_packet_header : Type := mkPkt {
  caplen : Z;
  len : Z;
  pkt_encap : Z;
  interface_id : Z;
  drop_count : Z;
  pack_flags : Z;
  interface_queue : Z;
  packet_id : Z;
  pseudo_header : list byte
}.

Record wtap_syscall_header : Type := mkSyscall {
  record_type : Z;
  byte_order_swapped : bool;
  thread_id : Z;
  event_len : Z;
  event_filelen : Z;
  event_type : Z;
  nparams : Z;
  cpu_id : Z
}.

Record wtap_rec : Type := mkRec {
  rec_type : rec_type_t;
  presence_flags : Z;
  ts_secs : Z;
  ts_nsecs : Z;
  tsprec : Z;
  packet_header : wtap_packet_header;
  syscall_header : wtap_syscall_header;
  systemd_journal_record_len : Z;
  opt_comment : option (list byte);
  packet_verdict : option (list (list byte))
}.

(** [wtapng_block_t]: what a block reader hands back. *)
Record wtapng_block_t : Type := mkWblock {
  wb_type : Z;
  wb_internal : bool;
  wb_block : option wtap_block_t;
  wb_rec : wtap_rec;
  wb_frame_buffer : list byte
}.

Definition set_block (b : option wtap_block_t) (w : wtapng_block_t) : wtapng_block_t :=
  mkWblock (wb_type w) (wb_internal w) b (wb_rec w) (wb_frame_buffer w).
Definition set_internal (i : bool) (w : wtapng_block_t) : wtapng_block_t :=
  mkWblock (wb_type w) i (wb_block w) (wb_rec w) (wb_frame_buffer w).
Definition set_type (t : Z) (w : wtapng_block_t) : wtapng_block_t :=
  mkWblock t (wb_internal w) (wb_block w) (wb_rec w) (wb_frame_buffer w).
Definition set_rec (r : wtap_rec) (w : wtapng_block_t) : wtapng_block_t :=
  mkWblock (wb_type w) (wb_internal w) (wb_block w) r (wb_frame_buffer w).
Definition set_frame_buffer (b : list byte) (w : wtapng_block_t) : wtapng_block_t :=
  mkWblock (wb_type w) (wb_internal w) (wb_block w) (wb_rec w) b.

(** ** The collaborators of the reader

    Routines of other wiretap files that pcapng.c calls, and the two
    plugin registries.  The pseudo-header routines see a record only
    through its pseudo-header image and the packet bytes. *)
Record wiretap_env : Type := mkEnv {
  wtap_pcap_encap_to_wtap_encap : Z -> Z;
  wtap_max_snaplen_for_encap : Z -> Z;
  (* encap, packet size: pseudo-header image and its length in the file *)
  pcap_process_pseudo_header : Z -> Z -> reader wtap_err (list byte * Z);
  (* encap, pseudo-header, packet bytes, byte_swapped, fcslen *)
  pcap_read_post_process :
    Z -> list byte -> list byte -> bool -> Z -> list byte * list byte;
  ws_strtou64 : list byte -> option Z;
  (* block type: reader of a plugin (block_read, byte_swapped, wblock) *)
  block_handlers :
    Z -> option (Z -> bool -> wtapng_block_t -> reader wtap_err wtapng_block_t);
  (* block kind index, option code: option parser of a plugin *)
  option_handlers :
    Z -> Z -> option (wtap_block_t -> bool -> Z -> list byte -> res wtap_err wtap_block_t)
}.

(** ** Options of a block *)

Definition option_present (code : Z) (opts : wtap_options) : bool :=
  existsb (fun p => fst p =? code) opts.

(** Modelled from the spec: [wtap_block_add_string_option] and its siblings
    of wiretap/wtap_opttypes.c, which is not among the sources ("at most
    one of each non-comment" option): adding an option that may appear once
    fails when the block already has it, and the callers ignore the
    failure; comments accumulate. *)
Definition wtap_block_add_option (code : Z) (v : wtap_optval_t)
           (b : wtap_block_t) : wtap_block_t :=
  if negb (code =? OPT_COMMENT) && option_present code (block_options b)
  then b
  else mkBlock (block_mand b) (block_options b ++ [(code, v)]).

(** [g_strndup(s, n)]: at most [n] bytes, stopping before a NUL. *)
Fixpoint until_nul (s : list byte) : list byte :=
  match s with
  | [] => []
  | c :: r => if byte_val c =? 0 then [] else c :: until_nul r
  end.

Definition g_strndup (s : list byte) (n : Z) : list byte :=
  until_nul (firstn (Z.to_nat n) s).

Definition maybe_swap16 (swapped : bool) (v : Z) : Z :=
  if swapped then GUINT16_SWAP_LE_BE v else v.
Definition maybe_swap32 (swapped : bool) (v : Z) : Z :=
  if swapped then GUINT32_SWAP_LE_BE v else v.
Definition maybe_swap64 (swapped : bool) (v : Z) : Z :=
  if swapped then GUINT64_SWAP_LE_BE v else v.

(** [pcapng_read_option]: the number of bytes read, the option header and
    the option content. *)
Definition pcapng_read_option (section_info : section_info_t)
           (len to_read : Z)
  : reader wtap_err (Z * pcapng_option_header_t * list byte) :=
  (* sanity check: don't run past the end of the block *)
  if to_read <? sizeof_option_header then raise WTAP_ERR_BAD_FILE else
  (* read option header *)
  hdr <- wtap_read_bytes sizeof_option_header ;;
  let block_read := sizeof_option_header in
  let oh := mkOh (maybe_swap16 (byte_swapped section_info) (field 0 2 hdr))
                 (maybe_swap16 (byte_swapped section_info) (field 2 2 hdr)) in
  (* sanity check: don't run past the end of the block *)
  if to_read <? sizeof_option_header + option_length oh
  then raise WTAP_ERR_BAD_FILE else
  (* sanity check: option length *)
  if len <? option_length oh then raise WTAP_ERR_BAD_FILE else
  (* read option content *)
  content <- wtap_read_bytes (option_length oh) ;;
  let block_read := block_read + option_length oh in
  (* jump over potential padding bytes at end of option *)
  if negb (option_length oh mod 4 =? 0) then
    _ <- wtap_read_bytes (4 - option_length oh mod 4) ;;
    ret (block_read + (4 - option_length oh mod 4), oh, content)
  else ret (block_read, oh, content).

Definition pcapng_process_string_option (block : wtap_block_t)
           (ohp : pcapng_option_header_t) (option_content : list byte)
           (opt_cont_buf_len : Z) : wtap_block_t :=
  if (0 <? option_length ohp) && (option_length ohp <? opt_cont_buf_len)
  then wtap_block_add_option (option_code ohp)
         (OptString (g_strndup option_content (option_length ohp))) block
  else block.

Definition pcapng_process_timestamp_option (block : wtap_block_t)
           (section_info : section_info_t)
           (ohp : pcapng_option_header_t) (option_content : list byte)
           (opt_cont_buf_len : Z) : wtap_block_t :=
  if (option_length ohp =? 8) && (option_length ohp <? opt_cont_buf_len) then
    let high := maybe_swap32 (byte_swapped section_info) (field 0 4 option_content) in
    let low := maybe_swap32 (byte_swapped section_info) (field 4 4 option_content) in
    let timestamp := guint64 (Z.shiftl high 32) in
    let timestamp := guint64 (timestamp + low) in
    wtap_block_add_option (option_code ohp) (OptUint64 timestamp) block
  else block.

Definition pcapng_process_uint64_option (block : wtap_block_t)
           (section_info : section_info_t)
           (ohp : pcapng_option_header_t) (option_content : list byte)
           (opt_cont_buf_len : Z) : wtap_block_t :=
  if (option_length ohp =? 8) && (option_length ohp <? opt_cont_buf_len) then
    let uint64 := maybe_swap64 (byte_swapped section_info) (field 0 8 option_content) in
    wtap_block_add_option (option_code ohp) (OptUint64 uint64) block
  else block.

(** [block_return_val]. *)
Inductive block_return_val : Type :=
| PCAPNG_BLOCK_OK
| PCAPNG_BLOCK_NOT_SHB
| PCAPNG_BLOCK_ERROR.

(** [while (to_read != 0) { ... }]: [body] is one turn of the loop, from
    the bytes still to read and the loop's variables to their new values. *)
Definition option_loop {E St} (out : E)
           (body : Z -> St -> reader E (Z * St)) (to_read : Z) (s : St)
  : reader E St :=
  fun fh =>
    while (S (file_left fh)) out
      (fun st : Z * St =>
         if fst st =? 0 then ret (inr (snd st))
         else r <- body (fst st) (snd st) ;; ret (inl r))
      (to_read, s) fh.

Section Reader.

Variable env : wiretap_env.

(** [pcap_process_unhandled_option] (with plugins: a block kind without
    registered option handlers has an empty table). *)
Definition pcap_process_unhandled_option (block : wtap_block_t)
           (bt_index : Z) (section_info : section_info_t)
           (ohp : pcapng_option_header_t) (option_content : list byte)
  : res wtap_err wtap_block_t :=
  match option_handlers env bt_index (option_code ohp) with
  | Some parser =>
      parser block (byte_swapped section_info) (option_length ohp) option_content
  | None => Ok block
  end.

Definition lift_res {E A} (r : res E A) : reader E A :=
  fun fh => match r with Ok a => Ok (a, fh) | Err e => Err e end.

(** *** Section header block *)

(** One turn of the option loop of [pcapng_read_section_header_block]. *)
Definition shb_option (section_info : section_info_t) (opt_cont_buf_len : Z)
           (to_read : Z) (block : wtap_block_t)
  : reader (block_return_val * wtap_err) (Z * wtap_block_t) :=
  r <- map_err (pair PCAPNG_BLOCK_ERROR)
         (pcapng_read_option section_info opt_cont_buf_len to_read) ;;
  let '(bytes_read, oh, option_content) := r in
  let to_read := guint32 (to_read - bytes_read) in
  if option_code oh =? OPT_EOFOPT then
    (* padding should be ok here, just get out of this *)
    ret (0, block)
  else if (option_code oh =? OPT_COMMENT) || (option_code oh =? OPT_SHB_HARDWARE)
          || (option_code oh =? OPT_SHB_OS) || (option_code oh =? OPT_SHB_USERAPPL) then
    ret (to_read, pcapng_process_string_option block oh option_content opt_cont_buf_len)
  else
    b <- map_err (pair PCAPNG_BLOCK_ERROR)
           (lift_res (pcap_process_unhandled_option block BT_INDEX_SHB section_info
                        oh option_content)) ;;
    ret (to_read, b).

(** [pcapng_read_section_header_block] once the fixed-length part [shb] of
    the block is read. *)
Definition section_header_block_body (shb : list byte) (bh : pcapng_block_header_t)
           (section_info : section_info_t) (wblock : wtapng_block_t)
  : reader (block_return_val * wtap_err)
           (pcapng_block_header_t * section_info_t * wtapng_block_t) :=
  let magic := field 0 4 shb in
  let shb_version_major := field 4 2 shb in
  let shb_version_minor := field 6 2 shb in
  let shb_section_length := field 8 8 shb in
  (* is the magic number one we expect? *)
  match
    (if magic =? 0x1A2B3C4D then
       (* this seems pcapng with correct byte order *)
       Some (false, shb_version_major, shb_version_minor, bh)
     else if magic =? 0x4D3C2B1A then
       (* this seems pcapng with swapped byte order *)
       Some (true, GUINT16_SWAP_LE_BE shb_version_major,
             GUINT16_SWAP_LE_BE shb_version_minor,
             (* tweak the block length to meet current swapping that we know now *)
             mkBh (block_type bh) (GUINT32_SWAP_LE_BE (block_total_length bh)))
     else None)
  with
  | None =>
      (* Not a "pcapng" magic number we know about. *)
      raise (PCAPNG_BLOCK_NOT_SHB, WTAP_ERR_BAD_FILE)
  | Some (swapped, vmajor, vminor, bh) =>
      (* Is this block long enough to be an SHB? *)
      if block_total_length bh <? MIN_SHB_SIZE
      then raise (PCAPNG_BLOCK_ERROR, WTAP_ERR_BAD_FILE) else
      if block_total_length bh >? MAX_BLOCK_SIZE
      then raise (PCAPNG_BLOCK_ERROR, WTAP_ERR_BAD_FILE) else
      (* Currently only SHB versions 1.0 and 1.2 are supported *)
      if negb ((vmajor =? 1) && ((vminor =? 0) || (vminor =? 2)))
      then raise (PCAPNG_BLOCK_ERROR, WTAP_ERR_UNSUPPORTED) else
      let section_info :=
        mkSection swapped vmajor vminor (interfaces section_info) (shb_off section_info) in
      let block :=
        mkBlock (WTAP_BLOCK_SECTION (maybe_swap64 swapped shb_section_length)) [] in
      (* Options *)
      let to_read := guint32 (block_total_length bh - MIN_SHB_SIZE) in
      let opt_cont_buf_len := to_read in
      block <- option_loop (PCAPNG_BLOCK_ERROR, ERR_LOOP_BOUND)
                 (shb_option section_info opt_cont_buf_len) to_read block ;;
      (* We don't return these to the caller in pcapng_read(). *)
      ret (bh, section_info, set_internal true (set_block (Some block) wblock))
  end.

(** [pcapng_read_section_header_block]: the block header with its total
    length in host order, the section and the block read. *)
Definition pcapng_read_section_header_block (bh : pcapng_block_header_t)
           (section_info : section_info_t) (wblock : wtapng_block_t)
  : reader (block_return_val * wtap_err)
           (pcapng_block_header_t * section_info_t * wtapng_block_t) :=
  (* read fixed-length part of the block *)
  shb <- map_err (pair PCAPNG_BLOCK_ERROR) (wtap_read_bytes sizeof_shb) ;;
  section_header_block_body shb bh section_info wblock.

(** *** Interface description block *)

(** The [if_tsresol] byte: bit 7 selects the base, the low seven bits
    are the exponent (lines "case(OPT_IDB_TSRESOL)"). *)
Fixpoint tsresol_power (i : nat) (base result : Z) : Z :=
  match i with
  | O => result
  | S n => tsresol_power n base (guint64 (result * base))
  end.

Definition if_tsresol_time_units (if_tsresol : Z) : Z :=
  let base := if negb (Z.land if_tsresol 0x80 =? 0) then 2 else 10 in
  let exponent := guint8 (Z.land if_tsresol 0x7f) in
  if ((base =? 2) && (exponent <? 64)) || ((base =? 10) && (exponent <? 20))
  then tsresol_power (Z.to_nat exponent) base 1
  else G_MAXUINT64.

Definition tsprecision_of_time_units (time_units_per_second : Z) : Z :=
  if time_units_per_second >=? 1000000000 then WTAP_TSPREC_NSEC
  else if time_units_per_second >=? 1000000 then WTAP_TSPREC_USEC
  else if time_units_per_second >=? 1000 then WTAP_TSPREC_MSEC
  else if time_units_per_second >=? 100 then WTAP_TSPREC_CSEC
  else if time_units_per_second >=? 10 then WTAP_TSPREC_DSEC
  else WTAP_TSPREC_SEC.

(** Update through [if_descr_mand], the pointer to the mandatory part of
    the block being filled. *)
Definition with_if_descr_mand
           (f : wtapng_if_descr_mandatory_t -> wtapng_if_descr_mandatory_t)
           (b : wtap_block_t) : wtap_block_t :=
  match block_mand b with
  | WTAP_BLOCK_IF_ID_AND_INFO m =>
      mkBlock (WTAP_BLOCK_IF_ID_AND_INFO (f m)) (block_options b)
  | _ => b
  end.

Definition set_time_units (units prec : Z) (m : wtapng_if_descr_mandatory_t)
  : wtapng_if_descr_mandatory_t :=
  mkIfDescr (idb_wtap_encap m) units prec (idb_snap_len m)
            (num_stat_entries m) (interface_statistics m).

Definition get_if_descr_mand (b : wtap_block_t) : option wtapng_if_descr_mandatory_t :=
  match block_mand b with
  | WTAP_BLOCK_IF_ID_AND_INFO m => Some m
  | _ => None
  end.

(** The BPF instructions of an [if_filter] option, 8 bytes each. *)
Fixpoint bpf_insns (swapped : bool) (num_insns : nat) (insn_in : list byte)
  : list wtap_bpf_insn_t :=
  match num_insns with
  | O => []
  | S n =>
      mkInsn (maybe_swap16 swapped (field 0 2 insn_in))
             (field 2 1 insn_in) (field 3 1 insn_in)
             (maybe_swap32 swapped (field 4 4 insn_in))
      :: bpf_insns swapped n (skipn 8 insn_in)
  end.

Definition content0 (option_content : list byte) : Z :=
  byte_val (nth 0 option_content x00).

(** One turn of the option loop of [pcapng_read_if_descr_block]. *)
Definition idb_option (section_info : section_info_t) (opt_cont_buf_len : Z)
           (to_read : Z) (block : wtap_block_t)
  : reader wtap_err (Z * wtap_block_t) :=
  r <- pcapng_read_option section_info opt_cont_buf_len to_read ;;
  let '(bytes_read, oh, option_content) := r in
  let to_read := guint32 (to_read - bytes_read) in
  let code := option_code oh in
  if code =? OPT_EOFOPT then
    (* padding should be ok here, just get out of this *)
    ret (0, block)
  else if (code =? OPT_COMMENT) || (code =? OPT_IDB_NAME) || (code =? OPT_IDB_DESCR)
          || (code =? OPT_IDB_OS) || (code =? OPT_IDB_HARDWARE) then
    ret (to_read, pcapng_process_string_option block oh option_content opt_cont_buf_len)
  else if code =? OPT_IDB_SPEED then
    ret (to_read, pcapng_process_uint64_option block section_info oh option_content
                    opt_cont_buf_len)
  else if code =? OPT_IDB_TSRESOL then
    if option_length oh =? 1 then
      let if_tsresol := content0 option_content in
      let time_units_per_second := if_tsresol_time_units if_tsresol in
      let block :=
        with_if_descr_mand
          (fun m => set_time_units time_units_per_second (idb_tsprecision m) m) block in
      (* Fails with multiple options; we silently ignore the failure *)
      let block := wtap_block_add_option code (OptUint8 if_tsresol) block in
      let tsprecision := tsprecision_of_time_units time_units_per_second in
      let block :=
        with_if_descr_mand
          (fun m => set_time_units (idb_time_units_per_second m) tsprecision m) block in
      ret (to_read, block)
    else ret (to_read, block)
  else if code =? OPT_IDB_FILTER then
    if (0 <? option_length oh) && (option_length oh <? opt_cont_buf_len) then
      if content0 option_content =? 0 then
        let if_filter :=
          if_filter_pcap (g_strndup (skipn 1 option_content) (option_length oh - 1)) in
        ret (to_read, wtap_block_add_option code (OptIfFilter if_filter) block)
      else if content0 option_content =? 1 then
        let num_insns := (option_length oh - 1) / 8 in
        let if_filter :=
          if_filter_bpf (bpf_insns (byte_swapped section_info) (Z.to_nat num_insns)
                                   (skipn 1 option_content)) in
        ret (to_read, wtap_block_add_option code (OptIfFilter if_filter) block)
      else ret (to_read, block)
    else ret (to_read, block)
  else if code =? OPT_IDB_FCSLEN then
    if option_length oh =? 1 then
      ret (to_read, wtap_block_add_option code (OptUint8 (content0 option_content)) block)
    else ret (to_read, block)
  else
    b <- lift_res (pcap_process_unhandled_option block BT_INDEX_IDB section_info
                     oh option_content) ;;
    ret (to_read, b).

(** The fields of [wtap] that the block readers update. *)
Record wtap_file_info : Type := mkFileInfo {
  file_encap : Z;
  file_tsprec : Z
}.

Definition pcapng_read_if_descr_block (wth : wtap_file_info)
           (bh : pcapng_block_header_t) (section_info : section_info_t)
           (wblock : wtapng_block_t)
  : reader wtap_err (wtap_file_info * wtapng_block_t) :=
  let time_units_per_second := 1000000 in (* default = 10^6 *)
  let tsprecision := WTAP_TSPREC_USEC in
  (* Is this block long enough to be an IDB? *)
  if block_total_length bh <? MIN_IDB_SIZE then raise WTAP_ERR_BAD_FILE else
  (* read block content *)
  idb <- wtap_read_bytes sizeof_idb ;;
  (* mandatory values *)
  let link_type := maybe_swap16 (byte_swapped section_info) (field 0 2 idb) in
  let snap := maybe_swap32 (byte_swapped section_info) (field 4 4 idb) in
  let block :=
    mkBlock (WTAP_BLOCK_IF_ID_AND_INFO
               (mkIfDescr (wtap_pcap_encap_to_wtap_encap env link_type)
                          time_units_per_second tsprecision snap 0 []))
            [] in
  (* Options *)
  let to_read := guint32 (block_total_length bh - MIN_IDB_SIZE) in
  let opt_cont_buf_len := to_read in
  block <- option_loop ERR_LOOP_BOUND (idb_option section_info opt_cont_buf_len)
             to_read block ;;
  let if_descr_encap :=
    match get_if_descr_mand block with Some m => idb_wtap_encap m | None => 0 end in
  let if_descr_tsprec :=
    match get_if_descr_mand block with Some m => idb_tsprecision m | None => 0 end in
  (* If the per-file encapsulation isn't known, set it to this
     interface's encapsulation; if it is known and differs, the file has
     no single encapsulation. *)
  let encap :=
    if file_encap wth =? WTAP_ENCAP_UNKNOWN then if_descr_encap
    else if negb (file_encap wth =? if_descr_encap) then WTAP_ENCAP_PER_PACKET
    else file_encap wth in
  (* The same applies to the per-file time stamp resolution. *)
  let prec :=
    if file_tsprec wth =? WTAP_TSPREC_UNKNOWN then if_descr_tsprec
    else if negb (file_tsprec wth =? if_descr_tsprec) then WTAP_TSPREC_PER_PACKET
    else file_tsprec wth in
  (* We don't return these to the caller in pcapng_read(). *)
  ret (mkFileInfo encap prec, set_internal true (set_block (Some block) wblock)).

(** *** Decryption secrets block *)

Definition pcapng_read_decryption_secrets_block (bh : pcapng_block_header_t)
           (section_info : section_info_t) (wblock : wtapng_block_t)
  : reader wtap_err wtapng_block_t :=
  (* read block content *)
  dsb <- wtap_read_bytes sizeof_dsb ;;
  (* mandatory values *)
  let stype := maybe_swap32 (byte_swapped section_info) (field 0 4 dsb) in
  let slen := maybe_swap32 (byte_swapped section_info) (field 4 4 dsb) in
  (* Sanity check: assume the secrets are not larger than 1 GiB *)
  if slen >? 1024 * 1024 * 1024 then raise WTAP_ERR_BAD_FILE else
  data <- wtap_read_bytes slen ;;
  (* Skip past padding and discard options (not supported yet). *)
  let to_read := guint32 (block_total_length bh - MIN_DSB_SIZE - slen) in
  _ <- wtap_read_bytes to_read ;;
  (* We don't return these to the caller in pcapng_read(). *)
  ret (set_internal true
         (set_block (Some (mkBlock (WTAP_BLOCK_DECRYPTION_SECRETS
                                      (mkDsb stype slen data)) []))
                    wblock)).

(** *** Enhanced and obsolete packet blocks *)

(** [wtapng_packet_t]. *)
Record wtapng_packet_t : Type := mkPacket {
  p_ts_high : Z;
  p_ts_low : Z;
  p_cap_len : Z;
  p_packet_len : Z;
  p_interface_id : Z;
  p_drops_count : Z
}.

Definition rec_set_flags (f : Z) (r : wtap_rec) : wtap_rec :=
  mkRec (rec_type r) f (ts_secs r) (ts_nsecs r) (tsprec r) (packet_header r)
        (syscall_header r) (systemd_journal_record_len r) (opt_comment r)
        (packet_verdict r).
Definition rec_set_comment (c : option (list byte)) (r : wtap_rec) : wtap_rec :=
  mkRec (rec_type r) (presence_flags r) (ts_secs r) (ts_nsecs r) (tsprec r)
        (packet_header r) (syscall_header r) (systemd_journal_record_len r) c
        (packet_verdict r).
Definition rec_set_verdict (v : option (list (list byte))) (r : wtap_rec) : wtap_rec :=
  mkRec (rec_type r) (presence_flags r) (ts_secs r) (ts_nsecs r) (tsprec r)
        (packet_header r) (syscall_header r) (systemd_journal_record_len r)
        (opt_comment r) v.
Definition rec_set_packet_header (h : wtap_packet_header) (r : wtap_rec) : wtap_rec :=
  mkRec (rec_type r) (presence_flags r) (ts_secs r) (ts_nsecs r) (tsprec r) h
        (syscall_header r) (systemd_journal_record_len r) (opt_comment r)
        (packet_verdict r).

Definition pkt_set_pack_flags (v : Z) (h : wtap_packet_header) : wtap_packet_header :=
  mkPkt (caplen h) (len h) (pkt_encap h) (interface_id h) (drop_count h) v
        (interface_queue h) (packet_id h) (pseudo_header h).
Definition pkt_set_drop_count (v : Z) (h : wtap_packet_header) : wtap_packet_header :=
  mkPkt (caplen h) (len h) (pkt_encap h) (interface_id h) v (pack_flags h)
        (interface_queue h) (packet_id h) (pseudo_header h).
Definition pkt_set_packet_id (v : Z) (h : wtap_packet_header) : wtap_packet_header :=
  mkPkt (caplen h) (len h) (pkt_encap h) (interface_id h) (drop_count h) (pack_flags h)
        (interface_queue h) v (pseudo_header h).
Definition pkt_set_interface_queue (v : Z) (h : wtap_packet_header) : wtap_packet_header :=
  mkPkt (caplen h) (len h) (pkt_encap h) (interface_id h) (drop_count h) (pack_flags h)
        v (packet_id h) (pseudo_header h).
Definition pkt_set_pseudo_header (v : list byte) (h : wtap_packet_header)
  : wtap_packet_header :=
  mkPkt (caplen h) (len h) (pkt_encap h) (interface_id h) (drop_count h) (pack_flags h)
        (interface_queue h) (packet_id h) v.

(** The time stamp of a packet block: the two halves combined, the
    seconds and the nanoseconds for [time_units_per_second] ticks a
    second (lines "Combine the two 32-bit pieces of the timestamp"). *)
Definition packet_ts (ts_high ts_low : Z) : Z :=
  Z.lor (guint64 (Z.shiftl ts_high 32)) ts_low.

Definition packet_ts_secs (ts time_units_per_second : Z) : Z :=
  time_t (ts / time_units_per_second).

Definition packet_ts_nsecs (ts time_units_per_second : Z) : Z :=
  c_int (guint64 ((ts mod time_units_per_second) * 1000000000)
         / time_units_per_second).

(** The fixed part of an EPB or a PB, and the bytes it takes. *)
Definition read_packet_fixed_part (bh : pcapng_block_header_t)
           (section_info : section_info_t) (enhanced : bool)
  : reader wtap_err (wtapng_packet_t * Z) :=
  let sw := byte_swapped section_info in
  if enhanced then
    (* Is this block long enough to be an EPB? *)
    if block_total_length bh <? MIN_EPB_SIZE then raise WTAP_ERR_BAD_FILE else
    epb <- wtap_read_bytes sizeof_epb ;;
    ret (mkPacket (maybe_swap32 sw (field 4 4 epb)) (maybe_swap32 sw (field 8 4 epb))
                  (maybe_swap32 sw (field 12 4 epb)) (maybe_swap32 sw (field 16 4 epb))
                  (maybe_swap32 sw (field 0 4 epb))
                  (guint16 (-1)) (* invalid *),
         sizeof_epb)
  else
    (* Is this block long enough to be a PB? *)
    if block_total_length bh <? MIN_PB_SIZE then raise WTAP_ERR_BAD_FILE else
    pb <- wtap_read_bytes sizeof_pb ;;
    ret (mkPacket (maybe_swap32 sw (field 4 4 pb)) (maybe_swap32 sw (field 8 4 pb))
                  (maybe_swap32 sw (field 12 4 pb)) (maybe_swap32 sw (field 16 4 pb))
                  (maybe_swap16 sw (field 0 2 pb))
                  (maybe_swap16 sw (field 2 2 pb)),
         sizeof_pb).

(** [block_total_length] rounded up: "the block total length of some
    example files don't contain the packet data padding bytes". *)
Definition padded_block_total_length (bh : pcapng_block_header_t) : Z :=
  if negb (block_total_length bh mod 4 =? 0)
  then guint32 (block_total_length bh + 4 - block_total_length bh mod 4)
  else block_total_length bh.

Definition data_padding (cap_len : Z) : Z :=
  if negb (cap_len mod 4 =? 0) then 4 - cap_len mod 4 else 0.

(** One turn of the option loop of [pcapng_read_packet_block]; the loop
    carries the record and the FCS length. *)
Definition packet_option (section_info : section_info_t) (opt_cont_buf_len : Z)
           (to_read : Z) (st : wtap_rec * Z)
  : reader wtap_err (Z * (wtap_rec * Z)) :=
  let (rec, fcs) := st in
  let sw := byte_swapped section_info in
  r <- pcapng_read_option section_info opt_cont_buf_len to_read ;;
  let '(bytes_read, oh, option_content) := r in
  let to_read := guint32 (to_read - bytes_read) in
  let code := option_code oh in
  let olen := option_length oh in
  let hdr := packet_header rec in
  let flag f r := rec_set_flags (Z.lor (presence_flags r) f) r in
  if code =? OPT_EOFOPT then
    (* padding should be ok here, just get out of this *)
    ret (0, (rec, fcs))
  else if code =? OPT_COMMENT then
    if (0 <? olen) && (olen <? opt_cont_buf_len) then
      ret (to_read,
           (rec_set_comment (Some (g_strndup option_content olen))
                            (flag WTAP_HAS_COMMENTS rec), fcs))
    else ret (to_read, (rec, fcs))
  else if code =? OPT_EPB_FLAGS then
    if negb (olen =? 4) then raise WTAP_ERR_BAD_FILE else
    let flags := maybe_swap32 sw (field 0 4 option_content) in
    let rec := rec_set_packet_header (pkt_set_pack_flags flags hdr)
                                     (flag WTAP_HAS_PACK_FLAGS rec) in
    if negb (PACK_FLAGS_FCS_LENGTH flags =? 0)
    then (* The FCS length is present *)
      ret (to_read, (rec, PACK_FLAGS_FCS_LENGTH flags))
    else ret (to_read, (rec, fcs))
  else if code =? OPT_EPB_HASH then
    ret (to_read, (rec, fcs))
  else if code =? OPT_EPB_DROPCOUNT then
    if negb (olen =? 8) then raise WTAP_ERR_BAD_FILE else
    ret (to_read,
         (rec_set_packet_header
            (pkt_set_drop_count (maybe_swap64 sw (field 0 8 option_content)) hdr)
            (flag WTAP_HAS_DROP_COUNT rec), fcs))
  else if code =? OPT_EPB_PACKETID then
    if negb (olen =? 8) then raise WTAP_ERR_BAD_FILE else
    ret (to_read,
         (rec_set_packet_header
            (pkt_set_packet_id (maybe_swap64 sw (field 0 8 option_content)) hdr)
            (flag WTAP_HAS_PACKET_ID rec), fcs))
  else if code =? OPT_EPB_QUEUE then
    if negb (olen =? 4) then raise WTAP_ERR_BAD_FILE else
    ret (to_read,
         (rec_set_packet_header
            (pkt_set_interface_queue (maybe_swap32 sw (field 0 4 option_content)) hdr)
            (flag WTAP_HAS_INT_QUEUE rec), fcs))
  else if code =? OPT_EPB_VERDICT then
    if (olen <? 1)
       || (((content0 option_content =? OPT_VERDICT_TYPE_TC)
            || (content0 option_content =? OPT_VERDICT_TYPE_XDP))
           && negb (olen =? 9))
    then raise WTAP_ERR_BAD_FILE else
    (* Silently ignore unknown options *)
    if content0 option_content >? OPT_VERDICT_TYPE_XDP then ret (to_read, (rec, fcs)) else
    let rec :=
      match packet_verdict rec with
      | None => rec_set_verdict (Some []) (flag WTAP_HAS_VERDICT rec)
      | Some _ => rec
      end in
    let option_content_copy := firstn (Z.to_nat olen) option_content in
    let verdicts := match packet_verdict rec with Some v => v | None => [] end in
    ret (to_read, (rec_set_verdict (Some (verdicts ++ [option_content_copy])) rec, fcs))
  else
    ret (to_read, (rec, fcs)).

Definition pcapng_read_packet_block (bh : pcapng_block_header_t)
           (section_info : section_info_t) (wblock : wtapng_block_t)
           (enhanced : bool)
  : reader wtap_err wtapng_block_t :=
  (* "(Enhanced) Packet Block" read fixed part *)
  fixed <- read_packet_fixed_part bh section_info enhanced ;;
  let (packet, block_read) := fixed : wtapng_packet_t * Z in
  (* How much padding is there at the end of the packet data? *)
  let padding := data_padding (p_cap_len packet) in
  (* add padding bytes to "block total length" *)
  let block_total_length := padded_block_total_length bh in
  (* Is this block long enough to hold the packet data? *)
  if block_total_length
     <? guint32 ((if enhanced then MIN_EPB_SIZE else MIN_PB_SIZE)
                 + p_cap_len packet + padding)
  then raise WTAP_ERR_BAD_FILE else
  if p_interface_id packet >=? Z.of_nat (length (interfaces section_info))
  then raise WTAP_ERR_BAD_FILE else
  let iface_info :=
    nth (Z.to_nat (p_interface_id packet)) (interfaces section_info)
        (mkIface 0 0 0 0 0) in
  if p_cap_len packet >? wtap_max_snaplen_for_encap env (wtap_encap iface_info)
  then raise WTAP_ERR_BAD_FILE else
  ph <- pcap_process_pseudo_header env (wtap_encap iface_info) (p_cap_len packet) ;;
  let (phdr, pseudo_header_len) := ph : list byte * Z in
  let block_read := guint32 (block_read + pseudo_header_len) in
  (* Combine the two 32-bit pieces of the timestamp into one 64-bit value *)
  let ts := packet_ts (p_ts_high packet) (p_ts_low packet) in
  (* "(Enhanced) Packet Block" read capture data *)
  data <- wtap_read_packet_bytes (guint32 (p_cap_len packet - pseudo_header_len)) ;;
  let block_read := guint32 (block_read + guint32 (p_cap_len packet - pseudo_header_len)) in
  (* jump over potential padding bytes at end of the packet data *)
  _ <- (if negb (padding =? 0) then wtap_read_bytes padding else ret []) ;;
  let block_read := if negb (padding =? 0) then guint32 (block_read + padding)
                    else block_read in
  let rec :=
    mkRec REC_TYPE_PACKET
          (Z.lor (Z.lor WTAP_HAS_TS WTAP_HAS_CAP_LEN) WTAP_HAS_INTERFACE_ID)
          (packet_ts_secs ts (time_units_per_second iface_info))
          (packet_ts_nsecs ts (time_units_per_second iface_info))
          (tsprecision iface_info)
          (mkPkt (guint32 (p_cap_len packet - pseudo_header_len))
                 (guint32 (p_packet_len packet - pseudo_header_len))
                 (wtap_encap iface_info)
                 (p_interface_id packet)
                 (* Option defaults *)
                 (guint64 (-1)) 0 0 0
                 phdr)
          (syscall_header (wb_rec wblock))
          (systemd_journal_record_len (wb_rec wblock))
          None None in
  (* FCS length default *)
  let fcs := fcslen iface_info in
  let to_read :=
    guint32 (block_total_length - sizeof_block_header - block_read - 4) in
  let opt_cont_buf_len := to_read in
  st <- option_loop ERR_LOOP_BOUND (packet_option section_info opt_cont_buf_len)
          to_read (rec, fcs) ;;
  let (rec, fcs) := st : wtap_rec * Z in
  let (phdr, data) :=
    pcap_read_post_process env (wtap_encap iface_info)
      (pseudo_header (packet_header rec)) data (byte_swapped section_info) fcs in
  (* We return these to the caller in pcapng_read(). *)
  ret (set_internal false
         (set_frame_buffer data
            (set_rec (rec_set_packet_header
                        (pkt_set_pseudo_header phdr (packet_header rec)) rec)
                     wblock))).

(** *** Simple packet block *)

(** The zeroed pseudo-header union. *)
Definition zero_pseudo_header : list byte := [].

(** The captured length of a simple packet: "the minimum of the snapshot
    length from the IDB and the packet length ... An IDB snapshot length
    of 0 means no limit". *)
Definition simple_packet_cap_len (packet_len snap : Z) : Z :=
  if (packet_len >? snap) && negb (snap =? 0) then snap else packet_len.

Definition pcapng_read_simple_packet_block (bh : pcapng_block_header_t)
           (section_info : section_info_t) (wblock : wtapng_block_t)
  : reader wtap_err wtapng_block_t :=
  (* Is this block long enough to be an SPB? *)
  if block_total_length bh <? MIN_SPB_SIZE then raise WTAP_ERR_BAD_FILE else
  (* "Simple Packet Block" read fixed part *)
  spb <- wtap_read_bytes sizeof_spb ;;
  if 0 >=? Z.of_nat (length (interfaces section_info))
  then raise WTAP_ERR_BAD_FILE else
  let iface_info := nth 0 (interfaces section_info) (mkIface 0 0 0 0 0) in
  let packet_len := maybe_swap32 (byte_swapped section_info) (field 0 4 spb) in
  let cap_len := simple_packet_cap_len packet_len (snap_len iface_info) in
  (* How much padding is there at the end of the packet data? *)
  let padding := data_padding cap_len in
  (* add padding bytes to "block total length" *)
  let block_total_length := padded_block_total_length bh in
  (* Is this block long enough to hold the packet data? *)
  if block_total_length <? guint32 (MIN_SPB_SIZE + cap_len + padding)
  then raise WTAP_ERR_BAD_FILE else
  if cap_len >? wtap_max_snaplen_for_encap env (wtap_encap iface_info)
  then raise WTAP_ERR_BAD_FILE else
  ph <- pcap_process_pseudo_header env (wtap_encap iface_info) cap_len ;;
  let (phdr, pseudo_header_len) := ph : list byte * Z in
  (* "Simple Packet Block" read capture data *)
  data <- wtap_read_packet_bytes cap_len ;;
  (* jump over potential padding bytes at end of the packet data *)
  _ <- (if negb (cap_len mod 4 =? 0) then wtap_read_bytes (4 - cap_len mod 4)
        else ret []) ;;
  (* No time stamp in a simple packet block; no options, either *)
  let rec :=
    mkRec REC_TYPE_PACKET (Z.lor WTAP_HAS_CAP_LEN WTAP_HAS_INTERFACE_ID)
          0 0 (tsprecision iface_info)
          (mkPkt (guint32 (cap_len - pseudo_header_len))
                 (guint32 (packet_len - pseudo_header_len))
                 (wtap_encap iface_info) 0 0 0 0 0 zero_pseudo_header)
          (syscall_header (wb_rec wblock))
          (systemd_journal_record_len (wb_rec wblock))
          None None in
  let (phdr', data') :=
    pcap_read_post_process env (wtap_encap iface_info)
      zero_pseudo_header data (byte_swapped section_info) (fcslen iface_info) in
  (* We return these to the caller in pcapng_read(). *)
  ret (set_internal false
         (set_frame_buffer data'
            (set_rec (rec_set_packet_header
                        (pkt_set_pseudo_header phdr' (packet_header rec)) rec)
                     wblock))).

(** *** Name resolution block *)

Definition NRES_ENDOFRECORD : Z := 0.
Definition NRES_IP4RECORD : Z := 1.
Definition NRES_IP6RECORD : Z := 2.

(** [name_resolution_block_find_name_end]: [p] holds the [record_len]
    bytes left in the record; the length of the name with its NUL. *)
Fixpoint name_resolution_block_find_name_end (p : list byte) : res wtap_err Z :=
  match p with
  | [] =>
      (* We ran out of bytes in the record without finding a NUL. *)
      Err WTAP_ERR_BAD_FILE
  | c :: r =>
      if byte_val c =? 0 then Ok 1
      else match name_resolution_block_find_name_end r with
           | Ok namelen => Ok (namelen + 1)
           | Err e => Err e
           end
  end.

(** "Scan through all the names in the record and add them": the names
    handed to the callback, in order. *)
Fixpoint nrb_names (bound : nat) (namep : list byte) : res wtap_err (list (list byte)) :=
  match bound with
  | O => Err ERR_LOOP_BOUND
  | S n =>
      match namep with
      | [] => Ok []
      | _ =>
          match name_resolution_block_find_name_end namep with
          | Err e => Err e
          | Ok namelen =>
              match nrb_names n (skipn (Z.to_nat namelen) namep) with
              | Err e => Err e
              | Ok names => Ok (until_nul namep :: names)
              end
          end
      end
  end.

(** The calls of [add_new_ipv4] and [add_new_ipv6] a block makes. *)
Record nrb_calls : Type := mkCalls {
  ipv4_calls : list (Z * list byte);
  ipv6_calls : list (list byte * list byte)
}.

(** One turn of the record loop of [pcapng_read_name_resolution_block];
    [inr] is the jump to [read_options]. *)
Definition nrb_record (add_new_ipv4 add_new_ipv6 : bool)
           (section_info : section_info_t) (to_read : Z)
           (st : Z * nrb_calls)
  : reader wtap_err ((Z * nrb_calls) + (Z * nrb_calls)) :=
  let (block_read, calls) := st in
  if negb (block_read <? to_read) then ret (inr st) else
  (* There must be at least one record's worth of data here. *)
  if to_read - block_read <? sizeof_nrb then raise WTAP_ERR_BAD_FILE else
  nrb <- wtap_read_bytes sizeof_nrb ;;
  let block_read := block_read + sizeof_nrb in
  let rtype := maybe_swap16 (byte_swapped section_info) (field 0 2 nrb) in
  let rlen := maybe_swap16 (byte_swapped section_info) (field 2 2 nrb) in
  if to_read - block_read <? rlen + PADDING4 rlen then raise WTAP_ERR_BAD_FILE else
  if rtype =? NRES_ENDOFRECORD then
    (* There shouldn't be any more data - but there MAY be options *)
    ret (inr (block_read, calls))
  else if rtype =? NRES_IP4RECORD then
    if rlen <? 4 then raise WTAP_ERR_BAD_FILE else
    nrb_rec <- wtap_read_bytes rlen ;;
    let block_read := block_read + rlen in
    names <- lift_res
               (if add_new_ipv4
                then nrb_names (S (length nrb_rec)) (skipn 4 nrb_rec)
                else Ok []) ;;
    let v4_addr := field 0 4 nrb_rec in
    _ <- wtap_read_bytes (PADDING4 rlen) ;;
    ret (inl (block_read + PADDING4 rlen,
              mkCalls (ipv4_calls calls ++ map (pair v4_addr) names)
                      (ipv6_calls calls)))
  else if rtype =? NRES_IP6RECORD then
    if rlen <? 16 then raise WTAP_ERR_BAD_FILE else
    if to_read <? rlen then raise WTAP_ERR_BAD_FILE else
    nrb_rec <- wtap_read_bytes rlen ;;
    let block_read := block_read + rlen in
    names <- lift_res
               (if add_new_ipv6
                then nrb_names (S (length nrb_rec)) (skipn 16 nrb_rec)
                else Ok []) ;;
    _ <- wtap_read_bytes (PADDING4 rlen) ;;
    ret (inl (block_read + PADDING4 rlen,
              mkCalls (ipv4_calls calls)
                      (ipv6_calls calls ++ map (pair (firstn 16 nrb_rec)) names)))
  else
    _ <- wtap_read_bytes (rlen + PADDING4 rlen) ;;
    ret (inl (block_read + (rlen + PADDING4 rlen), calls)).

(** One turn of the option loop of the block. *)
Definition nrb_option (section_info : section_info_t) (opt_cont_buf_len : Z)
           (to_read : Z) (block : wtap_block_t)
  : reader wtap_err (Z * wtap_block_t) :=
  r <- pcapng_read_option section_info opt_cont_buf_len to_read ;;
  let '(bytes_read, oh, option_content) := r in
  let to_read := guint32 (to_read - bytes_read) in
  if option_code oh =? OPT_EOFOPT then
    (* padding should be ok here, just get out of this *)
    ret (0, block)
  else if option_code oh =? OPT_COMMENT then
    ret (to_read, pcapng_process_string_option block oh option_content opt_cont_buf_len)
  else
    b <- lift_res (pcap_process_unhandled_option block BT_INDEX_NRB section_info
                     oh option_content) ;;
    ret (to_read, b).

Definition pcapng_read_name_resolution_block (bh : pcapng_block_header_t)
           (add_new_ipv4 add_new_ipv6 : bool)
           (section_info : section_info_t) (wblock : wtapng_block_t)
  : reader wtap_err (wtapng_block_t * nrb_calls) :=
  (* Is this block long enough to be an NRB? *)
  if block_total_length bh <? MIN_NRB_SIZE then raise WTAP_ERR_BAD_FILE else
  (* We have read the header and should not read the final block_total_length *)
  let to_read := c_int (block_total_length bh - 8 - 4) in
  (* Ensure we have a name resolution block *)
  let block :=
    match wb_block wblock with
    | Some b => b
    | None => mkBlock WTAP_BLOCK_NAME_RESOLUTION []
    end in
  st <- (fun fh =>
           while (S (file_left fh)) ERR_LOOP_BOUND
                 (nrb_record add_new_ipv4 add_new_ipv6 section_info to_read)
                 (0, mkCalls [] []) fh) ;;
  let (block_read, calls) := st : Z * nrb_calls in
  (* read_options: *)
  let to_read := to_read - block_read in
  let opt_cont_buf_len := guint32 to_read in
  block <- option_loop ERR_LOOP_BOUND (nrb_option section_info opt_cont_buf_len)
             to_read block ;;
  (* We don't return these to the caller in pcapng_read(). *)
  ret (set_internal true (set_block (Some block) wblock), calls).

(** *** Interface statistics block *)

(** One turn of the option loop of [pcapng_read_interface_statistics_block]. *)
Definition isb_option (section_info : section_info_t) (opt_cont_buf_len : Z)
           (to_read : Z) (block : wtap_block_t)
  : reader wtap_err (Z * wtap_block_t) :=
  r <- pcapng_read_option section_info opt_cont_buf_len to_read ;;
  let '(bytes_read, oh, option_content) := r in
  let to_read := guint32 (to_read - bytes_read) in
  let code := option_code oh in
  if code =? OPT_EOFOPT then
    (* padding should be ok here, just get out of this *)
    ret (0, block)
  else if code =? OPT_COMMENT then
    ret (to_read, pcapng_process_string_option block oh option_content opt_cont_buf_len)
  else if (code =? OPT_ISB_STARTTIME) || (code =? OPT_ISB_ENDTIME) then
    ret (to_read, pcapng_process_timestamp_option block section_info oh option_content
                    opt_cont_buf_len)
  else if (code =? OPT_ISB_IFRECV) || (code =? OPT_ISB_IFDROP)
          || (code =? OPT_ISB_FILTERACCEPT) || (code =? OPT_ISB_OSDROP)
          || (code =? OPT_ISB_USRDELIV) then
    ret (to_read, pcapng_process_uint64_option block section_info oh option_content
                    opt_cont_buf_len)
  else
    b <- lift_res (pcap_process_unhandled_option block BT_INDEX_ISB section_info
                     oh option_content) ;;
    ret (to_read, b).

Definition pcapng_read_interface_statistics_block (bh : pcapng_block_header_t)
           (section_info : section_info_t) (wblock : wtapng_block_t)
  : reader wtap_err wtapng_block_t :=
  (* Is this block long enough to be an ISB? *)
  if block_total_length bh <? MIN_ISB_SIZE then raise WTAP_ERR_BAD_FILE else
  (* "Interface Statistics Block" read fixed part *)
  isb <- wtap_read_bytes sizeof_isb ;;
  let sw := byte_swapped section_info in
  let block :=
    mkBlock (WTAP_BLOCK_IF_STATISTICS
               (mkIfStats (maybe_swap32 sw (field 0 4 isb))
                          (maybe_swap32 sw (field 4 4 isb))
                          (maybe_swap32 sw (field 8 4 isb))))
            [] in
  (* Options *)
  let to_read := guint32 (block_total_length bh - (MIN_BLOCK_SIZE + sizeof_isb)) in
  let opt_cont_buf_len := to_read in
  block <- option_loop ERR_LOOP_BOUND (isb_option section_info opt_cont_buf_len)
             to_read block ;;
  (* We don't return these to the caller in pcapng_read(). *)
  ret (set_internal true (set_block (Some block) wblock)).

(** *** Sysdig event block *)

Definition pcapng_read_sysdig_event_block (bh : pcapng_block_header_t)
           (section_info : section_info_t) (wblock : wtapng_block_t)
  : reader wtap_err wtapng_block_t :=
  let v2 := block_type bh =? BLOCK_TYPE_SYSDIG_EVENT_V2 in
  let min_event_size :=
    if v2 then MIN_SYSDIG_EVENT_V2_SIZE else MIN_SYSDIG_EVENT_SIZE in
  if block_total_length bh <? min_event_size then raise WTAP_ERR_BAD_FILE else
  (* add padding bytes to "block total length" *)
  let block_total_length := padded_block_total_length bh in
  cpu <- wtap_read_bytes 2 ;;
  wire_ts <- wtap_read_bytes 8 ;;
  tid <- wtap_read_bytes 8 ;;
  elen <- wtap_read_bytes 4 ;;
  etype <- wtap_read_bytes 2 ;;
  np <- (if v2 then wtap_read_bytes 4 else ret []) ;;
  let sw := byte_swapped section_info in
  let old := syscall_header (wb_rec wblock) in
  let ts := maybe_swap64 sw (le_uint wire_ts) in
  let block_read := guint32 (block_total_length - min_event_size) in
  let hdr :=
    mkSyscall (block_type bh) sw
              (maybe_swap64 sw (le_uint tid))
              (maybe_swap32 sw (le_uint elen))
              block_read
              (maybe_swap16 sw (le_uint etype))
              (if sw then nparams old else le_uint np)
              (maybe_swap16 sw (le_uint cpu)) in
  (* "Sysdig Event Block" read event data *)
  data <- wtap_read_packet_bytes block_read ;;
  let rec :=
    mkRec REC_TYPE_SYSCALL (Z.lor WTAP_HAS_TS WTAP_HAS_CAP_LEN)
          (time_t (ts / 1000000000)) (c_int (ts mod 1000000000))
          WTAP_TSPREC_NSEC
          (packet_header (wb_rec wblock)) hdr
          (systemd_journal_record_len (wb_rec wblock))
          (opt_comment (wb_rec wblock)) (packet_verdict (wb_rec wblock)) in
  (* We return these to the caller in pcapng_read(). *)
  ret (set_internal false (set_frame_buffer data (set_rec rec wblock))).

(** *** systemd journal export block *)

(** The text "__REALTIME_TIMESTAMP=". *)
Definition SDJ__REALTIME_TIMESTAMP : list byte :=
  map byte_of_Z
      [95; 95; 82; 69; 65; 76; 84; 73; 77; 69; 95; 84; 73; 77; 69; 83; 84; 65; 77; 80; 61].

Fixpoint is_prefix (needle hay : list byte) : bool :=
  match needle, hay with
  | [], _ => true
  | _ :: _, [] => false
  | a :: n, b :: h => (byte_val a =? byte_val b) && is_prefix n h
  end.

(** [strstr(hay, needle)] on the C string [hay]: the offset of the first
    occurrence. *)
Fixpoint strstr_from (off : Z) (hay needle : list byte) : option Z :=
  if is_prefix needle hay then Some off
  else match hay with
       | [] => None
       | _ :: h => strstr_from (off + 1) h needle
       end.

Definition strstr (hay needle : list byte) : option Z :=
  strstr_from 0 (until_nul hay) needle.

(** "while (entry_length > 0 && buf_ptr[entry_length-1] == 0) entry_length--". *)
Fixpoint strip_trailing_nuls (rev_buf : list byte) : list byte :=
  match rev_buf with
  | [] => []
  | c :: r => if byte_val c =? 0 then strip_trailing_nuls r else rev_buf
  end.

Definition pcapng_read_systemd_journal_export_block (wth : wtap_file_info)
           (bh : pcapng_block_header_t) (wblock : wtapng_block_t)
  : reader wtap_err (wtap_file_info * wtapng_block_t) :=
  if block_total_length bh <? MIN_SYSTEMD_JOURNAL_EXPORT_BLOCK_SIZE
  then raise WTAP_ERR_BAD_FILE else
  (* add padding bytes to "block total length" *)
  let block_total_length := padded_block_total_length bh in
  let entry_length := guint32 (block_total_length - MIN_BLOCK_SIZE) in
  (* Includes padding bytes. *)
  buf <- wtap_read_packet_bytes entry_length ;;
  let entry := rev (strip_trailing_nuls (rev buf)) in
  let entry_length := Z.of_nat (length entry) in
  if entry_length <? MIN_SYSTEMD_JOURNAL_EXPORT_ENTRY_SIZE
  then raise WTAP_ERR_BAD_FILE else
  let rt_ts_len := Z.of_nat (length SDJ__REALTIME_TIMESTAMP) in
  let rt_ts :=
    match strstr entry SDJ__REALTIME_TIMESTAMP with
    | None => None
    | Some ts_pos =>
        if ts_pos + rt_ts_len >=? entry_length then None
        else ws_strtou64 env (until_nul (skipn (Z.to_nat (ts_pos + rt_ts_len)) entry))
    end in
  let old := wb_rec wblock in
  let rec :=
    match rt_ts with
    | Some t =>
        mkRec REC_TYPE_SYSTEMD_JOURNAL (Z.lor WTAP_HAS_CAP_LEN WTAP_HAS_TS)
              (time_t (t / 1000000)) (c_int ((t mod 1000000) * 1000))
              WTAP_TSPREC_USEC
              (packet_header old) (syscall_header old) entry_length
              (opt_comment old) (packet_verdict old)
    | None =>
        mkRec REC_TYPE_SYSTEMD_JOURNAL WTAP_HAS_CAP_LEN
              (ts_secs old) (ts_nsecs old) (tsprec old)
              (packet_header old) (syscall_header old) entry_length
              (opt_comment old) (packet_verdict old)
    end in
  let encap :=
    if file_encap wth =? WTAP_ENCAP_UNKNOWN then WTAP_ENCAP_PER_PACKET
    else file_encap wth in
  (* We return these to the caller in pcapng_read(). *)
  ret (mkFileInfo encap (file_tsprec wth),
       set_internal false (set_frame_buffer buf (set_rec rec wblock))).

(** *** Unknown block *)

Definition pcapng_read_unknown_block (bh : pcapng_block_header_t)
           (section_info : section_info_t) (wblock : wtapng_block_t)
  : reader wtap_err wtapng_block_t :=
  if block_total_length bh <? MIN_BLOCK_SIZE then raise WTAP_ERR_BAD_FILE else
  (* add padding bytes to "block total length" *)
  let block_total_length := padded_block_total_length bh in
  let block_read := guint32 (block_total_length - MIN_BLOCK_SIZE) in
  (* Do we have a handler for this block type? *)
  match block_handlers env (block_type bh) with
  | Some handler_reader =>
      (* Yes - call it to read this block type. *)
      handler_reader block_read (byte_swapped section_info) wblock
  | None =>
      (* No.  Skip over this unknown block. *)
      _ <- wtap_read_bytes block_read ;;
      ret (set_internal true wblock)
  end.

(** *** Block trailer and block dispatch *)

Definition pcapng_read_and_check_block_trailer (bh : pcapng_block_header_t)
           (section_info : section_info_t) : reader wtap_err unit :=
  (* sanity check: first and second block lengths must match *)
  raw <- wtap_read_bytes 4 ;;
  let trailer_length := maybe_swap32 (byte_swapped section_info) (le_uint raw) in
  if negb (trailer_length =? block_total_length bh)
  then raise WTAP_ERR_BAD_FILE
  else ret tt.

(** What [pcapng_read_block] leaves behind: the fields of [wth] it may
    update, the section filled in when the block is an SHB, the block,
    and the calls of the name-resolution callbacks. *)
Record read_block_result : Type := mkResult {
  res_wth : wtap_file_info;
  res_new_section : section_info_t;
  res_wblock : wtapng_block_t;
  res_calls : nrb_calls
}.

(** The block types that have a [case] of their own in the
    [switch (bh.block_type)] of [pcapng_read_block]; the others go to
    [pcapng_read_unknown_block]. *)
Definition known_block_type (t : Z) : bool :=
  (t =? BLOCK_TYPE_IDB) || (t =? BLOCK_TYPE_PB) || (t =? BLOCK_TYPE_SPB)
  || (t =? BLOCK_TYPE_EPB) || (t =? BLOCK_TYPE_NRB) || (t =? BLOCK_TYPE_ISB)
  || (t =? BLOCK_TYPE_DSB) || (t =? BLOCK_TYPE_SYSDIG_EVENT)
  || (t =? BLOCK_TYPE_SYSDIG_EVENT_V2) || (t =? BLOCK_TYPE_SYSTEMD_JOURNAL).

(** The [switch (bh.block_type)] of [pcapng_read_block]. *)
Definition read_block_dispatch (wth : wtap_file_info)
           (add_new_ipv4 add_new_ipv6 : bool)
           (bh : pcapng_block_header_t) (section_info : section_info_t)
           (wblock : wtapng_block_t)
  : reader wtap_err (wtap_file_info * wtapng_block_t * nrb_calls) :=
  let t := block_type bh in
  let plain (m : reader wtap_err wtapng_block_t) :=
    w <- m ;; ret (wth, w, mkCalls [] []) in
  if t =? BLOCK_TYPE_IDB then
    r <- pcapng_read_if_descr_block wth bh section_info wblock ;;
    ret (r, mkCalls [] [])
  else if t =? BLOCK_TYPE_PB then
    plain (pcapng_read_packet_block bh section_info wblock false)
  else if t =? BLOCK_TYPE_SPB then
    plain (pcapng_read_simple_packet_block bh section_info wblock)
  else if t =? BLOCK_TYPE_EPB then
    plain (pcapng_read_packet_block bh section_info wblock true)
  else if t =? BLOCK_TYPE_NRB then
    r <- pcapng_read_name_resolution_block bh add_new_ipv4 add_new_ipv6
           section_info wblock ;;
    ret (wth, fst r, snd r)
  else if t =? BLOCK_TYPE_ISB then
    plain (pcapng_read_interface_statistics_block bh section_info wblock)
  else if t =? BLOCK_TYPE_DSB then
    plain (pcapng_read_decryption_secrets_block bh section_info wblock)
  else if (t =? BLOCK_TYPE_SYSDIG_EVENT) || (t =? BLOCK_TYPE_SYSDIG_EVENT_V2) then
    plain (pcapng_read_sysdig_event_block bh section_info wblock)
  else if t =? BLOCK_TYPE_SYSTEMD_JOURNAL then
    r <- pcapng_read_systemd_journal_export_block wth bh wblock ;;
    ret (r, mkCalls [] [])
  else
    plain (pcapng_read_unknown_block bh section_info wblock).

Definition pcapng_read_block (wth : wtap_file_info)
           (add_new_ipv4 add_new_ipv6 : bool)
           (section_info new_section_info : section_info_t)
           (wblock : wtapng_block_t)
  : reader wtap_err read_block_result :=
  let wblock := set_block None wblock in
  (* Try to read the (next) block header *)
  raw <- wtap_read_bytes_or_eof sizeof_block_header ;;
  let bh := mkBh (field 0 4 raw) (field 4 4 raw) in
  body <-
    (if block_type bh =? BLOCK_TYPE_SHB then
       (* BLOCK_TYPE_SHB has the same value regardless of byte order, so
          we don't need to byte-swap it; the section header reader swaps
          the total length once it has seen the byte-order magic. *)
       let wblock := set_type (block_type bh) wblock in
       r <- map_err snd
              (pcapng_read_section_header_block bh new_section_info wblock) ;;
       let '(bh, new_section_info, wblock) := r in
       (* This is the current section; use its byte order *)
       ret (bh, new_section_info,
            mkResult wth new_section_info wblock (mkCalls [] []))
     else
       (* Not an SHB. *)
       let bh :=
         if byte_swapped section_info
         then mkBh (GUINT32_SWAP_LE_BE (block_type bh))
                   (GUINT32_SWAP_LE_BE (block_total_length bh))
         else bh in
       let wblock := set_type (block_type bh) wblock in
       if block_total_length bh >? MAX_BLOCK_SIZE then raise WTAP_ERR_BAD_FILE else
       r <- read_block_dispatch wth add_new_ipv4 add_new_ipv6 bh section_info wblock ;;
       let '(wth', wblock, calls) := r in
       ret (bh, section_info, mkResult wth' new_section_info wblock calls)) ;;
  let '(bh, section_info, result) := body in
  (* Read and check the block trailer. *)
  _ <- pcapng_read_and_check_block_trailer bh section_info ;;
  ret result.

(** *** The reader's state *)

(** [pcapng_t]; the two callbacks are kept as "is one registered". *)
Record pcapng_t : Type := mkPcapng {
  current_section_number : nat;
  sections : list section_info_t;
  pn_add_new_ipv4 : bool;
  pn_add_new_ipv6 : bool
}.

(** The fields of [wtap] used here.  [name_calls] collects the calls made
    to the name-resolution callbacks. *)
Record wtap : Type := mkWtap {
  wth_info : wtap_file_info;
  snapshot_length : Z;
  shb_hdrs : list wtap_block_t;
  interface_data : list wtap_block_t;
  nrb_hdrs : option (list wtap_block_t);
  dsbs : list wtap_block_t;
  add_new_ipv4 : bool;
  add_new_ipv6 : bool;
  priv : pcapng_t;
  name_calls : nrb_calls
}.

Fixpoint update_nth {A} (n : nat) (f : A -> A) (l : list A) : list A :=
  match l, n with
  | [], _ => []
  | x :: r, O => f x :: r
  | x :: r, S m => x :: update_nth m f r
  end.

Definition default_section : section_info_t := mkSection false 0 0 [] 0.

Fixpoint get_uint8_option (code : Z) (opts : wtap_options) : option Z :=
  match opts with
  | [] => None
  | (c, OptUint8 v) :: r => if c =? code then Some v else get_uint8_option code r
  | _ :: r => get_uint8_option code r
  end.

Definition add_calls (a b : nrb_calls) : nrb_calls :=
  mkCalls (ipv4_calls a ++ ipv4_calls b) (ipv6_calls a ++ ipv6_calls b).

(** [pcapng_process_idb]: the interface is added to [wth->interface_data]
    ([wtap_add_idb]) and to the interfaces of section [section_number]. *)
Definition pcapng_process_idb (wth : wtap) (section_number : nat)
           (wblock : wtapng_block_t) : wtap :=
  match wb_block wblock with
  | None => wth
  | Some blk =>
      (* Interface statistics *)
      let int_data :=
        with_if_descr_mand
          (fun m => mkIfDescr (idb_wtap_encap m) (idb_time_units_per_second m)
                              (idb_tsprecision m) (idb_snap_len m) 0 [])
          blk in
      let m := match get_if_descr_mand blk with
               | Some m => m
               | None => mkIfDescr 0 0 0 0 0 []
               end in
      let iface_info :=
        mkIface (idb_wtap_encap m) (idb_snap_len m) (idb_time_units_per_second m)
                (idb_tsprecision m)
                (match get_uint8_option OPT_IDB_FCSLEN (block_options blk) with
                 | Some if_fcslen => if_fcslen
                 | None => -1
                 end) in
      let pn := priv wth in
      mkWtap (wth_info wth) (snapshot_length wth) (shb_hdrs wth)
             (interface_data wth ++ [int_data])
             (nrb_hdrs wth) (dsbs wth) (add_new_ipv4 wth) (add_new_ipv6 wth)
             (mkPcapng (current_section_number pn)
                       (update_nth section_number
                          (fun s => mkSection (byte_swapped s) (version_major s)
                                              (version_minor s)
                                              (interfaces s ++ [iface_info])
                                              (shb_off s))
                          (sections pn))
                       (pn_add_new_ipv4 pn) (pn_add_new_ipv6 pn))
             (name_calls wth)
  end.

Definition set_wth_after_block (r : read_block_result) (wth : wtap) : wtap :=
  mkWtap (res_wth r) (snapshot_length wth) (shb_hdrs wth) (interface_data wth)
         (nrb_hdrs wth) (dsbs wth) (add_new_ipv4 wth) (add_new_ipv6 wth)
         (priv wth) (add_calls (name_calls wth) (res_calls r)).

Definition set_interface_data (d : list wtap_block_t) (wth : wtap) : wtap :=
  mkWtap (wth_info wth) (snapshot_length wth) (shb_hdrs wth) d
         (nrb_hdrs wth) (dsbs wth) (add_new_ipv4 wth) (add_new_ipv6 wth)
         (priv wth) (name_calls wth).

(** The [case(BLOCK_TYPE_ISB)] of [pcapng_read]: the statistics go to the
    interface the block names, when there is one. *)
Definition pcapng_read_isb (wth : wtap) (blk : wtap_block_t) : wtap :=
  match block_mand blk with
  | WTAP_BLOCK_IF_STATISTICS if_stats_mand_block =>
      if Z.of_nat (length (interface_data wth)) <=? isb_interface_id if_stats_mand_block
      then wth
      else
        (* Get the interface description *)
        set_interface_data
          (update_nth (Z.to_nat (isb_interface_id if_stats_mand_block))
             (with_if_descr_mand
                (fun m =>
                   let stats :=
                     if num_stat_entries m =? 0
                     then (* First ISB found, no previous entry *) []
                     else interface_statistics m in
                   let if_stats :=
                     mkIfStatsBlock if_stats_mand_block (block_options blk) in
                   (* num_stat_entries++, on a counter of eight bits *)
                   mkIfDescr (idb_wtap_encap m) (idb_time_units_per_second m)
                             (idb_tsprecision m) (idb_snap_len m)
                             (guint8 (num_stat_entries m + 1))
                             (stats ++ [if_stats])))
             (interface_data wth))
          wth
  | _ => wth
  end.

(** The [switch (wblock.type)] of [pcapng_read], for a block processed
    internally; [data_offset] is where the block began. *)
Definition pcapng_read_internal (wth : wtap) (data_offset : Z)
           (r : read_block_result) : wtap :=
  let wblock := res_wblock r in
  let t := wb_type wblock in
  let pn := priv wth in
  match wb_block wblock with
  | None => wth
  | Some blk =>
      if t =? BLOCK_TYPE_SHB then
        (* Update the current section number, and add the updated
           section_info_t to the array of section_info_t's for this file. *)
        let new_section :=
          mkSection (byte_swapped (res_new_section r))
                    (version_major (res_new_section r))
                    (version_minor (res_new_section r)) [] data_offset in
        mkWtap (wth_info wth) (snapshot_length wth) (shb_hdrs wth ++ [blk])
               (interface_data wth) (nrb_hdrs wth) (dsbs wth)
               (add_new_ipv4 wth) (add_new_ipv6 wth)
               (mkPcapng (S (current_section_number pn))
                         (sections pn ++ [new_section])
                         (pn_add_new_ipv4 pn) (pn_add_new_ipv6 pn))
               (name_calls wth)
      else if t =? BLOCK_TYPE_IDB then
        (* A new interface *)
        pcapng_process_idb wth (current_section_number pn) wblock
      else if t =? BLOCK_TYPE_DSB then
        (* Decryption secrets. *)
        mkWtap (wth_info wth) (snapshot_length wth) (shb_hdrs wth)
               (interface_data wth) (nrb_hdrs wth) (dsbs wth ++ [blk])
               (add_new_ipv4 wth) (add_new_ipv6 wth) (priv wth) (name_calls wth)
      else if t =? BLOCK_TYPE_NRB then
        (* More name resolution entries *)
        mkWtap (wth_info wth) (snapshot_length wth) (shb_hdrs wth)
               (interface_data wth)
               (Some (match nrb_hdrs wth with Some l => l | None => [] end ++ [blk]))
               (dsbs wth) (add_new_ipv4 wth) (add_new_ipv6 wth) (priv wth)
               (name_calls wth)
      else if t =? BLOCK_TYPE_ISB then
        (* Another interface statistics report *)
        pcapng_read_isb wth blk
      else
        wth
  end.

Definition tell : reader wtap_err Z := fun fh => Ok (file_tell fh, fh).

(** One turn of the [while (1)] of [pcapng_read]: [inr] is the [break]
    with a block for the caller. *)
Definition pcapng_read_step (st : wtap * wtapng_block_t)
  : reader wtap_err ((wtap * wtapng_block_t) + (wtap * wtapng_block_t * Z)) :=
  let (wth, wblock) := st in
  data_offset <- tell ;;
  (* Get the section_info_t for the current section. *)
  let current_section :=
    nth (current_section_number (priv wth)) (sections (priv wth)) default_section in
  (* Read the next block. *)
  r <- pcapng_read_block (wth_info wth) (pn_add_new_ipv4 (priv wth))
         (pn_add_new_ipv6 (priv wth)) current_section default_section wblock ;;
  let wth := set_wth_after_block r wth in
  if negb (wb_internal (res_wblock r)) then
    (* This is a block type we return to the caller to process. *)
    ret (inr (wth, res_wblock r, data_offset))
  else
    (* This is a block type we process internally. *)
    ret (inl (pcapng_read_internal wth data_offset r, res_wblock r)).

(** [pcapng_read]: the next record for the caller, in [rec] and [buf],
    with the offset of its block. *)
Definition pcapng_read (wth : wtap) (rec : wtap_rec) (buf : list byte)
  : reader wtap_err (wtap * wtapng_block_t * Z) :=
  let wblock := mkWblock 0 false None rec buf in
  let pn := priv wth in
  let wth :=
    mkWtap (wth_info wth) (snapshot_length wth) (shb_hdrs wth) (interface_data wth)
           (nrb_hdrs wth) (dsbs wth) (add_new_ipv4 wth) (add_new_ipv6 wth)
           (mkPcapng (current_section_number pn) (sections pn)
                     (add_new_ipv4 wth) (add_new_ipv6 wth))
           (name_calls wth) in
  fun fh => while (S (file_left fh)) ERR_LOOP_BOUND pcapng_read_step (wth, wblock) fh.

(** *** Opening a file *)

Inductive wtap_open_return_val : Type :=
| WTAP_OPEN_NOT_MINE
| WTAP_OPEN_MINE
| WTAP_OPEN_ERROR.

Definition empty_rec : wtap_rec :=
  mkRec REC_TYPE_PACKET 0 0 0 0 (mkPkt 0 0 0 0 0 0 0 0 [])
        (mkSyscall 0 false 0 0 0 0 0 0) 0 None None.

(** "Loop over all IDBs that appear before any packets".  The file is
    part of the answer when the file was opened; where a failed read
    leaves it is not recorded. *)
Fixpoint pcapng_open_idbs (bound : nat) (wth : wtap) (wblock : wtapng_block_t)
         (fh : FILE_T) : wtap_open_return_val * wtap_err * wtap * option FILE_T :=
  match bound with
  | O => (WTAP_OPEN_ERROR, ERR_LOOP_BOUND, wth, None)
  | S n =>
      (* peek at next block *)
      match wtap_read_bytes_or_eof sizeof_block_header fh with
      | Err ERR_NONE => (* EOF *) (WTAP_OPEN_MINE, ERR_NONE, wth, Some fh)
      | Err e => (WTAP_OPEN_ERROR, e, wth, None)
      | Ok (raw, _) =>
          (* go back to where we were *)
          let current_section :=
            nth (current_section_number (priv wth)) (sections (priv wth))
                default_section in
          let t := maybe_swap32 (byte_swapped current_section) (field 0 4 raw) in
          if negb (t =? BLOCK_TYPE_IDB) then
            (* No more IDBs *)
            (WTAP_OPEN_MINE, ERR_NONE, wth, Some fh)
          else
            match pcapng_read_block (wth_info wth) (pn_add_new_ipv4 (priv wth))
                    (pn_add_new_ipv6 (priv wth)) current_section default_section
                    wblock fh with
            | Err ERR_NONE => (WTAP_OPEN_MINE, ERR_NONE, wth, None)
            | Err e => (WTAP_OPEN_ERROR, e, wth, None)
            | Ok (r, fh') =>
                pcapng_open_idbs n
                  (pcapng_process_idb (set_wth_after_block r wth)
                     (current_section_number (priv wth)) (res_wblock r))
                  (res_wblock r) fh'
            end
      end
  end.

(** [pcapng_open]: the verdict, [*err], the state, and the file as it is
    left when the file was opened.  After a refusal or an error the reads
    that failed have moved the file by what they could read, and nothing
    seeks back: that position is not part of the answer. *)
Definition pcapng_open (wth : wtap) (fh : FILE_T)
  : wtap_open_return_val * wtap_err * wtap * option FILE_T :=
  (* Read first block.  First, try to read the block header. *)
  match wtap_read_bytes_or_eof sizeof_block_header fh with
  | Err e =>
      if wtap_err_eqb e ERR_NONE || wtap_err_eqb e WTAP_ERR_SHORT_READ
      then (* the file is too short to be a pcapng file *)
        (WTAP_OPEN_NOT_MINE, ERR_NONE, wth, None)
      else (WTAP_OPEN_ERROR, e, wth, None)
  | Ok (raw, fh1) =>
      let bh := mkBh (field 0 4 raw) (field 4 4 raw) in
      (* If this is a pcapng file, the first block must be a Section
         Header Block. *)
      if negb (block_type bh =? BLOCK_TYPE_SHB)
      then (WTAP_OPEN_NOT_MINE, ERR_NONE, wth, None) else
      (* we don't expect any packet blocks yet *)
      let wblock := mkWblock (block_type bh) false None empty_rec [] in
      match pcapng_read_section_header_block bh default_section wblock fh1 with
      | Err (PCAPNG_BLOCK_NOT_SHB, _) =>
          (* This doesn't look like an SHB, so this isn't a pcapng file. *)
          (WTAP_OPEN_NOT_MINE, ERR_NONE, wth, None)
      | Err (_, e) =>
          if wtap_err_eqb e WTAP_ERR_SHORT_READ
          then (WTAP_OPEN_NOT_MINE, ERR_NONE, wth, None)
          else (* An I/O error. *) (WTAP_OPEN_ERROR, e, wth, None)
      | Ok ((bh, first_section, wblock), fh2) =>
          (* Read and check the block trailer. *)
          match pcapng_read_and_check_block_trailer bh first_section fh2 with
          | Err e => (WTAP_OPEN_ERROR, e, wth, None)
          | Ok (_, fh3) =>
              (* At this point, we've decided this is a pcapng file *)
              let first_section :=
                mkSection (byte_swapped first_section) (version_major first_section)
                          (version_minor first_section) [] 0 in
              let wth :=
                mkWtap (mkFileInfo WTAP_ENCAP_UNKNOWN WTAP_TSPREC_UNKNOWN) 0
                       (match wb_block wblock with
                        | Some b => b :: tl (shb_hdrs wth)
                        | None => shb_hdrs wth
                        end)
                       (interface_data wth) (nrb_hdrs wth) []
                       (add_new_ipv4 wth) (add_new_ipv6 wth)
                       (mkPcapng 0 [first_section] false false)
                       (name_calls wth) in
              pcapng_open_idbs (S (file_left fh3)) wth (set_block None wblock) fh3
          end
      end
  end.

End Reader.

(** ** Writing: string options and the section header block *)


(** The output of a [wtap_dumper]: the bytes written so far, the count
    kept in [bytes_dumped], and the section header blocks to write. *)
Record wtap_dumper : Type := mkDumper {
  dump_out : list byte;
  bytes_dumped : Z;
  wdh_shb_hdrs : list wtap_block_t
}.

(** Modelled from the spec: [wtap_dump_file_write] of wiretap/file_access.c,
    which is not among the sources; the output is in memory and a write
    cannot fail. *)
Definition wtap_dump_file_write (wdh : wtap_dumper) (buf : list byte)
  : res wtap_err wtap_dumper :=
  Ok (mkDumper (dump_out wdh ++ buf) (bytes_dumped wdh) (wdh_shb_hdrs wdh)).

Definition add_bytes_dumped (n : Z) (wdh : wtap_dumper) : wtap_dumper :=
  mkDumper (dump_out wdh) (bytes_dumped wdh + n) (wdh_shb_hdrs wdh).

(** [strlen] of a C string, given as its bytes before the NUL. *)
Definition strlen (str : list byte) : Z := Z.of_nat (length str).

Definition pcapng_compute_option_string_size (str : list byte) : Z :=
  let size := Z.land (guint32 (strlen str)) 0xffff in
  let pad := if negb (size mod 4 =? 0) then 4 - size mod 4 else 0 in
  guint32 (size + pad).

(** [compute_shb_option_size], on the running [block_size->size]. *)
Definition compute_shb_option_size (option_id : Z) (optval : wtap_optval_t)
           (block_size : Z) : Z :=
  let size :=
    if (option_id =? OPT_COMMENT) || (option_id =? OPT_SHB_HARDWARE)
       || (option_id =? OPT_SHB_OS) || (option_id =? OPT_SHB_USERAPPL)
    then match optval with
         | OptString s => pcapng_compute_option_string_size s
         | _ => 0
         end
    else (* Unknown options - size by datatype? *) 0 in
  let block_size := guint32 (block_size + size) in
  (* Add bytes for option header if option should be written *)
  if size >? 0 then
    (* Add optional padding to 32 bits *)
    let block_size :=
      if negb (Z.land block_size 0x03 =? 0)
      then guint32 (block_size + (4 - Z.land block_size 0x03))
      else block_size in
    guint32 (block_size + 4)
  else block_size.

Definition pcapng_write_option_string (wdh : wtap_dumper) (option_id : Z)
           (str : list byte) : res wtap_err wtap_dumper :=
  let size := strlen str in
  if size =? 0 then Ok wdh else
  if size >? 65535 then
    (* Too big to fit in the option.  Don't write anything. *)
    Ok wdh
  else
    (* String options don't consider pad bytes part of the length *)
    let option_hdr := le_bytes 2 (guint16 option_id) ++ le_bytes 2 (guint16 size) in
    match wtap_dump_file_write wdh option_hdr with
    | Err e => Err e
    | Ok wdh =>
        let wdh := add_bytes_dumped 4 wdh in
        match wtap_dump_file_write wdh str with
        | Err e => Err e
        | Ok wdh =>
            let wdh := add_bytes_dumped size wdh in
            let pad := if negb (size mod 4 =? 0) then 4 - size mod 4 else 0 in
            (* write padding (if any) *)
            if negb (pad =? 0) then
              match wtap_dump_file_write wdh (repeat x00 (Z.to_nat pad)) with
              | Err e => Err e
              | Ok wdh => Ok (add_bytes_dumped pad wdh)
              end
            else Ok wdh
        end
    end.

(** [write_wtap_shb_option], on the state of [pcapng_write_block_t]:
    [Err] is [success == FALSE]. *)
Definition write_wtap_shb_option (option_id : Z) (optval : wtap_optval_t)
           (write_block : res wtap_err wtap_dumper) : res wtap_err wtap_dumper :=
  match write_block with
  | Err e => (* Don't continue if there has been an error *) Err e
  | Ok wdh =>
      if (option_id =? OPT_COMMENT) || (option_id =? OPT_SHB_HARDWARE)
         || (option_id =? OPT_SHB_OS) || (option_id =? OPT_SHB_USERAPPL)
      then match optval with
           | OptString s => pcapng_write_option_string wdh option_id s
           | _ => Ok wdh
           end
      else (* Unknown options - write by datatype? *) Ok wdh
  end.

(** [wtap_block_foreach_option]: the options in the order stored. *)
Definition wtap_block_foreach_option {S} (block : wtap_block_t)
           (f : Z -> wtap_optval_t -> S -> S) (user_data : S) : S :=
  fold_left (fun acc p => f (fst p) (snd p) acc) (block_options block) user_data.

(** The total length [pcapng_write_section_header_block] puts in the block
    header and the trailer. *)
Definition shb_block_total_length (wdh_shb : option wtap_block_t) : Z :=
  let bh_len := guint32 (sizeof_block_header + sizeof_shb + 4) in
  match wdh_shb with
  | Some shb =>
      (* Compute block size *)
      let block_size := wtap_block_foreach_option shb compute_shb_option_size 0 in
      let block_size :=
        if block_size >? 0 then (* End-of-options tag *) guint32 (block_size + 4)
        else block_size in
      guint32 (bh_len + block_size)
  | None => bh_len
  end.

Definition write_counted (buf : list byte) (wdh : wtap_dumper)
  : res wtap_err wtap_dumper :=
  match wtap_dump_file_write wdh buf with
  | Err e => Err e
  | Ok wdh => Ok (add_bytes_dumped (Z.of_nat (length buf)) wdh)
  end.

Definition pcapng_write_section_header_block (wdh : wtap_dumper)
  : res wtap_err wtap_dumper :=
  let wdh_shb := match wdh_shb_hdrs wdh with b :: _ => Some b | [] => None end in
  let block_size :=
    match wdh_shb with
    | Some shb => wtap_block_foreach_option shb compute_shb_option_size 0
    | None => 0
    end in
  let total := shb_block_total_length wdh_shb in
  (* write block header *)
  match write_counted (le_bytes 4 BLOCK_TYPE_SHB ++ le_bytes 4 total) wdh with
  | Err e => Err e
  | Ok wdh =>
      (* write block fixed content *)
      let section_len :=
        match wdh_shb with
        | Some (mkBlock (WTAP_BLOCK_SECTION l) _) => l
        | _ => guint64 (-1)
        end in
      match write_counted (le_bytes 4 0x1A2B3C4D ++ le_bytes 2 1 ++ le_bytes 2 0
                             ++ le_bytes 8 section_len) wdh with
      | Err e => Err e
      | Ok wdh =>
          let options :=
            match wdh_shb with
            | Some shb =>
                if block_size >? 0 then
                  (* Write options *)
                  match wtap_block_foreach_option shb write_wtap_shb_option (Ok wdh) with
                  | Err e => Err e
                  | Ok wdh =>
                      (* Write end of options *)
                      write_counted (le_bytes 2 OPT_EOFOPT ++ le_bytes 2 0) wdh
                  end
                else Ok wdh
            | None => Ok wdh
            end in
          match options with
          | Err e => Err e
          | Ok wdh =>
              (* write block footer *)
              write_counted (le_bytes 4 total) wdh
          end
      end
  end.


(** ** Sample collaborators and files

    An environment without pseudo-headers or plugins, with the standard
    maximum snapshot length, and a few capture files used to run the
    reader. *)

Definition WTAP_MAX_PACKET_SIZE_STANDARD : Z := 262144.

Definition plain_env : wiretap_env :=
  mkEnv (fun link_type => link_type)
        (fun _ => WTAP_MAX_PACKET_SIZE_STANDARD)
        (fun _ _ => ret ([], 0))
        (fun _ phdr data _ _ => (phdr, data))
        (fun _ => None)
        (fun _ => None)
        (fun _ _ => None).

Definition u16le (v : Z) : list byte := le_bytes 2 v.
Definition u32le (v : Z) : list byte := le_bytes 4 v.
Definition u32be (v : Z) : list byte := rev (le_bytes 4 v).
Definition bytes (l : list Z) : list byte := map byte_of_Z l.

Definition open_file (data : list byte) : FILE_T := mkFile data 0.

(** A section header block, little-endian, version [major].[minor]. *)
Definition shb_le (major minor : Z) : list byte :=
  u32le BLOCK_TYPE_SHB ++ u32le 28 ++ u32le 0x1A2B3C4D ++ u16le major ++ u16le minor
  ++ repeat xff 8 ++ u32le 28.

(** The same block written by a big-endian host. *)
Definition shb_be (major minor : Z) : list byte :=
  u32be BLOCK_TYPE_SHB ++ u32be 28 ++ u32be 0x1A2B3C4D
  ++ rev (u16le major) ++ rev (u16le minor) ++ repeat xff 8 ++ u32be 28.

(** An interface description block: Ethernet, snapshot length [snap],
    and the option bytes [opts]. *)
Definition idb_le (snap : Z) (opts : list byte) : list byte :=
  let total := 20 + Z.of_nat (length opts) in
  u32le BLOCK_TYPE_IDB ++ u32le total ++ u16le 1 ++ u16le 0 ++ u32le snap ++ opts
  ++ u32le total.

(** An [if_tsresol] option followed by the end of options. *)
Definition tsresol_opt (v : Z) : list byte :=
  u16le OPT_IDB_TSRESOL ++ u16le 1 ++ bytes [v; 0; 0; 0] ++ u16le OPT_EOFOPT ++ u16le 0.

(** An enhanced packet block with four bytes of packet data. *)
Definition epb_le (iface ts_high ts_low : Z) : list byte :=
  u32le BLOCK_TYPE_EPB ++ u32le 36 ++ u32le iface ++ u32le ts_high ++ u32le ts_low
  ++ u32le 4 ++ u32le 4 ++ bytes [0xDE; 0xAD; 0xBE; 0xEF] ++ u32le 36.

(** A simple packet block: [packet_len] on the wire, [data] in the file. *)
Definition spb_le (packet_len : Z) (data : list byte) : list byte :=
  let total := 16 + Z.of_nat (length data) in
  u32le BLOCK_TYPE_SPB ++ u32le total ++ u32le packet_len ++ data ++ u32le total.

(** An interface statistics block without options. *)
Definition isb_le (iface : Z) : list byte :=
  u32le BLOCK_TYPE_ISB ++ u32le 24 ++ u32le iface ++ u32le 0 ++ u32le 0 ++ u32le 24.

(** A block of a type the reader does not know, whose total length 13 is
    not a multiple of four: one byte of body, three of padding. *)
Definition odd_unknown_block : list byte :=
  u32le 0x00000BAD ++ u32le 13 ++ bytes [0x55; 0; 0; 0] ++ u32le 13.

(** The state [wtap_open_offline] hands to [pcapng_open]. *)
Definition fresh_wtap : wtap :=
  mkWtap (mkFileInfo WTAP_ENCAP_UNKNOWN WTAP_TSPREC_UNKNOWN) 0
         [mkBlock (WTAP_BLOCK_SECTION (guint64 (-1))) []] [] None [] false false
         (mkPcapng 0 [] false false) (mkCalls [] []).

Definition empty_wblock : wtapng_block_t := mkWblock 0 false None empty_rec [].

(** The state after [pcapng_open] on a file, when it is a pcapng file. *)
Definition opened (data : list byte) : wtap * FILE_T :=
  match pcapng_open plain_env fresh_wtap (open_file data) with
  | (_, _, wth, Some fh) => (wth, fh)
  | (_, _, wth, None) => (wth, open_file data)
  end.

(** A little-endian section with one Ethernet interface of [units] ticks
    a second. *)
Definition one_iface (units : Z) : section_info_t :=
  mkSection false 1 0 [mkIface 1 65535 units WTAP_TSPREC_USEC (-1)] 0.

(** A file read up to the body of its first block. *)
Definition at_body (block : list byte) : FILE_T := mkFile block 8.

(** A capture with one interface whose [if_tsresol] is [v] and one
    enhanced packet block. *)
Definition capture_with_tsresol (v ts_high ts_low : Z) : list byte :=
  shb_le 1 0 ++ idb_le 0 (tsresol_opt v) ++ epb_le 0 ts_high ts_low.

(** The part of a record that the options of a packet block leave alone. *)
Definition rec_core (r : wtap_rec) : Z * Z * Z * Z * Z * Z :=
  (interface_id (packet_header r), ts_secs r, ts_nsecs r,
   caplen (packet_header r), len (packet_header r), pkt_encap (packet_header r)).

(** A reader advances when a successful run leaves fewer bytes in the file. *)
Definition advances {E A} (m : reader E A) : Prop :=
  forall fh a fh', m fh = Ok (a, fh') -> (file_left fh' < file_left fh)%nat.

(** A block that starts like a section header block but has no known
    byte-order magic. *)
Definition bad_magic_shb : list byte :=
  u32le BLOCK_TYPE_SHB ++ u32le 28 ++ u32le 0xDEADBEEF ++ repeat x00 12 ++ u32le 28.

(** A comment of 65537 bytes, one more than 2^16. *)
Definition long_comment : list byte := repeat "a"%byte (Z.to_nat 65537).

(** A dumper that has written nothing, with the section header blocks [shbs]. *)
Definition fresh_dumper (shbs : list wtap_block_t) : wtap_dumper :=
  mkDumper [] 0 shbs.

(** A section header block whose only option is the comment [c]. *)
Definition shb_with_comment (c : list byte) : wtap_block_t :=
  mkBlock (WTAP_BLOCK_SECTION (guint64 (-1))) [(OPT_COMMENT, OptString c)].

(** A capture with one interface, an interface statistics block for
    interface 3, which the file does not have, and a simple packet. *)
Definition capture_with_stray_isb : list byte :=
  shb_le 1 0 ++ idb_le 0 [] ++ isb_le 3 ++ spb_le 4 (bytes [1; 2; 3; 4]).

(** The same capture read up to the statistics block. *)
Definition before_stray_isb : wtap * FILE_T := opened capture_with_stray_isb.

(** A reader keeps its place when a successful run leaves no more bytes
    in the file than there were: it never moves backwards. *)
Definition keeps_place {E A} (m : reader E A) : Prop :=
  forall fh a fh', m fh = Ok (a, fh') -> (file_left fh' <= file_left fh)%nat.

(** The errors of a reader all satisfy [P]. *)
Definition errs_in {E A} (P : E -> Prop) (m : reader E A) : Prop :=
  forall fh e, m fh = Err e -> P e.

(** An error of the source, not the mark of an exhausted loop bound. *)
Definition real_error (e : wtap_err) : Prop := e <> ERR_LOOP_BOUND.

(** Collaborators that only read forwards and do not use the error that
    marks an exhausted loop bound. *)
Definition well_behaved (env : wiretap_env) : Prop :=
  (forall encap n,
      keeps_place (pcap_process_pseudo_header env encap n)
      /\ errs_in real_error (pcap_process_pseudo_header env encap n))
  /\ (forall t h, block_handlers env t = Some h ->
                  forall n sw w,
                    keeps_place (h n sw w) /\ errs_in real_error (h n sw w))
  /\ (forall bt code p, option_handlers env bt code = Some p ->
                        forall b sw n c e, p b sw n c = Err e -> real_error e).

(** ** Random access *)

(** What [pcapng_seek_read] answers: the block read, or [FALSE] for one of
    three reasons - the block reader failed and set [*err], the block is
    one the reader processes internally ([*err] is left as it was), or an
    assertion on the sections failed. *)
Inductive seek_read_result : Type :=
| SEEK_READ_OK (r : read_block_result) (fh : FILE_T)
| SEEK_READ_ERROR (e : wtap_err)
| SEEK_READ_INTERNAL_BLOCK (t : Z)
| SEEK_READ_ASSERT.

(** "Scan backwards through the array to find the first section that
    begins at or before the offset of the block we're reading", from
    section [section_number] down. *)
Fixpoint seek_read_section (sections : list section_info_t) (section_number : nat)
         (seek_off : Z) : option section_info_t :=
  let section_info := nth section_number sections default_section in
  if shb_off section_info <=? seek_off then Some section_info
  else
    match section_number with
    | O => (* g_assert(section_number != 0) *) None
    | S n => seek_read_section sections n seek_off
    end.

(** [pcapng_seek_read]; [random_fh] is the second handle on the file. *)
Definition pcapng_seek_read (env : wiretap_env) (wth : wtap) (random_fh : FILE_T)
           (seek_off : Z) (rec : wtap_rec) (buf : list byte) : seek_read_result :=
  let pcapng := priv wth in
  (* seek to the right file position *)
  let fh := file_seek random_fh seek_off in
  (* First, make sure we have at least one section *)
  if negb (1 <=? Z.of_nat (length (sections pcapng))) then SEEK_READ_ASSERT else
  match seek_read_section (sections pcapng) (length (sections pcapng) - 1) seek_off with
  | None => SEEK_READ_ASSERT
  | Some section_info =>
      let wblock := mkWblock 0 false None rec buf in
      (* read the block *)
      match pcapng_read_block env (wth_info wth) (pn_add_new_ipv4 pcapng)
              (pn_add_new_ipv6 pcapng) section_info default_section wblock fh with
      | Err e => SEEK_READ_ERROR e
      | Ok (r, fh') =>
          (* block must not be one we process internally rather than supplying *)
          if wb_internal (res_wblock r)
          then SEEK_READ_INTERNAL_BLOCK (wb_type (res_wblock r))
          else SEEK_READ_OK r fh'
      end
  end.

(** ** Writing: the other option kinds *)

(** A step of a block writer that goes on only after a successful write. *)
Definition and_then (r : res wtap_err wtap_dumper)
           (k : wtap_dumper -> res wtap_err wtap_dumper) : res wtap_err wtap_dumper :=
  match r with
  | Ok wdh => k wdh
  | Err e => Err e
  end.

Definition pcapng_write_option_uint8 (wdh : wtap_dumper) (option_id : Z) (uint8 : Z)
  : res wtap_err wtap_dumper :=
  let option_hdr := le_bytes 2 (guint16 option_id) ++ le_bytes 2 (guint16 1) in
  and_then (write_counted option_hdr wdh) (fun wdh =>
  and_then (write_counted (le_bytes 1 uint8) wdh) (fun wdh =>
  write_counted (repeat x00 3) wdh)).

Definition pcapng_write_option_timestamp (wdh : wtap_dumper) (option_id : Z)
           (timestamp : Z) : res wtap_err wtap_dumper :=
  let option_hdr := le_bytes 2 (guint16 option_id) ++ le_bytes 2 (guint16 8) in
  and_then (write_counted option_hdr wdh) (fun wdh =>
  let high := guint32 (Z.shiftr timestamp 32) in
  let low := guint32 (Z.shiftr timestamp 0) in
  and_then (write_counted (le_bytes 4 high) wdh) (fun wdh =>
  write_counted (le_bytes 4 low) wdh)).

Definition pcapng_write_option_uint64 (wdh : wtap_dumper) (option_id : Z)
           (uint64 : Z) : res wtap_err wtap_dumper :=
  let option_hdr := le_bytes 2 (guint16 option_id) ++ le_bytes 2 (guint16 8) in
  and_then (write_counted option_hdr wdh) (fun wdh =>
  write_counted (le_bytes 8 uint64) wdh).

(** The members of the [wtap_optval_t] union. *)
Definition stringval (optval : wtap_optval_t) : list byte :=
  match optval with OptString s => s | _ => [] end.
Definition uint8val (optval : wtap_optval_t) : Z :=
  match optval with OptUint8 v => v | _ => 0 end.
Definition uint64val (optval : wtap_optval_t) : Z :=
  match optval with OptUint64 v => v | _ => 0 end.

(** The tail shared by the [compute_*_option_size] callbacks: the padded
    size of the value is added to the running size and, when there is a
    value, the size is rounded up to 32 bits and the option header added. *)
Definition add_option_size (size block_size : Z) : Z :=
  let block_size := guint32 (block_size + size) in
  (* Add bytes for option header if option should be written *)
  if size >? 0 then
    (* Add optional padding to 32 bits *)
    let block_size :=
      if negb (Z.land block_size 0x03 =? 0)
      then guint32 (block_size + (4 - Z.land block_size 0x03))
      else block_size in
    guint32 (block_size + 4)
  else block_size.

(** ** Writing: interface statistics block *)

Definition compute_isb_option_size (option_id : Z) (optval : wtap_optval_t)
           (block_size : Z) : Z :=
  let size :=
    if option_id =? OPT_COMMENT then
      pcapng_compute_option_string_size (stringval optval)
    else if (option_id =? OPT_ISB_STARTTIME) || (option_id =? OPT_ISB_ENDTIME) then 8
    else if (option_id =? OPT_ISB_IFRECV) || (option_id =? OPT_ISB_IFDROP)
            || (option_id =? OPT_ISB_FILTERACCEPT) || (option_id =? OPT_ISB_OSDROP)
            || (option_id =? OPT_ISB_USRDELIV) then 8
    else (* Unknown options - size by datatype? *) 0 in
  add_option_size size block_size.

Definition write_wtap_isb_option (option_id : Z) (optval : wtap_optval_t)
           (write_block : res wtap_err wtap_dumper) : res wtap_err wtap_dumper :=
  match write_block with
  | Err e => (* Don't continue if there has been an error *) Err e
  | Ok wdh =>
      if option_id =? OPT_COMMENT then
        pcapng_write_option_string wdh option_id (stringval optval)
      else if (option_id =? OPT_ISB_STARTTIME) || (option_id =? OPT_ISB_ENDTIME) then
        pcapng_write_option_timestamp wdh option_id (uint64val optval)
      else if (option_id =? OPT_ISB_IFRECV) || (option_id =? OPT_ISB_IFDROP)
              || (option_id =? OPT_ISB_FILTERACCEPT) || (option_id =? OPT_ISB_OSDROP)
              || (option_id =? OPT_ISB_USRDELIV) then
        pcapng_write_option_uint64 wdh option_id (uint64val optval)
      else (* Unknown options - write by datatype? *) Ok wdh
  end.

(** The mandatory part of an interface statistics block. *)
Definition if_stats_mandatory (if_stats : wtap_block_t) : wtapng_if_stats_mandatory_t :=
  match block_mand if_stats with
  | WTAP_BLOCK_IF_STATISTICS m => m
  | _ => mkIfStats 0 0 0
  end.

(** [block_size.size] once the options are sized and the end-of-options
    tag is counted. *)
Definition options_block_size (block : wtap_block_t)
           (compute : Z -> wtap_optval_t -> Z -> Z) : Z :=
  let block_size := wtap_block_foreach_option block compute 0 in
  if block_size >? 0 then (* End-of-options tag *) guint32 (block_size + 4)
  else block_size.

(** The total length [pcapng_write_interface_statistics_block] puts in the
    block header and the trailer. *)
Definition isb_block_total_length (if_stats : wtap_block_t) : Z :=
  guint32 (sizeof_block_header + sizeof_isb
           + options_block_size if_stats compute_isb_option_size + 4).

Definition pcapng_write_interface_statistics_block (wdh : wtap_dumper)
           (if_stats : wtap_block_t) : res wtap_err wtap_dumper :=
  let mand_data := if_stats_mandatory if_stats in
  (* Compute block size *)
  let block_size := options_block_size if_stats compute_isb_option_size in
  let total := isb_block_total_length if_stats in
  (* write block header *)
  and_then (write_counted (le_bytes 4 BLOCK_TYPE_ISB ++ le_bytes 4 total) wdh) (fun wdh =>
  (* write block fixed content *)
  and_then (write_counted (le_bytes 4 (isb_interface_id mand_data)
                             ++ le_bytes 4 (isb_ts_high mand_data)
                             ++ le_bytes 4 (isb_ts_low mand_data)) wdh) (fun wdh =>
  and_then
    (* Write options *)
    (if block_size >? 0 then
       and_then (wtap_block_foreach_option if_stats write_wtap_isb_option (Ok wdh))
                (* Write end of options *)
                (write_counted (le_bytes 2 OPT_EOFOPT ++ le_bytes 2 0))
     else Ok wdh)
    (* write block footer *)
    (write_counted (le_bytes 4 total)))).

(** ** Writing: interface description block *)

(** The collaborators of the writer: routines of pcap-common.c and
    wtap.c, the value of a constant of wtap.h, and the plugin that writes
    a file-type-specific record. *)
Record dump_env : Type := mkDumpEnv {
  (* encap, pseudo-header *)
  pcap_get_phdr_size : Z -> list byte -> Z;
  pcap_write_phdr : Z -> list byte -> wtap_dumper -> res wtap_err wtap_dumper;
  wtap_wtap_encap_to_pcap_encap : Z -> Z;
  WTAP_ENCAP_SYSTEMD_JOURNAL : Z;
  (* the writer registered for the record type of a file-type-specific record *)
  block_writer :
    wtap_rec -> option (wtap_dumper -> wtap_rec -> list byte -> res wtap_err wtap_dumper)
}.

(** [pcapng_encap_is_ft_specific]. *)
Definition pcapng_encap_is_ft_specific (denv : dump_env) (encap : Z) : bool :=
  encap =? WTAP_ENCAP_SYSTEMD_JOURNAL denv.

(** [pcapng_dump_can_write_encap]: 0, or the error code. *)
Definition pcapng_dump_can_write_encap (denv : dump_env) (encap : Z) : res wtap_err unit :=
  (* Per-packet encapsulation is supported. *)
  if encap =? WTAP_ENCAP_PER_PACKET then Ok tt
  (* Is it a filetype-specific encapsulation that we support? *)
  else if pcapng_encap_is_ft_specific denv encap then Ok tt
  (* Make sure we can figure out this DLT type *)
  else if wtap_wtap_encap_to_pcap_encap denv encap =? -1
  then Err WTAP_ERR_UNWRITABLE_ENCAP
  else Ok tt.

(** The image of a BPF program in memory: eight bytes an instruction. *)
Definition bpf_prog_bytes (prog : list wtap_bpf_insn_t) : list byte :=
  flat_map (fun i => le_bytes 2 (insn_code i) ++ le_bytes 1 (insn_jt i)
                     ++ le_bytes 1 (insn_jf i) ++ le_bytes 4 (insn_k i)) prog.

Definition pad_to_4 (n : Z) : Z :=
  if negb (n mod 4 =? 0) then 4 - n mod 4 else 0.

Definition compute_idb_option_size (option_id : Z) (optval : wtap_optval_t)
           (block_size : Z) : Z :=
  let size :=
    if (option_id =? OPT_COMMENT) || (option_id =? OPT_IDB_NAME)
       || (option_id =? OPT_IDB_DESCR) || (option_id =? OPT_IDB_OS)
       || (option_id =? OPT_IDB_HARDWARE) then
      pcapng_compute_option_string_size (stringval optval)
    else if option_id =? OPT_IDB_SPEED then 8
    else if option_id =? OPT_IDB_TSRESOL then 1
    else if option_id =? OPT_IDB_FILTER then
      match optval with
      | OptIfFilter filter =>
          let size :=
            match filter with
            | if_filter_pcap filter_str =>
                Z.land (guint32 (strlen filter_str + 1)) 0xffff
            | if_filter_bpf bpf_prog =>
                Z.land (guint32 (Z.of_nat (length bpf_prog) * 8 + 1)) 0xffff
            end in
          guint32 (size + pad_to_4 size)
      | _ => 0
      end
    else if option_id =? OPT_IDB_FCSLEN then 1
    else (* Unknown options - size by datatype? *) 0 in
  add_option_size size block_size.

(** The [case OPT_IDB_FILTER] of [write_wtap_idb_option]. *)
Definition write_idb_filter_option (wdh : wtap_dumper) (option_id : Z)
           (filter : if_filter_opt_t) : res wtap_err wtap_dumper :=
  let filter_type := match filter with if_filter_pcap _ => 0 | if_filter_bpf _ => 1 end in
  let filter_data :=
    match filter with
    | if_filter_pcap filter_str => filter_str
    | if_filter_bpf bpf_prog => bpf_prog_bytes bpf_prog
    end in
  let filter_data_len :=
    match filter with
    | if_filter_pcap filter_str => strlen filter_str
    | if_filter_bpf bpf_prog => Z.of_nat (length bpf_prog) * 8
    end in
  let too_big :=
    match filter with
    | if_filter_pcap _ => filter_data_len >? 65534
    | if_filter_bpf _ => filter_data_len >? 65528
    end in
  if too_big then (* Too big to fit in the option.  Don't write anything. *) Ok wdh
  else
    let size := guint32 (filter_data_len + 1) in
    let pad := pad_to_4 size in
    let option_hdr := le_bytes 2 (guint16 option_id) ++ le_bytes 2 (guint16 size) in
    and_then (write_counted option_hdr wdh) (fun wdh =>
    (* Write the filter type *)
    and_then (write_counted (le_bytes 1 filter_type) wdh) (fun wdh =>
    (* Write the filter string or the filter program *)
    and_then (write_counted filter_data wdh) (fun wdh =>
    (* write padding (if any) *)
    if negb (pad =? 0) then write_counted (repeat x00 (Z.to_nat pad)) wdh
    else Ok wdh))).

(** [write_wtap_idb_option].  Unlike its siblings it does not look at
    [success] before it writes; a failed write leaves no dumper to go on
    with here, so the difference does not show. *)
Definition write_wtap_idb_option (option_id : Z) (optval : wtap_optval_t)
           (write_block : res wtap_err wtap_dumper) : res wtap_err wtap_dumper :=
  match write_block with
  | Err e => Err e
  | Ok wdh =>
      if (option_id =? OPT_COMMENT) || (option_id =? OPT_IDB_NAME)
         || (option_id =? OPT_IDB_DESCR) || (option_id =? OPT_IDB_OS)
         || (option_id =? OPT_IDB_HARDWARE) then
        pcapng_write_option_string wdh option_id (stringval optval)
      else if option_id =? OPT_IDB_SPEED then
        pcapng_write_option_uint64 wdh option_id (uint64val optval)
      else if option_id =? OPT_IDB_TSRESOL then
        pcapng_write_option_uint8 wdh option_id (uint8val optval)
      else if option_id =? OPT_IDB_FILTER then
        match optval with
        | OptIfFilter filter => write_idb_filter_option wdh option_id filter
        | _ => Ok wdh
        end
      else if option_id =? OPT_IDB_FCSLEN then
        pcapng_write_option_uint8 wdh option_id (uint8val optval)
      else (* Unknown options - size by datatype? *) Ok wdh
  end.

(** The mandatory part of an interface description block. *)
Definition if_descr_mandatory (int_data : wtap_block_t) : wtapng_if_descr_mandatory_t :=
  match block_mand int_data with
  | WTAP_BLOCK_IF_ID_AND_INFO m => m
  | _ => mkIfDescr 0 0 0 0 0 []
  end.

Definition idb_block_total_length (int_data : wtap_block_t) : Z :=
  guint32 (sizeof_block_header + sizeof_idb
           + options_block_size int_data compute_idb_option_size + 4).

Definition pcapng_write_if_descr_block (denv : dump_env) (wdh : wtap_dumper)
           (int_data : wtap_block_t) : res wtap_err wtap_dumper :=
  let mand_data := if_descr_mandatory int_data in
  let link_type := wtap_wtap_encap_to_pcap_encap denv (idb_wtap_encap mand_data) in
  if (link_type =? -1) && negb (pcapng_encap_is_ft_specific denv (idb_wtap_encap mand_data))
  then Err WTAP_ERR_UNWRITABLE_ENCAP else
  (* Compute block size *)
  let block_size := options_block_size int_data compute_idb_option_size in
  let total := idb_block_total_length int_data in
  (* write block header *)
  and_then (write_counted (le_bytes 4 BLOCK_TYPE_IDB ++ le_bytes 4 total) wdh) (fun wdh =>
  (* write block fixed content *)
  and_then (write_counted (le_bytes 2 (guint16 link_type) ++ le_bytes 2 0
                             ++ le_bytes 4 (idb_snap_len mand_data)) wdh) (fun wdh =>
  and_then
    (if block_size >? 0 then
       (* Write options *)
       and_then (wtap_block_foreach_option int_data write_wtap_idb_option (Ok wdh))
                (* Write end of options *)
                (write_counted (le_bytes 2 OPT_EOFOPT ++ le_bytes 2 0))
     else Ok wdh)
    (* write block footer *)
    (write_counted (le_bytes 4 total)))).

(** ** Writing: decryption secrets block *)

Definition dsb_mandatory (sdata : wtap_block_t) : wtapng_dsb_mandatory_t :=
  match block_mand sdata with
  | WTAP_BLOCK_DECRYPTION_SECRETS m => m
  | _ => mkDsb 0 0 []
  end.

(** [bh.block_total_length] of [pcapng_write_decryption_secrets_block]. *)
Definition dsb_block_total_length (mand_data : wtapng_dsb_mandatory_t) : Z :=
  let pad_len := Z.land (guint32 (4 - Z.land (secrets_len mand_data) 3)) 3 in
  guint32 (MIN_DSB_SIZE + secrets_len mand_data + pad_len).

Definition pcapng_write_decryption_secrets_block (wdh : wtap_dumper)
           (sdata : wtap_block_t) : res wtap_err wtap_dumper :=
  let mand_data := dsb_mandatory sdata in
  let pad_len := Z.land (guint32 (4 - Z.land (secrets_len mand_data) 3)) 3 in
  (* write block header *)
  let total := dsb_block_total_length mand_data in
  and_then (write_counted (le_bytes 4 BLOCK_TYPE_DSB ++ le_bytes 4 total) wdh) (fun wdh =>
  (* write block fixed content *)
  and_then (write_counted (le_bytes 4 (secrets_type mand_data)
                             ++ le_bytes 4 (secrets_len mand_data)) wdh) (fun wdh =>
  and_then (wtap_dump_file_write wdh
              (firstn (Z.to_nat (secrets_len mand_data)) (secrets_data mand_data)))
           (fun wdh =>
  let wdh := add_bytes_dumped (secrets_len mand_data) wdh in
  and_then (if negb (pad_len =? 0)
            then write_counted (repeat x00 (Z.to_nat pad_len)) wdh
            else Ok wdh)
    (* write block footer *)
    (write_counted (le_bytes 4 total))))).

(** ** Writing: records

    A record writer changes the dumper in place and answers [TRUE] or
    [FALSE] with [*err]: the answer ([None] is [TRUE]) and the dumper as
    it is left, whatever was written before a refusal included. *)

Definition record_writer : Type := wtap_dumper -> option wtap_err * wtap_dumper.

Definition wr_ok : record_writer := fun wdh => (None, wdh).

Definition wr_fail (e : wtap_err) : record_writer := fun wdh => (Some e, wdh).

Definition wr_seq (a b : record_writer) : record_writer :=
  fun wdh =>
    match a wdh with
    | (None, wdh) => b wdh
    | (Some e, wdh) => (Some e, wdh)
    end.

(** A write of a block writer as a step of a record writer. *)
Definition wr_of (f : wtap_dumper -> res wtap_err wtap_dumper) : record_writer :=
  fun wdh =>
    match f wdh with
    | Ok wdh => (None, wdh)
    | Err e => (Some e, wdh)
    end.

(** [wtap_dump_file_write] of [n] bytes of [buf], then
    [wdh->bytes_dumped += n]. *)
Definition wr_bytes (buf : list byte) (n : Z) : record_writer :=
  wr_of (fun wdh =>
           and_then (wtap_dump_file_write wdh (firstn (Z.to_nat n) buf))
                    (fun wdh => Ok (add_bytes_dumped n wdh))).

Definition wr_counted (buf : list byte) : record_writer := wr_of (write_counted buf).

Definition wr_pad (pad_len : Z) : record_writer :=
  if negb (pad_len =? 0) then wr_counted (repeat x00 (Z.to_nat pad_len)) else wr_ok.

Declare Scope writer_scope.
Delimit Scope writer_scope with writer.
Notation "a ;+ b" := (wr_seq a b) (at level 62, right associativity) : writer_scope.

(** The fields of a [wtap_dumper] that the record writers use besides
    its output. *)
Record wtap_dumper_info : Type := mkDumperInfo {
  wdh_encap : Z;
  wdh_interface_data : list wtap_block_t;
  dsbs_initial : option (list wtap_block_t);
  dsbs_growing : option (list wtap_block_t);
  dsbs_growing_written : nat
}.

Definition has_flag (presence_flags flag : Z) : bool :=
  negb (Z.land presence_flags flag =? 0).

(** *** Enhanced packet block *)

(** The part of [options_total_length] that the verdicts add. *)
Definition verdicts_options_length (verdicts : list (list byte)) (start : Z) : Z :=
  fold_left
    (fun total verdict =>
       let len := Z.of_nat (length verdict) in
       if negb (len =? 0) then guint32 (total + guint64 (ROUND_TO_4BYTE (4 + len)))
       else total)
    verdicts start.

(** [comment_len] and [comment_pad_len]. *)
Definition epb_comment_len (rec : wtap_rec) : Z :=
  match opt_comment rec with
  | Some c => Z.land (guint32 (strlen c)) 0xffff
  | None => 0
  end.

Definition epb_comment_pad_len (rec : wtap_rec) : Z :=
  match opt_comment rec with
  | Some _ => pad_to_4 (epb_comment_len rec)
  | None => 0
  end.

(** [have_options] once the options to write are known. *)
Definition epb_have_options (rec : wtap_rec) : bool :=
  let flags := presence_flags rec in
  (match opt_comment rec with Some _ => true | None => false end)
  || has_flag flags WTAP_HAS_PACK_FLAGS
  || has_flag flags WTAP_HAS_DROP_COUNT
  || has_flag flags WTAP_HAS_PACKET_ID
  || has_flag flags WTAP_HAS_INT_QUEUE
  || (has_flag flags WTAP_HAS_VERDICT
      && match packet_verdict rec with Some _ => true | None => false end).

(** [options_total_length] of [pcapng_write_enhanced_packet_block]. *)
Definition epb_options_total_length (rec : wtap_rec) : Z :=
  let flags := presence_flags rec in
  let options_total_length := 0 in
  (* Check if we should write comment option *)
  let options_total_length :=
    match opt_comment rec with
    | Some _ =>
        guint32 (options_total_length + epb_comment_len rec + epb_comment_pad_len rec
                 + 4 (* comment options tag *))
    | None => options_total_length
    end in
  let options_total_length :=
    if has_flag flags WTAP_HAS_PACK_FLAGS then guint32 (options_total_length + 8)
    else options_total_length in
  let options_total_length :=
    if has_flag flags WTAP_HAS_DROP_COUNT then guint32 (options_total_length + 12)
    else options_total_length in
  let options_total_length :=
    if has_flag flags WTAP_HAS_PACKET_ID then guint32 (options_total_length + 12)
    else options_total_length in
  let options_total_length :=
    if has_flag flags WTAP_HAS_INT_QUEUE then guint32 (options_total_length + 8)
    else options_total_length in
  let options_total_length :=
    match packet_verdict rec with
    | Some verdicts =>
        if has_flag flags WTAP_HAS_VERDICT
        then verdicts_options_length verdicts options_total_length
        else options_total_length
    | None => options_total_length
    end in
  if epb_have_options rec then (* End-of options tag *) guint32 (options_total_length + 4)
  else options_total_length.

(** The time stamp of a record in the units of an interface. *)
Definition epb_timestamp (rec : wtap_rec) (time_units_per_second : Z) : Z :=
  guint64 (guint64 (guint64 (ts_secs rec) * time_units_per_second)
           + guint64 (guint64 (ts_nsecs rec) * time_units_per_second) / 1000000000).

(** The verdict options, one after the other. *)
Fixpoint write_epb_verdicts (verdicts : list (list byte)) : record_writer :=
  match verdicts with
  | [] => wr_ok
  | verdict :: rest =>
      let len := Z.of_nat (length verdict) in
      wr_seq
        (if negb (len =? 0) then
           wr_seq (wr_counted (le_bytes 2 OPT_EPB_VERDICT ++ le_bytes 2 (guint16 len)))
          (wr_seq (wr_counted verdict)
                  (if negb (ROUND_TO_4BYTE len =? len)
                   then wr_counted (repeat x00 (Z.to_nat (ROUND_TO_4BYTE len - len)))
                   else wr_ok))
         else wr_ok)
        (write_epb_verdicts rest)
  end.

(** The options of an enhanced packet block, as written after the packet
    data. *)
Definition write_epb_options (rec : wtap_rec) : record_writer :=
  let flags := presence_flags rec in
  let hdr := packet_header rec in
  (match opt_comment rec with
   | Some comment =>
       wr_counted (le_bytes 2 OPT_COMMENT ++ le_bytes 2 (guint16 (epb_comment_len rec)))
       ;+ (* Write the comments string *)
       wr_bytes comment (epb_comment_len rec)
       ;+ (* write padding (if any) *)
       wr_pad (epb_comment_pad_len rec)
   | None => wr_ok
   end
   ;+ (if has_flag flags WTAP_HAS_PACK_FLAGS then
         wr_counted (le_bytes 2 OPT_EPB_FLAGS ++ le_bytes 2 4)
         ;+ wr_counted (le_bytes 4 (pack_flags hdr))
       else wr_ok)
   ;+ (if has_flag flags WTAP_HAS_DROP_COUNT then
         wr_counted (le_bytes 2 OPT_EPB_DROPCOUNT ++ le_bytes 2 8)
         ;+ wr_counted (le_bytes 8 (drop_count hdr))
       else wr_ok)
   ;+ (if has_flag flags WTAP_HAS_PACKET_ID then
         wr_counted (le_bytes 2 OPT_EPB_PACKETID ++ le_bytes 2 8)
         ;+ wr_counted (le_bytes 8 (packet_id hdr))
       else wr_ok)
   ;+ (if has_flag flags WTAP_HAS_INT_QUEUE then
         wr_counted (le_bytes 2 OPT_EPB_QUEUE ++ le_bytes 2 4)
         ;+ wr_counted (le_bytes 4 (interface_queue hdr))
       else wr_ok)
   ;+ (match packet_verdict rec with
       | Some verdicts =>
           if has_flag flags WTAP_HAS_VERDICT then write_epb_verdicts verdicts else wr_ok
       | None => wr_ok
       end)
   ;+ (* Write end of options if we have options *)
      (if epb_have_options rec then wr_counted (repeat x00 4) else wr_ok))%writer.

(** [bh.block_total_length] of [pcapng_write_enhanced_packet_block]. *)
Definition epb_block_total_length (denv : dump_env) (rec : wtap_rec) : Z :=
  let hdr := packet_header rec in
  let phdr_len := guint32 (pcap_get_phdr_size denv (pkt_encap hdr) (pseudo_header hdr)) in
  let pad_len := pad_to_4 (guint32 (phdr_len + caplen hdr)) in
  guint32 (sizeof_block_header + sizeof_epb + phdr_len + caplen hdr + pad_len
           + epb_options_total_length rec + 4).

Definition pcapng_write_enhanced_packet_block (env : wiretap_env) (denv : dump_env)
           (info : wtap_dumper_info) (rec : wtap_rec) (pd : list byte) : record_writer :=
  let hdr := packet_header rec in
  (* Don't write anything we're not willing to read. *)
  if caplen hdr >? wtap_max_snaplen_for_encap env (wdh_encap info)
  then wr_fail WTAP_ERR_PACKET_TOO_LARGE else
  let phdr_len := guint32 (pcap_get_phdr_size denv (pkt_encap hdr) (pseudo_header hdr)) in
  let pad_len := pad_to_4 (guint32 (phdr_len + caplen hdr)) in
  let total := epb_block_total_length denv rec in
  (* write (enhanced) packet block header *)
  (wr_counted (le_bytes 4 BLOCK_TYPE_EPB ++ le_bytes 4 total)
   ;+ (* write block fixed content *)
   let epb_interface_id :=
     if has_flag (presence_flags rec) WTAP_HAS_INTERFACE_ID then interface_id hdr
     else 0 in
   if epb_interface_id >=? Z.of_nat (length (wdh_interface_data info))
   then (* Our caller is doing something bad. *) wr_fail WTAP_ERR_INTERNAL else
   let int_data_mand :=
     if_descr_mandatory
       (nth (Z.to_nat epb_interface_id) (wdh_interface_data info)
            (mkBlock WTAP_BLOCK_NAME_RESOLUTION [])) in
   if negb (idb_wtap_encap int_data_mand =? pkt_encap hdr)
   then (* Our caller is doing something bad. *) wr_fail WTAP_ERR_INTERNAL else
   (* Split the 64-bit timestamp into two 32-bit pieces, using the time
      stamp resolution for the interface. *)
   let ts := epb_timestamp rec (idb_time_units_per_second int_data_mand) in
   wr_counted (le_bytes 4 epb_interface_id
               ++ le_bytes 4 (guint32 (Z.shiftr ts 32))
               ++ le_bytes 4 (guint32 ts)
               ++ le_bytes 4 (guint32 (caplen hdr + phdr_len))
               ++ le_bytes 4 (guint32 (len hdr + phdr_len)))
   ;+ (* write pseudo header *)
   wr_of (fun wdh =>
            and_then (pcap_write_phdr denv (pkt_encap hdr) (pseudo_header hdr) wdh)
                     (fun wdh => Ok (add_bytes_dumped phdr_len wdh)))
   ;+ (* write packet data *)
   wr_bytes pd (caplen hdr)
   ;+ (* write padding (if any) *)
   wr_pad pad_len
   ;+ write_epb_options rec
   ;+ (* write block footer *)
   wr_counted (le_bytes 4 total))%writer.

(** *** Sysdig event block *)

Definition sysdig_block_total_length (rec : wtap_rec) : Z :=
  let event_filelen := event_filelen (syscall_header rec) in
  let options_total_length := 0 in
  guint32 (sizeof_block_header + SYSDIG_EVENT_HEADER_SIZE + event_filelen
           + pad_to_4 event_filelen + options_total_length + 4).

Definition pcapng_write_sysdig_event_block (rec : wtap_rec) (pd : list byte)
  : record_writer :=
  let hdr := syscall_header rec in
  (* Don't write anything we're not willing to read. *)
  if event_filelen hdr >? WTAP_MAX_PACKET_SIZE_STANDARD
  then wr_fail WTAP_ERR_PACKET_TOO_LARGE else
  let pad_len := pad_to_4 (event_filelen hdr) in
  let total := sysdig_block_total_length rec in
  (* Sysdig is always LE? *)
  let hdr_ts := guint64 (guint64 (guint64 (ts_secs rec) * 1000000000) + ts_nsecs rec) in
  ((* write sysdig event block header *)
   wr_counted (le_bytes 4 BLOCK_TYPE_SYSDIG_EVENT ++ le_bytes 4 total)
   ;+ wr_counted (le_bytes 2 (cpu_id hdr))
   ;+ wr_counted (le_bytes 8 hdr_ts)
   ;+ wr_counted (le_bytes 8 (thread_id hdr))
   ;+ wr_counted (le_bytes 4 (event_len hdr))
   ;+ wr_counted (le_bytes 2 (event_type hdr))
   ;+ (* write event data *)
   wr_bytes pd (event_filelen hdr)
   ;+ (* write padding (if any) *)
   wr_pad pad_len
   ;+ (* write block footer; bytes_dumped is left as it is *)
   wr_of (fun wdh => wtap_dump_file_write wdh (le_bytes 4 total)))%writer.

(** *** systemd journal export block *)

Definition journal_block_total_length (rec : wtap_rec) : Z :=
  let record_len := systemd_journal_record_len rec in
  guint32 (sizeof_block_header + record_len + pad_to_4 record_len + 4).

Definition pcapng_write_systemd_journal_export_block (rec : wtap_rec) (pd : list byte)
  : record_writer :=
  let record_len := systemd_journal_record_len rec in
  (* Don't write anything we're not willing to read. *)
  if record_len >? WTAP_MAX_PACKET_SIZE_STANDARD
  then wr_fail WTAP_ERR_PACKET_TOO_LARGE else
  let pad_len := pad_to_4 record_len in
  let total := journal_block_total_length rec in
  ((* write systemd journal export block header *)
   wr_counted (le_bytes 4 BLOCK_TYPE_SYSTEMD_JOURNAL ++ le_bytes 4 total)
   ;+ (* write entry data *)
   wr_bytes pd record_len
   ;+ (* write padding (if any) *)
   wr_pad pad_len
   ;+ (* write block footer; bytes_dumped is left as it is *)
   wr_of (fun wdh => wtap_dump_file_write wdh (le_bytes 4 total)))%writer.

(** *** The dumper's entry points *)

(** "Write (optional) Decryption Secrets Blocks that were collected while
    reading packet blocks": the blocks from [dsbs_growing_written] on;
    the count of the blocks written comes back with the answer. *)
Fixpoint write_growing_dsbs (dsbs : list wtap_block_t) (written : nat)
         (wdh : wtap_dumper) : option wtap_err * nat * wtap_dumper :=
  match dsbs with
  | [] => (None, written, wdh)
  | dsb :: rest =>
      match pcapng_write_decryption_secrets_block wdh dsb with
      | Err e => (Some e, written, wdh)
      | Ok wdh => write_growing_dsbs rest (S written) wdh
      end
  end.

(** [pcapng_dump]: the answer, [dsbs_growing_written] and the dumper. *)
Definition pcapng_dump (env : wiretap_env) (denv : dump_env) (info : wtap_dumper_info)
           (rec : wtap_rec) (pd : list byte) (wdh : wtap_dumper)
  : option wtap_err * wtap_dumper_info * wtap_dumper :=
  let '(failed, written, wdh) :=
    match dsbs_growing info with
    | Some growing =>
        write_growing_dsbs (skipn (dsbs_growing_written info) growing)
                           (dsbs_growing_written info) wdh
    | None => (None, dsbs_growing_written info, wdh)
    end in
  let info :=
    mkDumperInfo (wdh_encap info) (wdh_interface_data info) (dsbs_initial info)
                 (dsbs_growing info) written in
  match failed with
  | Some e => (Some e, info, wdh)
  | None =>
      let (answer, wdh) :=
        match rec_type rec with
        | REC_TYPE_PACKET =>
            pcapng_write_enhanced_packet_block env denv info rec pd wdh
        | REC_TYPE_FT_SPECIFIC_EVENT
        | REC_TYPE_FT_SPECIFIC_REPORT =>
            (* Do we have a handler for this block type? *)
            match block_writer denv rec with
            | Some writer =>
                (* Yes. Call it to write out this record. *)
                wr_of (fun wdh => writer wdh rec pd) wdh
            | None => (* No. *) wr_fail WTAP_ERR_UNWRITABLE_REC_TYPE wdh
            end
        | REC_TYPE_SYSCALL => pcapng_write_sysdig_event_block rec pd wdh
        | REC_TYPE_SYSTEMD_JOURNAL =>
            pcapng_write_systemd_journal_export_block rec pd wdh
        end in
      (answer, info, wdh)
  end.

(** [pcapng_add_idb]: the interface joins [wdh->interface_data] and its
    block is written. *)
Definition pcapng_add_idb (denv : dump_env) (info : wtap_dumper_info)
           (idb : wtap_block_t) (wdh : wtap_dumper)
  : option wtap_err * wtap_dumper_info * wtap_dumper :=
  let info :=
    mkDumperInfo (wdh_encap info) (wdh_interface_data info ++ [idb])
                 (dsbs_initial info) (dsbs_growing info) (dsbs_growing_written info) in
  let (answer, wdh) := wr_of (fun wdh => pcapng_write_if_descr_block denv wdh idb) wdh in
  (answer, info, wdh).

(** The blocks of a list written one after the other, up to the first
    failure. *)
Fixpoint write_blocks (write : wtap_dumper -> wtap_block_t -> res wtap_err wtap_dumper)
         (blocks : list wtap_block_t) : record_writer :=
  match blocks with
  | [] => wr_ok
  | b :: rest => wr_seq (wr_of (fun wdh => write wdh b)) (write_blocks write rest)
  end.

(** [pcapng_dump_open]: the section header block, the interface
    description blocks, the decryption secrets blocks known at the start. *)
Definition pcapng_dump_open (denv : dump_env) (info : wtap_dumper_info) : record_writer :=
  ((* write the section header block *)
   wr_of pcapng_write_section_header_block
   ;+ (* Write the Interface description blocks *)
   write_blocks (pcapng_write_if_descr_block denv) (wdh_interface_data info)
   ;+ (* Write (optional) fixed Decryption Secrets Blocks. *)
   match dsbs_initial info with
   | Some dsbs => write_blocks pcapng_write_decryption_secrets_block dsbs
   | None => wr_ok
   end)%writer.

(** ** Reading what was written *)

(** The bytes of the file from the read position on. *)
Definition remaining (fh : FILE_T) : list byte :=
  skipn (file_pos fh) (file_data fh).

(** The file made of the bytes a dumper has written, read from [pos]. *)
Definition written_file (wdh : wtap_dumper) (pos : nat) : FILE_T :=
  mkFile (dump_out wdh) pos.

(** The file [fh] once [n] more bytes are read. *)
Definition forward (fh : FILE_T) (n : nat) : FILE_T :=
  mkFile (file_data fh) (file_pos fh + n).

(** The dumper [wdh] after [buf] is written and [n] added to
    [bytes_dumped]. *)
Definition appended (wdh : wtap_dumper) (buf : list byte) (n : Z) : wtap_dumper :=
  mkDumper (dump_out wdh ++ buf) (bytes_dumped wdh + n) (wdh_shb_hdrs wdh).

(** The bytes of a decryption secrets block, as the format has them. *)
Definition dsb_block_image (m : wtapng_dsb_mandatory_t) : list byte :=
  let pad := (4 - secrets_len m mod 4) mod 4 in
  let total := 20 + secrets_len m + pad in
  le_bytes 4 BLOCK_TYPE_DSB ++ le_bytes 4 total
  ++ le_bytes 4 (secrets_type m) ++ le_bytes 4 (secrets_len m)
  ++ secrets_data m ++ repeat x00 (Z.to_nat pad) ++ le_bytes 4 total.

(** A record writer that always succeeds, appending [buf] and adding [n]
    to [bytes_dumped]. *)
Definition wr_appends (w : record_writer) (buf : list byte) (n : Z) : Prop :=
  forall wdh, w wdh = (None, appended wdh buf n).

(** The bytes of the verdict options of a record. *)
Fixpoint epb_verdicts_image (verdicts : list (list byte)) : list byte :=
  match verdicts with
  | [] => []
  | verdict :: rest =>
      let len := Z.of_nat (length verdict) in
      (if negb (len =? 0)
       then le_bytes 2 OPT_EPB_VERDICT ++ le_bytes 2 (guint16 len) ++ verdict
            ++ repeat x00 (Z.to_nat (ROUND_TO_4BYTE len - len))
       else [])
      ++ epb_verdicts_image rest
  end.

(** The bytes of the options of an enhanced packet block. *)
Definition epb_options_image (rec : wtap_rec) : list byte :=
  let flags := presence_flags rec in
  let hdr := packet_header rec in
  (match opt_comment rec with
   | Some comment =>
       le_bytes 2 OPT_COMMENT ++ le_bytes 2 (guint16 (epb_comment_len rec))
       ++ firstn (Z.to_nat (epb_comment_len rec)) comment
       ++ repeat x00 (Z.to_nat (epb_comment_pad_len rec))
   | None => []
   end)
  ++ (if has_flag flags WTAP_HAS_PACK_FLAGS
      then le_bytes 2 OPT_EPB_FLAGS ++ le_bytes 2 4 ++ le_bytes 4 (pack_flags hdr)
      else [])
  ++ (if has_flag flags WTAP_HAS_DROP_COUNT
      then le_bytes 2 OPT_EPB_DROPCOUNT ++ le_bytes 2 8 ++ le_bytes 8 (drop_count hdr)
      else [])
  ++ (if has_flag flags WTAP_HAS_PACKET_ID
      then le_bytes 2 OPT_EPB_PACKETID ++ le_bytes 2 8 ++ le_bytes 8 (packet_id hdr)
      else [])
  ++ (if has_flag flags WTAP_HAS_INT_QUEUE
      then le_bytes 2 OPT_EPB_QUEUE ++ le_bytes 2 4 ++ le_bytes 4 (interface_queue hdr)
      else [])
  ++ (match packet_verdict rec with
      | Some verdicts =>
          if has_flag flags WTAP_HAS_VERDICT then epb_verdicts_image verdicts else []
      | None => []
      end)
  ++ (if epb_have_options rec then repeat x00 4 else []).

(** The interface a record is written for, and the bytes of its
    enhanced packet block when [phdr] is the pseudo-header image. *)
Definition epb_interface_id (rec : wtap_rec) : Z :=
  if has_flag (presence_flags rec) WTAP_HAS_INTERFACE_ID
  then interface_id (packet_header rec) else 0.

Definition epb_block_image (denv : dump_env) (info : wtap_dumper_info)
           (rec : wtap_rec) (pd phdr : list byte) : list byte :=
  let hdr := packet_header rec in
  let phdr_len := guint32 (pcap_get_phdr_size denv (pkt_encap hdr) (pseudo_header hdr)) in
  let total := epb_block_total_length denv rec in
  let int_data_mand :=
    if_descr_mandatory
      (nth (Z.to_nat (epb_interface_id rec)) (wdh_interface_data info)
           (mkBlock WTAP_BLOCK_NAME_RESOLUTION [])) in
  let ts := epb_timestamp rec (idb_time_units_per_second int_data_mand) in
  (le_bytes 4 BLOCK_TYPE_EPB ++ le_bytes 4 total)
  ++ (le_bytes 4 (epb_interface_id rec)
      ++ le_bytes 4 (guint32 (Z.shiftr ts 32))
      ++ le_bytes 4 (guint32 ts)
      ++ le_bytes 4 (guint32 (caplen hdr + phdr_len))
      ++ le_bytes 4 (guint32 (len hdr + phdr_len)))
  ++ phdr
  ++ firstn (Z.to_nat (caplen hdr)) pd
  ++ repeat x00 (Z.to_nat (pad_to_4 (guint32 (phdr_len + caplen hdr))))
  ++ epb_options_image rec
  ++ le_bytes 4 total.

(** The checks of [pcapng_write_enhanced_packet_block] all pass. *)
Definition epb_writable (env : wiretap_env) (info : wtap_dumper_info) (rec : wtap_rec)
  : Prop :=
  let hdr := packet_header rec in
  caplen hdr <= wtap_max_snaplen_for_encap env (wdh_encap info)
  /\ epb_interface_id rec < Z.of_nat (length (wdh_interface_data info))
  /\ idb_wtap_encap
       (if_descr_mandatory
          (nth (Z.to_nat (epb_interface_id rec)) (wdh_interface_data info)
               (mkBlock WTAP_BLOCK_NAME_RESOLUTION [])))
     = pkt_encap hdr.

(** The record that [pcapng_read_packet_block] makes of an enhanced
    packet block without pseudo-header and without options. *)
Definition epb_plain_record (env : wiretap_env) (iface : interface_info_t)
           (id ts cap plen : Z) (ph0 data : list byte) (wblock : wtapng_block_t)
  : wtapng_block_t :=
  let rec :=
    mkRec REC_TYPE_PACKET
          (Z.lor (Z.lor WTAP_HAS_TS WTAP_HAS_CAP_LEN) WTAP_HAS_INTERFACE_ID)
          (packet_ts_secs ts (time_units_per_second iface))
          (packet_ts_nsecs ts (time_units_per_second iface))
          (tsprecision iface)
          (mkPkt cap plen (wtap_encap iface) id (guint64 (-1)) 0 0 0 ph0)
          (syscall_header (wb_rec wblock))
          (systemd_journal_record_len (wb_rec wblock))
          None None in
  let post := pcap_read_post_process env (wtap_encap iface) ph0 data false (fcslen iface) in
  set_internal false
    (set_frame_buffer (snd post)
       (set_rec (rec_set_packet_header (pkt_set_pseudo_header (fst post) (packet_header rec))
                                       rec)
                (set_type BLOCK_TYPE_EPB (set_block None wblock)))).

(** ** Sample collaborators and records for the writer *)

(** A writer's environment without pseudo-headers or plugins, where the
    pcap link type of an encapsulation is its own number. *)
Definition plain_dump_env : dump_env :=
  mkDumpEnv (fun _ _ => 0) (fun _ _ wdh => Ok wdh) (fun encap => encap) 203
            (fun _ => None).

(** An Ethernet interface of a million ticks a second, as a dumper holds it. *)
Definition sample_idb : wtap_block_t :=
  mkBlock (WTAP_BLOCK_IF_ID_AND_INFO (mkIfDescr 1 1000000 WTAP_TSPREC_USEC 65535 0 [])) [].

Definition sample_dumper_info : wtap_dumper_info :=
  mkDumperInfo 1 [sample_idb] None None 0.

(** A packet of five bytes on interface 0, at 3.25 seconds. *)
Definition sample_packet_data : list byte := bytes [0xDE; 0xAD; 0xBE; 0xEF; 0x01].

Definition sample_packet_rec : wtap_rec :=
  mkRec REC_TYPE_PACKET
        (Z.lor (Z.lor WTAP_HAS_TS WTAP_HAS_CAP_LEN) WTAP_HAS_INTERFACE_ID)
        3 250000000 WTAP_TSPREC_USEC
        (mkPkt 5 60 1 0 0 0 0 0 [])
        (mkSyscall 0 false 0 0 0 0 0 0) 0 None None.

(** The same packet with a comment, flags, a drop count and a verdict. *)
Definition sample_packet_rec_with_options : wtap_rec :=
  mkRec REC_TYPE_PACKET
        (Z.lor (Z.lor (Z.lor WTAP_HAS_TS WTAP_HAS_CAP_LEN) WTAP_HAS_INTERFACE_ID)
               (Z.lor (Z.lor WTAP_HAS_PACK_FLAGS WTAP_HAS_DROP_COUNT) WTAP_HAS_VERDICT))
        3 250000000 WTAP_TSPREC_USEC
        (mkPkt 5 60 1 0 7 1 0 0 [])
        (mkSyscall 0 false 0 0 0 0 0 0) 0
        (Some (bytes [104; 105; 33]))
        (Some [bytes [0; 1; 2]]).

(** The time stamp [pcapng_write_sysdig_event_block] puts in the block. *)
Definition sysdig_timestamp (rec : wtap_rec) : Z :=
  guint64 (guint64 (guint64 (ts_secs rec) * 1000000000) + ts_nsecs rec).

(** The bytes of a sysdig event block. *)
Definition sysdig_block_image (rec : wtap_rec) (pd : list byte) : list byte :=
  let hdr := syscall_header rec in
  (le_bytes 4 BLOCK_TYPE_SYSDIG_EVENT ++ le_bytes 4 (sysdig_block_total_length rec))
  ++ le_bytes 2 (cpu_id hdr)
  ++ le_bytes 8 (sysdig_timestamp rec)
  ++ le_bytes 8 (thread_id hdr)
  ++ le_bytes 4 (event_len hdr)
  ++ le_bytes 2 (event_type hdr)
  ++ (firstn (Z.to_nat (event_filelen hdr)) pd
      ++ repeat x00 (Z.to_nat (pad_to_4 (event_filelen hdr))))
  ++ le_bytes 4 (sysdig_block_total_length rec).

(** A system call of seven bytes on CPU 2, at 3.25 seconds. *)
Definition sample_syscall_rec : wtap_rec :=
  mkRec REC_TYPE_SYSCALL (Z.lor WTAP_HAS_TS WTAP_HAS_CAP_LEN)
        3 250000000 WTAP_TSPREC_NSEC
        (mkPkt 0 0 0 0 0 0 0 0 [])
        (mkSyscall BLOCK_TYPE_SYSDIG_EVENT false 4711 7 7 12 0 2) 0 None None.

Definition sample_syscall_data : list byte := bytes [1; 2; 3; 4; 5; 6; 7].

(** The bytes of a systemd journal export block. *)
Definition journal_block_image (rec : wtap_rec) (pd : list byte) : list byte :=
  let record_len := systemd_journal_record_len rec in
  (le_bytes 4 BLOCK_TYPE_SYSTEMD_JOURNAL ++ le_bytes 4 (journal_block_total_length rec))
  ++ (firstn (Z.to_nat record_len) pd ++ repeat x00 (Z.to_nat (pad_to_4 record_len)))
  ++ le_bytes 4 (journal_block_total_length rec).

(** A journal entry of 25 bytes: "__REALTIME_TIMESTAMP=17\nA=" and one
    more byte. *)
Definition sample_journal_data : list byte :=
  SDJ__REALTIME_TIMESTAMP ++ bytes [49; 55; 10; 65].

Definition sample_journal_rec : wtap_rec :=
  mkRec REC_TYPE_SYSTEMD_JOURNAL WTAP_HAS_CAP_LEN 0 0 0
        (mkPkt 0 0 0 0 0 0 0 0 []) (mkSyscall 0 false 0 0 0 0 0 0) 25 None None.

(** ** Images of options *)

(** An option in the file: code, length of the value, the value, and the
    padding of the value to 32 bits. *)
Definition option_image (option_id : Z) (value : list byte) : list byte :=
  le_bytes 2 option_id ++ le_bytes 2 (Z.of_nat (length value))
  ++ value ++ repeat x00 (Z.to_nat (pad_to_4 (Z.of_nat (length value)))).

(** The value of a time stamp option: the high 32 bits, then the low. *)
Definition timestamp_option_value (timestamp : Z) : list byte :=
  le_bytes 4 (guint32 (Z.shiftr timestamp 32)) ++ le_bytes 4 (guint32 (Z.shiftr timestamp 0)).

(** What [write_wtap_isb_option] writes for an option. *)
Definition isb_option_image (p : Z * wtap_optval_t) : list byte :=
  let option_id := fst p in
  if option_id =? OPT_COMMENT then option_image option_id (stringval (snd p))
  else if (option_id =? OPT_ISB_STARTTIME) || (option_id =? OPT_ISB_ENDTIME) then
    option_image option_id (timestamp_option_value (uint64val (snd p)))
  else if (option_id =? OPT_ISB_IFRECV) || (option_id =? OPT_ISB_IFDROP)
          || (option_id =? OPT_ISB_FILTERACCEPT) || (option_id =? OPT_ISB_OSDROP)
          || (option_id =? OPT_ISB_USRDELIV) then
    option_image option_id (le_bytes 8 (uint64val (snd p)))
  else [].

(** A string that fits a string option and comes back as it is: between
    1 and 65535 bytes, none of them NUL. *)
Definition option_string_ok (s : list byte) : bool :=
  (0 <? strlen s) && (strlen s <=? 65535)
  && forallb (fun c => negb (byte_val c =? 0)) s.

(** An option of an interface statistics block that the writer writes:
    a comment, or one of the time stamps and counters with a 64-bit
    value. *)
Definition isb_option_ok (p : Z * wtap_optval_t) : bool :=
  let option_id := fst p in
  if option_id =? OPT_COMMENT then
    match snd p with OptString s => option_string_ok s | _ => false end
  else if (OPT_ISB_STARTTIME <=? option_id) && (option_id <=? OPT_ISB_USRDELIV) then
    match snd p with OptUint64 v => (0 <=? v) && (v <? 2 ^ 64) | _ => false end
  else false.

(** The options of a block and the end-of-options tag, which is there
    when there are options. *)
Definition options_image (image : Z * wtap_optval_t -> list byte)
           (opts : wtap_options) : list byte :=
  match opts with
  | [] => []
  | _ => flat_map image opts ++ le_bytes 2 OPT_EOFOPT ++ le_bytes 2 0
  end.

Definition isb_block_image (if_stats : wtap_block_t) : list byte :=
  let m := if_stats_mandatory if_stats in
  let body :=
    le_bytes 4 (isb_interface_id m) ++ le_bytes 4 (isb_ts_high m)
    ++ le_bytes 4 (isb_ts_low m)
    ++ options_image isb_option_image (block_options if_stats) in
  let total := 8 + Z.of_nat (length body) + 4 in
  le_bytes 4 BLOCK_TYPE_ISB ++ le_bytes 4 total ++ body ++ le_bytes 4 total.

(** The codes of the options that are not comments. *)
Definition single_option_codes (opts : wtap_options) : list Z :=
  filter (fun code => negb (code =? OPT_COMMENT)) (map fst opts).

(** An interface statistics block with two comments, a start time and a
    counter. *)
Definition sample_if_stats : wtap_block_t :=
  mkBlock (WTAP_BLOCK_IF_STATISTICS (mkIfStats 0 0x0005A1B2 0xC3D4E5F6))
          [(OPT_COMMENT, OptString (bytes [0x6f; 0x6e; 0x65]));
           (OPT_ISB_STARTTIME, OptUint64 0x0005A1B200000007);
           (OPT_ISB_IFRECV, OptUint64 1234);
           (OPT_COMMENT, OptString (bytes [0x74; 0x77; 0x6f; 0x21]))].

(** ** Images of interface description blocks *)

(** The value of an [if_filter] option: the kind of filter, then the
    filter string or the BPF program. *)
Definition filter_option_value (filter : if_filter_opt_t) : list byte :=
  match filter with
  | if_filter_pcap filter_str => le_bytes 1 0 ++ filter_str
  | if_filter_bpf bpf_prog => le_bytes 1 1 ++ bpf_prog_bytes bpf_prog
  end.

(** What [write_wtap_idb_option] writes for an option. *)
Definition idb_option_image (p : Z * wtap_optval_t) : list byte :=
  let option_id := fst p in
  if (option_id =? OPT_COMMENT) || (option_id =? OPT_IDB_NAME)
     || (option_id =? OPT_IDB_DESCR) || (option_id =? OPT_IDB_OS)
     || (option_id =? OPT_IDB_HARDWARE) then
    option_image option_id (stringval (snd p))
  else if option_id =? OPT_IDB_SPEED then
    option_image option_id (le_bytes 8 (uint64val (snd p)))
  else if option_id =? OPT_IDB_TSRESOL then
    option_image option_id (le_bytes 1 (uint8val (snd p)))
  else if option_id =? OPT_IDB_FILTER then
    match snd p with
    | OptIfFilter filter => option_image option_id (filter_option_value filter)
    | _ => []
    end
  else if option_id =? OPT_IDB_FCSLEN then
    option_image option_id (le_bytes 1 (uint8val (snd p)))
  else [].

(** A BPF instruction whose members fit their types. *)
Definition bpf_insn_ok (i : wtap_bpf_insn_t) : bool :=
  (0 <=? insn_code i) && (insn_code i <? 2 ^ 16)
  && (0 <=? insn_jt i) && (insn_jt i <? 2 ^ 8)
  && (0 <=? insn_jf i) && (insn_jf i <? 2 ^ 8)
  && (0 <=? insn_k i) && (insn_k i <? 2 ^ 32).

(** An option of an interface description block that the writer writes:
    a string of 1 to 65535 bytes, the speed, the time stamp resolution
    and the FCS length with a value of their width, a filter string of at
    most 65534 bytes or a BPF program of at most 65528 bytes. *)
Definition idb_option_ok (p : Z * wtap_optval_t) : bool :=
  let option_id := fst p in
  if (option_id =? OPT_COMMENT) || (option_id =? OPT_IDB_NAME)
     || (option_id =? OPT_IDB_DESCR) || (option_id =? OPT_IDB_OS)
     || (option_id =? OPT_IDB_HARDWARE) then
    match snd p with OptString s => option_string_ok s | _ => false end
  else if option_id =? OPT_IDB_SPEED then
    match snd p with OptUint64 v => (0 <=? v) && (v <? 2 ^ 64) | _ => false end
  else if (option_id =? OPT_IDB_TSRESOL) || (option_id =? OPT_IDB_FCSLEN) then
    match snd p with OptUint8 v => (0 <=? v) && (v <? 2 ^ 8) | _ => false end
  else if option_id =? OPT_IDB_FILTER then
    match snd p with
    | OptIfFilter (if_filter_pcap filter_str) =>
        (strlen filter_str <=? 65534)
        && forallb (fun c => negb (byte_val c =? 0)) filter_str
    | OptIfFilter (if_filter_bpf bpf_prog) =>
        (Z.of_nat (length bpf_prog) * 8 <=? 65528) && forallb bpf_insn_ok bpf_prog
    | _ => false
    end
  else false.

Definition idb_block_image (denv : dump_env) (int_data : wtap_block_t) : list byte :=
  let m := if_descr_mandatory int_data in
  let body :=
    le_bytes 2 (guint16 (wtap_wtap_encap_to_pcap_encap denv (idb_wtap_encap m)))
    ++ le_bytes 2 0 ++ le_bytes 4 (idb_snap_len m)
    ++ options_image idb_option_image (block_options int_data) in
  let total := 8 + Z.of_nat (length body) + 4 in
  le_bytes 4 BLOCK_TYPE_IDB ++ le_bytes 4 total ++ body ++ le_bytes 4 total.

(** What the option does to the mandatory part of the block being read:
    the time stamp resolution sets the units and the precision. *)
Definition idb_mand_after_option (p : Z * wtap_optval_t)
           (m : wtapng_if_descr_mandatory_t) : wtapng_if_descr_mandatory_t :=
  if fst p =? OPT_IDB_TSRESOL then
    let units := if_tsresol_time_units (uint8val (snd p)) in
    set_time_units units (tsprecision_of_time_units units) m
  else m.

(** The time units of an interface with these options: those of its
    [if_tsresol], microseconds without one. *)
Definition idb_time_units (opts : wtap_options) : Z :=
  match get_uint8_option OPT_IDB_TSRESOL opts with
  | Some if_tsresol => if_tsresol_time_units if_tsresol
  | None => 1000000
  end.

(** The interface description block as it is read back. *)
Definition idb_as_read (env : wiretap_env) (denv : dump_env) (int_data : wtap_block_t)
  : wtap_block_t :=
  let m := if_descr_mandatory int_data in
  let units := idb_time_units (block_options int_data) in
  mkBlock (WTAP_BLOCK_IF_ID_AND_INFO
             (mkIfDescr (wtap_pcap_encap_to_wtap_encap env
                           (wtap_wtap_encap_to_pcap_encap denv (idb_wtap_encap m)))
                        units (tsprecision_of_time_units units) (idb_snap_len m) 0 []))
          (block_options int_data).

(** An Ethernet interface with a name, nanosecond time stamps, a
    capture filter, the FCS length and the speed. *)
Definition sample_idb_with_options : wtap_block_t :=
  mkBlock (WTAP_BLOCK_IF_ID_AND_INFO (mkIfDescr 1 1000000000 WTAP_TSPREC_NSEC 65535 0 []))
          [(OPT_IDB_NAME, OptString (bytes [0x65; 0x74; 0x68; 0x30]));
           (OPT_IDB_TSRESOL, OptUint8 9);
           (OPT_IDB_FILTER, OptIfFilter (if_filter_pcap (bytes [0x74; 0x63; 0x70])));
           (OPT_IDB_FCSLEN, OptUint8 4);
           (OPT_IDB_SPEED, OptUint64 1000000000)].

(** The same interface with a BPF program as its filter. *)
Definition sample_idb_with_bpf : wtap_block_t :=
  mkBlock (WTAP_BLOCK_IF_ID_AND_INFO (mkIfDescr 1 1000000 WTAP_TSPREC_USEC 65535 0 []))
          [(OPT_IDB_FILTER,
            OptIfFilter (if_filter_bpf [mkInsn 0x28 0 0 12; mkInsn 0x15 0 1 0x800;
                                        mkInsn 0x06 0 0 0xffff]))].

(** * Properties *)

(** ** The reader monad *)

Lemma bind_run {E A B} (m : reader E A) (k : A -> reader E B) fh a fh1 :
  m fh = Ok (a, fh1) -> bind m k fh = k a fh1.
Proof. intros H. unfold bind. now rewrite H. Qed.

Lemma bind_err {E A B} (m : reader E A) (k : A -> reader E B) fh e :
  m fh = Err e -> bind m k fh = Err e.
Proof. intros H. unfold bind. now rewrite H. Qed.

Lemma bind_ok {E A B} (m : reader E A) (k : A -> reader E B) fh b fh' :
  bind m k fh = Ok (b, fh') ->
  exists a fh1, m fh = Ok (a, fh1) /\ k a fh1 = Ok (b, fh').
Proof.
  unfold bind. destruct (m fh) as [[a fh1]|e]; [|discriminate].
  intros H. now exists a, fh1.
Qed.

Lemma map_err_ok {E F A} (f : E -> F) (m : reader E A) fh r :
  map_err f m fh = Ok r -> m fh = Ok r.
Proof. unfold map_err. destruct (m fh); congruence. Qed.

Lemma map_err_run {E F A} (f : E -> F) (m : reader E A) fh r :
  m fh = Ok r -> map_err f m fh = Ok r.
Proof. unfold map_err. now intros ->. Qed.

Lemma bind_assoc {E A B C} (m : reader E A) (k : A -> reader E B)
      (k2 : B -> reader E C) fh :
  bind (bind m k) k2 fh = bind m (fun a => bind (k a) k2) fh.
Proof. unfold bind. destruct (m fh) as [[a fh1]|e]; reflexivity. Qed.

Lemma bind_assoc_run {E A B C} (m : reader E A) (k : A -> reader E B)
      (k2 : B -> reader E C) fh a fh1 :
  m fh = Ok (a, fh1) -> bind (bind m k) k2 fh = bind (k a) k2 fh1.
Proof. unfold bind. now intros ->. Qed.

Lemma bind_ret {E A B} (a : A) (k : A -> reader E B) fh :
  bind (ret a) k fh = k a fh.
Proof. reflexivity. Qed.

(** Split a successful [bind] in hypothesis [H]. *)
Ltac bind_inv H :=
  let a := fresh "a" in
  let f := fresh "fh" in
  let H1 := fresh "Hm" in
  apply bind_ok in H; destruct H as (a & f & H1 & H).

Tactic Notation "bind_split" hyp(H) "as" simple_intropattern(a) ident(f) ident(H1) :=
  apply bind_ok in H; destruct H as (a & f & H1 & H).

(** ** Reading bytes *)

Lemma wtap_read_bytes_inv count fh raw fh' :
  wtap_read_bytes count fh = Ok (raw, fh') ->
  raw = firstn (Z.to_nat count) (skipn (file_pos fh) (file_data fh))
  /\ Z.of_nat (length raw) = count
  /\ fh' = mkFile (file_data fh) (file_pos fh + length raw).
Proof.
  unfold wtap_read_bytes, file_read.
  set (got := firstn _ _).
  destruct (Z.eqb_spec (Z.of_nat (length got)) count) as [E|E]; [|discriminate].
  intros H; inversion H; subst raw fh'; clear H.
  assert (Hgot : got = firstn (Z.to_nat count) (skipn (file_pos fh) (file_data fh))).
  { unfold got in *. rewrite length_firstn, length_skipn in E. unfold file_left in *.
    f_equal. lia. }
  rewrite <- Hgot. auto.
Qed.

Lemma wtap_read_bytes_or_eof_inv count fh raw fh' :
  wtap_read_bytes_or_eof count fh = Ok (raw, fh') ->
  wtap_read_bytes count fh = Ok (raw, fh').
Proof.
  unfold wtap_read_bytes_or_eof, wtap_read_bytes.
  destruct (file_read count fh) as [got fh1].
  destruct (Z.of_nat (length got) =? count); [auto|].
  destruct (0 <? Z.of_nat (length got)); discriminate.
Qed.

(** The bytes at an offset of the file are the bytes of a read there. *)
Lemma field_of_read (off n : nat) data pos count :
  (off + n <= count)%nat ->
  field off n (firstn count (skipn pos data)) = field (pos + off) n data.
Proof.
  intros H. unfold field. f_equal.
  rewrite skipn_firstn_comm, firstn_firstn, skipn_skipn.
  rewrite Nat.min_l by lia. f_equal. f_equal. lia.
Qed.

Lemma le_uint_field bs : le_uint bs = field 0 (length bs) bs.
Proof. unfold field. simpl. now rewrite firstn_all. Qed.

(** ** Time-stamp resolution of an interface *)




Lemma byte_val_range c : 0 <= byte_val c < 256.
Proof.
  unfold byte_val. pose proof (Byte.to_N_bounded c). lia.
Qed.


Lemma wtap_block_add_option_mand code v b :
  block_mand (wtap_block_add_option code v b) = block_mand b.
Proof.
  unfold wtap_block_add_option.
  now destruct (negb (code =? OPT_COMMENT) && option_present code (block_options b)).
Qed.


(** ** Loops *)

Lemma while_ind {E St R} (P : St -> Prop) (Q : R -> Prop) (out : E)
      (step : St -> reader E (St + R)) :
  (forall s fh s' fh', P s -> step s fh = Ok (inl s', fh') -> P s') ->
  (forall s fh r fh', P s -> step s fh = Ok (inr r, fh') -> Q r) ->
  forall n s fh r fh', P s -> while n out step s fh = Ok (r, fh') -> Q r.
Proof.
  intros Hstep Hexit. induction n as [|n IH]; intros s fh r fh' HP H; simpl in H.
  - discriminate.
  - destruct (step s fh) as [[[s'|r'] fh1]|e] eqn:Es; try discriminate.
    + eapply IH; [|exact H]. eapply Hstep; eauto.
    + inversion H; subst. eapply Hexit; eauto.
Qed.

Lemma option_loop_ind {E St} (P : St -> Prop) (out : E)
      (body : Z -> St -> reader E (Z * St)) :
  (forall to_read s fh to_read' s' fh',
      P s -> body to_read s fh = Ok ((to_read', s'), fh') -> P s') ->
  forall to_read s fh r fh',
    P s -> option_loop out body to_read s fh = Ok (r, fh') -> P r.
Proof.
  intros Hbody to_read s fh r fh' HP H. unfold option_loop in H.
  eapply (while_ind (fun st : Z * St => P (snd st)) P) in H; eauto.
  - intros [t s0] fh0 [t' s'] fh1 HP0 Hs. cbn [fst snd] in *.
    destruct (t =? 0); [discriminate|].
    bind_inv Hs. destruct a as [t1 s1]. inversion Hs; subst.
    eapply Hbody; eauto.
  - intros [t s0] fh0 r0 fh1 HP0 Hs. cbn [fst snd] in *.
    destruct (t =? 0).
    + inversion Hs; subst; auto.
    + bind_inv Hs. discriminate.
Qed.

Lemma wtap_read_bytes_advances count :
  0 < count -> advances (wtap_read_bytes count).
Proof.
  intros Hc fh raw fh' H. apply wtap_read_bytes_inv in H.
  destruct H as (Hraw & Hlen & ->). unfold file_left. cbn [file_data file_pos].
  assert (Hl : (length raw <= length (skipn (file_pos fh) (file_data fh)))%nat).
  { rewrite Hraw. rewrite length_firstn. lia. }
  rewrite length_skipn in Hl. lia.
Qed.

Lemma wtap_read_bytes_left count fh raw fh' :
  wtap_read_bytes count fh = Ok (raw, fh') ->
  (file_left fh' + length raw = file_left fh)%nat.
Proof.
  intros H. apply wtap_read_bytes_inv in H.
  destruct H as (Hraw & Hlen & ->). unfold file_left. cbn [file_data file_pos].
  assert (Hl : (length raw <= length (skipn (file_pos fh) (file_data fh)))%nat).
  { rewrite Hraw. rewrite length_firstn. lia. }
  rewrite length_skipn in Hl. lia.
Qed.

(** The bound of a loop is enough as soon as it exceeds the bytes left:
    a larger bound gives the same result. *)
Lemma while_bound_suffices {E St R} (out : E) (step : St -> reader E (St + R)) :
  (forall s fh s' fh', step s fh = Ok (inl s', fh') ->
                       (file_left fh' < file_left fh)%nat) ->
  forall n s fh, (file_left fh < n)%nat ->
    while n out step s fh = while (S (file_left fh)) out step s fh.
Proof.
  intros Hadv.
  assert (Hgen : forall m n s fh, (file_left fh < m)%nat -> (file_left fh < n)%nat ->
                                  while n out step s fh = while m out step s fh).
  { induction m as [|m IH]; intros n s fh Hm Hn; [lia|].
    destruct n as [|n]; [lia|]. simpl.
    destruct (step s fh) as [[[s'|r] fh1]|e] eqn:Es; auto.
    apply Hadv in Es. apply IH; lia. }
  intros n s fh Hn. apply Hgen; lia.
Qed.

(** With enough bound a loop whose turns advance never stops for lack of
    bound: it ends by its own exit or by an error of its step. *)
Lemma while_never_out_of_bound {E St R} (out : E) (step : St -> reader E (St + R)) :
  (forall s fh s' fh', step s fh = Ok (inl s', fh') ->
                       (file_left fh' < file_left fh)%nat) ->
  (forall s fh, step s fh <> Err out) ->
  forall n s fh, (file_left fh < n)%nat -> while n out step s fh <> Err out.
Proof.
  intros Hadv Hne. induction n as [|n IH]; intros s fh Hn; [lia|]. simpl.
  destruct (step s fh) as [[[s'|r] fh1]|e] eqn:Es.
  - apply Hadv in Es. apply IH. lia.
  - discriminate.
  - intros Heq. inversion Heq; subst. now apply (Hne s fh).
Qed.

(** ** Packet blocks *)

Lemma le_uint_bound bs : 0 <= le_uint bs < 256 ^ Z.of_nat (length bs).
Proof.
  induction bs as [|b r IH].
  - simpl. lia.
  - cbn [le_uint length]. rewrite Nat2Z.inj_succ, Z.pow_succ_r by lia.
    pose proof (byte_val_range b). lia.
Qed.

Lemma field_bound off n bs : 0 <= field off n bs < 256 ^ Z.of_nat n.
Proof.
  unfold field. pose proof (le_uint_bound (firstn n (skipn off bs))) as H.
  assert (Hl : (length (firstn n (skipn off bs)) <= n)%nat)
    by (rewrite length_firstn; lia).
  split; [lia|]. eapply Z.lt_le_trans; [apply H|].
  apply Z.pow_le_mono_r; lia.
Qed.

Lemma maybe_swap32_bound sw off bs : 0 <= maybe_swap32 sw (field off 4 bs) < 2 ^ 32.
Proof.
  unfold maybe_swap32. destruct sw.
  - unfold GUINT32_SWAP_LE_BE, guint32. apply Z.mod_pos_bound. lia.
  - apply (field_bound off 4 bs).
Qed.

Lemma maybe_swap16_bound sw off bs : 0 <= maybe_swap16 sw (field off 2 bs) < 2 ^ 16.
Proof.
  unfold maybe_swap16. destruct sw.
  - unfold GUINT16_SWAP_LE_BE, guint16. apply Z.mod_pos_bound. lia.
  - apply (field_bound off 2 bs).
Qed.

Lemma packet_option_core si buf to_read rec fcs fh to_read' rec' fcs' fh' :
  packet_option si buf to_read (rec, fcs) fh = Ok ((to_read', (rec', fcs')), fh') ->
  rec_core rec' = rec_core rec.
Proof.
  unfold packet_option. intros H. bind_inv H. destruct a as [[n oh] content].
  repeat match type of H with
         | (if ?c then _ else _) _ = _ => destruct c
         | context [match packet_verdict ?r with _ => _ end] =>
             destruct (packet_verdict r)
         end;
    try discriminate; inversion H; subst; reflexivity.
Qed.

Lemma read_packet_fixed_part_inv bh si enhanced fh packet n fh1 :
  read_packet_fixed_part bh si enhanced fh = Ok ((packet, n), fh1) ->
  exists raw,
    wtap_read_bytes 20 fh = Ok (raw, fh1)
    /\ p_interface_id packet =
         (if enhanced then maybe_swap32 (byte_swapped si) (field 0 4 raw)
          else maybe_swap16 (byte_swapped si) (field 0 2 raw))
    /\ p_ts_high packet = maybe_swap32 (byte_swapped si) (field 4 4 raw)
    /\ p_ts_low packet = maybe_swap32 (byte_swapped si) (field 8 4 raw)
    /\ p_cap_len packet = maybe_swap32 (byte_swapped si) (field 12 4 raw)
    /\ p_packet_len packet = maybe_swap32 (byte_swapped si) (field 16 4 raw).
Proof.
  unfold read_packet_fixed_part. destruct enhanced.
  - destruct (block_total_length bh <? MIN_EPB_SIZE); [discriminate|].
    intros H. bind_inv H. inversion H; subst. exists a. cbn. auto 10.
  - destruct (block_total_length bh <? MIN_PB_SIZE); [discriminate|].
    intros H. bind_inv H. inversion H; subst. exists a. cbn. auto 10.
Qed.

Section PacketFacts.

Variable env : wiretap_env.

Lemma pcapng_read_packet_block_inv bh si wblock enhanced fh w fh' :
  pcapng_read_packet_block env bh si wblock enhanced fh = Ok (w, fh') ->
  exists packet n fh1 phdr phl fh2,
    read_packet_fixed_part bh si enhanced fh = Ok ((packet, n), fh1)
    /\ p_interface_id packet < Z.of_nat (length (interfaces si))
    /\ pcap_process_pseudo_header env
         (wtap_encap (nth (Z.to_nat (p_interface_id packet)) (interfaces si)
                          (mkIface 0 0 0 0 0)))
         (p_cap_len packet) fh1 = Ok ((phdr, phl), fh2)
    /\ rec_core (wb_rec w) =
         (let iface := nth (Z.to_nat (p_interface_id packet)) (interfaces si)
                           (mkIface 0 0 0 0 0) in
          let ts := packet_ts (p_ts_high packet) (p_ts_low packet) in
          (p_interface_id packet,
           packet_ts_secs ts (time_units_per_second iface),
           packet_ts_nsecs ts (time_units_per_second iface),
           guint32 (p_cap_len packet - phl), guint32 (p_packet_len packet - phl),
           wtap_encap iface)).
Proof.
  unfold pcapng_read_packet_block. intros H.
  bind_split H as [packet n] fh1 Hfixed.
  destruct (padded_block_total_length bh <? _); [discriminate|].
  destruct (Z.geb_spec (p_interface_id packet) (Z.of_nat (length (interfaces si))))
    as [Hge|Hlt]; [discriminate|].
  destruct (p_cap_len packet >? _); [discriminate|].
  bind_split H as [phdr phl] fh2 Hphdr.
  bind_split H as data fh3 Hdata.
  bind_split H as pad fh4 Hpad.
  bind_split H as [rec fcs] fh5 Hloop.
  destruct (pcap_read_post_process env _ _ _ _ _) as [phdr' data'] eqn:Epp.
  inversion H; subst; clear H.
  exists packet, n, fh1, phdr, phl, fh2.
  repeat split; auto.
  eapply (option_loop_ind (fun st : wtap_rec * Z => rec_core (fst st) = _)) in Hloop.
  - cbn [fst] in Hloop. cbn. unfold rec_core in *. cbn in *. exact Hloop.
  - intros t [r1 f1] fh6 t' [r2 f2] fh7 HP Hb. cbn [fst] in *.
    apply packet_option_core in Hb. rewrite Hb. exact HP.
  - reflexivity.
Qed.

Lemma time_t_small x : 0 <= x < 2 ^ 63 -> time_t x = x.
Proof.
  intros H. unfold time_t, to_signed. rewrite Z.mod_small by lia.
  change (2 ^ (64 - 1)) with (2 ^ 63).
  destruct (Z.ltb_spec x (2 ^ 63)); lia.
Qed.

Lemma c_int_small x : 0 <= x < 2 ^ 31 -> c_int x = x.
Proof.
  intros H. unfold c_int, to_signed. rewrite Z.mod_small by lia.
  change (2 ^ (32 - 1)) with (2 ^ 31).
  destruct (Z.ltb_spec x (2 ^ 31)); lia.
Qed.

Lemma packet_ts_lor h l :
  0 <= h < 2 ^ 32 -> packet_ts h l = Z.lor (Z.shiftl h 32) l.
Proof.
  intros H. unfold packet_ts, guint64. rewrite Z.shiftl_mul_pow2 by lia.
  rewrite Z.mod_small by lia. reflexivity.
Qed.

Lemma packet_ts_nonneg h l : 0 <= h -> 0 <= l -> 0 <= Z.lor (Z.shiftl h 32) l.
Proof.
  intros Hh Hl. apply Z.lor_nonneg. split; [|assumption].
  apply Z.shiftl_nonneg. assumption.
Qed.

(** Seconds are exact while the quotient fits [time_t]. *)
Lemma packet_ts_secs_exact ts u :
  0 <= ts -> 0 < u -> ts / u < 2 ^ 63 -> packet_ts_secs ts u = ts / u.
Proof.
  intros Hts Hu Hq. unfold packet_ts_secs. apply time_t_small.
  split; [apply Z.div_pos; lia|assumption].
Qed.

(** Nanoseconds are exact while remainder times 10^9 fits 64 bits. *)
Lemma packet_ts_nsecs_exact ts u :
  0 < u -> (u - 1) * 10 ^ 9 < 2 ^ 64 ->
  packet_ts_nsecs ts u = (ts mod u) * 10 ^ 9 / u.
Proof.
  intros Hu Hfit. unfold packet_ts_nsecs.
  pose proof (Z.mod_pos_bound ts u Hu) as Hr.
  change 1000000000 with (10 ^ 9).
  unfold guint64. rewrite Z.mod_small by nia.
  apply c_int_small. split.
  - apply Z.div_pos; nia.
  - apply Z.lt_le_trans with (10 ^ 9); [|lia].
    apply Z.div_lt_upper_bound; nia.
Qed.

(** C4: an enhanced or obsolete packet block whose interface_id is not
    below the number of interfaces of its section fails as a bad file;
    when the block is read, the record's interface identifier is the
    block's interface_id (and is below that number). *)
Theorem packet_block_interface_id bh si wblock (enhanced : bool) fh raw fh1 :
  wtap_read_bytes 20 fh = Ok (raw, fh1) ->
  let id := if enhanced then maybe_swap32 (byte_swapped si) (field 0 4 raw)
            else maybe_swap16 (byte_swapped si) (field 0 2 raw) in
  (Z.of_nat (length (interfaces si)) <= id ->
   pcapng_read_packet_block env bh si wblock enhanced fh = Err WTAP_ERR_BAD_FILE)
  /\ (forall w fh',
         pcapng_read_packet_block env bh si wblock enhanced fh = Ok (w, fh') ->
         id < Z.of_nat (length (interfaces si))
         /\ interface_id (packet_header (wb_rec w)) = id).
Proof.
  intros Hraw id. split.
  - intros Hid. unfold pcapng_read_packet_block, read_packet_fixed_part.
    unfold bind at 1.
    destruct enhanced; change sizeof_epb with 20; change sizeof_pb with 20.
    + destruct (block_total_length bh <? MIN_EPB_SIZE); [reflexivity|].
      rewrite (bind_run _ _ _ _ _ Hraw). cbn [ret p_cap_len p_interface_id].
      destruct (padded_block_total_length bh <? _); [reflexivity|].
      subst id. destruct (Z.geb_spec (maybe_swap32 (byte_swapped si) (field 0 4 raw))
                                     (Z.of_nat (length (interfaces si)))); [reflexivity|lia].
    + destruct (block_total_length bh <? MIN_PB_SIZE); [reflexivity|].
      rewrite (bind_run _ _ _ _ _ Hraw). cbn [ret p_cap_len p_interface_id].
      destruct (padded_block_total_length bh <? _); [reflexivity|].
      subst id. destruct (Z.geb_spec (maybe_swap16 (byte_swapped si) (field 0 2 raw))
                                     (Z.of_nat (length (interfaces si)))); [reflexivity|lia].
  - intros w fh' H. apply pcapng_read_packet_block_inv in H.
    destruct H as (packet & n & fh2 & phdr & phl & fh3 & Hfixed & Hlt & _ & Hcore).
    apply read_packet_fixed_part_inv in Hfixed.
    destruct Hfixed as (raw' & Hraw' & Hid & _).
    rewrite Hraw in Hraw'. inversion Hraw'; subst raw'.
    unfold rec_core in Hcore. inversion Hcore. subst id. rewrite <- Hid. auto.
Qed.

(** C5 (amended): for an enhanced or obsolete packet block read with
    interface rate U, the time stamp is [(ts_high << 32) | ts_low]; the
    record's seconds are that value divided by U, converted to [time_t],
    hence the quotient itself while it is below 2^63; the nanoseconds are
    the remainder times 10^9, reduced modulo 2^64, divided by U and
    converted to [int], hence exactly remainder * 10^9 / U while
    (U - 1) * 10^9 fits 64 bits. *)
Theorem packet_block_timestamp bh si wblock (enhanced : bool) fh raw fh1 w fh' :
  wtap_read_bytes 20 fh = Ok (raw, fh1) ->
  pcapng_read_packet_block env bh si wblock enhanced fh = Ok (w, fh') ->
  let sw := byte_swapped si in
  let id := if enhanced then maybe_swap32 sw (field 0 4 raw)
            else maybe_swap16 sw (field 0 2 raw) in
  let U := time_units_per_second
             (nth (Z.to_nat id) (interfaces si) (mkIface 0 0 0 0 0)) in
  let ts_high := maybe_swap32 sw (field 4 4 raw) in
  let ts_low := maybe_swap32 sw (field 8 4 raw) in
  let ts := Z.lor (Z.shiftl ts_high 32) ts_low in
  ts_secs (wb_rec w) = time_t (ts / U)
  /\ ts_nsecs (wb_rec w) = c_int (guint64 ((ts mod U) * 10 ^ 9) / U)
  /\ (0 < U -> ts / U < 2 ^ 63 -> ts_secs (wb_rec w) = ts / U)
  /\ (0 < U -> (U - 1) * 10 ^ 9 < 2 ^ 64 ->
      ts_nsecs (wb_rec w) = (ts mod U) * 10 ^ 9 / U).
Proof.
  intros Hraw H. cbv zeta.
  apply pcapng_read_packet_block_inv in H.
  destruct H as (packet & n & fh2 & phdr & phl & fh3 & Hfixed & Hlt & _ & Hcore).
  apply read_packet_fixed_part_inv in Hfixed.
  destruct Hfixed as (raw' & Hraw' & Hid & Hhigh & Hlow & _).
  rewrite Hraw in Hraw'. inversion Hraw'; subst raw'.
  unfold rec_core in Hcore. cbv zeta in Hcore.
  injection Hcore as _ Hsecs Hnsecs _ _ _.
  rewrite <- Hid, <- Hhigh, <- Hlow, Hsecs, Hnsecs.
  assert (Hh : 0 <= p_ts_high packet < 2 ^ 32)
    by (rewrite Hhigh; apply maybe_swap32_bound).
  assert (Hl : 0 <= p_ts_low packet < 2 ^ 32)
    by (rewrite Hlow; apply maybe_swap32_bound).
  rewrite packet_ts_lor in * by assumption.
  pose proof (packet_ts_nonneg (p_ts_high packet) (p_ts_low packet)) as Hnn.
  repeat split.
  - intros HU Hq. apply packet_ts_secs_exact; lia.
  - intros HU Hfit. apply packet_ts_nsecs_exact; lia.
Qed.

End PacketFacts.

Lemma packet_block_interface_id_witness :
  pcapng_read_packet_block plain_env (mkBh BLOCK_TYPE_EPB 36) (one_iface 1000000)
    empty_wblock true (at_body (epb_le 7 0 0)) = Err WTAP_ERR_BAD_FILE
  /\ exists w fh',
      pcapng_read_packet_block plain_env (mkBh BLOCK_TYPE_EPB 36) (one_iface 1000000)
        empty_wblock true (at_body (epb_le 0 0 1000000)) = Ok (w, fh')
      /\ interface_id (packet_header (wb_rec w)) = 0.
Proof.
  split.
  - apply (proj1 (packet_block_interface_id plain_env (mkBh BLOCK_TYPE_EPB 36)
                    (one_iface 1000000) empty_wblock true (at_body (epb_le 7 0 0))
                    _ _ eq_refl)).
    vm_compute. discriminate.
  - destruct (pcapng_read_packet_block plain_env (mkBh BLOCK_TYPE_EPB 36)
                (one_iface 1000000) empty_wblock true (at_body (epb_le 0 0 1000000)))
      as [[w fh']|e] eqn:E.
    + exists w, fh'. split; [reflexivity|].
      apply (proj2 (packet_block_interface_id plain_env (mkBh BLOCK_TYPE_EPB 36)
                      (one_iface 1000000) empty_wblock true
                      (at_body (epb_le 0 0 1000000)) _ _ eq_refl) w fh' E).
    + vm_compute in E. discriminate.
Defined.

(** The claim C5 as stated fails: with the valid resolution 2^63 (option
    byte 0xBF) and the time stamp 2^62, the exact nanoseconds are
    500000000, and the reader returns 0. *)
Lemma packet_block_nsecs_not_exact :
  let capture := capture_with_tsresol 0xBF 0x40000000 0 in
  exists wth w off fh',
    pcapng_read plain_env (fst (opened capture)) empty_rec [] (snd (opened capture))
      = Ok (wth, w, off, fh')
    /\ map time_units_per_second
           (interfaces (nth 0 (sections (priv wth)) default_section)) = [2 ^ 63]
    /\ ts_nsecs (wb_rec w) = 0
    /\ (Z.lor (Z.shiftl 0x40000000 32) 0 mod 2 ^ 63) * 10 ^ 9 / 2 ^ 63 = 500000000.
Proof.
  cbv zeta.
  destruct (pcapng_read plain_env (fst (opened (capture_with_tsresol 0xBF 0x40000000 0)))
              empty_rec [] (snd (opened (capture_with_tsresol 0xBF 0x40000000 0))))
    as [[[[wth w] off] fh']|e] eqn:E.
  - exists wth, w, off, fh'. vm_compute in E. inversion E; subst.
    repeat split; vm_compute; reflexivity.
  - vm_compute in E. discriminate.
Qed.

Lemma packet_block_timestamp_witness :
  exists w fh',
    pcapng_read_packet_block plain_env (mkBh BLOCK_TYPE_EPB 36) (one_iface 1000000)
      empty_wblock true (at_body (epb_le 0 0 1000000)) = Ok (w, fh')
    /\ ts_secs (wb_rec w) = 1 /\ ts_nsecs (wb_rec w) = 0.
Proof.
  destruct (pcapng_read_packet_block plain_env (mkBh BLOCK_TYPE_EPB 36)
              (one_iface 1000000) empty_wblock true (at_body (epb_le 0 0 1000000)))
    as [[w fh']|e] eqn:E.
  - exists w, fh'. split; [reflexivity|].
    destruct (packet_block_timestamp plain_env (mkBh BLOCK_TYPE_EPB 36)
                (one_iface 1000000) empty_wblock true (at_body (epb_le 0 0 1000000))
                _ _ w fh' eq_refl E) as (_ & _ & Hs & Hn).
    split.
    + rewrite Hs; vm_compute; congruence.
    + rewrite Hn; vm_compute; congruence.
  - vm_compute in E. discriminate.
Defined.

(** ** Section header blocks *)

Section ShbFacts.

Variable env : wiretap_env.

Lemma section_header_block_body_inv shb bh si wblock fh bh' si' w fh' :
  section_header_block_body env shb bh si wblock fh = Ok ((bh', si', w), fh') ->
  (field 0 4 shb = 0x1A2B3C4D \/ field 0 4 shb = 0x4D3C2B1A)
  /\ byte_swapped si' = (field 0 4 shb =? 0x4D3C2B1A)
  /\ block_type bh' = block_type bh
  /\ block_total_length bh' = maybe_swap32 (byte_swapped si') (block_total_length bh)
  /\ version_major si' = maybe_swap16 (byte_swapped si') (field 4 2 shb)
  /\ version_minor si' = maybe_swap16 (byte_swapped si') (field 6 2 shb)
  /\ version_major si' = 1
  /\ (version_minor si' = 0 \/ version_minor si' = 2)
  /\ MIN_SHB_SIZE <= block_total_length bh' <= MAX_BLOCK_SIZE
  /\ wb_internal w = true.
Proof.
  unfold section_header_block_body. intros H.
  destruct (Z.eqb_spec (field 0 4 shb) 0x1A2B3C4D) as [E1|N1].
  - destruct (Z.ltb_spec (block_total_length bh) MIN_SHB_SIZE); [discriminate|].
    destruct (Z.gtb_spec (block_total_length bh) MAX_BLOCK_SIZE); [discriminate|].
    destruct (Z.eqb_spec (field 4 2 shb) 1) as [Ev|Nv]; [|discriminate].
    destruct (Z.eqb_spec (field 6 2 shb) 0) as [E0|N0];
      [|destruct (Z.eqb_spec (field 6 2 shb) 2) as [E2|N2]; [|discriminate]];
      cbn [negb andb orb] in H; bind_split H as blk fh2 Hloop;
      inversion H; subst; clear H;
      cbn [byte_swapped block_type block_total_length version_major version_minor
           wb_internal set_internal maybe_swap32 maybe_swap16];
      rewrite E1; change (0x1A2B3C4D =? 0x4D3C2B1A) with false; cbv iota;
      repeat split; auto; lia.
  - destruct (Z.eqb_spec (field 0 4 shb) 0x4D3C2B1A) as [E2|N2]; [|discriminate].
    cbn [block_total_length block_type] in H.
    destruct (Z.ltb_spec (GUINT32_SWAP_LE_BE (block_total_length bh)) MIN_SHB_SIZE);
      [discriminate|].
    destruct (Z.gtb_spec (GUINT32_SWAP_LE_BE (block_total_length bh)) MAX_BLOCK_SIZE);
      [discriminate|].
    destruct (Z.eqb_spec (GUINT16_SWAP_LE_BE (field 4 2 shb)) 1) as [Ev|Nv]; [|discriminate].
    destruct (Z.eqb_spec (GUINT16_SWAP_LE_BE (field 6 2 shb)) 0) as [E0|N0];
      [|destruct (Z.eqb_spec (GUINT16_SWAP_LE_BE (field 6 2 shb)) 2) as [E3|N3];
        [|discriminate]];
      cbn [negb andb orb] in H; bind_split H as blk fh2 Hloop;
      inversion H; subst; clear H;
      cbn [byte_swapped block_type block_total_length version_major version_minor
           wb_internal set_internal maybe_swap32 maybe_swap16];
      rewrite E2; change (0x4D3C2B1A =? 0x4D3C2B1A) with true; cbv iota;
      repeat split; auto; lia.
Qed.


Lemma shb_bad_magic bh si wblock fh shb fh1 :
  wtap_read_bytes 16 fh = Ok (shb, fh1) ->
  field 0 4 shb <> 0x1A2B3C4D -> field 0 4 shb <> 0x4D3C2B1A ->
  pcapng_read_section_header_block env bh si wblock fh
    = Err (PCAPNG_BLOCK_NOT_SHB, WTAP_ERR_BAD_FILE).
Proof.
  intros Hshb N1 N2. unfold pcapng_read_section_header_block.
  rewrite (bind_run _ _ _ _ _ (map_err_run _ _ _ _ Hshb)).
  unfold section_header_block_body.
  destruct (Z.eqb_spec (field 0 4 shb) 0x1A2B3C4D); [contradiction|].
  destruct (Z.eqb_spec (field 0 4 shb) 0x4D3C2B1A); [contradiction|].
  reflexivity.
Qed.

Lemma shb_option_order_only s1 s2 :
  byte_swapped s1 = byte_swapped s2 -> shb_option env s1 = shb_option env s2.
Proof.
  intros H. unfold shb_option, pcapng_read_option, pcap_process_unhandled_option.
  now rewrite H.
Qed.

(** The reader after the magic, in terms of the values in host order. *)
Lemma section_header_block_body_known_magic shb bh si wblock :
  let magic := field 0 4 shb in
  magic = 0x1A2B3C4D \/ magic = 0x4D3C2B1A ->
  let sw := magic =? 0x4D3C2B1A in
  let vmajor := maybe_swap16 sw (field 4 2 shb) in
  let vminor := maybe_swap16 sw (field 6 2 shb) in
  let total := maybe_swap32 sw (block_total_length bh) in
  section_header_block_body env shb bh si wblock =
    if total <? MIN_SHB_SIZE then raise (PCAPNG_BLOCK_ERROR, WTAP_ERR_BAD_FILE) else
    if total >? MAX_BLOCK_SIZE then raise (PCAPNG_BLOCK_ERROR, WTAP_ERR_BAD_FILE) else
    if negb ((vmajor =? 1) && ((vminor =? 0) || (vminor =? 2)))
    then raise (PCAPNG_BLOCK_ERROR, WTAP_ERR_UNSUPPORTED) else
    let section_info := mkSection sw vmajor vminor (interfaces si) (shb_off si) in
    block <- option_loop (PCAPNG_BLOCK_ERROR, ERR_LOOP_BOUND)
               (shb_option env section_info (guint32 (total - MIN_SHB_SIZE)))
               (guint32 (total - MIN_SHB_SIZE))
               (mkBlock (WTAP_BLOCK_SECTION (maybe_swap64 sw (field 8 8 shb))) []) ;;
    ret (mkBh (block_type bh) total, section_info,
         set_internal true (set_block (Some block) wblock)).
Proof.
  intros magic Hmagic. unfold section_header_block_body. fold magic.
  destruct Hmagic as [E|E]; rewrite E.
  - change (0x1A2B3C4D =? 0x1A2B3C4D) with true.
    change (0x1A2B3C4D =? 0x4D3C2B1A) with false.
    cbv iota zeta. cbn [maybe_swap16 maybe_swap32 maybe_swap64].
    destruct bh; reflexivity.
  - change (0x4D3C2B1A =? 0x1A2B3C4D) with false.
    change (0x4D3C2B1A =? 0x4D3C2B1A) with true.
    cbv iota zeta. cbn [maybe_swap16 maybe_swap32 maybe_swap64 block_total_length].
    reflexivity.
Qed.

(** A section header block with a known magic is accepted when its total
    length is within bounds, its version is 1.0 or 1.2 and its options
    are read; the options are read the same way whatever minor version
    the section records. *)
Lemma section_header_block_accepted bh si wblock fh shb fh1 sw minor block fh' :
  wtap_read_bytes 16 fh = Ok (shb, fh1) ->
  (sw = false /\ field 0 4 shb = 0x1A2B3C4D)
  \/ (sw = true /\ field 0 4 shb = 0x4D3C2B1A) ->
  MIN_SHB_SIZE <= maybe_swap32 sw (block_total_length bh) <= MAX_BLOCK_SIZE ->
  maybe_swap16 sw (field 4 2 shb) = 1 ->
  maybe_swap16 sw (field 6 2 shb) = 0 \/ maybe_swap16 sw (field 6 2 shb) = 2 ->
  option_loop (PCAPNG_BLOCK_ERROR, ERR_LOOP_BOUND)
    (shb_option env (mkSection sw 1 minor (interfaces si) (shb_off si))
       (guint32 (maybe_swap32 sw (block_total_length bh) - MIN_SHB_SIZE)))
    (guint32 (maybe_swap32 sw (block_total_length bh) - MIN_SHB_SIZE))
    (mkBlock (WTAP_BLOCK_SECTION (maybe_swap64 sw (field 8 8 shb))) []) fh1
  = Ok (block, fh') ->
  pcapng_read_section_header_block env bh si wblock fh
  = Ok ((mkBh (block_type bh) (maybe_swap32 sw (block_total_length bh)),
         mkSection sw 1 (maybe_swap16 sw (field 6 2 shb)) (interfaces si) (shb_off si),
         set_internal true (set_block (Some block) wblock)), fh').
Proof.
  intros Hshb Hmagic Hlen Hmaj Hmin Hloop.
  assert (Hknown : field 0 4 shb = 0x1A2B3C4D \/ field 0 4 shb = 0x4D3C2B1A)
    by (destruct Hmagic as [[_ E]|[_ E]]; auto).
  assert (Hsw : (field 0 4 shb =? 0x4D3C2B1A) = sw)
    by (destruct Hmagic as [[-> E]|[-> E]]; rewrite E; reflexivity).
  unfold pcapng_read_section_header_block.
  rewrite (bind_run _ _ _ _ _ (map_err_run _ _ _ _ Hshb)).
  rewrite (section_header_block_body_known_magic shb bh si wblock Hknown).
  cbv zeta. rewrite Hsw, Hmaj.
  destruct (Z.ltb_spec (maybe_swap32 sw (block_total_length bh)) MIN_SHB_SIZE); [lia|].
  destruct (Z.gtb_spec (maybe_swap32 sw (block_total_length bh)) MAX_BLOCK_SIZE); [lia|].
  assert (Hv : negb ((1 =? 1) && ((maybe_swap16 sw (field 6 2 shb) =? 0)
                                  || (maybe_swap16 sw (field 6 2 shb) =? 2))) = false)
    by (destruct Hmin as [E|E]; rewrite E; reflexivity).
  rewrite Hv.
  rewrite (shb_option_order_only
             (mkSection sw 1 (maybe_swap16 sw (field 6 2 shb)) (interfaces si) (shb_off si))
             (mkSection sw 1 minor (interfaces si) (shb_off si)) eq_refl).
  now rewrite (bind_run _ _ _ _ _ Hloop).
Qed.

(** C3: the magic of a section header block is compared as read from the
    file.  With 0x1A2B3C4D the block is read in the native byte order and
    its total length is left as read; with 0x4D3C2B1A it is read in the
    swapped order and its total length is byte-swapped: in both cases the
    block is accepted, with that byte order recorded for the section,
    when the total length is within bounds, the version is 1.0 or 1.2
    and the options are read.  Nothing else is accepted: with any other
    magic the block is rejected as "not an SHB", which [pcapng_open]
    reports as "not a pcapng file" with no error. *)
Theorem shb_magic_byte_order bh si wblock fh shb fh1 :
  wtap_read_bytes 16 fh = Ok (shb, fh1) ->
  (forall sw block fh',
      (sw = false /\ field 0 4 shb = 0x1A2B3C4D)
      \/ (sw = true /\ field 0 4 shb = 0x4D3C2B1A) ->
      MIN_SHB_SIZE <= maybe_swap32 sw (block_total_length bh) <= MAX_BLOCK_SIZE ->
      maybe_swap16 sw (field 4 2 shb) = 1 ->
      maybe_swap16 sw (field 6 2 shb) = 0 \/ maybe_swap16 sw (field 6 2 shb) = 2 ->
      option_loop (PCAPNG_BLOCK_ERROR, ERR_LOOP_BOUND)
        (shb_option env
           (mkSection sw 1 (maybe_swap16 sw (field 6 2 shb)) (interfaces si) (shb_off si))
           (guint32 (maybe_swap32 sw (block_total_length bh) - MIN_SHB_SIZE)))
        (guint32 (maybe_swap32 sw (block_total_length bh) - MIN_SHB_SIZE))
        (mkBlock (WTAP_BLOCK_SECTION (maybe_swap64 sw (field 8 8 shb))) []) fh1
      = Ok (block, fh') ->
      pcapng_read_section_header_block env bh si wblock fh
      = Ok ((mkBh (block_type bh) (maybe_swap32 sw (block_total_length bh)),
             mkSection sw 1 (maybe_swap16 sw (field 6 2 shb)) (interfaces si) (shb_off si),
             set_internal true (set_block (Some block) wblock)), fh'))
  /\ (forall bh' si' w fh',
         pcapng_read_section_header_block env bh si wblock fh = Ok ((bh', si', w), fh') ->
         (field 0 4 shb = 0x1A2B3C4D /\ byte_swapped si' = false
          /\ block_total_length bh' = block_total_length bh)
         \/ (field 0 4 shb = 0x4D3C2B1A /\ byte_swapped si' = true
             /\ block_total_length bh' = GUINT32_SWAP_LE_BE (block_total_length bh)))
  /\ (field 0 4 shb <> 0x1A2B3C4D -> field 0 4 shb <> 0x4D3C2B1A ->
      pcapng_read_section_header_block env bh si wblock fh
        = Err (PCAPNG_BLOCK_NOT_SHB, WTAP_ERR_BAD_FILE)
      /\ forall wth fh0 raw,
          wtap_read_bytes_or_eof 8 fh0 = Ok (raw, fh) ->
          field 0 4 raw = BLOCK_TYPE_SHB ->
          pcapng_open env wth fh0 = (WTAP_OPEN_NOT_MINE, ERR_NONE, wth, None)).
Proof.
  intros Hshb. split; [|split].
  - intros sw block fh' Hmagic Hlen Hmaj Hmin Hloop.
    now apply (section_header_block_accepted bh si wblock fh shb fh1 sw
                 (maybe_swap16 sw (field 6 2 shb)) block fh').
  - intros bh' si' w fh' H. unfold pcapng_read_section_header_block in H.
    rewrite (bind_run _ _ _ _ _ (map_err_run _ _ _ _ Hshb)) in H.
    apply section_header_block_body_inv in H.
    destruct H as (Hmagic & Hsw & _ & Hlen & _).
    destruct Hmagic as [E|E]; [left|right]; rewrite E in Hsw;
      rewrite Hsw in Hlen; auto.
  - intros N1 N2. split; [now apply (shb_bad_magic bh si wblock fh shb fh1)|].
    intros wth fh0 raw Hhdr Htype. unfold pcapng_open.
    change sizeof_block_header with 8. rewrite Hhdr.
    cbn [block_type]. rewrite Htype, Z.eqb_refl. cbn [negb].
    now rewrite (shb_bad_magic _ default_section _ fh shb fh1 Hshb N1 N2).
Qed.

(** C8 (amended): a section header block with a known magic and a total
    length within bounds whose version is neither 1.0 nor 1.2 fails, and
    the error is "unsupported"; versions 1.0 and 1.2 are both accepted
    and treated alike: when the options of the block are read - which
    does not depend on the minor version - the block is accepted with
    either minor version, and the results differ in the minor version
    recorded for the section only. *)
Theorem shb_version_check bh si wblock fh shb fh1 :
  wtap_read_bytes 16 fh = Ok (shb, fh1) ->
  let magic := field 0 4 shb in
  magic = 0x1A2B3C4D \/ magic = 0x4D3C2B1A ->
  let sw := magic =? 0x4D3C2B1A in
  let vmajor := maybe_swap16 sw (field 4 2 shb) in
  let vminor := maybe_swap16 sw (field 6 2 shb) in
  let total := maybe_swap32 sw (block_total_length bh) in
  MIN_SHB_SIZE <= total <= MAX_BLOCK_SIZE ->
  (~ (vmajor = 1 /\ (vminor = 0 \/ vminor = 2)) ->
   pcapng_read_section_header_block env bh si wblock fh
     = Err (PCAPNG_BLOCK_ERROR, WTAP_ERR_UNSUPPORTED))
  /\ (vmajor = 1 -> vminor = 0 \/ vminor = 2 ->
      forall block fh',
        option_loop (PCAPNG_BLOCK_ERROR, ERR_LOOP_BOUND)
          (shb_option env (mkSection sw 1 0 (interfaces si) (shb_off si))
             (guint32 (total - MIN_SHB_SIZE)))
          (guint32 (total - MIN_SHB_SIZE))
          (mkBlock (WTAP_BLOCK_SECTION (maybe_swap64 sw (field 8 8 shb))) []) fh1
        = Ok (block, fh') ->
        pcapng_read_section_header_block env bh si wblock fh
        = Ok ((mkBh (block_type bh) total,
               mkSection sw 1 vminor (interfaces si) (shb_off si),
               set_internal true (set_block (Some block) wblock)), fh')).
Proof.
  intros Hshb magic Hmagic sw vmajor vminor total Hlen.
  pose proof (section_header_block_body_known_magic shb bh si wblock Hmagic) as Hbody.
  cbv zeta in Hbody. fold magic sw vmajor vminor total in Hbody.
  split.
  - destruct (Z.ltb_spec total MIN_SHB_SIZE); [lia|].
    destruct (Z.gtb_spec total MAX_BLOCK_SIZE); [lia|].
    intros Hv. unfold pcapng_read_section_header_block.
    rewrite (bind_run _ _ _ _ _ (map_err_run _ _ _ _ Hshb)), Hbody.
    assert (Hneg : negb ((vmajor =? 1) && ((vminor =? 0) || (vminor =? 2))) = true).
    { destruct (Z.eqb_spec vmajor 1); destruct (Z.eqb_spec vminor 0);
        destruct (Z.eqb_spec vminor 2); cbn; auto; exfalso; apply Hv; auto. }
    now rewrite Hneg.
  - intros Hmaj Hmin block fh' Hloop.
    apply (section_header_block_accepted bh si wblock fh shb fh1 sw 0 block fh');
      auto.
    destruct Hmagic as [E|E]; [left|right]; (split; [unfold sw; rewrite E; reflexivity|exact E]).
Qed.

End ShbFacts.

Lemma shb_magic_byte_order_witness :
  pcapng_open plain_env fresh_wtap (open_file bad_magic_shb)
    = (WTAP_OPEN_NOT_MINE, ERR_NONE, fresh_wtap, None)
  /\ pcapng_read_section_header_block plain_env (mkBh BLOCK_TYPE_SHB 0x1C000000)
       default_section empty_wblock (at_body (shb_be 1 0))
     = Ok ((mkBh BLOCK_TYPE_SHB 28, mkSection true 1 0 [] 0,
            set_internal true
              (set_block (Some (mkBlock (WTAP_BLOCK_SECTION (2 ^ 64 - 1)) []))
                         empty_wblock)),
           mkFile (shb_be 1 0) 24)
  /\ pcapng_read_section_header_block plain_env (mkBh BLOCK_TYPE_SHB 28)
       default_section empty_wblock (at_body (shb_le 1 0))
     = Ok ((mkBh BLOCK_TYPE_SHB 28, mkSection false 1 0 [] 0,
            set_internal true
              (set_block (Some (mkBlock (WTAP_BLOCK_SECTION (2 ^ 64 - 1)) []))
                         empty_wblock)),
           mkFile (shb_le 1 0) 24).
Proof.
  split; [|split].
  - refine (proj2 (proj2 (proj2 (shb_magic_byte_order plain_env (mkBh BLOCK_TYPE_SHB 28)
                             default_section empty_wblock (at_body bad_magic_shb)
                             _ _ eq_refl)) _ _)
                   fresh_wtap (open_file bad_magic_shb) (firstn 8 bad_magic_shb)
                   eq_refl eq_refl);
      vm_compute; discriminate.
  - apply (proj1 (shb_magic_byte_order plain_env (mkBh BLOCK_TYPE_SHB 0x1C000000)
                    default_section empty_wblock (at_body (shb_be 1 0)) _ _ eq_refl)
                 true (mkBlock (WTAP_BLOCK_SECTION (2 ^ 64 - 1)) [])
                 (mkFile (shb_be 1 0) 24)).
    + right. split; reflexivity.
    + vm_compute. split; discriminate.
    + reflexivity.
    + left. reflexivity.
    + reflexivity.
  - apply (proj1 (shb_magic_byte_order plain_env (mkBh BLOCK_TYPE_SHB 28)
                    default_section empty_wblock (at_body (shb_le 1 0)) _ _ eq_refl)
                 false (mkBlock (WTAP_BLOCK_SECTION (2 ^ 64 - 1)) [])
                 (mkFile (shb_le 1 0) 24)).
    + left. split; reflexivity.
    + vm_compute. split; discriminate.
    + reflexivity.
    + left. reflexivity.
    + reflexivity.
Defined.

(** The claim C8 as stated fails: version 2.0 is refused with the error
    "unsupported", not "bad file". *)
Lemma shb_version_error_is_not_bad_file :
  pcapng_read_block plain_env (mkFileInfo 0 0) false false default_section
    default_section empty_wblock (open_file (shb_le 2 0))
    = Err WTAP_ERR_UNSUPPORTED
  /\ pcapng_open plain_env fresh_wtap (open_file (shb_le 2 0))
     = (WTAP_OPEN_ERROR, WTAP_ERR_UNSUPPORTED, fresh_wtap, None)
  /\ WTAP_ERR_UNSUPPORTED <> WTAP_ERR_BAD_FILE.
Proof.
  repeat split; try (vm_compute; reflexivity). discriminate.
Qed.

Lemma shb_version_check_witness :
  pcapng_read_section_header_block plain_env (mkBh BLOCK_TYPE_SHB 28) default_section
    empty_wblock (at_body (shb_le 2 0)) = Err (PCAPNG_BLOCK_ERROR, WTAP_ERR_UNSUPPORTED)
  /\ pcapng_read_section_header_block plain_env (mkBh BLOCK_TYPE_SHB 28) default_section
       empty_wblock (at_body (shb_le 1 0))
     = Ok ((mkBh BLOCK_TYPE_SHB 28, mkSection false 1 0 [] 0,
            set_internal true
              (set_block (Some (mkBlock (WTAP_BLOCK_SECTION (2 ^ 64 - 1)) []))
                         empty_wblock)),
           mkFile (shb_le 1 0) 24)
  /\ pcapng_read_section_header_block plain_env (mkBh BLOCK_TYPE_SHB 28) default_section
       empty_wblock (at_body (shb_le 1 2))
     = Ok ((mkBh BLOCK_TYPE_SHB 28, mkSection false 1 2 [] 0,
            set_internal true
              (set_block (Some (mkBlock (WTAP_BLOCK_SECTION (2 ^ 64 - 1)) []))
                         empty_wblock)),
           mkFile (shb_le 1 2) 24).
Proof.
  split; [|split].
  - apply (proj1 (shb_version_check plain_env (mkBh BLOCK_TYPE_SHB 28) default_section
                    empty_wblock (at_body (shb_le 2 0)) _ _ eq_refl
                    (or_introl eq_refl) ltac:(vm_compute; split; discriminate))).
    vm_compute. intros [H _]. discriminate.
  - apply (proj2 (shb_version_check plain_env (mkBh BLOCK_TYPE_SHB 28) default_section
                    empty_wblock (at_body (shb_le 1 0)) _ _ eq_refl
                    (or_introl eq_refl) ltac:(vm_compute; split; discriminate))
                 eq_refl (or_introl eq_refl)
                 (mkBlock (WTAP_BLOCK_SECTION (2 ^ 64 - 1)) []) (mkFile (shb_le 1 0) 24)).
    reflexivity.
  - apply (proj2 (shb_version_check plain_env (mkBh BLOCK_TYPE_SHB 28) default_section
                    empty_wblock (at_body (shb_le 1 2)) _ _ eq_refl
                    (or_introl eq_refl) ltac:(vm_compute; split; discriminate))
                 eq_refl (or_intror eq_refl)
                 (mkBlock (WTAP_BLOCK_SECTION (2 ^ 64 - 1)) []) (mkFile (shb_le 1 2) 24)).
    reflexivity.
Defined.

(** ** Simple packet blocks *)

Section SimplePacketFacts.

Variable env : wiretap_env.

Lemma simple_packet_cap_len_min packet_len snap :
  simple_packet_cap_len packet_len snap =
    if snap =? 0 then packet_len else Z.min packet_len snap.
Proof.
  unfold simple_packet_cap_len.
  destruct (Z.gtb_spec packet_len snap); destruct (Z.eqb_spec snap 0); cbn; lia.
Qed.

(** C7: a simple packet block read in a section without interfaces fails
    as a bad file.  Read in a section with interfaces, its captured length
    is the packet length when interface 0 has snapshot length 0 and the
    smaller of the packet length and that snapshot length otherwise: when
    the block is long enough for so many bytes, they do not exceed the
    largest snapshot length of the encapsulation, and the pseudo-header,
    the packet bytes and their padding are there to read, the block is
    accepted, so many bytes of packet data are read, and the record's
    captured length is that number less the pseudo-header the bytes begin
    with.  No simple packet block is accepted otherwise. *)
Theorem simple_packet_block_cap_len bh si wblock fh spb fh1 :
  wtap_read_bytes 4 fh = Ok (spb, fh1) ->
  (interfaces si = [] ->
   pcapng_read_simple_packet_block env bh si wblock fh = Err WTAP_ERR_BAD_FILE)
  /\ (forall iface others phdr phl fh2 data fh3 pad fh4,
         interfaces si = iface :: others ->
         let packet_len := maybe_swap32 (byte_swapped si) (field 0 4 spb) in
         let cap_len := if snap_len iface =? 0 then packet_len
                        else Z.min packet_len (snap_len iface) in
         MIN_SPB_SIZE <= block_total_length bh ->
         guint32 (MIN_SPB_SIZE + cap_len + data_padding cap_len)
           <= padded_block_total_length bh ->
         cap_len <= wtap_max_snaplen_for_encap env (wtap_encap iface) ->
         pcap_process_pseudo_header env (wtap_encap iface) cap_len fh1
           = Ok ((phdr, phl), fh2) ->
         wtap_read_packet_bytes cap_len fh2 = Ok (data, fh3) ->
         (if negb (cap_len mod 4 =? 0) then wtap_read_bytes (4 - cap_len mod 4)
          else ret []) fh3 = Ok (pad, fh4) ->
         exists w,
           pcapng_read_simple_packet_block env bh si wblock fh = Ok (w, fh4)
           /\ wb_internal w = false
           /\ Z.of_nat (length data) = cap_len
           /\ caplen (packet_header (wb_rec w)) = guint32 (cap_len - phl)
           /\ len (packet_header (wb_rec w)) = guint32 (packet_len - phl))
  /\ (forall w fh',
         pcapng_read_simple_packet_block env bh si wblock fh = Ok (w, fh') ->
         exists iface others,
           interfaces si = iface :: others
           /\ let packet_len := maybe_swap32 (byte_swapped si) (field 0 4 spb) in
              let cap_len := if snap_len iface =? 0 then packet_len
                             else Z.min packet_len (snap_len iface) in
              exists phdr phl fh2 data fh3,
                pcap_process_pseudo_header env (wtap_encap iface) cap_len fh1
                  = Ok ((phdr, phl), fh2)
                /\ wtap_read_packet_bytes cap_len fh2 = Ok (data, fh3)
                /\ Z.of_nat (length data) = cap_len
                /\ caplen (packet_header (wb_rec w)) = guint32 (cap_len - phl)
                /\ len (packet_header (wb_rec w)) = guint32 (packet_len - phl)).
Proof.
  intros Hspb. split; [|split].
  - intros Hnil. unfold pcapng_read_simple_packet_block.
    destruct (block_total_length bh <? MIN_SPB_SIZE); [reflexivity|].
    change sizeof_spb with 4. rewrite (bind_run _ _ _ _ _ Hspb).
    rewrite Hnil. reflexivity.
  - intros iface others phdr phl fh2 data fh3 pad fh4 Hifs packet_len cap_len
           Hmin Hfits Hmax Hphdr Hdata Hpad.
    unfold pcapng_read_simple_packet_block.
    destruct (Z.ltb_spec (block_total_length bh) MIN_SPB_SIZE) as [Hlt|_]; [lia|].
    change sizeof_spb with 4. rewrite (bind_run _ _ _ _ _ Hspb).
    rewrite Hifs. cbn [length nth].
    destruct (Z.geb_spec 0 (Z.of_nat (S (length others)))) as [Hge|_]; [lia|].
    rewrite simple_packet_cap_len_min. fold packet_len. fold cap_len.
    destruct (Z.ltb_spec (padded_block_total_length bh)
                (guint32 (MIN_SPB_SIZE + cap_len + data_padding cap_len)))
      as [Hlt|_]; [lia|].
    destruct (Z.gtb_spec cap_len (wtap_max_snaplen_for_encap env (wtap_encap iface)))
      as [Hgt|_]; [lia|].
    rewrite (bind_run _ _ _ _ _ Hphdr). cbv beta iota.
    rewrite (bind_run _ _ _ _ _ Hdata).
    rewrite (bind_run _ _ _ _ _ Hpad).
    destruct (pcap_read_post_process env _ _ _ _ _) as [phdr' data'].
    eexists. split; [reflexivity|]. split; [reflexivity|].
    split; [apply wtap_read_bytes_inv in Hdata; tauto|].
    split; reflexivity.
  - intros w fh' H. unfold pcapng_read_simple_packet_block in H.
    destruct (block_total_length bh <? MIN_SPB_SIZE); [discriminate|].
    change sizeof_spb with 4 in H. rewrite (bind_run _ _ _ _ _ Hspb) in H.
    destruct (interfaces si) as [|iface others] eqn:Eifs; [discriminate|].
    cbn [length nth] in H.
    destruct (0 >=? Z.of_nat (S (length others))) eqn:E0; [discriminate|].
    rewrite simple_packet_cap_len_min in H.
    set (packet_len := maybe_swap32 (byte_swapped si) (field 0 4 spb)) in *.
    set (cap_len := if snap_len iface =? 0 then packet_len
                    else Z.min packet_len (snap_len iface)) in *.
    destruct (padded_block_total_length bh <? _); [discriminate|].
    destruct (cap_len >? _); [discriminate|].
    bind_split H as [phdr phl] fh2 Hphdr.
    bind_split H as data fh3 Hdata.
    bind_split H as pad fh4 Hpad.
    destruct (pcap_read_post_process env _ _ _ _ _) as [phdr' data'].
    inversion H; subst; clear H.
    exists iface, others. split; [reflexivity|].
    exists phdr, phl, fh2, data, fh3. repeat split; auto.
    apply wtap_read_bytes_inv in Hdata. tauto.
Qed.

End SimplePacketFacts.

Lemma simple_packet_block_cap_len_witness :
  pcapng_read_simple_packet_block plain_env (mkBh BLOCK_TYPE_SPB 20) default_section
    empty_wblock (at_body (spb_le 4 (bytes [1; 2; 3; 4]))) = Err WTAP_ERR_BAD_FILE
  /\ (exists w,
         pcapng_read_simple_packet_block plain_env (mkBh BLOCK_TYPE_SPB 20)
           (mkSection false 1 0 [mkIface 1 0 1000000 6 (-1)] 0)
           empty_wblock (at_body (spb_le 4 (bytes [1; 2; 3; 4])))
         = Ok (w, mkFile (spb_le 4 (bytes [1; 2; 3; 4])) 16)
         /\ caplen (packet_header (wb_rec w)) = 4)
  /\ (exists w,
         pcapng_read_simple_packet_block plain_env (mkBh BLOCK_TYPE_SPB 20)
           (mkSection false 1 0 [mkIface 1 2 1000000 6 (-1)] 0)
           empty_wblock (at_body (spb_le 4 (bytes [1; 2; 3; 4])))
         = Ok (w, mkFile (spb_le 4 (bytes [1; 2; 3; 4])) 16)
         /\ caplen (packet_header (wb_rec w)) = 2).
Proof.
  split; [|split].
  - apply (proj1 (simple_packet_block_cap_len plain_env (mkBh BLOCK_TYPE_SPB 20)
                    default_section empty_wblock
                    (at_body (spb_le 4 (bytes [1; 2; 3; 4]))) _ _ eq_refl)).
    reflexivity.
  - destruct (proj1 (proj2 (simple_packet_block_cap_len plain_env
                       (mkBh BLOCK_TYPE_SPB 20)
                       (mkSection false 1 0 [mkIface 1 0 1000000 6 (-1)] 0)
                       empty_wblock (at_body (spb_le 4 (bytes [1; 2; 3; 4])))
                       _ _ eq_refl))
                (mkIface 1 0 1000000 6 (-1)) [] [] 0
                (mkFile (spb_le 4 (bytes [1; 2; 3; 4])) 12)
                (bytes [1; 2; 3; 4])
                (mkFile (spb_le 4 (bytes [1; 2; 3; 4])) 16) []
                (mkFile (spb_le 4 (bytes [1; 2; 3; 4])) 16)
                eq_refl ltac:(vm_compute; discriminate) ltac:(vm_compute; discriminate)
                ltac:(vm_compute; discriminate) eq_refl eq_refl eq_refl)
      as (w & Hw & _ & _ & Hcap & _).
    exists w. split; [exact Hw|]. rewrite Hcap. reflexivity.
  - destruct (proj1 (proj2 (simple_packet_block_cap_len plain_env
                       (mkBh BLOCK_TYPE_SPB 20)
                       (mkSection false 1 0 [mkIface 1 2 1000000 6 (-1)] 0)
                       empty_wblock (at_body (spb_le 4 (bytes [1; 2; 3; 4])))
                       _ _ eq_refl))
                (mkIface 1 2 1000000 6 (-1)) [] [] 0
                (mkFile (spb_le 4 (bytes [1; 2; 3; 4])) 12)
                (bytes [1; 2])
                (mkFile (spb_le 4 (bytes [1; 2; 3; 4])) 14) (bytes [3; 4])
                (mkFile (spb_le 4 (bytes [1; 2; 3; 4])) 16)
                eq_refl ltac:(vm_compute; discriminate) ltac:(vm_compute; discriminate)
                ltac:(vm_compute; discriminate) eq_refl eq_refl eq_refl)
      as (w & Hw & _ & _ & Hcap & _).
    exists w. split; [exact Hw|]. rewrite Hcap. reflexivity.
Defined.

Example simple_packet_snap_len_zero_keeps_packet_len :
  exists w fh',
    pcapng_read_simple_packet_block plain_env (mkBh BLOCK_TYPE_SPB 20)
      (mkSection false 1 0 [mkIface 1 0 1000000 6 (-1)] 0)
      empty_wblock (at_body (spb_le 4 (bytes [1; 2; 3; 4]))) = Ok (w, fh')
    /\ caplen (packet_header (wb_rec w)) = 4.
Proof. eexists. eexists. split; vm_compute; reflexivity. Qed.

Example simple_packet_snap_len_limits :
  exists w fh',
    pcapng_read_simple_packet_block plain_env (mkBh BLOCK_TYPE_SPB 20)
      (mkSection false 1 0 [mkIface 1 2 1000000 6 (-1)] 0)
      empty_wblock (at_body (spb_le 4 (bytes [1; 2; 3; 4]))) = Ok (w, fh')
    /\ caplen (packet_header (wb_rec w)) = 2.
Proof. eexists. eexists. split; vm_compute; reflexivity. Qed.

(** ** Writing string options *)

(** A string longer than 65535 bytes is dropped: nothing is written and
    the writer reports success. *)
Lemma pcapng_write_option_string_too_long wdh option_id str :
  65535 < strlen str -> pcapng_write_option_string wdh option_id str = Ok wdh.
Proof.
  intros H. unfold pcapng_write_option_string.
  destruct (Z.eqb_spec (strlen str) 0); [reflexivity|].
  destruct (Z.gtb_spec (strlen str) 65535); [reflexivity|lia].
Qed.

(** For a string that fits, the writer emits the option header, the
    string and its padding: four bytes more than the size computed by
    [pcapng_compute_option_string_size]. *)
Lemma pcapng_write_option_string_size wdh option_id str :
  0 < strlen str <= 65535 ->
  exists wdh',
    pcapng_write_option_string wdh option_id str = Ok wdh'
    /\ Z.of_nat (length (dump_out wdh')) =
         Z.of_nat (length (dump_out wdh)) + 4 + pcapng_compute_option_string_size str
    /\ bytes_dumped wdh' =
         bytes_dumped wdh + 4 + pcapng_compute_option_string_size str.
Proof.
  intros H. unfold pcapng_write_option_string, pcapng_compute_option_string_size.
  destruct (Z.eqb_spec (strlen str) 0); [lia|].
  destruct (Z.gtb_spec (strlen str) 65535); [lia|].
  unfold guint32. change (2 ^ 32) with 4294967296.
  rewrite (Z.mod_small (strlen str) 4294967296) by lia.
  change 0xffff with (Z.ones 16). rewrite Z.land_ones by lia.
  change (2 ^ 16) with 65536.
  rewrite (Z.mod_small (strlen str) 65536) by lia.
  pose proof (Z.mod_pos_bound (strlen str) 4 ltac:(lia)) as Hm.
  unfold wtap_dump_file_write, add_bytes_dumped. cbn [dump_out bytes_dumped wdh_shb_hdrs].
  destruct (Z.eqb_spec (strlen str mod 4) 0) as [E|E]; cbn [negb].
  - change (0 =? 0) with true. cbn [negb]. eexists. split; [reflexivity|].
    cbn [dump_out bytes_dumped]. rewrite !length_app. cbn [length le_bytes].
    rewrite (Z.mod_small (strlen str + 0)) by lia. unfold strlen in *. split; lia.
  - destruct (Z.eqb_spec (4 - strlen str mod 4) 0); [lia|]. cbn [negb].
    eexists. split; [reflexivity|].
    cbn [dump_out bytes_dumped]. rewrite !length_app, repeat_length. cbn [length le_bytes].
    rewrite (Z.mod_small (strlen str + (4 - strlen str mod 4))) by lia.
    unfold strlen in *. split; lia.
Qed.

(** C9: the writer drops a string longer than 65535 bytes, but the sizer
    still counts it when its length is not a multiple of 65536: for the
    comment of 65537 bytes the writer emits nothing and reports success,
    the sizer adds 8 bytes to the block size, and the section header block
    written with that comment declares 40 bytes in its total-length field
    while only 32 bytes are written. *)
Theorem long_string_option_size_mismatch :
  pcapng_write_option_string (fresh_dumper []) OPT_COMMENT long_comment
    = Ok (fresh_dumper [])
  /\ compute_shb_option_size OPT_COMMENT (OptString long_comment) 0 = 8
  /\ exists wdh,
      pcapng_write_section_header_block (fresh_dumper [shb_with_comment long_comment])
        = Ok wdh
      /\ field 4 4 (dump_out wdh) = 40
      /\ length (dump_out wdh) = 32%nat
      /\ bytes_dumped wdh = 32.
Proof.
  split; [vm_compute; reflexivity|].
  split; [vm_compute; reflexivity|].
  assert (H : match pcapng_write_section_header_block
                      (fresh_dumper [shb_with_comment long_comment]) with
              | Ok wdh => (field 4 4 (dump_out wdh) =? 40)
                          && (Z.of_nat (length (dump_out wdh)) =? 32)
                          && (bytes_dumped wdh =? 32)
              | Err _ => false
              end = true) by (vm_compute; reflexivity).
  destruct (pcapng_write_section_header_block
              (fresh_dumper [shb_with_comment long_comment])) as [wdh|e];
    [|discriminate].
  exists wdh. split; [reflexivity|].
  apply andb_prop in H. destruct H as [H H3].
  apply andb_prop in H. destruct H as [H1 H2].
  apply Z.eqb_eq in H1, H2, H3. repeat split; auto. lia.
Qed.

(** ** Block framing *)

Lemma pcapng_read_and_check_block_trailer_spec bh si fh raw fh' :
  wtap_read_bytes 4 fh = Ok (raw, fh') ->
  pcapng_read_and_check_block_trailer bh si fh =
    if maybe_swap32 (byte_swapped si) (le_uint raw) =? block_total_length bh
    then Ok (tt, fh') else Err WTAP_ERR_BAD_FILE.
Proof.
  intros H. unfold pcapng_read_and_check_block_trailer.
  rewrite (bind_run _ _ _ _ _ H).
  now destruct (maybe_swap32 (byte_swapped si) (le_uint raw) =? block_total_length bh).
Qed.

Lemma pcapng_read_and_check_block_trailer_ok bh si fh u fh' :
  pcapng_read_and_check_block_trailer bh si fh = Ok (u, fh') ->
  (4 <= file_pos fh')%nat
  /\ maybe_swap32 (byte_swapped si) (field (file_pos fh' - 4) 4 (file_data fh'))
     = block_total_length bh.
Proof.
  unfold pcapng_read_and_check_block_trailer. intros H.
  bind_split H as raw fh1 Hraw.
  destruct (Z.eqb_spec (maybe_swap32 (byte_swapped si) (le_uint raw))
                       (block_total_length bh)) as [E|E]; [|discriminate].
  inversion H; subst. apply wtap_read_bytes_inv in Hraw.
  destruct Hraw as (Hraw & Hlen & ->). cbn [file_pos file_data].
  assert (Hl : length raw = 4%nat) by lia. rewrite Hl.
  split; [lia|]. rewrite <- E. unfold field.
  replace (file_pos fh + 4 - 4)%nat with (file_pos fh) by lia.
  now rewrite Hraw.
Qed.

(** What the part of [pcapng_read_block] before the trailer check leaves:
    the total length in host order and the byte order used for it. *)
Lemma pcapng_read_block_ok env wth a4 a6 si nsi wblock fh r fh' :
  pcapng_read_block env wth a4 a6 si nsi wblock fh = Ok (r, fh') ->
  exists bh sw fh2,
    sw = (if field (file_pos fh) 4 (file_data fh) =? BLOCK_TYPE_SHB
          then byte_swapped (res_new_section r) else byte_swapped si)
    /\ block_total_length bh
       = maybe_swap32 sw (field (file_pos fh + 4) 4 (file_data fh))
    /\ pcapng_read_and_check_block_trailer bh
         (if field (file_pos fh) 4 (file_data fh) =? BLOCK_TYPE_SHB
          then res_new_section r else si) fh2 = Ok (tt, fh').
Proof.
  unfold pcapng_read_block. intros H.
  bind_split H as raw fh1 Hhdr.
  apply wtap_read_bytes_or_eof_inv, wtap_read_bytes_inv in Hhdr.
  destruct Hhdr as (Hraw & Hlen & Hfh1).
  assert (Ht : field 0 4 raw = field (file_pos fh) 4 (file_data fh)).
  { rewrite Hraw. change (Z.to_nat sizeof_block_header) with 8%nat.
    rewrite field_of_read by lia. f_equal. lia. }
  assert (Hl : field 4 4 raw = field (file_pos fh + 4) 4 (file_data fh)).
  { rewrite Hraw. change (Z.to_nat sizeof_block_header) with 8%nat.
    now rewrite field_of_read by lia. }
  bind_split H as [[bh' si'] result] fh2 Hbody.
  bind_split H as u fh3 Htr. destruct u. inversion H; subst r fh3; clear H.
  cbn [block_type block_total_length] in Hbody. rewrite Ht in Hbody. rewrite <- Hl.
  destruct (field (file_pos fh) 4 (file_data fh) =? BLOCK_TYPE_SHB).
  - bind_split Hbody as [[bh2 nsi2] wb2] fh4 Hshb.
    inversion Hbody; subst; clear Hbody. apply map_err_ok in Hshb.
    unfold pcapng_read_section_header_block in Hshb.
    bind_split Hshb as shb fh5 Hfix.
    apply section_header_block_body_inv in Hshb.
    destruct Hshb as (_ & _ & _ & Hlen2 & _).
    exists bh', (byte_swapped si'), fh2. cbn [res_new_section]. auto.
  - set (bh0 := if byte_swapped si then _ else _) in Hbody.
    destruct (block_total_length bh0 >? MAX_BLOCK_SIZE); [discriminate|].
    bind_split Hbody as [[wth' wb'] calls] fh4 Hd.
    inversion Hbody; subst; clear Hbody.
    exists bh0, (byte_swapped si'), fh2. repeat split; auto.
    unfold bh0, maybe_swap32. now destruct (byte_swapped si').
Qed.

(** C1: the block trailer.  After the body of a block the reader reads
    four bytes, byte-swaps them when the section is byte-swapped, and
    fails as a bad file when the value differs from the total length of
    the block header; a block is accepted only with a trailer equal to the
    total length of its header. *)
Theorem block_trailer_checked :
  (forall bh si fh raw fh',
      wtap_read_bytes 4 fh = Ok (raw, fh') ->
      pcapng_read_and_check_block_trailer bh si fh =
        if maybe_swap32 (byte_swapped si) (le_uint raw) =? block_total_length bh
        then Ok (tt, fh') else Err WTAP_ERR_BAD_FILE)
  /\ (forall env wth a4 a6 si nsi wblock fh r fh',
         pcapng_read_block env wth a4 a6 si nsi wblock fh = Ok (r, fh') ->
         let sw := if field (file_pos fh) 4 (file_data fh) =? BLOCK_TYPE_SHB
                   then byte_swapped (res_new_section r) else byte_swapped si in
         (4 <= file_pos fh')%nat
         /\ maybe_swap32 sw (field (file_pos fh' - 4) 4 (file_data fh'))
            = maybe_swap32 sw (field (file_pos fh + 4) 4 (file_data fh))).
Proof.
  split.
  - exact pcapng_read_and_check_block_trailer_spec.
  - intros env wth a4 a6 si nsi wblock fh r fh' H sw.
    apply pcapng_read_block_ok in H.
    destruct H as (bh & sw' & fh2 & Hsw & Hlen & Htr). fold sw in Hsw. subst sw'.
    apply pcapng_read_and_check_block_trailer_ok in Htr.
    destruct Htr as (Hpos & Heq). split; [exact Hpos|].
    rewrite <- Hlen, <- Heq. unfold sw.
    now destruct (field (file_pos fh) 4 (file_data fh) =? BLOCK_TYPE_SHB).
Qed.

Lemma block_trailer_checked_witness :
  pcapng_read_and_check_block_trailer (mkBh 0x00000BAD 12) default_section
    (open_file (u32le 13)) = Err WTAP_ERR_BAD_FILE
  /\ exists r fh',
      pcapng_read_block plain_env (mkFileInfo 0 0) false false default_section
        default_section empty_wblock (open_file (shb_be 1 0)) = Ok (r, fh')
      /\ (4 <= file_pos fh')%nat
      /\ maybe_swap32 (byte_swapped (res_new_section r))
           (field (file_pos fh' - 4) 4 (file_data fh'))
         = maybe_swap32 (byte_swapped (res_new_section r)) (field 4 4 (shb_be 1 0)).
Proof.
  split.
  - rewrite (proj1 block_trailer_checked (mkBh 0x00000BAD 12) default_section
               (open_file (u32le 13)) (u32le 13) (mkFile (u32le 13) 4) eq_refl).
    reflexivity.
  - destruct (pcapng_read_block plain_env (mkFileInfo 0 0) false false default_section
                default_section empty_wblock (open_file (shb_be 1 0)))
      as [[r fh']|e] eqn:E.
    + exists r, fh'. split; [reflexivity|].
      exact (proj2 block_trailer_checked plain_env (mkFileInfo 0 0) false false
               default_section default_section empty_wblock
               (open_file (shb_be 1 0)) r fh' E).
    + vm_compute in E. discriminate.
Defined.

(** A block whose body is read but whose trailer differs from the total
    length of its header is refused as a bad file. *)
Lemma pcapng_read_block_bad_trailer env wth a4 a6 si nsi wblock fh raw fh1 :
  wtap_read_bytes_or_eof 8 fh = Ok (raw, fh1) ->
  forall bh sw fh2 traw fh3,
    (field 0 4 raw <> BLOCK_TYPE_SHB /\
     sw = byte_swapped si /\
     bh = mkBh (maybe_swap32 sw (field 0 4 raw)) (maybe_swap32 sw (field 4 4 raw)) /\
     block_total_length bh <= MAX_BLOCK_SIZE /\
     exists x,
       read_block_dispatch env wth a4 a6 bh si
         (set_type (block_type bh) (set_block None wblock)) fh1 = Ok (x, fh2))
    \/ (field 0 4 raw = BLOCK_TYPE_SHB /\
        exists si' w,
          sw = byte_swapped si' /\
          pcapng_read_section_header_block env (mkBh (field 0 4 raw) (field 4 4 raw)) nsi
            (set_type (field 0 4 raw) (set_block None wblock)) fh1
          = Ok ((bh, si', w), fh2)) ->
    wtap_read_bytes 4 fh2 = Ok (traw, fh3) ->
    maybe_swap32 sw (le_uint traw) <> block_total_length bh ->
    pcapng_read_block env wth a4 a6 si nsi wblock fh = Err WTAP_ERR_BAD_FILE.
Proof.
  intros Hhdr bh sw fh2 traw fh3 Hbody Htr Hne.
  unfold pcapng_read_block. change sizeof_block_header with 8.
  rewrite (bind_run _ _ _ _ _ Hhdr). cbn [block_type block_total_length].
  assert (Htrailer : forall s0, sw = byte_swapped s0 ->
            pcapng_read_and_check_block_trailer bh s0 fh2 = Err WTAP_ERR_BAD_FILE).
  { intros s0 Hs0. rewrite (pcapng_read_and_check_block_trailer_spec _ _ _ _ _ Htr).
    rewrite <- Hs0.
    destruct (Z.eqb_spec (maybe_swap32 sw (le_uint traw)) (block_total_length bh));
      [contradiction|reflexivity]. }
  destruct Hbody as [(Htype & Hsw & Hbh & Hmax & x & Hd)
                    |(Htype & si' & w & Hsw & Hshb)].
  - destruct (Z.eqb_spec (field 0 4 raw) BLOCK_TYPE_SHB); [contradiction|].
    assert (Hbh' : (if byte_swapped si
                    then mkBh (GUINT32_SWAP_LE_BE (field 0 4 raw))
                              (GUINT32_SWAP_LE_BE (field 4 4 raw))
                    else mkBh (field 0 4 raw) (field 4 4 raw)) = bh).
    { subst bh sw. unfold maybe_swap32. now destruct (byte_swapped si). }
    rewrite Hbh'.
    destruct (Z.gtb_spec (block_total_length bh) MAX_BLOCK_SIZE); [lia|].
    destruct x as [[wth' wb'] calls].
    erewrite bind_run; [|erewrite bind_run; [|exact Hd]; reflexivity].
    cbv beta iota. apply bind_err. now apply Htrailer.
  - rewrite Htype in *. rewrite Z.eqb_refl.
    erewrite bind_run;
      [|erewrite bind_run; [|apply map_err_run; exact Hshb]; reflexivity].
    cbv beta iota. apply bind_err. now apply Htrailer.
Qed.

Example mismatched_trailer_is_bad_file :
  pcapng_read_block plain_env (mkFileInfo 0 0) false false default_section
    default_section empty_wblock
    (open_file (u32le 0x00000BAD ++ u32le 12 ++ u32le 16))
  = Err WTAP_ERR_BAD_FILE.
Proof. vm_compute. reflexivity. Qed.

(** ** Bounds on the total length of a block *)

Lemma padded_block_total_length_round bh :
  0 <= block_total_length bh <= MAX_BLOCK_SIZE ->
  padded_block_total_length bh = 4 * ((block_total_length bh + 3) / 4).
Proof.
  intros H. unfold padded_block_total_length.
  change MAX_BLOCK_SIZE with 134348832 in H.
  pose proof (Z.mod_pos_bound (block_total_length bh) 4 ltac:(lia)) as Hm.
  pose proof (Z.div_mod (block_total_length bh) 4 ltac:(lia)) as Hd.
  destruct (Z.eqb_spec (block_total_length bh mod 4) 0) as [E|E]; cbn [negb].
  - rewrite E in Hd.
    replace (block_total_length bh + 3) with (3 + block_total_length bh / 4 * 4) by lia.
    rewrite Z.div_add by lia. change (3 / 4) with 0. lia.
  - unfold guint32. change (2 ^ 32) with 4294967296. rewrite Z.mod_small by lia.
    replace (block_total_length bh + 3)
      with ((block_total_length bh mod 4 - 1) + (block_total_length bh / 4 + 1) * 4) by lia.
    rewrite Z.div_add by lia. rewrite (Z.div_small (block_total_length bh mod 4 - 1)) by lia.
    lia.
Qed.

Section FramingFacts.

Variable env : wiretap_env.

(** Every block reader but that of the decryption secrets block begins by
    checking the total length against its minimum, which is 12 or more. *)
Lemma read_block_dispatch_too_short wth a4 a6 bh si wblock fh :
  block_total_length bh < 12 ->
  block_type bh <> BLOCK_TYPE_DSB ->
  read_block_dispatch env wth a4 a6 bh si wblock fh = Err WTAP_ERR_BAD_FILE.
Proof.
  intros Hlen Hdsb.
  assert (Hlt : forall m, 12 <= m -> (block_total_length bh <? m) = true)
    by (intros m Hm; apply Z.ltb_lt; lia).
  unfold read_block_dispatch.
  destruct (block_type bh =? BLOCK_TYPE_IDB).
  { apply bind_err. unfold pcapng_read_if_descr_block.
    now rewrite Hlt by (vm_compute; discriminate). }
  destruct (block_type bh =? BLOCK_TYPE_PB).
  { apply bind_err. unfold pcapng_read_packet_block. apply bind_err.
    unfold read_packet_fixed_part. now rewrite Hlt by (vm_compute; discriminate). }
  destruct (block_type bh =? BLOCK_TYPE_SPB).
  { apply bind_err. unfold pcapng_read_simple_packet_block.
    now rewrite Hlt by (vm_compute; discriminate). }
  destruct (block_type bh =? BLOCK_TYPE_EPB).
  { apply bind_err. unfold pcapng_read_packet_block. apply bind_err.
    unfold read_packet_fixed_part. now rewrite Hlt by (vm_compute; discriminate). }
  destruct (block_type bh =? BLOCK_TYPE_NRB).
  { apply bind_err. unfold pcapng_read_name_resolution_block.
    now rewrite Hlt by (vm_compute; discriminate). }
  destruct (block_type bh =? BLOCK_TYPE_ISB).
  { apply bind_err. unfold pcapng_read_interface_statistics_block.
    now rewrite Hlt by (vm_compute; discriminate). }
  destruct (Z.eqb_spec (block_type bh) BLOCK_TYPE_DSB); [contradiction|].
  destruct ((block_type bh =? BLOCK_TYPE_SYSDIG_EVENT)
            || (block_type bh =? BLOCK_TYPE_SYSDIG_EVENT_V2)).
  { apply bind_err. unfold pcapng_read_sysdig_event_block.
    destruct (block_type bh =? BLOCK_TYPE_SYSDIG_EVENT_V2);
      now rewrite Hlt by (vm_compute; discriminate). }
  destruct (block_type bh =? BLOCK_TYPE_SYSTEMD_JOURNAL).
  { apply bind_err. unfold pcapng_read_systemd_journal_export_block.
    now rewrite Hlt by (vm_compute; discriminate). }
  apply bind_err. unfold pcapng_read_unknown_block.
  now rewrite Hlt by (vm_compute; discriminate).
Qed.

(** A block of a type without a [case] of its own and without a handler:
    the body is skipped, up to the total length rounded up to a multiple
    of four, and the trailer must repeat the total length as it is. *)
Lemma pcapng_read_block_unknown wth a4 a6 si nsi wblock fh raw fh1 body fh2 tr fh3 :
  wtap_read_bytes_or_eof 8 fh = Ok (raw, fh1) ->
  field 0 4 raw <> BLOCK_TYPE_SHB ->
  known_block_type (maybe_swap32 (byte_swapped si) (field 0 4 raw)) = false ->
  block_handlers env (maybe_swap32 (byte_swapped si) (field 0 4 raw)) = None ->
  12 <= maybe_swap32 (byte_swapped si) (field 4 4 raw) <= MAX_BLOCK_SIZE ->
  wtap_read_bytes
    (4 * ((maybe_swap32 (byte_swapped si) (field 4 4 raw) + 3) / 4) - 12) fh1
    = Ok (body, fh2) ->
  wtap_read_bytes 4 fh2 = Ok (tr, fh3) ->
  maybe_swap32 (byte_swapped si) (le_uint tr)
    = maybe_swap32 (byte_swapped si) (field 4 4 raw) ->
  pcapng_read_block env wth a4 a6 si nsi wblock fh
  = Ok (mkResult wth nsi
          (set_internal true
             (set_type (maybe_swap32 (byte_swapped si) (field 0 4 raw))
                       (set_block None wblock)))
          (mkCalls [] []), fh3).
Proof.
  intros Hhdr Hshb Hknown Hnone Hlen Hbody Htr Hsame.
  set (t := maybe_swap32 (byte_swapped si) (field 0 4 raw)) in *.
  set (total := maybe_swap32 (byte_swapped si) (field 4 4 raw)) in *.
  unfold pcapng_read_block. change sizeof_block_header with 8.
  rewrite (bind_run _ _ _ _ _ Hhdr). cbn [block_type block_total_length].
  destruct (Z.eqb_spec (field 0 4 raw) BLOCK_TYPE_SHB); [contradiction|].
  set (bh := if byte_swapped si then _ else _).
  assert (Hbh : bh = mkBh t total).
  { unfold bh, t, total, maybe_swap32. now destruct (byte_swapped si). }
  rewrite Hbh. cbn [block_type block_total_length].
  destruct (Z.gtb_spec total MAX_BLOCK_SIZE) as [Hgt|_]; [lia|].
  assert (Hdisp :
    read_block_dispatch env wth a4 a6 (mkBh t total) si
      (set_type t (set_block None wblock)) fh1
    = Ok ((wth, set_internal true (set_type t (set_block None wblock)), mkCalls [] []),
          fh2)).
  { unfold known_block_type in Hknown.
    repeat match type of Hknown with
           | _ || _ = false => apply orb_false_elim in Hknown; destruct Hknown as [Hknown ?]
           end.
    unfold read_block_dispatch. cbn [block_type].
    repeat match goal with
           | H : (t =? _) = false |- _ => rewrite H; clear H
           end.
    cbn [orb]. cbv beta iota zeta.
    unfold pcapng_read_unknown_block. cbn [block_total_length block_type].
    destruct (Z.ltb_spec total MIN_BLOCK_SIZE) as [Hlt|_];
      [change MIN_BLOCK_SIZE with 12 in Hlt; lia|].
    rewrite Hnone.
    rewrite (padded_block_total_length_round (mkBh t total))
      by (cbn [block_total_length]; lia).
    cbn [block_total_length]. change MIN_BLOCK_SIZE with 12.
    assert (Hq : 12 <= 4 * ((total + 3) / 4) < 2 ^ 32).
    { change MAX_BLOCK_SIZE with 134348832 in Hlen. change (2 ^ 32) with 4294967296.
      pose proof (Z.div_mod (total + 3) 4 ltac:(lia)).
      pose proof (Z.mod_pos_bound (total + 3) 4 ltac:(lia)). lia. }
    unfold guint32. rewrite Z.mod_small by lia.
    rewrite !bind_assoc. rewrite (bind_run _ _ _ _ _ Hbody).
    reflexivity. }
  rewrite !bind_assoc. rewrite (bind_run _ _ _ _ _ Hdisp). cbv beta iota.
  unfold bind at 1. cbn [ret]. cbv beta iota.
  pose proof (pcapng_read_and_check_block_trailer_spec (mkBh t total) si _ _ _ Htr)
    as Hcheck.
  rewrite Hsame in Hcheck. cbn [block_total_length] in Hcheck.
  rewrite Z.eqb_refl in Hcheck. cbn [negb] in Hcheck.
  now rewrite (bind_run _ _ _ _ _ Hcheck).
Qed.

(** C2 (amended): for a block that is not a section header block the
    reader refuses a total length above [MAX_BLOCK_SIZE] as a bad file,
    and, for every block type but the decryption secrets block, a total
    length below 12; a section header block with a known magic is refused
    as a bad file when its total length is below [MIN_SHB_SIZE] or above
    [MAX_BLOCK_SIZE].  Whether the total length is a multiple of four is
    not checked: a block of a type without a [case] of its own and
    without a handler, of a total length from 12 to [MAX_BLOCK_SIZE], is
    accepted whatever that length is modulo four, when the file holds the
    total length rounded up to a multiple of four, less twelve, bytes of
    body, which are skipped, and a trailer that repeats the total length
    as it is. *)
Theorem block_total_length_bounds wth a4 a6 si nsi wblock fh raw fh1 :
  wtap_read_bytes_or_eof 8 fh = Ok (raw, fh1) ->
  let sw := byte_swapped si in
  let t := maybe_swap32 sw (field 0 4 raw) in
  let total := maybe_swap32 sw (field 4 4 raw) in
  (field 0 4 raw <> BLOCK_TYPE_SHB ->
   (MAX_BLOCK_SIZE < total \/ (total < 12 /\ t <> BLOCK_TYPE_DSB)) ->
   pcapng_read_block env wth a4 a6 si nsi wblock fh = Err WTAP_ERR_BAD_FILE)
  /\ (field 0 4 raw = BLOCK_TYPE_SHB ->
      forall shb fh2,
        wtap_read_bytes 16 fh1 = Ok (shb, fh2) ->
        field 0 4 shb = 0x1A2B3C4D \/ field 0 4 shb = 0x4D3C2B1A ->
        let shb_total := maybe_swap32 (field 0 4 shb =? 0x4D3C2B1A) (field 4 4 raw) in
        shb_total < MIN_SHB_SIZE \/ MAX_BLOCK_SIZE < shb_total ->
        pcapng_read_block env wth a4 a6 si nsi wblock fh = Err WTAP_ERR_BAD_FILE)
  /\ (field 0 4 raw <> BLOCK_TYPE_SHB ->
      known_block_type t = false ->
      block_handlers env t = None ->
      12 <= total <= MAX_BLOCK_SIZE ->
      forall body fh2 tr fh3,
        wtap_read_bytes (4 * ((total + 3) / 4) - 12) fh1 = Ok (body, fh2) ->
        wtap_read_bytes 4 fh2 = Ok (tr, fh3) ->
        maybe_swap32 sw (le_uint tr) = total ->
        pcapng_read_block env wth a4 a6 si nsi wblock fh
        = Ok (mkResult wth nsi
                (set_internal true (set_type t (set_block None wblock)))
                (mkCalls [] []), fh3)).
Proof.
  intros Hhdr sw t total. split; [|split].
  - intros Htype Hbad. unfold pcapng_read_block.
    change sizeof_block_header with 8. rewrite (bind_run _ _ _ _ _ Hhdr).
    cbn [block_type block_total_length].
    destruct (Z.eqb_spec (field 0 4 raw) BLOCK_TYPE_SHB); [contradiction|].
    apply bind_err.
    set (bh := if byte_swapped si then _ else _).
    assert (Hbt : block_type bh = t /\ block_total_length bh = total).
    { unfold bh, t, total, sw, maybe_swap32. now destruct (byte_swapped si). }
    destruct Hbt as [Hbt Hbl]. rewrite Hbl.
    destruct (Z.gtb_spec total MAX_BLOCK_SIZE) as [Hgt|Hle]; [reflexivity|].
    destruct Hbad as [Hbig|[Hsmall Hdsb]]; [lia|].
    apply bind_err. apply read_block_dispatch_too_short; congruence.
  - intros Htype shb fh2 Hshb Hmagic shb_total Hbad. unfold pcapng_read_block.
    change sizeof_block_header with 8. rewrite (bind_run _ _ _ _ _ Hhdr).
    cbn [block_type block_total_length]. rewrite Htype, Z.eqb_refl.
    apply bind_err. apply bind_err. unfold map_err.
    unfold pcapng_read_section_header_block.
    rewrite (bind_run _ _ _ _ _ (map_err_run _ _ _ _ Hshb)).
    rewrite (section_header_block_body_known_magic env shb _ _ _ Hmagic).
    cbn [block_total_length]. fold shb_total.
    destruct (Z.ltb_spec shb_total MIN_SHB_SIZE); [reflexivity|].
    destruct (Z.gtb_spec shb_total MAX_BLOCK_SIZE); [reflexivity|lia].
  - intros Htype Hknown Hnone Hlen body fh2 tr fh3 Hbody Htr Hsame.
    now apply (pcapng_read_block_unknown wth a4 a6 si nsi wblock fh raw fh1
                 body fh2 tr fh3).
Qed.

End FramingFacts.

(** The claim C2 as stated fails: a block whose total length 13 is not a
    multiple of four is accepted. *)
Lemma odd_total_length_accepted :
  field 4 4 odd_unknown_block = 13
  /\ 13 mod 4 <> 0
  /\ exists r,
      pcapng_read_block plain_env (mkFileInfo 0 0) false false default_section
        default_section empty_wblock (open_file odd_unknown_block)
      = Ok (r, mkFile odd_unknown_block 16)
      /\ wb_type (res_wblock r) = 0x00000BAD.
Proof.
  split; [reflexivity|]. split; [discriminate|].
  eexists. split; vm_compute; reflexivity.
Qed.

Lemma block_total_length_bounds_witness :
  pcapng_read_block plain_env (mkFileInfo 0 0) false false default_section
    default_section empty_wblock
    (open_file (u32le BLOCK_TYPE_EPB ++ u32le 8 ++ u32le 8))
  = Err WTAP_ERR_BAD_FILE
  /\ pcapng_read_block plain_env (mkFileInfo 0 0) false false default_section
       default_section empty_wblock (open_file odd_unknown_block)
     = Ok (mkResult (mkFileInfo 0 0) default_section
             (set_internal true (set_type 0x00000BAD (set_block None empty_wblock)))
             (mkCalls [] []),
           mkFile odd_unknown_block 16).
Proof.
  split.
  - apply (proj1 (block_total_length_bounds plain_env (mkFileInfo 0 0) false false
                    default_section default_section empty_wblock
                    (open_file (u32le BLOCK_TYPE_EPB ++ u32le 8 ++ u32le 8))
                    _ _ eq_refl)).
    + vm_compute. discriminate.
    + right. split; vm_compute; [reflexivity|discriminate].
  - apply (proj2 (proj2 (block_total_length_bounds plain_env (mkFileInfo 0 0)
                    false false default_section default_section empty_wblock
                    (open_file odd_unknown_block) _ _ eq_refl))
                 ltac:(vm_compute; discriminate) eq_refl eq_refl
                 ltac:(vm_compute; split; discriminate)
                 (bytes [0x55; 0; 0; 0]) (mkFile odd_unknown_block 12)
                 (u32le 13) (mkFile odd_unknown_block 16)
                 eq_refl eq_refl eq_refl).
Defined.

(** ** Interface statistics blocks *)

Lemma process_option_mand_string b oh c n :
  block_mand (pcapng_process_string_option b oh c n) = block_mand b.
Proof.
  unfold pcapng_process_string_option.
  destruct ((0 <? option_length oh) && (option_length oh <? n)); auto.
  apply wtap_block_add_option_mand.
Qed.

Lemma process_option_mand_timestamp b si oh c n :
  block_mand (pcapng_process_timestamp_option b si oh c n) = block_mand b.
Proof.
  unfold pcapng_process_timestamp_option.
  destruct ((option_length oh =? 8) && (option_length oh <? n)); auto.
  apply wtap_block_add_option_mand.
Qed.

Lemma process_option_mand_uint64 b si oh c n :
  block_mand (pcapng_process_uint64_option b si oh c n) = block_mand b.
Proof.
  unfold pcapng_process_uint64_option.
  destruct ((option_length oh =? 8) && (option_length oh <? n)); auto.
  apply wtap_block_add_option_mand.
Qed.

Section IsbFacts.

Variable env : wiretap_env.
Hypothesis no_isb_option_plugin :
  forall code, option_handlers env BT_INDEX_ISB code = None.

Lemma isb_option_mand si buf t b fh t' b' fh' :
  isb_option env si buf t b fh = Ok ((t', b'), fh') -> block_mand b' = block_mand b.
Proof.
  unfold isb_option. intros H. bind_split H as [[n oh] c] fh1 Hopt.
  unfold pcap_process_unhandled_option in H. rewrite no_isb_option_plugin in H.
  repeat match type of H with
         | (if ?c then _ else _) _ = _ => destruct c
         end;
    inversion H; subst;
    auto using process_option_mand_string, process_option_mand_timestamp,
               process_option_mand_uint64.
Qed.

(** What reading an interface statistics block gives: a block processed
    internally whose interface_id is the one in the file. *)
Lemma pcapng_read_interface_statistics_block_inv bh si wblock fh w fh' :
  pcapng_read_interface_statistics_block env bh si wblock fh = Ok (w, fh') ->
  exists isb fh1 blk ts_high ts_low,
    wtap_read_bytes 12 fh = Ok (isb, fh1)
    /\ wb_type w = wb_type wblock
    /\ wb_internal w = true
    /\ wb_block w = Some blk
    /\ block_mand blk =
         WTAP_BLOCK_IF_STATISTICS
           (mkIfStats (maybe_swap32 (byte_swapped si) (field 0 4 isb)) ts_high ts_low).
Proof.
  unfold pcapng_read_interface_statistics_block. intros H.
  destruct (block_total_length bh <? MIN_ISB_SIZE); [discriminate|].
  bind_split H as isb fh1 Hisb. bind_split H as blk fh2 Hloop.
  inversion H; subst; clear H.
  exists isb, fh1, blk,
    (maybe_swap32 (byte_swapped si) (field 4 4 isb)),
    (maybe_swap32 (byte_swapped si) (field 8 4 isb)).
  split; [exact Hisb|]. repeat split.
  eapply (option_loop_ind
            (fun b => block_mand b =
                      WTAP_BLOCK_IF_STATISTICS
                        (mkIfStats (maybe_swap32 (byte_swapped si) (field 0 4 isb))
                                   (maybe_swap32 (byte_swapped si) (field 4 4 isb))
                                   (maybe_swap32 (byte_swapped si) (field 8 4 isb)))))
    in Hloop; [exact Hloop| |].
  - intros t s f t' s' f' HP Hb. apply isb_option_mand in Hb. congruence.
  - reflexivity.
Qed.

End IsbFacts.

Section IsbSequential.

Variable env : wiretap_env.
Hypothesis no_isb_option_plugin :
  forall code, option_handlers env BT_INDEX_ISB code = None.

(** The result of [pcapng_read_block] on an interface statistics block. *)
Lemma pcapng_read_block_isb wth a4 a6 si nsi wblock fh raw fh1 isb fh2 r fh' :
  wtap_read_bytes_or_eof 8 fh = Ok (raw, fh1) ->
  maybe_swap32 (byte_swapped si) (field 0 4 raw) = BLOCK_TYPE_ISB ->
  wtap_read_bytes 12 fh1 = Ok (isb, fh2) ->
  pcapng_read_block env wth a4 a6 si nsi wblock fh = Ok (r, fh') ->
  wb_type (res_wblock r) = BLOCK_TYPE_ISB
  /\ wb_internal (res_wblock r) = true
  /\ exists blk ts_high ts_low,
      wb_block (res_wblock r) = Some blk
      /\ block_mand blk =
           WTAP_BLOCK_IF_STATISTICS
             (mkIfStats (maybe_swap32 (byte_swapped si) (field 0 4 isb)) ts_high ts_low).
Proof.
  intros Hhdr Htype Hisb H. unfold pcapng_read_block in H.
  change sizeof_block_header with 8 in H. rewrite (bind_run _ _ _ _ _ Hhdr) in H.
  cbn [block_type block_total_length] in H.
  destruct (Z.eqb_spec (field 0 4 raw) BLOCK_TYPE_SHB) as [Eshb|_].
  { rewrite Eshb in Htype. destruct (byte_swapped si); vm_compute in Htype; discriminate. }
  set (bh := if byte_swapped si then _ else _) in H.
  assert (Hbt : block_type bh = BLOCK_TYPE_ISB).
  { rewrite <- Htype. unfold bh, maybe_swap32. now destruct (byte_swapped si). }
  bind_split H as [[bh' si'] result] fh3 Hbody.
  bind_split H as u fh4 Htr. inversion H; subst r fh4; clear H.
  destruct (block_total_length bh >? MAX_BLOCK_SIZE); [discriminate|].
  bind_split Hbody as [[wth' w] calls] fh5 Hd.
  inversion Hbody; subst; clear Hbody. cbn [res_wblock].
  unfold read_block_dispatch in Hd. rewrite Hbt in Hd.
  change (BLOCK_TYPE_ISB =? BLOCK_TYPE_IDB) with false in Hd.
  change (BLOCK_TYPE_ISB =? BLOCK_TYPE_PB) with false in Hd.
  change (BLOCK_TYPE_ISB =? BLOCK_TYPE_SPB) with false in Hd.
  change (BLOCK_TYPE_ISB =? BLOCK_TYPE_EPB) with false in Hd.
  change (BLOCK_TYPE_ISB =? BLOCK_TYPE_NRB) with false in Hd.
  change (BLOCK_TYPE_ISB =? BLOCK_TYPE_ISB) with true in Hd.
  cbv iota in Hd. bind_split Hd as w0 fh6 Hr. inversion Hd; subst; clear Hd.
  apply (pcapng_read_interface_statistics_block_inv env no_isb_option_plugin) in Hr.
  destruct Hr as (isb' & fh7 & blk & h & l & Hisb' & Hty & Hint & Hblk & Hmand).
  rewrite Hisb in Hisb'. inversion Hisb'; subst isb' fh7.
  split; [rewrite Hty; reflexivity|]. split; [exact Hint|].
  exists blk, h, l. auto.
Qed.

End IsbSequential.

(** ** Sequential read *)

Section SequentialRead.

Variable env : wiretap_env.

Lemma interface_data_set_wth_after_block r wth :
  interface_data (set_wth_after_block r wth) = interface_data wth.
Proof. reflexivity. Qed.

(** One turn of the read loop on a block that was read as an interface
    statistics block for an interface that does not exist. *)
Lemma pcapng_read_step_stray_isb wth wblock fh r fh' blk m :
  pcapng_read_block env (wth_info wth) (pn_add_new_ipv4 (priv wth))
    (pn_add_new_ipv6 (priv wth))
    (nth (current_section_number (priv wth)) (sections (priv wth)) default_section)
    default_section wblock fh = Ok (r, fh') ->
  wb_type (res_wblock r) = BLOCK_TYPE_ISB ->
  wb_internal (res_wblock r) = true ->
  wb_block (res_wblock r) = Some blk ->
  block_mand blk = WTAP_BLOCK_IF_STATISTICS m ->
  Z.of_nat (length (interface_data wth)) <= isb_interface_id m ->
  let wth' := set_wth_after_block r wth in
  pcapng_read_step env (wth, wblock) fh = Ok (inl (wth', res_wblock r), fh')
  /\ interface_data wth' = interface_data wth
  /\ priv wth' = priv wth
  /\ forall n,
      while (S n) ERR_LOOP_BOUND (pcapng_read_step env) (wth, wblock) fh
      = while n ERR_LOOP_BOUND (pcapng_read_step env) (wth', res_wblock r) fh'.
Proof.
  intros Hread Htype Hint Hblk Hmand Hid wth'.
  assert (Hstep : pcapng_read_step env (wth, wblock) fh
                  = Ok (inl (wth', res_wblock r), fh')).
  { unfold pcapng_read_step. unfold tell. unfold bind at 1.
    rewrite (bind_run _ _ _ _ _ Hread). rewrite Hint. cbn [negb ret].
    unfold pcapng_read_internal. rewrite Hblk, Htype.
    change (BLOCK_TYPE_ISB =? BLOCK_TYPE_SHB) with false.
    change (BLOCK_TYPE_ISB =? BLOCK_TYPE_IDB) with false.
    change (BLOCK_TYPE_ISB =? BLOCK_TYPE_DSB) with false.
    change (BLOCK_TYPE_ISB =? BLOCK_TYPE_NRB) with false.
    change (BLOCK_TYPE_ISB =? BLOCK_TYPE_ISB) with true. cbv iota.
    unfold pcapng_read_isb. rewrite Hmand.
    rewrite interface_data_set_wth_after_block.
    destruct (Z.leb_spec (Z.of_nat (length (interface_data wth))) (isb_interface_id m));
      [reflexivity|lia]. }
  split; [exact Hstep|]. split; [reflexivity|]. split; [reflexivity|].
  intros n. cbn [while]. now rewrite Hstep.
Qed.

(** C10: in a sequential read, an interface statistics block whose
    interface_id is not below the number of interfaces read so far is
    dropped: the turn of the read loop that reads it raises no error,
    leaves the interfaces and their statistics as they were, and the loop
    goes on with the block that follows. *)
Theorem isb_out_of_range_is_discarded wth wblock fh raw fh1 isb fh2 r fh' :
  (forall code, option_handlers env BT_INDEX_ISB code = None) ->
  let si := nth (current_section_number (priv wth)) (sections (priv wth))
                default_section in
  wtap_read_bytes_or_eof 8 fh = Ok (raw, fh1) ->
  maybe_swap32 (byte_swapped si) (field 0 4 raw) = BLOCK_TYPE_ISB ->
  wtap_read_bytes 12 fh1 = Ok (isb, fh2) ->
  Z.of_nat (length (interface_data wth))
    <= maybe_swap32 (byte_swapped si) (field 0 4 isb) ->
  pcapng_read_block env (wth_info wth) (pn_add_new_ipv4 (priv wth))
    (pn_add_new_ipv6 (priv wth)) si default_section wblock fh = Ok (r, fh') ->
  let wth' := set_wth_after_block r wth in
  pcapng_read_step env (wth, wblock) fh = Ok (inl (wth', res_wblock r), fh')
  /\ interface_data wth' = interface_data wth
  /\ priv wth' = priv wth
  /\ forall n,
      while (S n) ERR_LOOP_BOUND (pcapng_read_step env) (wth, wblock) fh
      = while n ERR_LOOP_BOUND (pcapng_read_step env) (wth', res_wblock r) fh'.
Proof.
  intros Hno si Hhdr Htype Hisb Hid Hread.
  destruct (pcapng_read_block_isb env Hno _ _ _ _ _ _ _ _ _ _ _ _ _
              Hhdr Htype Hisb Hread)
    as (Hty & Hint & blk & h & l & Hblk & Hmand).
  exact (pcapng_read_step_stray_isb wth wblock fh r fh' blk _
           Hread Hty Hint Hblk Hmand Hid).
Qed.

End SequentialRead.

Lemma isb_out_of_range_is_discarded_witness :
  let wth := fst before_stray_isb in
  let fh := snd before_stray_isb in
  length (interface_data wth) = 1%nat
  /\ field (file_pos fh + 8) 4 (file_data fh) = 3
  /\ exists r fh',
      pcapng_read_step plain_env (wth, empty_wblock) fh
        = Ok (inl (set_wth_after_block r wth, res_wblock r), fh')
      /\ interface_data (set_wth_after_block r wth) = interface_data wth.
Proof.
  intros wth fh. split; [reflexivity|]. split; [reflexivity|].
  destruct (pcapng_read_block plain_env (wth_info wth) (pn_add_new_ipv4 (priv wth))
              (pn_add_new_ipv6 (priv wth))
              (nth (current_section_number (priv wth)) (sections (priv wth))
                   default_section)
              default_section empty_wblock fh) as [[r fh']|e] eqn:E.
  - exists r, fh'.
    destruct (wtap_read_bytes_or_eof 8 fh) as [[raw fh1]|e1] eqn:E1;
      [|vm_compute in E1; discriminate].
    destruct (wtap_read_bytes 12 fh1) as [[isb fh2]|e2] eqn:E2;
      [|vm_compute in E1; inversion E1; subst; vm_compute in E2; discriminate].
    destruct (isb_out_of_range_is_discarded plain_env wth empty_wblock fh
                raw fh1 isb fh2 r fh' (fun _ => eq_refl) E1)
      as (Hstep & Hdata & _).
    + vm_compute in E1. inversion E1; subst. reflexivity.
    + exact E2.
    + vm_compute in E1. inversion E1; subst.
      vm_compute in E2. inversion E2; subst. vm_compute. discriminate.
    + exact E.
    + split; [exact Hstep|exact Hdata].
  - vm_compute in E. discriminate.
Defined.

(** The whole read: the statistics block for the missing interface is
    passed over and the packet after it is returned; the interface has no
    statistics. *)
Example stray_isb_then_packet :
  exists wth w off fh',
    pcapng_read plain_env (fst before_stray_isb) empty_rec [] (snd before_stray_isb)
      = Ok (wth, w, off, fh')
    /\ wb_type w = BLOCK_TYPE_SPB
    /\ off = 72
    /\ map get_if_descr_mand (interface_data wth)
       = [Some (mkIfDescr 1 1000000 WTAP_TSPREC_USEC 0 0 [])].
Proof.
  destruct (pcapng_read plain_env (fst before_stray_isb) empty_rec []
              (snd before_stray_isb)) as [[[[wth w] off] fh']|e] eqn:E.
  - exists wth, w, off, fh'. vm_compute in E. inversion E; subst.
    repeat split; reflexivity.
  - vm_compute in E. discriminate.
Qed.

(** ** Termination of the loops: the bound is never what stops a loop *)

Lemma keeps_ret {E A} (a : A) : keeps_place (@ret E A a).
Proof. intros fh x fh' H. inversion H; subst. lia. Qed.

Lemma keeps_raise {E A} (e : E) : keeps_place (@raise E A e).
Proof. intros fh x fh' H. discriminate. Qed.

Lemma keeps_bind {E A B} (m : reader E A) (k : A -> reader E B) :
  keeps_place m -> (forall a, keeps_place (k a)) -> keeps_place (bind m k).
Proof.
  intros Hm Hk fh b fh' H. bind_split H as a fh1 H1.
  apply Hm in H1. apply Hk in H. lia.
Qed.

Lemma keeps_map_err {E F A} (f : E -> F) (m : reader E A) :
  keeps_place m -> keeps_place (map_err f m).
Proof. intros Hm fh a fh' H. apply map_err_ok in H. now apply Hm in H. Qed.

Lemma keeps_lift_res {E A} (r : res E A) : keeps_place (lift_res r).
Proof. intros fh a fh' H. unfold lift_res in H. destruct r; inversion H; subst; lia. Qed.

Lemma keeps_wtap_read_bytes count : keeps_place (wtap_read_bytes count).
Proof. intros fh raw fh' H. apply wtap_read_bytes_left in H. lia. Qed.

Lemma keeps_of_advances {E A} (m : reader E A) : advances m -> keeps_place m.
Proof. intros H fh a fh' Hm. apply H in Hm. lia. Qed.

Lemma advances_bind_l {E A B} (m : reader E A) (k : A -> reader E B) :
  advances m -> (forall a, keeps_place (k a)) -> advances (bind m k).
Proof.
  intros Hm Hk fh b fh' H. bind_split H as a fh1 H1.
  apply Hm in H1. apply Hk in H. lia.
Qed.

Lemma keeps_while {E St R} (out : E) (step : St -> reader E (St + R)) :
  (forall s, keeps_place (step s)) -> forall n s, keeps_place (while n out step s).
Proof.
  intros Hs. induction n as [|n IH]; intros s fh r fh' H; simpl in H; [discriminate|].
  destruct (step s fh) as [[[s'|r'] fh1]|e] eqn:Es; try discriminate.
  - apply Hs in Es. apply IH in H. lia.
  - inversion H; subst. now apply Hs in Es.
Qed.

Lemma keeps_option_loop {E St} (out : E) (body : Z -> St -> reader E (Z * St))
      to_read s :
  (forall t s', keeps_place (body t s')) -> keeps_place (option_loop out body to_read s).
Proof.
  intros Hb fh r fh' H. unfold option_loop in H.
  eapply keeps_while in H; [exact H|].
  intros [t s0]. cbn [fst snd]. destruct (t =? 0).
  - apply keeps_ret.
  - apply keeps_bind; [apply Hb|intros; apply keeps_ret].
Qed.

Lemma errs_ret {E A} (P : E -> Prop) (a : A) : errs_in P (@ret E A a).
Proof. intros fh e H. discriminate. Qed.

Lemma errs_raise {E A} (P : E -> Prop) (e : E) : P e -> errs_in P (@raise E A e).
Proof. intros HP fh e' H. inversion H; subst. exact HP. Qed.

Lemma errs_bind {E A B} (P : E -> Prop) (m : reader E A) (k : A -> reader E B) :
  errs_in P m -> (forall a, errs_in P (k a)) -> errs_in P (bind m k).
Proof.
  intros Hm Hk fh e H. unfold bind in H.
  destruct (m fh) as [[a fh1]|e1] eqn:Em.
  - now apply (Hk a fh1).
  - inversion H; subst. now apply (Hm fh).
Qed.

Lemma errs_map_err {E F A} (P : E -> Prop) (Q : F -> Prop) (f : E -> F)
      (m : reader E A) :
  errs_in P m -> (forall e, P e -> Q (f e)) -> errs_in Q (map_err f m).
Proof.
  intros Hm Hf fh e H. unfold map_err in H.
  destruct (m fh) as [r|e1] eqn:Em; [discriminate|].
  inversion H; subst. apply Hf. now apply (Hm fh).
Qed.

Lemma errs_lift_res {E A} (P : E -> Prop) (r : res E A) :
  (forall e, r = Err e -> P e) -> errs_in P (lift_res r).
Proof. intros Hr fh e H. unfold lift_res in H. destruct r; inversion H; subst; auto. Qed.

Lemma errs_wtap_read_bytes count : errs_in real_error (wtap_read_bytes count).
Proof.
  intros fh e H. unfold wtap_read_bytes in H.
  destruct (file_read count fh) as [got fh1].
  destruct (Z.of_nat (length got) =? count); inversion H; discriminate.
Qed.

Lemma errs_wtap_read_bytes_or_eof count :
  errs_in real_error (wtap_read_bytes_or_eof count).
Proof.
  intros fh e H. unfold wtap_read_bytes_or_eof in H.
  destruct (file_read count fh) as [got fh1].
  destruct (Z.of_nat (length got) =? count); [discriminate|].
  destruct (0 <? Z.of_nat (length got)); inversion H; discriminate.
Qed.

(** With the bytes left as its bound, a loop whose turns advance fails
    only with the errors of its turns: the bound never runs out. *)
Lemma errs_while {E St R} (P : E -> Prop) (out : E) (step : St -> reader E (St + R)) :
  (forall s fh s' fh', step s fh = Ok (inl s', fh') ->
                       (file_left fh' < file_left fh)%nat) ->
  (forall s, errs_in P (step s)) ->
  forall s, errs_in P (fun fh => while (S (file_left fh)) out step s fh).
Proof.
  intros Hadv Herr.
  assert (Hgen : forall n s fh e, (file_left fh < n)%nat ->
                                  while n out step s fh = Err e -> P e).
  { induction n as [|n IH]; intros s fh e Hn H; [lia|]. simpl in H.
    destruct (step s fh) as [[[s'|r] fh1]|e1] eqn:Es.
    - apply Hadv in Es. eapply IH; [|exact H]. lia.
    - discriminate.
    - inversion H; subst. now apply (Herr s fh). }
  intros s fh e H. eapply Hgen; [|exact H]. lia.
Qed.

Lemma errs_option_loop {E St} (P : E -> Prop) (out : E)
      (body : Z -> St -> reader E (Z * St)) to_read s :
  (forall t s', advances (body t s')) -> (forall t s', errs_in P (body t s')) ->
  errs_in P (option_loop out body to_read s).
Proof.
  intros Hadv Herr. unfold option_loop.
  apply (errs_while P out
           (fun st : Z * St =>
              if fst st =? 0 then ret (inr (snd st))
              else r <- body (fst st) (snd st) ;; ret (inl r))).
  - intros [t s0] fh [t' s'] fh' H. cbn [fst snd] in H.
    destruct (t =? 0); [discriminate|].
    bind_split H as r fh1 Hb. inversion H; subst. now apply Hadv in Hb.
  - intros [t s0]. cbn [fst snd]. destruct (t =? 0).
    + apply errs_ret.
    + apply errs_bind; [apply Herr|intros; apply errs_ret].
Qed.

Lemma advances_map_err {E F A} (f : E -> F) (m : reader E A) :
  advances m -> advances (map_err f m).
Proof. intros Hm fh a fh' H. apply map_err_ok in H. now apply Hm in H. Qed.

(** Reading an option takes at least the four bytes of its header. *)
Lemma pcapng_read_option_advances si len to_read :
  advances (pcapng_read_option si len to_read).
Proof.
  unfold pcapng_read_option.
  destruct (to_read <? sizeof_option_header); [intros fh a fh' H; discriminate|].
  apply advances_bind_l.
  - apply wtap_read_bytes_advances. reflexivity.
  - intros hdr.
    repeat match goal with
           | |- keeps_place (if ?c then _ else _) => destruct c
           | |- keeps_place (bind _ _) => apply keeps_bind; [|intros]
           | |- keeps_place (ret _) => apply keeps_ret
           | |- keeps_place (raise _) => apply keeps_raise
           | |- keeps_place (wtap_read_bytes _) => apply keeps_wtap_read_bytes
           end.
Qed.

Lemma pcapng_read_option_errs si len to_read :
  errs_in real_error (pcapng_read_option si len to_read).
Proof.
  unfold pcapng_read_option.
  repeat match goal with
         | |- errs_in _ (if ?c then _ else _) => destruct c
         | |- errs_in _ (bind _ _) => apply errs_bind; [|intros]
         | |- errs_in _ (ret _) => apply errs_ret
         | |- errs_in _ (raise _) => apply errs_raise; discriminate
         | |- errs_in _ (wtap_read_bytes _) => apply errs_wtap_read_bytes
         end.
Qed.

Ltac keeps_step :=
  match goal with
  | |- keeps_place (bind _ _) => apply keeps_bind; [|intros]
  | |- keeps_place (ret _) => apply keeps_ret
  | |- keeps_place (raise _) => apply keeps_raise
  | |- keeps_place (wtap_read_bytes _) => apply keeps_wtap_read_bytes
  | |- keeps_place (wtap_read_packet_bytes _) => apply keeps_wtap_read_bytes
  | |- keeps_place (map_err _ _) => apply keeps_map_err
  | |- keeps_place (lift_res _) => apply keeps_lift_res
  | |- keeps_place (pcapng_read_option _ _ _) =>
      apply keeps_of_advances, pcapng_read_option_advances
  | |- keeps_place (option_loop _ _ _ _) => apply keeps_option_loop; intros
  | |- keeps_place (if ?c then _ else _) => destruct c
  | |- keeps_place (match ?x with _ => _ end) => destruct x
  end.

Ltac errs_step :=
  match goal with
  | |- errs_in _ (bind _ _) => apply errs_bind; [|intros]
  | |- errs_in _ (ret _) => apply errs_ret
  | |- errs_in _ (raise _) => apply errs_raise; cbn; unfold real_error; discriminate
  | |- errs_in _ (wtap_read_bytes _) => apply errs_wtap_read_bytes
  | |- errs_in _ (wtap_read_packet_bytes _) => apply errs_wtap_read_bytes
  | |- errs_in _ (pcapng_read_option _ _ _) => apply pcapng_read_option_errs
  | |- errs_in _ (if ?c then _ else _) => destruct c
  | |- errs_in _ (match ?x with _ => _ end) => destruct x
  end.

Section Termination.

Variable env : wiretap_env.
Hypothesis Henv : well_behaved env.

Lemma pcap_process_unhandled_option_errs block bt si oh content e :
  pcap_process_unhandled_option env block bt si oh content = Err e -> real_error e.
Proof.
  unfold pcap_process_unhandled_option.
  destruct (option_handlers env bt (option_code oh)) as [p|] eqn:Ep; [|discriminate].
  destruct Henv as (_ & _ & Hopt). apply (Hopt _ _ _ Ep).
Qed.

Lemma unhandled_errs block bt si oh content :
  errs_in real_error
          (lift_res (pcap_process_unhandled_option env block bt si oh content)).
Proof. apply errs_lift_res. apply pcap_process_unhandled_option_errs. Qed.

(** Section header block. *)
Lemma shb_option_advances si buf t b : advances (shb_option env si buf t b).
Proof.
  unfold shb_option. apply advances_bind_l.
  - apply advances_map_err, pcapng_read_option_advances.
  - intros [[n oh] c]. repeat keeps_step.
Qed.

Lemma shb_option_errs si buf t b :
  errs_in (fun e => real_error (snd e)) (shb_option env si buf t b).
Proof.
  unfold shb_option. apply errs_bind.
  - eapply errs_map_err; [apply pcapng_read_option_errs|auto].
  - intros [[n oh] c]. repeat errs_step.
    eapply errs_map_err; [apply unhandled_errs|auto].
Qed.

Lemma pcapng_read_section_header_block_keeps bh si w :
  keeps_place (pcapng_read_section_header_block env bh si w).
Proof.
  unfold pcapng_read_section_header_block, section_header_block_body.
  repeat keeps_step; apply keeps_of_advances, shb_option_advances.
Qed.

Lemma pcapng_read_section_header_block_errs bh si w :
  errs_in (fun e => real_error (snd e)) (pcapng_read_section_header_block env bh si w).
Proof.
  unfold pcapng_read_section_header_block, section_header_block_body.
  apply errs_bind.
  - eapply errs_map_err; [apply errs_wtap_read_bytes|auto].
  - intros shb. repeat errs_step;
      (apply errs_option_loop; intros;
       [apply shb_option_advances|apply shb_option_errs]).
Qed.


(** A generic option loop of a block reader. *)
Ltac option_body_advances :=
  apply advances_bind_l;
  [apply pcapng_read_option_advances|intros [[? ?] ?]; repeat keeps_step].

Ltac option_body_errs :=
  apply errs_bind;
  [apply pcapng_read_option_errs
  |intros [[? ?] ?]; repeat errs_step; try apply unhandled_errs].

Lemma idb_option_advances si buf t b : advances (idb_option env si buf t b).
Proof. unfold idb_option. option_body_advances. Qed.

Lemma idb_option_errs si buf t b : errs_in real_error (idb_option env si buf t b).
Proof. unfold idb_option. option_body_errs. Qed.

Lemma packet_option_advances si buf t st : advances (packet_option si buf t st).
Proof. unfold packet_option. destruct st. option_body_advances. Qed.

Lemma packet_option_errs si buf t st : errs_in real_error (packet_option si buf t st).
Proof. unfold packet_option. destruct st. option_body_errs. Qed.

Lemma nrb_option_advances si buf t b : advances (nrb_option env si buf t b).
Proof. unfold nrb_option. option_body_advances. Qed.

Lemma nrb_option_errs si buf t b : errs_in real_error (nrb_option env si buf t b).
Proof. unfold nrb_option. option_body_errs. Qed.

Lemma isb_option_advances si buf t b : advances (isb_option env si buf t b).
Proof. unfold isb_option. option_body_advances. Qed.

Lemma isb_option_errs si buf t b : errs_in real_error (isb_option env si buf t b).
Proof. unfold isb_option. option_body_errs. Qed.

Ltac loops :=
  first [ apply keeps_of_advances;
          first [apply idb_option_advances | apply packet_option_advances
                |apply nrb_option_advances | apply isb_option_advances]
        | apply errs_option_loop; intros;
          first [apply idb_option_advances | apply idb_option_errs
                |apply packet_option_advances | apply packet_option_errs
                |apply nrb_option_advances | apply nrb_option_errs
                |apply isb_option_advances | apply isb_option_errs] ].

Lemma pcapng_read_if_descr_block_keeps wth bh si w :
  keeps_place (pcapng_read_if_descr_block env wth bh si w).
Proof. unfold pcapng_read_if_descr_block. repeat keeps_step; loops. Qed.

Lemma pcapng_read_if_descr_block_errs wth bh si w :
  errs_in real_error (pcapng_read_if_descr_block env wth bh si w).
Proof. unfold pcapng_read_if_descr_block. repeat errs_step; loops. Qed.

Lemma pcapng_read_decryption_secrets_block_keeps bh si w :
  keeps_place (pcapng_read_decryption_secrets_block bh si w).
Proof. unfold pcapng_read_decryption_secrets_block. repeat keeps_step. Qed.

Lemma pcapng_read_decryption_secrets_block_errs bh si w :
  errs_in real_error (pcapng_read_decryption_secrets_block bh si w).
Proof. unfold pcapng_read_decryption_secrets_block. repeat errs_step. Qed.

Lemma pseudo_header_keeps encap n :
  keeps_place (pcap_process_pseudo_header env encap n).
Proof. destruct Henv as (H & _). apply H. Qed.

Lemma pseudo_header_errs encap n :
  errs_in real_error (pcap_process_pseudo_header env encap n).
Proof. destruct Henv as (H & _). apply H. Qed.

Lemma pcapng_read_packet_block_keeps bh si w enhanced :
  keeps_place (pcapng_read_packet_block env bh si w enhanced).
Proof.
  unfold pcapng_read_packet_block, read_packet_fixed_part.
  repeat first [apply pseudo_header_keeps | keeps_step]; loops.
Qed.

Lemma pcapng_read_packet_block_errs bh si w enhanced :
  errs_in real_error (pcapng_read_packet_block env bh si w enhanced).
Proof.
  unfold pcapng_read_packet_block, read_packet_fixed_part.
  repeat first [apply pseudo_header_errs | errs_step]; loops.
Qed.

Lemma pcapng_read_simple_packet_block_keeps bh si w :
  keeps_place (pcapng_read_simple_packet_block env bh si w).
Proof.
  unfold pcapng_read_simple_packet_block.
  repeat first [apply pseudo_header_keeps | keeps_step].
Qed.

Lemma pcapng_read_simple_packet_block_errs bh si w :
  errs_in real_error (pcapng_read_simple_packet_block env bh si w).
Proof.
  unfold pcapng_read_simple_packet_block.
  repeat first [apply pseudo_header_errs | errs_step].
Qed.


(** Name resolution block. *)
Lemma find_name_end_positive p n :
  name_resolution_block_find_name_end p = Ok n -> 1 <= n.
Proof.
  revert n. induction p as [|c r IH]; intros n H; simpl in H; [discriminate|].
  destruct (byte_val c =? 0); [inversion H; lia|].
  destruct (name_resolution_block_find_name_end r) as [m|e]; [|discriminate].
  inversion H; subst. specialize (IH m eq_refl). lia.
Qed.

Lemma find_name_end_errs p e :
  name_resolution_block_find_name_end p = Err e -> real_error e.
Proof.
  induction p as [|c r IH]; simpl; intros H.
  - inversion H. discriminate.
  - destruct (byte_val c =? 0); [discriminate|].
    destruct (name_resolution_block_find_name_end r) as [m|e1]; [discriminate|].
    inversion H; subst. now apply IH.
Qed.

Lemma nrb_names_errs bound : forall p e,
  (length p < bound)%nat -> nrb_names bound p = Err e -> real_error e.
Proof.
  induction bound as [|n IH]; intros p e Hlen H; [lia|]. simpl in H.
  destruct p as [|c r]; [discriminate|].
  destruct (name_resolution_block_find_name_end (c :: r)) as [namelen|e1] eqn:Ef.
  - apply find_name_end_positive in Ef.
    destruct (nrb_names n (skipn (Z.to_nat namelen) (c :: r))) as [names|e2] eqn:En;
      [discriminate|].
    inversion H; subst. eapply IH; [|exact En].
    rewrite length_skipn. cbn [length] in *. lia.
  - inversion H; subst. now apply find_name_end_errs in Ef.
Qed.

Lemma nrb_names_lift_errs (use : bool) rec off :
  errs_in real_error
          (lift_res (if use then nrb_names (S (length rec)) (skipn off rec) else Ok [])).
Proof.
  apply errs_lift_res. intros e H. destruct use; [|discriminate].
  eapply nrb_names_errs; [|exact H]. rewrite length_skipn. lia.
Qed.

Lemma nrb_record_keeps a4 a6 si to_read st :
  keeps_place (nrb_record a4 a6 si to_read st).
Proof. unfold nrb_record. destruct st. repeat keeps_step. Qed.

Lemma nrb_record_advances a4 a6 si to_read st fh s' fh' :
  nrb_record a4 a6 si to_read st fh = Ok (inl s', fh') ->
  (file_left fh' < file_left fh)%nat.
Proof.
  unfold nrb_record. destruct st as [block_read calls].
  destruct (negb (block_read <? to_read)); [discriminate|].
  destruct (to_read - block_read <? sizeof_nrb); [discriminate|].
  intros H. revert H. apply (advances_bind_l (wtap_read_bytes sizeof_nrb)).
  - apply wtap_read_bytes_advances. reflexivity.
  - intros nrb. repeat keeps_step.
Qed.

Lemma nrb_record_errs a4 a6 si to_read st :
  errs_in real_error (nrb_record a4 a6 si to_read st).
Proof.
  unfold nrb_record. destruct st.
  repeat first [apply nrb_names_lift_errs | errs_step].
Qed.

Lemma pcapng_read_name_resolution_block_keeps bh a4 a6 si w :
  keeps_place (pcapng_read_name_resolution_block env bh a4 a6 si w).
Proof.
  unfold pcapng_read_name_resolution_block.
  repeat first [ apply (keeps_while ERR_LOOP_BOUND); intros; apply nrb_record_keeps
               | match goal with
                 | |- keeps_place (fun fh => while _ _ _ _ fh) =>
                     intros fh0 a0 fh1 Hw;
                     eapply (keeps_while ERR_LOOP_BOUND) in Hw;
                     [exact Hw|intros; apply nrb_record_keeps]
                 end
               | keeps_step ]; loops.
Qed.

Lemma pcapng_read_name_resolution_block_errs bh a4 a6 si w :
  errs_in real_error (pcapng_read_name_resolution_block env bh a4 a6 si w).
Proof.
  unfold pcapng_read_name_resolution_block.
  repeat first [ match goal with
                 | |- errs_in _ (fun fh => while _ _ _ _ fh) =>
                     apply errs_while;
                     [intros; eapply nrb_record_advances; eauto
                     |intros; apply nrb_record_errs]
                 end
               | errs_step ]; loops.
Qed.

Lemma pcapng_read_interface_statistics_block_keeps bh si w :
  keeps_place (pcapng_read_interface_statistics_block env bh si w).
Proof. unfold pcapng_read_interface_statistics_block. repeat keeps_step; loops. Qed.

Lemma pcapng_read_interface_statistics_block_errs bh si w :
  errs_in real_error (pcapng_read_interface_statistics_block env bh si w).
Proof. unfold pcapng_read_interface_statistics_block. repeat errs_step; loops. Qed.

Lemma pcapng_read_sysdig_event_block_keeps bh si w :
  keeps_place (pcapng_read_sysdig_event_block bh si w).
Proof. unfold pcapng_read_sysdig_event_block. repeat keeps_step. Qed.

Lemma pcapng_read_sysdig_event_block_errs bh si w :
  errs_in real_error (pcapng_read_sysdig_event_block bh si w).
Proof. unfold pcapng_read_sysdig_event_block. repeat errs_step. Qed.

Lemma pcapng_read_systemd_journal_export_block_keeps wth bh w :
  keeps_place (pcapng_read_systemd_journal_export_block env wth bh w).
Proof. unfold pcapng_read_systemd_journal_export_block. repeat keeps_step. Qed.

Lemma pcapng_read_systemd_journal_export_block_errs wth bh w :
  errs_in real_error (pcapng_read_systemd_journal_export_block env wth bh w).
Proof. unfold pcapng_read_systemd_journal_export_block. repeat errs_step. Qed.

Lemma pcapng_read_unknown_block_keeps bh si w :
  keeps_place (pcapng_read_unknown_block env bh si w).
Proof.
  unfold pcapng_read_unknown_block.
  destruct (block_total_length bh <? MIN_BLOCK_SIZE); [apply keeps_raise|].
  destruct (block_handlers env (block_type bh)) as [h|] eqn:Eh.
  - destruct Henv as (_ & Hh & _). apply (Hh _ _ Eh).
  - repeat keeps_step.
Qed.

Lemma pcapng_read_unknown_block_errs bh si w :
  errs_in real_error (pcapng_read_unknown_block env bh si w).
Proof.
  unfold pcapng_read_unknown_block.
  destruct (block_total_length bh <? MIN_BLOCK_SIZE);
    [apply errs_raise; discriminate|].
  destruct (block_handlers env (block_type bh)) as [h|] eqn:Eh.
  - destruct Henv as (_ & Hh & _). apply (Hh _ _ Eh).
  - repeat errs_step.
Qed.


Ltac block_readers :=
  first [ apply pcapng_read_if_descr_block_keeps
        | apply pcapng_read_if_descr_block_errs
        | apply pcapng_read_packet_block_keeps
        | apply pcapng_read_packet_block_errs
        | apply pcapng_read_simple_packet_block_keeps
        | apply pcapng_read_simple_packet_block_errs
        | apply pcapng_read_name_resolution_block_keeps
        | apply pcapng_read_name_resolution_block_errs
        | apply pcapng_read_interface_statistics_block_keeps
        | apply pcapng_read_interface_statistics_block_errs
        | apply pcapng_read_decryption_secrets_block_keeps
        | apply pcapng_read_decryption_secrets_block_errs
        | apply pcapng_read_sysdig_event_block_keeps
        | apply pcapng_read_sysdig_event_block_errs
        | apply pcapng_read_systemd_journal_export_block_keeps
        | apply pcapng_read_systemd_journal_export_block_errs
        | apply pcapng_read_unknown_block_keeps
        | apply pcapng_read_unknown_block_errs ].

Lemma read_block_dispatch_keeps wth a4 a6 bh si w :
  keeps_place (read_block_dispatch env wth a4 a6 bh si w).
Proof.
  unfold read_block_dispatch. repeat first [block_readers | keeps_step].
Qed.

Lemma read_block_dispatch_errs wth a4 a6 bh si w :
  errs_in real_error (read_block_dispatch env wth a4 a6 bh si w).
Proof.
  unfold read_block_dispatch. repeat first [block_readers | errs_step].
Qed.

Lemma pcapng_read_and_check_block_trailer_keeps bh si :
  keeps_place (pcapng_read_and_check_block_trailer bh si).
Proof. unfold pcapng_read_and_check_block_trailer. repeat keeps_step. Qed.

Lemma pcapng_read_and_check_block_trailer_errs bh si :
  errs_in real_error (pcapng_read_and_check_block_trailer bh si).
Proof. unfold pcapng_read_and_check_block_trailer. repeat errs_step. Qed.

(** A block read takes at least the eight bytes of the block header. *)
Lemma pcapng_read_block_advances wth a4 a6 si nsi w :
  advances (pcapng_read_block env wth a4 a6 si nsi w).
Proof.
  unfold pcapng_read_block. apply advances_bind_l.
  - intros fh raw fh' H. apply wtap_read_bytes_or_eof_inv in H.
    revert H. apply wtap_read_bytes_advances. reflexivity.
  - intros raw.
    repeat first [ apply pcapng_read_section_header_block_keeps
                 | apply read_block_dispatch_keeps
                 | apply pcapng_read_and_check_block_trailer_keeps
                 | keeps_step ].
Qed.

Lemma pcapng_read_block_errs wth a4 a6 si nsi w :
  errs_in real_error (pcapng_read_block env wth a4 a6 si nsi w).
Proof.
  unfold pcapng_read_block. apply errs_bind.
  - apply errs_wtap_read_bytes_or_eof.
  - intros raw.
    repeat first [ apply read_block_dispatch_errs
                 | apply pcapng_read_and_check_block_trailer_errs
                 | match goal with
                   | |- errs_in _ (map_err snd _) =>
                       eapply errs_map_err;
                       [apply pcapng_read_section_header_block_errs|auto]
                   end
                 | errs_step ].
Qed.

Lemma pcapng_read_step_advances st fh s' fh' :
  pcapng_read_step env st fh = Ok (inl s', fh') -> (file_left fh' < file_left fh)%nat.
Proof.
  unfold pcapng_read_step. destruct st as [wth w]. unfold tell, bind at 1.
  intros H. bind_split H as r fh1 Hr. apply pcapng_read_block_advances in Hr.
  destruct (negb (wb_internal (res_wblock r))); inversion H; subst; exact Hr.
Qed.

Lemma pcapng_read_step_errs st : errs_in real_error (pcapng_read_step env st).
Proof.
  unfold pcapng_read_step. destruct st as [wth w]. unfold tell.
  apply errs_bind; [intros fh e H; discriminate|]. intros off.
  apply errs_bind; [apply pcapng_read_block_errs|]. intros r.
  repeat errs_step.
Qed.

(** With well-behaved collaborators [pcapng_read] ends by its own means:
    it returns a record or fails with an error of the source, the end of
    the file being the error [ERR_NONE]. *)
Lemma pcapng_read_terminates wth rec buf fh :
  pcapng_read env wth rec buf fh <> Err ERR_LOOP_BOUND.
Proof.
  intros H. unfold pcapng_read in H.
  eapply (errs_while real_error) in H.
  - now apply H.
  - intros; eapply pcapng_read_step_advances; eauto.
  - intros; apply pcapng_read_step_errs.
Qed.

Lemma pcapng_open_idbs_terminates bound : forall wth w fh,
  (file_left fh < bound)%nat ->
  snd (fst (fst (pcapng_open_idbs env bound wth w fh))) <> ERR_LOOP_BOUND.
Proof.
  induction bound as [|n IH]; intros wth w fh Hb; [lia|]. cbn [pcapng_open_idbs].
  destruct (wtap_read_bytes_or_eof sizeof_block_header fh) as [[raw fh1]|e] eqn:Eh.
  - destruct (negb (_ =? BLOCK_TYPE_IDB)); [cbn; discriminate|].
    destruct (pcapng_read_block env _ _ _ _ _ _ fh) as [[r fh2]|e] eqn:Er.
    + apply IH. apply pcapng_read_block_advances in Er. lia.
    + apply pcapng_read_block_errs in Er. destruct e; cbn; try discriminate.
      now apply Er.
  - apply errs_wtap_read_bytes_or_eof in Eh. destruct e; cbn; try discriminate.
    now apply Eh.
Qed.

Lemma pcapng_open_terminates wth fh :
  snd (fst (fst (pcapng_open env wth fh))) <> ERR_LOOP_BOUND.
Proof.
  unfold pcapng_open.
  destruct (wtap_read_bytes_or_eof sizeof_block_header fh) as [[raw fh1]|e] eqn:Eh.
  - destruct (negb (_ =? BLOCK_TYPE_SHB)); [cbn; discriminate|].
    destruct (pcapng_read_section_header_block env _ _ _ fh1)
      as [[[[bh si] w] fh2]|[c e]] eqn:Es.
    + destruct (pcapng_read_and_check_block_trailer bh si fh2) as [[u fh3]|e] eqn:Et.
      * apply pcapng_open_idbs_terminates. lia.
      * apply pcapng_read_and_check_block_trailer_errs in Et. exact Et.
    + apply pcapng_read_section_header_block_errs in Es. cbn [snd] in Es.
      destruct c; try (cbn; discriminate);
        destruct (wtap_err_eqb e WTAP_ERR_SHORT_READ); cbn; try discriminate; exact Es.
  - apply errs_wtap_read_bytes_or_eof in Eh.
    destruct (wtap_err_eqb e ERR_NONE || wtap_err_eqb e WTAP_ERR_SHORT_READ);
      cbn; [discriminate|exact Eh].
Qed.

End Termination.

Lemma plain_env_well_behaved : well_behaved plain_env.
Proof.
  split; [|split].
  - intros encap n. split.
    + apply keeps_ret.
    + apply errs_ret.
  - intros t h H. discriminate.
  - intros bt code p H. discriminate.
Qed.

(** * More of the code *)

(** ** Bytes written and bytes read *)

Lemma length_le_bytes n : forall v, length (le_bytes n v) = n.
Proof. induction n as [|n IH]; intros v; simpl; [reflexivity|now rewrite IH]. Qed.

Lemma byte_val_of_Z z : byte_val (byte_of_Z z) = z mod 256.
Proof.
  unfold byte_val, byte_of_Z.
  assert (Hr : 0 <= z mod 256 < 256) by (apply Z.mod_pos_bound; lia).
  destruct (Byte.of_N (Z.to_N (z mod 256))) as [b|] eqn:E.
  - apply Byte.to_of_N in E. rewrite E. rewrite Z2N.id; lia.
  - apply Byte.of_N_None_iff in E. lia.
Qed.

Lemma le_uint_le_bytes n : forall v, le_uint (le_bytes n v) = v mod 256 ^ Z.of_nat n.
Proof.
  induction n as [|n IH]; intros v.
  - simpl. now rewrite Z.mod_1_r.
  - cbn [le_bytes le_uint]. rewrite byte_val_of_Z, IH.
    rewrite Nat2Z.inj_succ, Z.pow_succ_r by lia.
    rewrite Z.rem_mul_r; [reflexivity|lia|apply Z.pow_pos_nonneg; lia].
Qed.

Lemma le_uint_le_bytes_small n v :
  0 <= v < 256 ^ Z.of_nat n -> le_uint (le_bytes n v) = v.
Proof. intros H. rewrite le_uint_le_bytes. now apply Z.mod_small. Qed.

Lemma le_uint_app a b :
  le_uint (a ++ b) = le_uint a + 256 ^ Z.of_nat (length a) * le_uint b.
Proof.
  induction a as [|c a IH].
  - cbn [app le_uint length]. change (256 ^ Z.of_nat 0) with 1. lia.
  - cbn [app le_uint length]. rewrite IH, Nat2Z.inj_succ, Z.pow_succ_r by lia. ring.
Qed.

(** A field that lies in the first piece of a run of bytes, and one that
    lies after it. *)
Lemma field_app_l off n a b :
  (off + n <= length a)%nat -> field off n (a ++ b) = field off n a.
Proof.
  intros H. unfold field. f_equal.
  rewrite skipn_app, firstn_app, length_skipn.
  replace (n - (length a - off))%nat with 0%nat by lia.
  rewrite firstn_0, app_nil_r. reflexivity.
Qed.

Lemma field_app_r off n a b :
  (length a <= off)%nat -> field off n (a ++ b) = field (off - length a) n b.
Proof.
  intros H. unfold field. f_equal. rewrite skipn_app.
  rewrite (skipn_all2 a) by lia. reflexivity.
Qed.

Lemma field_whole n v : field 0 n (le_bytes n v) = v mod 256 ^ Z.of_nat n.
Proof.
  unfold field. cbn [skipn].
  rewrite <- (length_le_bytes n v) at 1. rewrite firstn_all. apply le_uint_le_bytes.
Qed.

(** Reading the bytes that come next in the file. *)
Lemma wtap_read_bytes_next n fh a post :
  remaining fh = a ++ post ->
  n = Z.of_nat (length a) ->
  wtap_read_bytes n fh = Ok (a, forward fh (length a))
  /\ remaining (forward fh (length a)) = post.
Proof.
  unfold remaining, forward. intros H ->.
  assert (Hlen : (length a + length post = length (file_data fh) - file_pos fh)%nat).
  { rewrite <- length_skipn, H, length_app. reflexivity. }
  split.
  - unfold wtap_read_bytes, file_read, file_left.
    rewrite H. rewrite Z.min_l by lia. rewrite Nat2Z.id.
    rewrite firstn_app, firstn_all, Nat.sub_diag, firstn_0, app_nil_r.
    now rewrite Z.eqb_refl.
  - cbn [file_data file_pos]. rewrite Nat.add_comm, <- skipn_skipn, H.
    rewrite skipn_app, skipn_all, Nat.sub_diag. reflexivity.
Qed.

Lemma read_next n k fh a post :
  remaining fh = a ++ post ->
  length a = k ->
  n = Z.of_nat k ->
  wtap_read_bytes n fh = Ok (a, forward fh k)
  /\ remaining (forward fh k) = post.
Proof.
  intros H <- ->. now apply wtap_read_bytes_next.
Qed.

Lemma forward_forward fh a b : forward (forward fh a) b = forward fh (a + b).
Proof. unfold forward. cbn [file_data file_pos]. f_equal. lia. Qed.

Lemma wtap_read_bytes_or_eof_next n fh a post :
  remaining fh = a ++ post ->
  n = Z.of_nat (length a) ->
  wtap_read_bytes_or_eof n fh = Ok (a, forward fh (length a)).
Proof.
  intros H Hn. pose proof (proj1 (wtap_read_bytes_next n fh a post H Hn)) as Hr.
  unfold wtap_read_bytes in Hr. unfold wtap_read_bytes_or_eof.
  destruct (file_read _ fh) as [got fh1].
  destruct (Z.of_nat (length got) =? n); [exact Hr|discriminate].
Qed.

Lemma remaining_written wdh buf :
  remaining (written_file (mkDumper (dump_out wdh ++ buf) (bytes_dumped wdh)
                                    (wdh_shb_hdrs wdh))
                          (length (dump_out wdh))) = buf.
Proof.
  unfold remaining, written_file. cbn [file_pos file_data dump_out].
  rewrite skipn_app, skipn_all, Nat.sub_diag. reflexivity.
Qed.

(** ** What a write appends *)

Lemma write_counted_eq buf wdh :
  write_counted buf wdh
  = Ok (mkDumper (dump_out wdh ++ buf) (bytes_dumped wdh + Z.of_nat (length buf))
                 (wdh_shb_hdrs wdh)).
Proof. reflexivity. Qed.

Lemma write_counted_appended buf wdh :
  write_counted buf wdh = Ok (appended wdh buf (Z.of_nat (length buf))).
Proof. reflexivity. Qed.

Lemma appended_appended wdh a n b m :
  appended (appended wdh a n) b m = appended wdh (a ++ b) (n + m).
Proof.
  unfold appended. cbn [dump_out bytes_dumped wdh_shb_hdrs].
  now rewrite <- app_assoc, Z.add_assoc.
Qed.

Lemma appended_nil wdh : appended wdh [] 0 = wdh.
Proof.
  unfold appended. rewrite app_nil_r, Z.add_0_r. now destruct wdh.
Qed.

Lemma land_3_mod4 n : 0 <= n -> Z.land n 3 = n mod 4.
Proof. intros H. change 3 with (Z.ones 2). now rewrite Z.land_ones by lia. Qed.

Lemma field_at off n pre v rest :
  off = length pre ->
  field off n (pre ++ le_bytes n v ++ rest) = v mod 256 ^ Z.of_nat n.
Proof.
  intros ->. rewrite field_app_r by lia. rewrite Nat.sub_diag.
  rewrite field_app_l by (rewrite length_le_bytes; lia). apply field_whole.
Qed.

Lemma field_at_end off n pre v :
  off = length pre ->
  field off n (pre ++ le_bytes n v) = v mod 256 ^ Z.of_nat n.
Proof.
  intros H. rewrite <- (app_nil_r (le_bytes n v)). now apply field_at.
Qed.

Lemma field_first n v rest :
  field 0 n (le_bytes n v ++ rest) = v mod 256 ^ Z.of_nat n.
Proof. apply (field_at 0 n [] v rest). reflexivity. Qed.



Lemma field_skip off n a rest k :
  length a = k -> (k <= off)%nat -> field off n (a ++ rest) = field (off - k) n rest.
Proof. intros <- H. now apply field_app_r. Qed.

Lemma field_last n v : field 0 n (le_bytes n v) = v mod 256 ^ Z.of_nat n.
Proof. apply field_whole. Qed.

(** Find the fields of a struct image given as its members in a row. *)
Ltac fields :=
  repeat match goal with
         | |- context [field 0 ?n (le_bytes ?n ?v ++ ?rest)] =>
             rewrite (field_first n v rest)
         | |- context [field 0 ?n (le_bytes ?n ?v)] =>
             rewrite (field_last n v)
         | |- context [field ?off ?n (le_bytes ?m ?v ++ ?rest)] =>
             rewrite (field_skip off n (le_bytes m v) rest m (length_le_bytes m v))
               by (cbv; lia);
             cbn [Nat.sub]
         end.


Lemma remaining_appended wdh buf n :
  remaining (written_file (appended wdh buf n) (length (dump_out wdh))) = buf.
Proof.
  unfold remaining, written_file, appended. cbn [file_pos file_data dump_out].
  rewrite skipn_app, skipn_all, Nat.sub_diag. reflexivity.
Qed.

(** ** Reading a block that was written *)

(** A block other than a section header block, in a section of the
    host's byte order: the header is read, the body by the reader of the
    block type, and the trailer, which repeats the total length. *)
Lemma pcapng_read_block_framed env wth a4 a6 si nsi wblock fh t total rest
      wth' w calls fhb post :
  remaining fh = (le_bytes 4 t ++ le_bytes 4 total) ++ rest ->
  byte_swapped si = false ->
  0 <= t < 2 ^ 32 -> t <> BLOCK_TYPE_SHB ->
  0 <= total <= MAX_BLOCK_SIZE ->
  read_block_dispatch env wth a4 a6 (mkBh t total) si
    (set_type t (set_block None wblock)) (forward fh 8) = Ok ((wth', w, calls), fhb) ->
  remaining fhb = le_bytes 4 total ++ post ->
  pcapng_read_block env wth a4 a6 si nsi wblock fh
    = Ok (mkResult wth' nsi w calls, forward fhb 4)
  /\ remaining (forward fhb 4) = post.
Proof.
  intros Hrem Hsw Ht Hshb Htotal Hbody Hremb.
  assert (Hmaxv : MAX_BLOCK_SIZE = 134348832) by reflexivity.
  pose proof (wtap_read_bytes_or_eof_next 8 fh _ _ Hrem eq_refl) as Hr0.
  change (length (le_bytes 4 t ++ le_bytes 4 total)) with 8%nat in Hr0.
  unfold pcapng_read_block. change sizeof_block_header with 8.
  rewrite (bind_run _ _ _ _ _ Hr0). cbn [block_type block_total_length].
  rewrite field_first, (field_at_end 4 4 (le_bytes 4 t)) by reflexivity.
  change (256 ^ Z.of_nat 4) with (2 ^ 32).
  rewrite (Z.mod_small t), (Z.mod_small total)
    by (change (2 ^ 32) with 4294967296 in *; lia).
  destruct (Z.eqb_spec t BLOCK_TYPE_SHB) as [E|_]; [contradiction|].
  rewrite Hsw. cbn [block_type block_total_length].
  destruct (Z.gtb_spec total MAX_BLOCK_SIZE) as [Hgt|_]; [lia|].
  rewrite !bind_assoc. rewrite (bind_run _ _ _ _ _ Hbody). cbv beta iota.
  destruct (read_next 4 4 _ _ _ Hremb eq_refl eq_refl) as [Hr5 Hrem5].
  pose proof (pcapng_read_and_check_block_trailer_spec (mkBh t total) si _ _ _ Hr5) as Htr.
  rewrite Hsw in Htr. unfold maybe_swap32 in Htr. rewrite le_uint_le_bytes in Htr.
  change (256 ^ Z.of_nat 4) with (2 ^ 32) in Htr.
  rewrite (Z.mod_small total) in Htr by (change (2 ^ 32) with 4294967296 in *; lia).
  cbn [block_total_length] in Htr. rewrite Z.eqb_refl in Htr.
  unfold bind at 1. cbn [ret]. cbv beta iota.
  rewrite (bind_run _ _ _ _ _ Htr). split; [reflexivity|exact Hrem5].
Qed.

Lemma option_loop_zero {E St} (out : E) (body : Z -> St -> reader E (Z * St)) s fh :
  option_loop out body 0 s fh = Ok (s, fh).
Proof. reflexivity. Qed.
(** ** Decryption secrets blocks: written, then read *)

(** The padding of the secrets of a decryption secrets block. *)
Lemma dsb_pad_len n :
  0 <= n -> Z.land (guint32 (4 - Z.land n 3)) 3 = (4 - n mod 4) mod 4.
Proof.
  intros H. rewrite (land_3_mod4 n H).
  assert (Hm : 0 <= n mod 4 < 4) by (apply Z.mod_pos_bound; lia).
  unfold guint32. rewrite Z.mod_small by lia. apply land_3_mod4. lia.
Qed.


Lemma dsb_block_total_length_small m :
  0 <= secrets_len m < 2 ^ 32 - 24 ->
  dsb_block_total_length m = 20 + secrets_len m + (4 - secrets_len m mod 4) mod 4.
Proof.
  intros H. unfold dsb_block_total_length. rewrite dsb_pad_len by lia.
  assert (Hp : 0 <= (4 - secrets_len m mod 4) mod 4 < 4) by (apply Z.mod_pos_bound; lia).
  change MIN_DSB_SIZE with 20. unfold guint32. apply Z.mod_small.
  change (2 ^ 32) with 4294967296 in *. lia.
Qed.

Lemma pcapng_write_decryption_secrets_block_image wdh sdata m :
  block_mand sdata = WTAP_BLOCK_DECRYPTION_SECRETS m ->
  secrets_len m = Z.of_nat (length (secrets_data m)) ->
  secrets_len m < 2 ^ 32 - 24 ->
  pcapng_write_decryption_secrets_block wdh sdata
  = Ok (appended wdh (dsb_block_image m) (Z.of_nat (length (dsb_block_image m)))).
Proof.
  intros Hm Hlen Hsmall.
  assert (Hnn : 0 <= secrets_len m) by lia.
  unfold pcapng_write_decryption_secrets_block, dsb_mandatory. rewrite Hm.
  rewrite dsb_pad_len by lia.
  rewrite dsb_block_total_length_small by lia.
  set (pad := (4 - secrets_len m mod 4) mod 4).
  set (total := 20 + secrets_len m + pad).
  assert (Hp : 0 <= pad < 4) by (apply Z.mod_pos_bound; lia).
  rewrite !write_counted_appended. cbn [and_then].
  rewrite !write_counted_appended. cbn [and_then].
  unfold wtap_dump_file_write. cbn [and_then].
  replace (firstn (Z.to_nat (secrets_len m)) (secrets_data m)) with (secrets_data m)
    by (now rewrite Hlen, Nat2Z.id, firstn_all).
  assert (Hfold : forall w buf n,
            add_bytes_dumped n (mkDumper (dump_out w ++ buf) (bytes_dumped w)
                                         (wdh_shb_hdrs w)) = appended w buf n)
    by reflexivity.
  rewrite Hfold.
  assert (Hpadded :
    and_then (if negb (pad =? 0)
              then write_counted (repeat x00 (Z.to_nat pad))
                     (appended (appended (appended wdh (le_bytes 4 BLOCK_TYPE_DSB ++ le_bytes 4 total)
                        (Z.of_nat (length (le_bytes 4 BLOCK_TYPE_DSB ++ le_bytes 4 total))))
                        (le_bytes 4 (secrets_type m) ++ le_bytes 4 (secrets_len m))
                        (Z.of_nat (length (le_bytes 4 (secrets_type m) ++ le_bytes 4 (secrets_len m)))))
                        (secrets_data m) (secrets_len m))
              else Ok (appended (appended (appended wdh (le_bytes 4 BLOCK_TYPE_DSB ++ le_bytes 4 total)
                        (Z.of_nat (length (le_bytes 4 BLOCK_TYPE_DSB ++ le_bytes 4 total))))
                        (le_bytes 4 (secrets_type m) ++ le_bytes 4 (secrets_len m))
                        (Z.of_nat (length (le_bytes 4 (secrets_type m) ++ le_bytes 4 (secrets_len m)))))
                        (secrets_data m) (secrets_len m)))
             (write_counted (le_bytes 4 total))
    = Ok (appended wdh (dsb_block_image m) (Z.of_nat (length (dsb_block_image m))))).
  { assert (Hrep : forall w, (if negb (pad =? 0)
                              then write_counted (repeat x00 (Z.to_nat pad)) w
                              else Ok w) = Ok (appended w (repeat x00 (Z.to_nat pad)) pad)).
    { intros w. destruct (Z.eqb_spec pad 0) as [E|E]; cbn [negb].
      - rewrite E. cbn [Z.to_nat repeat]. now rewrite appended_nil.
      - rewrite write_counted_appended, repeat_length, Z2Nat.id by lia. reflexivity. }
    rewrite Hrep. cbn [and_then]. rewrite write_counted_appended.
    rewrite !appended_appended. unfold dsb_block_image. fold pad. fold total.
    repeat rewrite <- app_assoc.
    rewrite !length_app, !length_le_bytes, repeat_length.
    rewrite !Nat2Z.inj_add, <- Hlen, Z2Nat.id by lia. do 2 f_equal. lia. }
  exact Hpadded.
Qed.

Lemma dsb_block_image_read env wth a4 a6 si nsi wblock fh m post :
  remaining fh = dsb_block_image m ++ post ->
  byte_swapped si = false ->
  0 <= secrets_type m < 2 ^ 32 ->
  secrets_len m = Z.of_nat (length (secrets_data m)) ->
  20 + secrets_len m + (4 - secrets_len m mod 4) mod 4 <= MAX_BLOCK_SIZE ->
  pcapng_read_block env wth a4 a6 si nsi wblock fh
  = Ok (mkResult wth nsi
          (set_internal true
             (set_block (Some (mkBlock (WTAP_BLOCK_DECRYPTION_SECRETS m) []))
                (set_type BLOCK_TYPE_DSB (set_block None wblock))))
          (mkCalls [] []),
        forward fh (length (dsb_block_image m)))
  /\ remaining (forward fh (length (dsb_block_image m))) = post.
Proof.
  intros Hrem Hsw Htype Hlen Hmax.
  unfold dsb_block_image in *.
  set (pad := (4 - secrets_len m mod 4) mod 4) in *.
  set (total := 20 + secrets_len m + pad) in *.
  assert (Hp : 0 <= pad < 4) by (apply Z.mod_pos_bound; lia).
  assert (Hnn : 0 <= secrets_len m) by lia.
  assert (Hmaxv : MAX_BLOCK_SIZE = 134348832) by reflexivity.
  assert (Htot : total mod 2 ^ 32 = total)
    by (apply Z.mod_small; change (2 ^ 32) with 4294967296; lia).
  assert (Hlenm : secrets_len m mod 2 ^ 32 = secrets_len m)
    by (apply Z.mod_small; change (2 ^ 32) with 4294967296; lia).
  assert (Hwhole : length (le_bytes 4 BLOCK_TYPE_DSB ++ le_bytes 4 total ++
                     le_bytes 4 (secrets_type m) ++ le_bytes 4 (secrets_len m) ++
                     secrets_data m ++ repeat x00 (Z.to_nat pad) ++ le_bytes 4 total)
                   = (8 + (8 + (length (secrets_data m) + (Z.to_nat pad + 4))))%nat).
  { rewrite !length_app, !length_le_bytes, repeat_length. lia. }
  rewrite Hwhole. clear Hwhole.
  rewrite <- !app_assoc in Hrem.
  (* the block header *)
  rewrite (app_assoc (le_bytes 4 BLOCK_TYPE_DSB)) in Hrem.
  pose proof (wtap_read_bytes_or_eof_next 8 fh _ _ Hrem eq_refl) as Hr0.
  destruct (read_next 8 8 fh _ _ Hrem eq_refl eq_refl) as [_ Hrem1].
  change (length (le_bytes 4 BLOCK_TYPE_DSB ++ le_bytes 4 total)) with 8%nat in Hr0.
  unfold pcapng_read_block. change sizeof_block_header with 8.
  rewrite (bind_run _ _ _ _ _ Hr0).
  cbn [block_type block_total_length].
  rewrite field_first, (field_at_end 4 4 (le_bytes 4 BLOCK_TYPE_DSB)) by reflexivity.
  change (256 ^ Z.of_nat 4) with (2 ^ 32). rewrite Htot.
  change (BLOCK_TYPE_DSB mod 2 ^ 32 =? BLOCK_TYPE_SHB) with false. cbv iota.
  rewrite Hsw. cbn [block_type block_total_length].
  destruct (Z.gtb_spec total MAX_BLOCK_SIZE) as [Hgt|_]; [lia|].
  (* the body *)
  unfold read_block_dispatch. cbn [block_type].
  change (BLOCK_TYPE_DSB mod 2 ^ 32) with BLOCK_TYPE_DSB.
  change (BLOCK_TYPE_DSB =? BLOCK_TYPE_IDB) with false.
  change (BLOCK_TYPE_DSB =? BLOCK_TYPE_PB) with false.
  change (BLOCK_TYPE_DSB =? BLOCK_TYPE_SPB) with false.
  change (BLOCK_TYPE_DSB =? BLOCK_TYPE_EPB) with false.
  change (BLOCK_TYPE_DSB =? BLOCK_TYPE_NRB) with false.
  change (BLOCK_TYPE_DSB =? BLOCK_TYPE_ISB) with false.
  change (BLOCK_TYPE_DSB =? BLOCK_TYPE_DSB) with true. cbv beta iota zeta.
  unfold pcapng_read_decryption_secrets_block. change sizeof_dsb with 8.
  rewrite (app_assoc (le_bytes 4 (secrets_type m))) in Hrem1.
  destruct (read_next 8 8 _ _ _ Hrem1 eq_refl eq_refl) as [Hr2 Hrem2].
  rewrite !bind_assoc. rewrite (bind_run _ _ _ _ _ Hr2).
  rewrite Hsw. unfold maybe_swap32.
  rewrite field_first, (field_at_end 4 4 (le_bytes 4 (secrets_type m))) by reflexivity.
  change (256 ^ Z.of_nat 4) with (2 ^ 32). rewrite Hlenm.
  rewrite (Z.mod_small (secrets_type m)) by lia.
  destruct (Z.gtb_spec (secrets_len m) (1024 * 1024 * 1024)) as [Hgt|_]; [lia|].
  destruct (read_next (secrets_len m) _ _ _ _ Hrem2 eq_refl Hlen) as [Hr3 Hrem3].
  rewrite !bind_assoc. rewrite (bind_run _ _ _ _ _ Hr3).
  cbn [block_total_length]. change MIN_DSB_SIZE with 20.
  replace (guint32 (total - 20 - secrets_len m)) with pad
    by (unfold guint32, total; rewrite Z.mod_small;
        [lia|change (2 ^ 32) with 4294967296; lia]).
  destruct (read_next pad (Z.to_nat pad) _ _ _ Hrem3) as [Hr4 Hrem4];
    [apply repeat_length|now rewrite Z2Nat.id by lia|].
  rewrite !bind_assoc. rewrite (bind_run _ _ _ _ _ Hr4).
  cbn [ret bind].
  (* the trailer *)
  destruct (read_next 4 4 _ _ _ Hrem4 eq_refl eq_refl) as [Hr5 Hrem5].
  pose proof (pcapng_read_and_check_block_trailer_spec
                (mkBh BLOCK_TYPE_DSB total) si _ _ _ Hr5) as Htr.
  rewrite Hsw in Htr. unfold maybe_swap32 in Htr. rewrite le_uint_le_bytes in Htr.
  change (256 ^ Z.of_nat 4) with (2 ^ 32) in Htr. rewrite Htot in Htr.
  cbn [block_total_length] in Htr. rewrite Z.eqb_refl in Htr.
  rewrite (bind_run _ _ _ _ _ Htr). cbn [ret].
  rewrite !forward_forward in *.
  replace (8 + 8 + length (secrets_data m) + Z.to_nat pad + 4)%nat
    with (8 + (8 + (length (secrets_data m) + (Z.to_nat pad + 4))))%nat in * by lia.
  split; [|exact Hrem5].
  destruct m as [t l d]. reflexivity.
Qed.
(** X1: a decryption secrets block written by
    [pcapng_write_decryption_secrets_block] is read back by
    [pcapng_read_block], in a section of the host's byte order, as a block
    with the same secrets type, length and data; the read ends where the
    written bytes end, and [bytes_dumped] grew by the bytes written.  The
    block must fit the largest block the reader accepts. *)
Theorem dsb_write_then_read env wth a4 a6 si nsi wblock wdh sdata m :
  block_mand sdata = WTAP_BLOCK_DECRYPTION_SECRETS m ->
  byte_swapped si = false ->
  0 <= secrets_type m < 2 ^ 32 ->
  secrets_len m = Z.of_nat (length (secrets_data m)) ->
  secrets_len m + 23 <= MAX_BLOCK_SIZE ->
  exists wdh' r fh',
    pcapng_write_decryption_secrets_block wdh sdata = Ok wdh'
    /\ bytes_dumped wdh' - bytes_dumped wdh
       = Z.of_nat (length (dump_out wdh')) - Z.of_nat (length (dump_out wdh))
    /\ pcapng_read_block env wth a4 a6 si nsi wblock
         (written_file wdh' (length (dump_out wdh))) = Ok (r, fh')
    /\ wb_type (res_wblock r) = BLOCK_TYPE_DSB
    /\ wb_internal (res_wblock r) = true
    /\ wb_block (res_wblock r) = Some (mkBlock (WTAP_BLOCK_DECRYPTION_SECRETS m) [])
    /\ file_pos fh' = length (dump_out wdh').
Proof.
  intros Hm Hsw Htype Hlen Hmax.
  assert (Hmaxv : MAX_BLOCK_SIZE = 134348832) by reflexivity.
  assert (Hp : 0 <= (4 - secrets_len m mod 4) mod 4 < 4)
    by (apply Z.mod_pos_bound; lia).
  pose proof (pcapng_write_decryption_secrets_block_image wdh sdata m Hm Hlen
                ltac:(change (2 ^ 32) with 4294967296; lia)) as Hw.
  set (wdh' := appended wdh _ _) in Hw.
  destruct (dsb_block_image_read env wth a4 a6 si nsi wblock
              (written_file wdh' (length (dump_out wdh))) m [])
    as [Hr _]; auto; try lia.
  { rewrite app_nil_r. apply remaining_written. }
  eexists wdh', _, _. split; [exact Hw|]. split.
  { unfold wdh', appended. cbn [bytes_dumped dump_out]. rewrite length_app. lia. }
  split; [exact Hr|]. repeat split.
  unfold wdh', appended, forward, written_file. cbn [file_pos dump_out].
  now rewrite length_app.
Qed.

Lemma dsb_write_then_read_witness :
  exists wdh' r fh',
    pcapng_write_decryption_secrets_block (fresh_dumper [])
      (mkBlock (WTAP_BLOCK_DECRYPTION_SECRETS (mkDsb 0x544c534b 5 (bytes [1; 2; 3; 4; 5])))
               []) = Ok wdh'
    /\ pcapng_read_block plain_env (mkFileInfo 0 0) false false default_section
         default_section empty_wblock (written_file wdh' 0) = Ok (r, fh')
    /\ wb_block (res_wblock r)
       = Some (mkBlock (WTAP_BLOCK_DECRYPTION_SECRETS
                          (mkDsb 0x544c534b 5 (bytes [1; 2; 3; 4; 5]))) [])
    /\ file_pos fh' = 28%nat.
Proof.
  destruct (dsb_write_then_read plain_env (mkFileInfo 0 0) false false default_section
              default_section empty_wblock (fresh_dumper [])
              (mkBlock (WTAP_BLOCK_DECRYPTION_SECRETS
                          (mkDsb 0x544c534b 5 (bytes [1; 2; 3; 4; 5]))) [])
              (mkDsb 0x544c534b 5 (bytes [1; 2; 3; 4; 5]))
              eq_refl eq_refl ltac:(cbn; lia) eq_refl ltac:(vm_compute; discriminate))
    as (wdh' & r & fh' & Hw & _ & Hr & _ & _ & Hb & Hpos).
  exists wdh', r, fh'. split; [exact Hw|]. split; [exact Hr|]. split; [exact Hb|].
  rewrite Hpos. vm_compute in Hw. inversion Hw. reflexivity.
Defined.
(** ** Record writers *)

Lemma wr_appends_ok : wr_appends wr_ok [] 0.
Proof. intros wdh. unfold wr_ok. now rewrite appended_nil. Qed.

Lemma wr_appends_counted buf : wr_appends (wr_counted buf) buf (Z.of_nat (length buf)).
Proof. intros wdh. reflexivity. Qed.

Lemma wr_appends_seq a b buf1 n1 buf2 n2 :
  wr_appends a buf1 n1 -> wr_appends b buf2 n2 ->
  wr_appends (wr_seq a b) (buf1 ++ buf2) (n1 + n2).
Proof.
  intros Ha Hb wdh. unfold wr_seq. rewrite Ha, Hb. now rewrite appended_appended.
Qed.

Lemma wr_appends_bytes buf n :
  wr_appends (wr_bytes buf n) (firstn (Z.to_nat n) buf) n.
Proof. intros wdh. reflexivity. Qed.

Lemma wr_appends_pad pad_len :
  0 <= pad_len -> wr_appends (wr_pad pad_len) (repeat x00 (Z.to_nat pad_len)) pad_len.
Proof.
  intros H wdh. unfold wr_pad. destruct (Z.eqb_spec pad_len 0) as [->|Hne]; cbn [negb].
  - apply wr_appends_ok.
  - rewrite wr_appends_counted. now rewrite repeat_length, Z2Nat.id.
Qed.

Lemma wr_appends_eq w buf n buf' n' :
  wr_appends w buf n -> buf = buf' -> n = n' -> wr_appends w buf' n'.
Proof. now intros H <- <-. Qed.

Lemma pad_to_4_range n : 0 <= pad_to_4 n < 4.
Proof.
  unfold pad_to_4. pose proof (Z.mod_pos_bound n 4 ltac:(lia)).
  destruct (Z.eqb_spec (n mod 4) 0); cbn [negb]; lia.
Qed.

Lemma pad_to_4_aligned n : (n + pad_to_4 n) mod 4 = 0.
Proof.
  unfold pad_to_4. pose proof (Z.mod_pos_bound n 4 ltac:(lia)).
  destruct (Z.eqb_spec (n mod 4) 0) as [E|E]; cbn [negb].
  - now rewrite Z.add_0_r.
  - rewrite (Z.div_mod n 4) at 1 by lia.
    replace (4 * (n / 4) + n mod 4 + (4 - n mod 4)) with ((n / 4 + 1) * 4) by lia.
    apply Z.mod_mul. lia.
Qed.

Lemma ROUND_TO_4BYTE_spec n : 0 <= n -> ROUND_TO_4BYTE n = n + pad_to_4 n.
Proof.
  intros H. unfold ROUND_TO_4BYTE.
  assert (E : Z.land (n + 3) (Z.lnot 3) = 4 * ((n + 3) / 4)).
  { change (Z.lnot 3) with (Z.lnot (Z.ones 2)).
    rewrite <- Z.ldiff_land, Z.ldiff_ones_r by lia.
    rewrite Z.shiftr_div_pow2, Z.shiftl_mul_pow2 by lia. change (2 ^ 2) with 4. lia. }
  rewrite E. unfold pad_to_4.
  pose proof (Z.mod_pos_bound n 4 ltac:(lia)) as Hm.
  pose proof (Z.div_mod n 4 ltac:(lia)) as Hd.
  destruct (Z.eqb_spec (n mod 4) 0) as [E0|E0]; cbn [negb].
  - replace (n + 3) with (n / 4 * 4 + 3) by lia.
    rewrite Z.div_add_l by lia. change (3 / 4) with 0. lia.
  - replace (n + 3) with ((n / 4 + 1) * 4 + (n mod 4 - 1)) by lia.
    rewrite Z.div_add_l by lia. rewrite (Z.div_small (n mod 4 - 1)) by lia. lia.
Qed.

(** *** The options of an enhanced packet block *)

Lemma wr_appends_if (c : bool) a b buf1 n1 buf2 n2 :
  wr_appends a buf1 n1 -> wr_appends b buf2 n2 ->
  wr_appends (if c then a else b) (if c then buf1 else buf2) (if c then n1 else n2).
Proof. now destruct c. Qed.

Lemma ROUND_TO_4BYTE_pad n :
  0 <= n -> ROUND_TO_4BYTE n - n = pad_to_4 n.
Proof. intros H. rewrite ROUND_TO_4BYTE_spec by lia. lia. Qed.

Lemma wr_appends_round_pad len :
  0 <= len ->
  wr_appends (if negb (ROUND_TO_4BYTE len =? len)
              then wr_counted (repeat x00 (Z.to_nat (ROUND_TO_4BYTE len - len)))
              else wr_ok)
             (repeat x00 (Z.to_nat (ROUND_TO_4BYTE len - len)))
             (ROUND_TO_4BYTE len - len).
Proof.
  intros H. rewrite ROUND_TO_4BYTE_pad by lia.
  pose proof (pad_to_4_range len) as Hp.
  rewrite ROUND_TO_4BYTE_spec by lia.
  destruct (Z.eqb_spec (len + pad_to_4 len) len) as [E|E]; cbn [negb].
  - replace (pad_to_4 len) with 0 by lia. apply wr_appends_ok.
  - eapply wr_appends_eq; [apply wr_appends_counted|reflexivity|].
    rewrite repeat_length, Z2Nat.id; lia.
Qed.

Lemma wr_appends_verdicts verdicts :
  wr_appends (write_epb_verdicts verdicts) (epb_verdicts_image verdicts)
             (Z.of_nat (length (epb_verdicts_image verdicts))).
Proof.
  induction verdicts as [|v rest IH]; cbn [write_epb_verdicts epb_verdicts_image].
  - apply wr_appends_ok.
  - eapply wr_appends_eq.
    + apply wr_appends_seq; [|exact IH].
      apply wr_appends_if; [|apply wr_appends_ok].
      apply wr_appends_seq; [apply wr_appends_counted|].
      apply wr_appends_seq; [apply wr_appends_counted|].
      apply wr_appends_round_pad. lia.
    + destruct (Z.of_nat (length v) =? 0); cbn [negb]; [reflexivity|].
      repeat rewrite <- app_assoc. reflexivity.
    + pose proof (pad_to_4_range (Z.of_nat (length v))) as Hp.
      destruct (Z.of_nat (length v) =? 0); cbn [negb].
      * rewrite length_app. cbn [length]. lia.
      * rewrite !length_app, !Nat2Z.inj_add, repeat_length.
        rewrite ROUND_TO_4BYTE_pad, Z2Nat.id by lia. lia.
Qed.

Lemma land_ffff_le x : 0 <= x -> 0 <= Z.land x 0xffff <= x /\ Z.land x 0xffff < 65536.
Proof.
  intros H. change 0xffff with (Z.ones 16). rewrite Z.land_ones by lia.
  pose proof (Z.mod_pos_bound x (2 ^ 16) ltac:(lia)) as Hm.
  pose proof (Z.mod_le x (2 ^ 16) H ltac:(lia)). change (2 ^ 16) with 65536 in *. lia.
Qed.

Lemma guint32_range x : 0 <= guint32 x < 2 ^ 32.
Proof. unfold guint32. apply Z.mod_pos_bound. lia. Qed.

Lemma guint32_le x : 0 <= x -> guint32 x <= x.
Proof. intros H. unfold guint32. apply Z.mod_le; lia. Qed.

Lemma epb_comment_len_range rec c :
  opt_comment rec = Some c ->
  0 <= epb_comment_len rec <= Z.of_nat (length c) /\ epb_comment_len rec < 65536.
Proof.
  intros H. unfold epb_comment_len. rewrite H. unfold strlen.
  pose proof (guint32_range (Z.of_nat (length c))) as Hr.
  pose proof (guint32_le (Z.of_nat (length c)) ltac:(lia)) as Hl.
  pose proof (land_ffff_le (guint32 (Z.of_nat (length c))) ltac:(lia)). lia.
Qed.

Lemma wr_appends_epb_options rec :
  wr_appends (write_epb_options rec) (epb_options_image rec)
             (Z.of_nat (length (epb_options_image rec))).
Proof.
  unfold write_epb_options, epb_options_image.
  eapply wr_appends_eq.
  - apply wr_appends_seq.
    { instantiate (2 := match opt_comment rec with
                        | Some comment =>
                            le_bytes 2 OPT_COMMENT ++ le_bytes 2 (guint16 (epb_comment_len rec))
                            ++ firstn (Z.to_nat (epb_comment_len rec)) comment
                            ++ repeat x00 (Z.to_nat (epb_comment_pad_len rec))
                        | None => []
                        end).
      instantiate (1 := match opt_comment rec with
                        | Some comment => 4 + epb_comment_len rec + epb_comment_pad_len rec
                        | None => 0
                        end).
      destruct (opt_comment rec) as [c|] eqn:Ec; [|apply wr_appends_ok].
      eapply wr_appends_eq.
      - apply wr_appends_seq; [apply wr_appends_counted|].
        apply wr_appends_seq; [apply wr_appends_bytes|].
        apply wr_appends_pad. unfold epb_comment_pad_len. rewrite Ec.
        apply pad_to_4_range.
      - repeat rewrite <- app_assoc. reflexivity.
      - rewrite length_app, !length_le_bytes. lia. }
    apply wr_appends_seq.
    { apply wr_appends_if; [|apply wr_appends_ok].
      apply wr_appends_seq; apply wr_appends_counted. }
    apply wr_appends_seq.
    { apply wr_appends_if; [|apply wr_appends_ok].
      apply wr_appends_seq; apply wr_appends_counted. }
    apply wr_appends_seq.
    { apply wr_appends_if; [|apply wr_appends_ok].
      apply wr_appends_seq; apply wr_appends_counted. }
    apply wr_appends_seq.
    { apply wr_appends_if; [|apply wr_appends_ok].
      apply wr_appends_seq; apply wr_appends_counted. }
    apply wr_appends_seq.
    { instantiate (2 := match packet_verdict rec with
                        | Some verdicts =>
                            if has_flag (presence_flags rec) WTAP_HAS_VERDICT
                            then epb_verdicts_image verdicts else []
                        | None => []
                        end).
      instantiate (1 := Z.of_nat (length
                          match packet_verdict rec with
                          | Some verdicts =>
                              if has_flag (presence_flags rec) WTAP_HAS_VERDICT
                              then epb_verdicts_image verdicts else []
                          | None => []
                          end)).
      destruct (packet_verdict rec) as [vs|]; [|apply wr_appends_ok].
      destruct (has_flag (presence_flags rec) WTAP_HAS_VERDICT);
        [apply wr_appends_verdicts|apply wr_appends_ok]. }
    apply wr_appends_if; [apply wr_appends_counted|apply wr_appends_ok].
  - repeat rewrite <- app_assoc.
    destruct (has_flag (presence_flags rec) WTAP_HAS_PACK_FLAGS),
             (has_flag (presence_flags rec) WTAP_HAS_DROP_COUNT),
             (has_flag (presence_flags rec) WTAP_HAS_PACKET_ID),
             (has_flag (presence_flags rec) WTAP_HAS_INT_QUEUE);
      repeat rewrite <- app_assoc; reflexivity.
  - rewrite !length_app, !Nat2Z.inj_add.
    assert (Hc : Z.of_nat (length
                   match opt_comment rec with
                   | Some comment =>
                       le_bytes 2 OPT_COMMENT ++ le_bytes 2 (guint16 (epb_comment_len rec))
                       ++ firstn (Z.to_nat (epb_comment_len rec)) comment
                       ++ repeat x00 (Z.to_nat (epb_comment_pad_len rec))
                   | None => []
                   end)
                 = match opt_comment rec with
                   | Some comment => 4 + epb_comment_len rec + epb_comment_pad_len rec
                   | None => 0
                   end).
    { destruct (opt_comment rec) as [c|] eqn:Ec; [|reflexivity].
      destruct (epb_comment_len_range rec c Ec) as [Hr _].
      assert (Hp : 0 <= epb_comment_pad_len rec < 4)
        by (unfold epb_comment_pad_len; rewrite Ec; apply pad_to_4_range).
      rewrite !length_app, !length_le_bytes, length_firstn, repeat_length.
      rewrite Nat.min_l by lia. lia. }
    rewrite Hc.
    destruct (has_flag (presence_flags rec) WTAP_HAS_PACK_FLAGS),
             (has_flag (presence_flags rec) WTAP_HAS_DROP_COUNT),
             (has_flag (presence_flags rec) WTAP_HAS_PACKET_ID),
             (has_flag (presence_flags rec) WTAP_HAS_INT_QUEUE),
             (epb_have_options rec);
      rewrite ?length_app, ?length_le_bytes; cbn [length repeat]; lia.
Qed.

Lemma guint32_small x : 0 <= x < 2 ^ 32 -> guint32 x = x.
Proof. intros H. unfold guint32. now apply Z.mod_small. Qed.

Lemma guint64_small x : 0 <= x < 2 ^ 64 -> guint64 x = x.
Proof. intros H. unfold guint64. now apply Z.mod_small. Qed.

Lemma guint16_small x : 0 <= x < 2 ^ 16 -> guint16 x = x.
Proof. intros H. unfold guint16. now apply Z.mod_small. Qed.

(** Drop the 32-bit wrap of every sum that lia can bound. *)
Ltac unwrap32 :=
  repeat match goal with
         | |- context [guint32 ?x] => rewrite (guint32_small x) by lia
         end.

Lemma verdicts_options_length_spec verdicts : forall start,
  0 <= start ->
  start + Z.of_nat (length (epb_verdicts_image verdicts)) < 2 ^ 32 ->
  verdicts_options_length verdicts start
  = start + Z.of_nat (length (epb_verdicts_image verdicts)).
Proof.
  unfold verdicts_options_length.
  induction verdicts as [|v rest IH]; intros start H0 Hlt;
    cbn [fold_left epb_verdicts_image length] in *.
  - lia.
  - rewrite length_app, Nat2Z.inj_add in Hlt.
    pose proof (pad_to_4_range (Z.of_nat (length v))) as Hp.
    pose proof (pad_to_4_range (4 + Z.of_nat (length v))) as Hp4.
    assert (Hpp : pad_to_4 (4 + Z.of_nat (length v)) = pad_to_4 (Z.of_nat (length v))).
    { unfold pad_to_4. replace (4 + Z.of_nat (length v)) with (Z.of_nat (length v) + 1 * 4) by lia.
      now rewrite Z.mod_add by lia. }
    destruct (Z.of_nat (length v) =? 0) eqn:E0; cbn [negb] in *.
    + rewrite IH; rewrite ?length_app, ?Nat2Z.inj_add; cbn [length] in *; lia.
    + rewrite !length_app, !length_le_bytes, repeat_length, !Nat2Z.inj_add in Hlt.
      rewrite ROUND_TO_4BYTE_pad, Z2Nat.id in Hlt by lia.
      rewrite (ROUND_TO_4BYTE_spec (4 + Z.of_nat (length v))) by lia. rewrite Hpp.
      change (2 ^ 32) with 4294967296 in *.
      rewrite (guint64_small (4 + Z.of_nat (length v) + pad_to_4 (Z.of_nat (length v))))
        by (change (2 ^ 64) with 18446744073709551616; lia).
      rewrite (guint32_small (start + _)) by (change (2 ^ 32) with 4294967296; lia).
      rewrite IH by lia.
      rewrite !length_app, !length_le_bytes, repeat_length, !Nat2Z.inj_add.
      rewrite ROUND_TO_4BYTE_pad, Z2Nat.id by lia. lia.
Qed.

Lemma epb_options_total_length_spec rec :
  Z.of_nat (length (epb_options_image rec)) < 2 ^ 32 ->
  epb_options_total_length rec = Z.of_nat (length (epb_options_image rec)).
Proof.
  unfold epb_options_total_length, epb_options_image.
  set (vimage := match packet_verdict rec with
                 | Some verdicts =>
                     if has_flag (presence_flags rec) WTAP_HAS_VERDICT
                     then epb_verdicts_image verdicts else []
                 | None => []
                 end).
  set (cimage := match opt_comment rec with
                 | Some comment =>
                     le_bytes 2 OPT_COMMENT ++ le_bytes 2 (guint16 (epb_comment_len rec))
                     ++ firstn (Z.to_nat (epb_comment_len rec)) comment
                     ++ repeat x00 (Z.to_nat (epb_comment_pad_len rec))
                 | None => []
                 end).
  intros Hlt. rewrite !length_app, !Nat2Z.inj_add in *.
  assert (Hc : Z.of_nat (length cimage)
               = match opt_comment rec with
                 | Some comment => 4 + epb_comment_len rec + epb_comment_pad_len rec
                 | None => 0
                 end).
  { unfold cimage. destruct (opt_comment rec) as [c|] eqn:Ec; [|reflexivity].
    destruct (epb_comment_len_range rec c Ec) as [Hr _].
    assert (Hp : 0 <= epb_comment_pad_len rec < 4)
      by (unfold epb_comment_pad_len; rewrite Ec; apply pad_to_4_range).
    rewrite !length_app, !length_le_bytes, length_firstn, repeat_length.
    rewrite Nat.min_l by lia. lia. }
  assert (Hcr : 0 <= Z.of_nat (length cimage)) by lia.
  rewrite Hc in *. clear Hc. clearbody cimage.
  assert (Hv : forall start, 0 <= start ->
             start + Z.of_nat (length vimage) < 2 ^ 32 ->
             match packet_verdict rec with
             | Some verdicts =>
                 if has_flag (presence_flags rec) WTAP_HAS_VERDICT
                 then verdicts_options_length verdicts start else start
             | None => start
             end = start + Z.of_nat (length vimage)).
  { intros start H0 Hs. unfold vimage in *.
    destruct (packet_verdict rec) as [vs|]; [|cbn [length]; lia].
    destruct (has_flag (presence_flags rec) WTAP_HAS_VERDICT); [|cbn [length]; lia].
    now apply verdicts_options_length_spec. }
  clearbody vimage.
  assert (Hcl : match opt_comment rec with
                | Some _ => 0 <= epb_comment_len rec /\ 0 <= epb_comment_pad_len rec
                | None => True
                end).
  { destruct (opt_comment rec) as [c|] eqn:Ec; [|exact I].
    destruct (epb_comment_len_range rec c Ec) as [Hr _].
    unfold epb_comment_pad_len. rewrite Ec.
    pose proof (pad_to_4_range (epb_comment_len rec)). lia. }
  change (2 ^ 32) with 4294967296 in *.
  destruct (opt_comment rec) as [c|];
    destruct (has_flag (presence_flags rec) WTAP_HAS_PACK_FLAGS),
             (has_flag (presence_flags rec) WTAP_HAS_DROP_COUNT),
             (has_flag (presence_flags rec) WTAP_HAS_PACKET_ID),
             (has_flag (presence_flags rec) WTAP_HAS_INT_QUEUE),
             (epb_have_options rec);
    rewrite ?length_app, ?length_le_bytes in *; cbn [length repeat] in *;
    repeat match goal with
           | |- context [guint32 ?x] =>
               rewrite (guint32_small x) by (change (2 ^ 32) with 4294967296; lia)
           end;
    rewrite Hv by lia; 
    repeat match goal with
           | |- context [guint32 ?x] =>
               rewrite (guint32_small x) by (change (2 ^ 32) with 4294967296; lia)
           end; lia.
Qed.

(** *** The whole block *)

Lemma wr_appends_of_phdr denv encap ph phdr k phdr_len :
  (forall w, pcap_write_phdr denv encap ph w = Ok (appended w phdr k)) ->
  wr_appends (wr_of (fun wdh =>
                       and_then (pcap_write_phdr denv encap ph wdh)
                                (fun wdh => Ok (add_bytes_dumped phdr_len wdh))))
             phdr (k + phdr_len).
Proof.
  intros H wdh. unfold wr_of. rewrite H. cbn [and_then].
  unfold add_bytes_dumped, appended. cbn [dump_out bytes_dumped wdh_shb_hdrs].
  now rewrite Z.add_assoc.
Qed.

Lemma pcapng_write_enhanced_packet_block_image env denv info rec pd phdr k :
  epb_writable env info rec ->
  (forall w, pcap_write_phdr denv (pkt_encap (packet_header rec))
               (pseudo_header (packet_header rec)) w = Ok (appended w phdr k)) ->
  pcap_get_phdr_size denv (pkt_encap (packet_header rec))
    (pseudo_header (packet_header rec)) = Z.of_nat (length phdr) ->
  0 <= caplen (packet_header rec) <= Z.of_nat (length pd) ->
  Z.of_nat (length phdr) < 2 ^ 32 ->
  wr_appends (pcapng_write_enhanced_packet_block env denv info rec pd)
             (epb_block_image denv info rec pd phdr)
             (Z.of_nat (length (epb_block_image denv info rec pd phdr)) + k).
Proof.
  intros (Hcap & Hid & Henc) Hphdr Hsize Hpd Hphlen.
  unfold pcapng_write_enhanced_packet_block. fold (epb_interface_id rec).
  destruct (Z.gtb_spec (caplen (packet_header rec))
              (wtap_max_snaplen_for_encap env (wdh_encap info))) as [Hgt|_]; [lia|].
  destruct (Z.geb_spec (epb_interface_id rec)
              (Z.of_nat (length (wdh_interface_data info)))) as [Hge|_]; [lia|].
  rewrite Henc, Z.eqb_refl. cbn [negb].
  pose proof (pad_to_4_range
                (guint32 (guint32 (pcap_get_phdr_size denv (pkt_encap (packet_header rec))
                                     (pseudo_header (packet_header rec)))
                          + caplen (packet_header rec)))) as Hp.
  eapply wr_appends_eq.
  - apply wr_appends_seq; [apply wr_appends_counted|].
    apply wr_appends_seq; [apply wr_appends_counted|].
    apply wr_appends_seq; [apply (wr_appends_of_phdr _ _ _ phdr k); exact Hphdr|].
    apply wr_appends_seq; [apply wr_appends_bytes|].
    apply wr_appends_seq; [apply wr_appends_pad; lia|].
    apply wr_appends_seq; [apply wr_appends_epb_options|].
    apply wr_appends_counted.
  - unfold epb_block_image. repeat rewrite <- app_assoc. reflexivity.
  - unfold epb_block_image.
    rewrite !length_app, !length_le_bytes, length_firstn, repeat_length, !Nat2Z.inj_add.
    rewrite Nat.min_l by lia. rewrite Hsize in *.
    rewrite (guint32_small (Z.of_nat (length phdr))) in * by lia.
    rewrite !Z2Nat.id by lia.
    lia.
Qed.

Lemma mod4_add a b : a mod 4 = 0 -> b mod 4 = 0 -> (a + b) mod 4 = 0.
Proof.
  intros Ha Hb. rewrite Z.add_mod, Ha, Hb by lia. reflexivity.
Qed.

Lemma epb_verdicts_image_aligned verdicts :
  Z.of_nat (length (epb_verdicts_image verdicts)) mod 4 = 0.
Proof.
  induction verdicts as [|v rest IH]; cbn [epb_verdicts_image]; [reflexivity|].
  rewrite length_app, Nat2Z.inj_add. apply mod4_add; [|exact IH].
  destruct (Z.of_nat (length v) =? 0); cbn [negb]; [reflexivity|].
  rewrite !length_app, !length_le_bytes, repeat_length, !Nat2Z.inj_add.
  pose proof (pad_to_4_range (Z.of_nat (length v))) as Hp.
  rewrite ROUND_TO_4BYTE_pad, Z2Nat.id by lia.
  replace (Z.of_nat 2 + (Z.of_nat 2 + (Z.of_nat (length v) + pad_to_4 (Z.of_nat (length v)))))
    with (4 + (Z.of_nat (length v) + pad_to_4 (Z.of_nat (length v)))) by lia.
  apply mod4_add; [reflexivity|apply pad_to_4_aligned].
Qed.

Lemma epb_options_image_aligned rec :
  Z.of_nat (length (epb_options_image rec)) mod 4 = 0.
Proof.
  unfold epb_options_image. rewrite !length_app, !Nat2Z.inj_add.
  repeat apply mod4_add.
  - destruct (opt_comment rec) as [c|] eqn:Ec; [|reflexivity].
    destruct (epb_comment_len_range rec c Ec) as [Hr _].
    assert (Hp : epb_comment_pad_len rec = pad_to_4 (epb_comment_len rec))
      by (unfold epb_comment_pad_len; now rewrite Ec).
    pose proof (pad_to_4_range (epb_comment_len rec)) as Hpr.
    rewrite !length_app, !length_le_bytes, length_firstn, repeat_length, !Nat2Z.inj_add.
    rewrite Nat.min_l by lia. rewrite !Z2Nat.id by lia. rewrite Hp.
    replace (Z.of_nat 2 + (Z.of_nat 2 + (epb_comment_len rec + pad_to_4 (epb_comment_len rec))))
      with (4 + (epb_comment_len rec + pad_to_4 (epb_comment_len rec))) by lia.
    apply mod4_add; [reflexivity|apply pad_to_4_aligned].
  - now destruct (has_flag _ _).
  - now destruct (has_flag _ _).
  - now destruct (has_flag _ _).
  - now destruct (has_flag _ _).
  - destruct (packet_verdict rec) as [vs|]; [|reflexivity].
    destruct (has_flag _ _); [apply epb_verdicts_image_aligned|reflexivity].
  - now destruct (epb_have_options rec).
Qed.

Lemma epb_block_image_length denv info rec pd phdr :
  pcap_get_phdr_size denv (pkt_encap (packet_header rec))
    (pseudo_header (packet_header rec)) = Z.of_nat (length phdr) ->
  0 <= caplen (packet_header rec) <= Z.of_nat (length pd) ->
  Z.of_nat (length (epb_block_image denv info rec pd phdr)) < 2 ^ 32 ->
  epb_block_total_length denv rec
    = Z.of_nat (length (epb_block_image denv info rec pd phdr))
  /\ Z.of_nat (length (epb_block_image denv info rec pd phdr))
     = 32 + (Z.of_nat (length phdr) + caplen (packet_header rec)
             + pad_to_4 (Z.of_nat (length phdr) + caplen (packet_header rec)))
       + Z.of_nat (length (epb_options_image rec)).
Proof.
  intros Hsize Hpd Hlt. unfold epb_block_image, epb_block_total_length in *.
  rewrite Hsize in *.
  pose proof (pad_to_4_range
                (guint32 (guint32 (Z.of_nat (length phdr)) + caplen (packet_header rec))))
    as Hp.
  rewrite !length_app, !length_le_bytes, length_firstn, repeat_length, !Nat2Z.inj_add in *.
  rewrite Nat.min_l in * by lia. rewrite !Z2Nat.id in * by lia.
  change (2 ^ 32) with 4294967296 in *.
  assert (Hph : guint32 (Z.of_nat (length phdr)) = Z.of_nat (length phdr)).
  { pose proof (guint32_le (Z.of_nat (length phdr)) ltac:(lia)).
    pose proof (guint32_range (Z.of_nat (length phdr))).
    apply guint32_small. change (2 ^ 32) with 4294967296. lia. }
  rewrite Hph in *.
  assert (Hsum : guint32 (Z.of_nat (length phdr) + caplen (packet_header rec))
                 = Z.of_nat (length phdr) + caplen (packet_header rec))
    by (apply guint32_small; change (2 ^ 32) with 4294967296; lia).
  rewrite Hsum in *.
  rewrite epb_options_total_length_spec by (change (2 ^ 32) with 4294967296; lia).
  change sizeof_block_header with 8. change sizeof_epb with 20.
  split; [|lia].
  rewrite guint32_small by (change (2 ^ 32) with 4294967296; lia). lia.
Qed.
(** ** Enhanced packet blocks: written, then read *)

(** The two halves of a 64-bit time stamp, put together again. *)
Lemma packet_ts_halves ts :
  0 <= ts < 2 ^ 64 ->
  packet_ts (guint32 (Z.shiftr ts 32)) (guint32 ts) = ts.
Proof.
  intros H. rewrite packet_ts_lor by apply guint32_range.
  unfold guint32. apply Z.bits_inj'. intros i Hi.
  rewrite Z.lor_spec, Z.shiftl_spec by lia.
  destruct (Z.ltb_spec i 32) as [Hlt|Hge].
  - rewrite (Z.testbit_neg_r _ (i - 32)) by lia.
    rewrite Z.mod_pow2_bits_low by lia. reflexivity.
  - rewrite (Z.mod_pow2_bits_high ts) by lia. rewrite orb_false_r.
    destruct (Z.ltb_spec (i - 32) 32) as [Hlt2|Hge2].
    + rewrite Z.mod_pow2_bits_low by lia. rewrite Z.shiftr_spec by lia.
      f_equal. lia.
    + rewrite Z.mod_pow2_bits_high by lia.
      symmetry. destruct (Z.eq_dec ts 0) as [->|Hnz]; [apply Z.bits_0|].
      apply Z.bits_above_log2; [lia|].
      apply Z.lt_le_trans with 64; [|lia]. apply Z.log2_lt_pow2; lia.
Qed.

Lemma epb_plain_block_read env wth a4 a6 si nsi wblock fh id ts plen data post ph0 iface :
  let cap := Z.of_nat (length data) in
  let total := 32 + cap + pad_to_4 cap in
  remaining fh
  = (le_bytes 4 BLOCK_TYPE_EPB ++ le_bytes 4 total)
    ++ (le_bytes 4 id ++ le_bytes 4 (guint32 (Z.shiftr ts 32)) ++ le_bytes 4 (guint32 ts)
        ++ le_bytes 4 cap ++ le_bytes 4 plen)
    ++ data ++ repeat x00 (Z.to_nat (pad_to_4 cap)) ++ le_bytes 4 total ++ post ->
  byte_swapped si = false ->
  0 <= id < 2 ^ 32 -> 0 <= ts < 2 ^ 64 -> 0 <= plen < 2 ^ 32 ->
  total <= MAX_BLOCK_SIZE ->
  nth_error (interfaces si) (Z.to_nat id) = Some iface ->
  cap <= wtap_max_snaplen_for_encap env (wtap_encap iface) ->
  pcap_process_pseudo_header env (wtap_encap iface) cap = ret (ph0, 0) ->
  pcapng_read_block env wth a4 a6 si nsi wblock fh
  = Ok (mkResult wth nsi (epb_plain_record env iface id ts cap plen ph0 data wblock)
                 (mkCalls [] []),
        forward fh (Z.to_nat total))
  /\ remaining (forward fh (Z.to_nat total)) = post.
Proof.
  intros cap total Hrem Hsw Hid Hts Hplen Hmax Hiface Hsnap Hph.
  assert (Hmaxv : MAX_BLOCK_SIZE = 134348832) by reflexivity.
  pose proof (pad_to_4_range cap) as Hp.
  pose proof (pad_to_4_aligned cap) as Hal.
  assert (Hcap : 0 <= cap) by (unfold cap; lia).
  assert (H32 : 2 ^ 32 = 4294967296) by reflexivity.
  assert (Hlen_if : (Z.to_nat id < length (interfaces si))%nat)
    by (apply nth_error_Some; congruence).
  assert (Hnth : nth (Z.to_nat id) (interfaces si) (mkIface 0 0 0 0 0) = iface)
    by (now apply nth_error_nth).
  assert (Hbody :
    read_block_dispatch env wth a4 a6 (mkBh BLOCK_TYPE_EPB total) si
      (set_type BLOCK_TYPE_EPB (set_block None wblock)) (forward fh 8)
    = Ok ((wth, epb_plain_record env iface id ts cap plen ph0 data wblock, mkCalls [] []),
          forward fh (8 + (20 + (length data + Z.to_nat (pad_to_4 cap)))))
    /\ remaining (forward fh (8 + (20 + (length data + Z.to_nat (pad_to_4 cap)))))
       = le_bytes 4 total ++ post).
  { destruct (read_next 8 8 fh _ _ Hrem eq_refl eq_refl) as [_ Hrem1].
    unfold read_block_dispatch. cbn [block_type].
    change (BLOCK_TYPE_EPB =? BLOCK_TYPE_IDB) with false.
    change (BLOCK_TYPE_EPB =? BLOCK_TYPE_PB) with false.
    change (BLOCK_TYPE_EPB =? BLOCK_TYPE_SPB) with false.
    change (BLOCK_TYPE_EPB =? BLOCK_TYPE_EPB) with true. cbv beta iota zeta.
    unfold pcapng_read_packet_block, read_packet_fixed_part.
    cbn [block_total_length]. change MIN_EPB_SIZE with 32. change sizeof_epb with 20.
    destruct (Z.ltb_spec total 32) as [Hlt|_]; [unfold total in Hlt; lia|].
    destruct (read_next 20 20 _ _ _ Hrem1 eq_refl eq_refl) as [Hr2 Hrem2].
    rewrite !bind_assoc. rewrite (bind_run _ _ _ _ _ Hr2). cbn [ret bind].
    cbv beta iota zeta. cbn [p_cap_len p_interface_id p_ts_high p_ts_low p_packet_len].
    rewrite Hsw. unfold maybe_swap32.
    fields.
    change (256 ^ Z.of_nat 4) with (2 ^ 32).
    rewrite (Z.mod_small id), (Z.mod_small cap), (Z.mod_small plen) by lia.
    rewrite !(Z.mod_small (guint32 _)) by apply guint32_range.
    assert (Hpd : data_padding cap = pad_to_4 cap) by reflexivity.
    rewrite Hpd.
    assert (Hpt : padded_block_total_length (mkBh BLOCK_TYPE_EPB total) = total).
    { unfold padded_block_total_length. cbn [block_total_length].
      replace (total mod 4) with 0; [reflexivity|].
      unfold total. replace (32 + cap + pad_to_4 cap) with ((cap + pad_to_4 cap) + 8 * 4) by lia.
      now rewrite Z.mod_add by lia. }
    rewrite Hpt.
    rewrite (guint32_small (32 + cap + pad_to_4 cap)) by (unfold total in Hmax; lia).
    destruct (Z.ltb_spec total (32 + cap + pad_to_4 cap)) as [Hlt|_];
      [unfold total in Hlt; lia|].
    destruct (Z.geb_spec id (Z.of_nat (length (interfaces si)))) as [Hge|_]; [lia|].
    rewrite Hnth.
    destruct (Z.gtb_spec cap (wtap_max_snaplen_for_encap env (wtap_encap iface)))
      as [Hgt|_]; [lia|].
    rewrite Hph. rewrite !bind_assoc, bind_ret. cbv beta iota zeta.
    rewrite !Z.sub_0_r.
    rewrite (guint32_small cap) by (unfold total in Hmax; lia).
    unfold wtap_read_packet_bytes.
    destruct (read_next cap (length data) _ _ _ Hrem2 eq_refl eq_refl) as [Hr3 Hrem3].
    rewrite !bind_assoc. rewrite (bind_run _ _ _ _ _ Hr3).
    assert (Hpadread :
      (if negb (pad_to_4 cap =? 0) then wtap_read_bytes (pad_to_4 cap) else ret [])
        (forward (forward (forward fh 8) 20) (length data))
      = Ok (firstn (Z.to_nat (pad_to_4 cap)) (repeat x00 (Z.to_nat (pad_to_4 cap))),
            forward (forward (forward (forward fh 8) 20) (length data))
                    (Z.to_nat (pad_to_4 cap)))).
    { destruct (Z.eqb_spec (pad_to_4 cap) 0) as [E|E]; cbn [negb].
      - rewrite E. cbn [Z.to_nat repeat firstn ret]. unfold forward.
        cbn [file_data file_pos]. now rewrite Nat.add_0_r.
      - rewrite firstn_all2 by (rewrite repeat_length; lia).
        apply (read_next (pad_to_4 cap) (Z.to_nat (pad_to_4 cap)) _ _ _ Hrem3);
          [apply repeat_length|now rewrite Z2Nat.id by lia]. }
    assert (Hrem4 : remaining (forward (forward (forward (forward fh 8) 20) (length data))
                                       (Z.to_nat (pad_to_4 cap))) = le_bytes 4 total ++ post).
    { apply (read_next (pad_to_4 cap) (Z.to_nat (pad_to_4 cap)) _ _ _ Hrem3);
        [apply repeat_length|now rewrite Z2Nat.id by lia]. }
    rewrite !bind_assoc. rewrite (bind_run _ _ _ _ _ Hpadread).
    change sizeof_block_header with 8.
    assert (Hto_read :
      guint32 (total - 8
               - (if negb (pad_to_4 cap =? 0)
                  then guint32 (guint32 (guint32 (20 + 0) + cap) + pad_to_4 cap)
                  else guint32 (guint32 (20 + 0) + cap)) - 4) = 0).
    { change (guint32 (20 + 0)) with 20.
      rewrite (guint32_small (20 + cap)) by (unfold total in Hmax; lia).
      rewrite (guint32_small (20 + cap + pad_to_4 cap)) by (unfold total in Hmax; lia).
      destruct (Z.eqb_spec (pad_to_4 cap) 0) as [E|E]; cbn [negb];
        unfold total; [rewrite E|]; 
        match goal with |- guint32 ?x = 0 => replace x with 0 by lia end; reflexivity. }
    rewrite Hto_read. rewrite !bind_assoc.
    rewrite (bind_run _ _ _ _ _ (option_loop_zero _ _ _ _)).
    cbv beta iota zeta. cbn [packet_header pseudo_header].
    rewrite packet_ts_halves by lia.
    rewrite !forward_forward in *.
    replace (8 + 20 + length data + Z.to_nat (pad_to_4 cap))%nat
      with (8 + (20 + (length data + Z.to_nat (pad_to_4 cap))))%nat in * by lia.
    split; [|exact Hrem4].
    unfold epb_plain_record.
    destruct (pcap_read_post_process env (wtap_encap iface) ph0 data false (fcslen iface))
      as [phdr' data'].
    rewrite (guint32_small plen) by lia. reflexivity. }
  destruct Hbody as [Hbody Hremb].
  destruct (pcapng_read_block_framed env wth a4 a6 si nsi wblock fh BLOCK_TYPE_EPB total
              _ _ _ _ _ post Hrem Hsw ltac:(change BLOCK_TYPE_EPB with 6; lia) ltac:(discriminate)
              ltac:(unfold total; lia) Hbody Hremb) as [Hr Hpost].
  rewrite forward_forward in *.
  replace (8 + (20 + (length data + Z.to_nat (pad_to_4 cap))) + 4)%nat
    with (Z.to_nat total) in * by (unfold total, cap in *; lia).
  split; assumption.
Qed.

Lemma epb_options_image_none rec :
  epb_have_options rec = false -> epb_options_image rec = [].
Proof.
  intros Hh. unfold epb_options_image. rewrite Hh.
  pose proof Hh as H. unfold epb_have_options in H.
  repeat (apply orb_false_elim in H; destruct H as [H ?]).
  destruct (opt_comment rec); [discriminate|].
  repeat match goal with
         | Hf : has_flag _ _ = false |- _ => rewrite Hf; clear Hf
         end.
  destruct (has_flag (presence_flags rec) WTAP_HAS_VERDICT), (packet_verdict rec);
    try discriminate; reflexivity.
Qed.

Lemma epb_timestamp_range rec u : 0 <= epb_timestamp rec u < 2 ^ 64.
Proof. unfold epb_timestamp, guint64. apply Z.mod_pos_bound. lia. Qed.

(** X2: a record without options, for an encapsulation without
    pseudo-header, written by [pcapng_write_enhanced_packet_block] is read
    back by [pcapng_read_block] in a section of the host's byte order
    whose interface of the same number has the same encapsulation: the
    read ends where the written bytes end and gives a packet record with
    the same interface, captured length, packet length and
    encapsulation, the packet data as the post-processing leaves them,
    and the time stamp the reader derives from the written ticks. *)
Theorem epb_write_then_read env denv info rec pd wdh wth a4 a6 si nsi wblock ph0 iface :
  let hdr := packet_header rec in
  let units :=
    idb_time_units_per_second
      (if_descr_mandatory
         (nth (Z.to_nat (epb_interface_id rec)) (wdh_interface_data info)
              (mkBlock WTAP_BLOCK_NAME_RESOLUTION []))) in
  epb_writable env info rec ->
  epb_have_options rec = false ->
  (forall w, pcap_write_phdr denv (pkt_encap hdr) (pseudo_header hdr) w = Ok w) ->
  pcap_get_phdr_size denv (pkt_encap hdr) (pseudo_header hdr) = 0 ->
  pcap_process_pseudo_header env (pkt_encap hdr) (caplen hdr) = ret (ph0, 0) ->
  caplen hdr = Z.of_nat (length pd) ->
  caplen hdr + 35 <= MAX_BLOCK_SIZE ->
  caplen hdr <= wtap_max_snaplen_for_encap env (pkt_encap hdr) ->
  0 <= len hdr < 2 ^ 32 ->
  0 <= epb_interface_id rec < 2 ^ 32 ->
  byte_swapped si = false ->
  nth_error (interfaces si) (Z.to_nat (epb_interface_id rec)) = Some iface ->
  wtap_encap iface = pkt_encap hdr ->
  exists wdh' r fh',
    pcapng_write_enhanced_packet_block env denv info rec pd wdh = (None, wdh')
    /\ pcapng_read_block env wth a4 a6 si nsi wblock
         (written_file wdh' (length (dump_out wdh))) = Ok (r, fh')
    /\ file_pos fh' = length (dump_out wdh')
    /\ wb_internal (res_wblock r) = false
    /\ rec_type (wb_rec (res_wblock r)) = REC_TYPE_PACKET
    /\ interface_id (packet_header (wb_rec (res_wblock r))) = epb_interface_id rec
    /\ caplen (packet_header (wb_rec (res_wblock r))) = caplen hdr
    /\ len (packet_header (wb_rec (res_wblock r))) = len hdr
    /\ pkt_encap (packet_header (wb_rec (res_wblock r))) = pkt_encap hdr
    /\ wb_frame_buffer (res_wblock r)
       = snd (pcap_read_post_process env (pkt_encap hdr) ph0 pd false (fcslen iface))
    /\ ts_secs (wb_rec (res_wblock r))
       = packet_ts_secs (epb_timestamp rec units) (time_units_per_second iface)
    /\ ts_nsecs (wb_rec (res_wblock r))
       = packet_ts_nsecs (epb_timestamp rec units) (time_units_per_second iface).
Proof.
  intros hdr units Hw Hnone Hwph Hsize Hph Hcap Hmax Hsnap Hlen Hid Hsw Hiface Henc.
  assert (Hmaxv : MAX_BLOCK_SIZE = 134348832) by reflexivity.
  pose proof (pad_to_4_range (caplen hdr)) as Hp.
  assert (Hcap0 : 0 <= caplen hdr) by lia.
  pose proof (pcapng_write_enhanced_packet_block_image env denv info rec pd [] 0 Hw) as Himg.
  assert (Happ0 : forall w, appended w [] 0 = w) by (intros w; apply appended_nil).
  specialize (Himg ltac:(intros w; fold hdr; rewrite Happ0; apply Hwph)
                   ltac:(fold hdr; rewrite Hsize; reflexivity)
                   ltac:(fold hdr; lia) ltac:(cbn; lia)).
  set (image := epb_block_image denv info rec pd []) in *.
  specialize (Himg wdh). rewrite Z.add_0_r in Himg.
  set (wdh' := appended wdh image _) in Himg.
  assert (Himage :
    image
    = (le_bytes 4 BLOCK_TYPE_EPB
       ++ le_bytes 4 (32 + Z.of_nat (length pd) + pad_to_4 (Z.of_nat (length pd))))
      ++ (le_bytes 4 (epb_interface_id rec)
          ++ le_bytes 4 (guint32 (Z.shiftr (epb_timestamp rec units) 32))
          ++ le_bytes 4 (guint32 (epb_timestamp rec units))
          ++ le_bytes 4 (Z.of_nat (length pd)) ++ le_bytes 4 (len hdr))
      ++ pd ++ repeat x00 (Z.to_nat (pad_to_4 (Z.of_nat (length pd))))
      ++ le_bytes 4 (32 + Z.of_nat (length pd) + pad_to_4 (Z.of_nat (length pd))) ++ []).
  { unfold image, epb_block_image, epb_block_total_length. fold hdr. fold units.
    rewrite Hsize. change (guint32 0) with 0. rewrite !Z.add_0_l, !Z.add_0_r.
    rewrite (epb_options_total_length_spec rec)
      by (rewrite epb_options_image_none by assumption; cbn; lia).
    rewrite epb_options_image_none by assumption. cbn [length app].
    rewrite (guint32_small (caplen hdr)) by (change (2 ^ 32) with 4294967296; lia).
    rewrite (guint32_small (len hdr)) by lia.
    change sizeof_block_header with 8. change sizeof_epb with 20.
    rewrite Hcap in *. rewrite Nat2Z.id, firstn_all.
    change (Z.of_nat 0) with 0.
    replace (8 + 20 + Z.of_nat (length pd) + pad_to_4 (Z.of_nat (length pd)) + 0 + 4)
      with (32 + Z.of_nat (length pd) + pad_to_4 (Z.of_nat (length pd))) by lia.
    rewrite (guint32_small (32 + _ + _)) by (change (2 ^ 32) with 4294967296; lia).
    rewrite app_nil_r. reflexivity. }
  destruct (epb_plain_block_read env wth a4 a6 si nsi wblock
              (written_file wdh' (length (dump_out wdh)))
              (epb_interface_id rec) (epb_timestamp rec units) (len hdr) pd [] ph0 iface)
    as [Hr _].
  { unfold wdh'. rewrite remaining_appended. exact Himage. }
  { exact Hsw. }
  { exact Hid. }
  { apply epb_timestamp_range. }
  { exact Hlen. }
  { rewrite <- Hcap. lia. }
  { exact Hiface. }
  { rewrite Henc, <- Hcap. exact Hsnap. }
  { rewrite Henc, <- Hcap. exact Hph. }
  eexists wdh', _, _. split; [exact Himg|]. split; [exact Hr|].
  split.
  { unfold forward, written_file, wdh', appended. cbn [file_pos dump_out].
    rewrite length_app. f_equal. rewrite Himage.
    rewrite !length_app, !length_le_bytes, repeat_length. cbn [length].
    rewrite Hcap in Hp. lia. }
  cbn [res_wblock]. unfold epb_plain_record.
  destruct (pcap_read_post_process env (wtap_encap iface) ph0 pd false (fcslen iface))
    as [phdr' data'] eqn:Epost.
  rewrite <- Henc, Epost, <- Hcap. repeat split.
Qed.
Lemma epb_write_then_read_witness :
  exists wdh' r fh',
    pcapng_write_enhanced_packet_block plain_env plain_dump_env sample_dumper_info
      sample_packet_rec sample_packet_data (fresh_dumper []) = (None, wdh')
    /\ pcapng_read_block plain_env (mkFileInfo 1 6) false false (one_iface 1000000)
         default_section empty_wblock (written_file wdh' 0) = Ok (r, fh')
    /\ file_pos fh' = 40%nat
    /\ caplen (packet_header (wb_rec (res_wblock r))) = 5
    /\ len (packet_header (wb_rec (res_wblock r))) = 60
    /\ wb_frame_buffer (res_wblock r) = sample_packet_data
    /\ ts_secs (wb_rec (res_wblock r)) = 3
    /\ ts_nsecs (wb_rec (res_wblock r)) = 250000000.
Proof.
  destruct (epb_write_then_read plain_env plain_dump_env sample_dumper_info
              sample_packet_rec sample_packet_data (fresh_dumper [])
              (mkFileInfo 1 6) false false (one_iface 1000000) default_section
              empty_wblock [] (mkIface 1 65535 1000000 WTAP_TSPREC_USEC (-1)))
    as (wdh' & r & fh' & Hw & Hr & Hpos & _ & _ & _ & Hcap & Hlen & _ & Hbuf & Hs & Hn).
  - repeat split; vm_compute; congruence.
  - reflexivity.
  - reflexivity.
  - reflexivity.
  - reflexivity.
  - reflexivity.
  - vm_compute. discriminate.
  - vm_compute. discriminate.
  - vm_compute. split; [discriminate|reflexivity].
  - vm_compute. split; [discriminate|reflexivity].
  - reflexivity.
  - reflexivity.
  - reflexivity.
  - exists wdh', r, fh'. split; [exact Hw|]. split; [exact Hr|].
    split.
    { rewrite Hpos. vm_compute in Hw. inversion Hw. reflexivity. }
    split; [exact Hcap|]. split; [exact Hlen|]. split; [exact Hbuf|].
    split; [rewrite Hs|rewrite Hn]; reflexivity.
Defined.

(** X3: when the checks of [pcapng_write_enhanced_packet_block] pass, the
    block it appends - with every option the record carries - and the
    total length it puts in the block header agree: a block shorter than
    4 GiB starts with the block type, holds its own length after it and
    again in its last four bytes, and is a whole number of 32-bit words.
    [bytes_dumped] grows by the bytes of the block, and by what the
    pseudo-header writer adds itself. *)
Theorem epb_block_is_framed env denv info rec pd phdr k wdh :
  let hdr := packet_header rec in
  epb_writable env info rec ->
  (forall w, pcap_write_phdr denv (pkt_encap hdr) (pseudo_header hdr) w
             = Ok (appended w phdr k)) ->
  pcap_get_phdr_size denv (pkt_encap hdr) (pseudo_header hdr) = Z.of_nat (length phdr) ->
  Z.of_nat (length phdr) < 2 ^ 32 ->
  0 <= caplen hdr <= Z.of_nat (length pd) ->
  exists block wdh',
    pcapng_write_enhanced_packet_block env denv info rec pd wdh = (None, wdh')
    /\ dump_out wdh' = dump_out wdh ++ block
    /\ bytes_dumped wdh' = bytes_dumped wdh + Z.of_nat (length block) + k
    /\ (Z.of_nat (length block) < 2 ^ 32 ->
        field 0 4 block = BLOCK_TYPE_EPB
        /\ field 4 4 block = Z.of_nat (length block)
        /\ field (length block - 4) 4 block = Z.of_nat (length block)
        /\ Z.of_nat (length block) mod 4 = 0).
Proof.
  intros hdr Hw Hwph Hsize Hphlen Hpd.
  pose proof (pcapng_write_enhanced_packet_block_image env denv info rec pd phdr k
                Hw Hwph Hsize Hpd Hphlen wdh) as Himg.
  set (block := epb_block_image denv info rec pd phdr) in *.
  exists block, (appended wdh block (Z.of_nat (length block) + k)).
  split; [exact Himg|]. split; [reflexivity|].
  split; [unfold appended; cbn [bytes_dumped]; lia|].
  intros Hlt.
  destruct (epb_block_image_length denv info rec pd phdr Hsize Hpd Hlt) as [Htot Hlen].
  fold block in Htot, Hlen.
  assert (Hmod : Z.of_nat (length block) mod 2 ^ 32 = Z.of_nat (length block))
    by (apply Z.mod_small; lia).
  assert (Hshape : exists body,
            block = le_bytes 4 BLOCK_TYPE_EPB ++ le_bytes 4 (Z.of_nat (length block))
                    ++ body ++ le_bytes 4 (Z.of_nat (length block))).
  { unfold block at 1. unfold epb_block_image. rewrite Htot.
    exists ((le_bytes 4 (epb_interface_id rec)
             ++ le_bytes 4 (guint32 (Z.shiftr
                  (epb_timestamp rec
                     (idb_time_units_per_second
                        (if_descr_mandatory
                           (nth (Z.to_nat (epb_interface_id rec)) (wdh_interface_data info)
                                (mkBlock WTAP_BLOCK_NAME_RESOLUTION []))))) 32))
             ++ le_bytes 4 (guint32
                  (epb_timestamp rec
                     (idb_time_units_per_second
                        (if_descr_mandatory
                           (nth (Z.to_nat (epb_interface_id rec)) (wdh_interface_data info)
                                (mkBlock WTAP_BLOCK_NAME_RESOLUTION []))))))
             ++ le_bytes 4 (guint32 (caplen (packet_header rec)
                  + guint32 (pcap_get_phdr_size denv (pkt_encap (packet_header rec))
                               (pseudo_header (packet_header rec)))))
             ++ le_bytes 4 (guint32 (len (packet_header rec)
                  + guint32 (pcap_get_phdr_size denv (pkt_encap (packet_header rec))
                               (pseudo_header (packet_header rec))))))
            ++ phdr
            ++ firstn (Z.to_nat (caplen (packet_header rec))) pd
            ++ repeat x00
                 (Z.to_nat (pad_to_4 (guint32
                    (guint32 (pcap_get_phdr_size denv (pkt_encap (packet_header rec))
                                (pseudo_header (packet_header rec)))
                     + caplen (packet_header rec)))))
            ++ epb_options_image rec).
    repeat rewrite <- app_assoc. reflexivity. }
  destruct Hshape as [body Hshape].
  assert (Hnat : (length block - 4 = 8 + length body)%nat).
  { rewrite Hshape at 1. rewrite !length_app, !length_le_bytes. lia. }
  rewrite Hnat. clear Hnat.
  remember (Z.of_nat (length block)) as L eqn:HL.
  rewrite Hshape. clear Hshape HL Himg.
  split; [|split; [|split]].
  - fields. reflexivity.
  - fields. exact Hmod.
  - replace (le_bytes 4 BLOCK_TYPE_EPB ++ le_bytes 4 L ++ body ++ le_bytes 4 L)
      with ((le_bytes 4 BLOCK_TYPE_EPB ++ le_bytes 4 L ++ body) ++ le_bytes 4 L)
      by (repeat rewrite <- app_assoc; reflexivity).
    rewrite field_at_end; [exact Hmod|].
    rewrite !length_app, !length_le_bytes. lia.
  - rewrite Hlen.
    replace (32 + (Z.of_nat (length phdr) + caplen (packet_header rec)
                   + pad_to_4 (Z.of_nat (length phdr) + caplen (packet_header rec)))
             + Z.of_nat (length (epb_options_image rec)))
      with (32 + ((Z.of_nat (length phdr) + caplen (packet_header rec)
                   + pad_to_4 (Z.of_nat (length phdr) + caplen (packet_header rec)))
                  + Z.of_nat (length (epb_options_image rec)))) by lia.
    apply mod4_add; [reflexivity|].
    apply mod4_add; [apply pad_to_4_aligned|apply epb_options_image_aligned].
Qed.
Lemma epb_block_is_framed_witness :
  exists block wdh',
    pcapng_write_enhanced_packet_block plain_env plain_dump_env sample_dumper_info
      sample_packet_rec_with_options sample_packet_data (fresh_dumper []) = (None, wdh')
    /\ dump_out wdh' = block
    /\ bytes_dumped wdh' = 80
    /\ field 4 4 block = 80
    /\ field 76 4 block = 80.
Proof.
  destruct (epb_block_is_framed plain_env plain_dump_env sample_dumper_info
              sample_packet_rec_with_options sample_packet_data [] 0 (fresh_dumper []))
    as (block & wdh' & Hw & Hout & Hbytes & Hframe).
  - repeat split; vm_compute; congruence.
  - intros w. destruct w. unfold appended. cbn.
    now rewrite app_nil_r, Z.add_0_r.
  - reflexivity.
  - reflexivity.
  - vm_compute. split; discriminate.
  - exists block, wdh'.
    assert (Hlen : length block = 80%nat).
    { change (dump_out (fresh_dumper [])) with (@nil byte) in Hout.
      rewrite app_nil_l in Hout. rewrite <- Hout.
      vm_compute in Hw. inversion Hw. reflexivity. }
    rewrite Hlen in *. destruct (Hframe ltac:(vm_compute; reflexivity)) as (_ & H4 & Hend & _).
    split; [exact Hw|]. split; [exact Hout|]. split; [rewrite Hbytes; reflexivity|].
    split; [exact H4|exact Hend].
Defined.

(** X4: what [pcapng_write_enhanced_packet_block] refuses.  A record
    whose captured length exceeds the largest snapshot length of the
    dumper's encapsulation is refused as too large and nothing is written.
    A record for an interface the dumper does not have, or whose
    encapsulation differs from the interface's, is refused as an internal
    error - after the eight bytes of the block header have been written
    and counted. *)
Theorem epb_refusals env denv info rec pd wdh :
  (wtap_max_snaplen_for_encap env (wdh_encap info) < caplen (packet_header rec) ->
   pcapng_write_enhanced_packet_block env denv info rec pd wdh
   = (Some WTAP_ERR_PACKET_TOO_LARGE, wdh))
  /\ (caplen (packet_header rec) <= wtap_max_snaplen_for_encap env (wdh_encap info) ->
      Z.of_nat (length (wdh_interface_data info)) <= epb_interface_id rec
      \/ idb_wtap_encap
           (if_descr_mandatory
              (nth (Z.to_nat (epb_interface_id rec)) (wdh_interface_data info)
                   (mkBlock WTAP_BLOCK_NAME_RESOLUTION [])))
         <> pkt_encap (packet_header rec) ->
      pcapng_write_enhanced_packet_block env denv info rec pd wdh
      = (Some WTAP_ERR_INTERNAL,
         appended wdh (le_bytes 4 BLOCK_TYPE_EPB
                       ++ le_bytes 4 (epb_block_total_length denv rec)) 8)).
Proof.
  set (hdr := packet_header rec).
  set (int_data_mand :=
         if_descr_mandatory
           (nth (Z.to_nat (epb_interface_id rec)) (wdh_interface_data info)
                (mkBlock WTAP_BLOCK_NAME_RESOLUTION []))).
  unfold pcapng_write_enhanced_packet_block. fold (epb_interface_id rec).
  fold hdr. fold int_data_mand. split.
  - intros Hbig.
    destruct (Z.gtb_spec (caplen hdr) (wtap_max_snaplen_for_encap env (wdh_encap info)));
      [reflexivity|lia].
  - intros Hfit Hbad.
    destruct (Z.gtb_spec (caplen hdr) (wtap_max_snaplen_for_encap env (wdh_encap info)));
      [lia|].
    unfold wr_seq at 1. rewrite wr_appends_counted.
    change (Z.of_nat (length (le_bytes 4 BLOCK_TYPE_EPB
                              ++ le_bytes 4 (epb_block_total_length denv rec)))) with 8.
    destruct (Z.geb_spec (epb_interface_id rec)
                (Z.of_nat (length (wdh_interface_data info)))) as [Hge|Hlt];
      [reflexivity|].
    destruct Hbad as [Hbad|Hbad]; [lia|].
    destruct (Z.eqb_spec (idb_wtap_encap int_data_mand) (pkt_encap hdr)) as [E|E];
      [contradiction|reflexivity].
Qed.

Lemma epb_refusals_witness :
  pcapng_write_enhanced_packet_block plain_env plain_dump_env
    (mkDumperInfo 1 [] None None 0) sample_packet_rec sample_packet_data (fresh_dumper [])
  = (Some WTAP_ERR_INTERNAL, mkDumper (u32le BLOCK_TYPE_EPB ++ u32le 40) 8 []).
Proof.
  destruct (epb_refusals plain_env plain_dump_env (mkDumperInfo 1 [] None None 0)
              sample_packet_rec sample_packet_data (fresh_dumper [])) as [_ H].
  rewrite H.
  - reflexivity.
  - vm_compute. discriminate.
  - left. vm_compute. discriminate.
Defined.

(** X5: the time stamp of a record, turned into ticks of the interface by
    [pcapng_write_enhanced_packet_block] and back by
    [pcapng_read_packet_block] with the same number of ticks a second:
    the seconds come back as they were, the nanoseconds never larger than
    they were, and exactly when they are a whole number of ticks. *)
Theorem epb_timestamp_round_trip rec units :
  0 < units ->
  units * 10 ^ 9 < 2 ^ 64 ->
  0 <= ts_secs rec ->
  (ts_secs rec + 1) * units < 2 ^ 63 ->
  0 <= ts_nsecs rec < 10 ^ 9 ->
  packet_ts_secs (epb_timestamp rec units) units = ts_secs rec
  /\ packet_ts_nsecs (epb_timestamp rec units) units
     = ts_nsecs rec * units / 10 ^ 9 * 10 ^ 9 / units
  /\ 0 <= packet_ts_nsecs (epb_timestamp rec units) units <= ts_nsecs rec
  /\ (ts_nsecs rec * units mod 10 ^ 9 = 0 ->
      packet_ts_nsecs (epb_timestamp rec units) units = ts_nsecs rec).
Proof.
  intros Hu Hfit Hs Hsfit Hn.
  set (q := ts_nsecs rec * units / 10 ^ 9).
  assert (Hq : 0 <= q < units).
  { unfold q. split; [apply Z.div_pos; nia|].
    apply Z.div_lt_upper_bound; nia. }
  assert (Hts : epb_timestamp rec units = ts_secs rec * units + q).
  { unfold epb_timestamp. change 1000000000 with (10 ^ 9).
    rewrite (guint64_small (ts_secs rec)) by nia.
    rewrite (guint64_small (ts_nsecs rec)) by lia.
    rewrite (guint64_small (ts_secs rec * units)) by nia.
    rewrite (guint64_small (ts_nsecs rec * units)) by nia.
    fold q. apply guint64_small. nia. }
  rewrite Hts.
  assert (Hdiv : (ts_secs rec * units + q) / units = ts_secs rec).
  { rewrite Z.div_add_l by lia. rewrite (Z.div_small q) by lia. lia. }
  assert (Hmod : (ts_secs rec * units + q) mod units = q).
  { rewrite Z.add_comm, Z.mod_add by lia. now apply Z.mod_small. }
  assert (Hns : packet_ts_nsecs (ts_secs rec * units + q) units = q * 10 ^ 9 / units).
  { rewrite packet_ts_nsecs_exact by nia. now rewrite Hmod. }
  assert (Hqle : q * 10 ^ 9 <= ts_nsecs rec * units).
  { unfold q. rewrite Z.mul_comm. apply Z.mul_div_le. lia. }
  split; [|split; [|split]].
  - rewrite packet_ts_secs_exact; rewrite ?Hdiv; nia.
  - exact Hns.
  - rewrite Hns. split; [apply Z.div_pos; nia|].
    apply Z.div_le_upper_bound; nia.
  - intros Hexact. rewrite Hns.
    assert (Hqe : q * 10 ^ 9 = ts_nsecs rec * units).
    { unfold q. pose proof (Z.div_mod (ts_nsecs rec * units) (10 ^ 9) ltac:(lia)). lia. }
    rewrite Hqe. apply Z.div_mul. lia.
Qed.

Lemma epb_timestamp_round_trip_witness :
  packet_ts_secs (epb_timestamp sample_packet_rec 1000000) 1000000 = 3
  /\ packet_ts_nsecs (epb_timestamp sample_packet_rec 1000000) 1000000 = 250000000.
Proof.
  destruct (epb_timestamp_round_trip sample_packet_rec 1000000)
    as (Hs & _ & _ & Hn).
  - reflexivity.
  - reflexivity.
  - vm_compute. discriminate.
  - reflexivity.
  - vm_compute. split; [discriminate|reflexivity].
  - split; [exact Hs|]. apply Hn. reflexivity.
Defined.
(** ** Sysdig event blocks: written, then read *)

Lemma wr_appends_of_uncounted buf :
  wr_appends (wr_of (fun wdh => wtap_dump_file_write wdh buf)) buf 0.
Proof.
  intros wdh. unfold wr_of, wtap_dump_file_write, appended.
  now rewrite Z.add_0_r.
Qed.

Lemma pcapng_write_sysdig_event_block_image rec pd :
  0 <= event_filelen (syscall_header rec) <= Z.of_nat (length pd) ->
  event_filelen (syscall_header rec) <= WTAP_MAX_PACKET_SIZE_STANDARD ->
  wr_appends (pcapng_write_sysdig_event_block rec pd) (sysdig_block_image rec pd)
             (Z.of_nat (length (sysdig_block_image rec pd)) - 4).
Proof.
  intros Hlen Hmax. unfold pcapng_write_sysdig_event_block.
  destruct (Z.gtb_spec (event_filelen (syscall_header rec)) WTAP_MAX_PACKET_SIZE_STANDARD);
    [lia|].
  pose proof (pad_to_4_range (event_filelen (syscall_header rec))) as Hp.
  eapply wr_appends_eq.
  - apply wr_appends_seq; [apply wr_appends_counted|].
    apply wr_appends_seq; [apply wr_appends_counted|].
    apply wr_appends_seq; [apply wr_appends_counted|].
    apply wr_appends_seq; [apply wr_appends_counted|].
    apply wr_appends_seq; [apply wr_appends_counted|].
    apply wr_appends_seq; [apply wr_appends_counted|].
    apply wr_appends_seq; [apply wr_appends_bytes|].
    apply wr_appends_seq; [apply wr_appends_pad; lia|].
    apply wr_appends_of_uncounted.
  - unfold sysdig_block_image, sysdig_timestamp. repeat rewrite <- app_assoc. reflexivity.
  - unfold sysdig_block_image.
    rewrite !length_app, !length_le_bytes, length_firstn, repeat_length, !Nat2Z.inj_add.
    rewrite Nat.min_l by lia. rewrite !Z2Nat.id by lia. lia.
Qed.

Lemma sysdig_block_total_length_small rec :
  0 <= event_filelen (syscall_header rec) <= WTAP_MAX_PACKET_SIZE_STANDARD ->
  sysdig_block_total_length rec
  = 36 + event_filelen (syscall_header rec) + pad_to_4 (event_filelen (syscall_header rec)).
Proof.
  intros H. unfold sysdig_block_total_length.
  pose proof (pad_to_4_range (event_filelen (syscall_header rec))) as Hp.
  change sizeof_block_header with 8. change SYSDIG_EVENT_HEADER_SIZE with 24.
  change WTAP_MAX_PACKET_SIZE_STANDARD with 262144 in H.
  rewrite guint32_small by (change (2 ^ 32) with 4294967296; lia). lia.
Qed.

(** The record that [pcapng_read_sysdig_event_block] makes of a block. *)
Lemma sysdig_block_image_read env wth a4 a6 si nsi wblock fh rec pd post :
  let hdr := syscall_header rec in
  remaining fh = sysdig_block_image rec pd ++ post ->
  byte_swapped si = false ->
  event_filelen hdr = Z.of_nat (length pd) ->
  event_filelen hdr <= WTAP_MAX_PACKET_SIZE_STANDARD ->
  0 <= cpu_id hdr < 2 ^ 16 -> 0 <= thread_id hdr < 2 ^ 64 ->
  0 <= event_len hdr < 2 ^ 32 -> 0 <= event_type hdr < 2 ^ 16 ->
  pcapng_read_block env wth a4 a6 si nsi wblock fh
  = Ok (mkResult wth nsi
          (set_internal false
             (set_frame_buffer (pd ++ repeat x00 (Z.to_nat (pad_to_4 (event_filelen hdr))))
                (set_rec
                   (mkRec REC_TYPE_SYSCALL (Z.lor WTAP_HAS_TS WTAP_HAS_CAP_LEN)
                          (time_t (sysdig_timestamp rec / 1000000000))
                          (c_int (sysdig_timestamp rec mod 1000000000))
                          WTAP_TSPREC_NSEC
                          (packet_header (wb_rec wblock))
                          (mkSyscall BLOCK_TYPE_SYSDIG_EVENT false (thread_id hdr)
                                     (event_len hdr)
                                     (event_filelen hdr + pad_to_4 (event_filelen hdr))
                                     (event_type hdr) 0 (cpu_id hdr))
                          (systemd_journal_record_len (wb_rec wblock))
                          (opt_comment (wb_rec wblock))
                          (packet_verdict (wb_rec wblock)))
                   (set_type BLOCK_TYPE_SYSDIG_EVENT (set_block None wblock)))))
          (mkCalls [] []),
        forward fh (length (sysdig_block_image rec pd)))
  /\ remaining (forward fh (length (sysdig_block_image rec pd))) = post.
Proof.
  intros hdr Hrem Hsw Hlen Hmax Hcpu Htid Helen Hetype.
  assert (Hmaxv : MAX_BLOCK_SIZE = 134348832) by reflexivity.
  assert (Hstd : WTAP_MAX_PACKET_SIZE_STANDARD = 262144) by reflexivity.
  pose proof (pad_to_4_range (event_filelen hdr)) as Hp.
  pose proof (pad_to_4_aligned (event_filelen hdr)) as Hal.
  assert (Hfl : 0 <= event_filelen hdr) by lia.
  pose proof (sysdig_block_total_length_small rec ltac:(fold hdr; lia)) as Htotal.
  fold hdr in Htotal.
  unfold sysdig_block_image in *. fold hdr in Hrem |- *.
  set (total := sysdig_block_total_length rec) in *.
  set (ts := sysdig_timestamp rec) in *.
  assert (Hts : 0 <= ts < 2 ^ 64) by (apply Z.mod_pos_bound; lia).
  replace (firstn (Z.to_nat (event_filelen hdr)) pd) with pd in *
    by (now rewrite Hlen, Nat2Z.id, firstn_all).
  set (data := pd ++ repeat x00 (Z.to_nat (pad_to_4 (event_filelen hdr)))) in *.
  assert (Hdata : Z.of_nat (length data) = event_filelen hdr + pad_to_4 (event_filelen hdr)).
  { unfold data. rewrite length_app, repeat_length, Nat2Z.inj_add, Z2Nat.id by lia. lia. }
  rewrite <- !app_assoc in Hrem.
  rewrite (app_assoc (le_bytes 4 BLOCK_TYPE_SYSDIG_EVENT)) in Hrem.
  assert (Hbody :
    read_block_dispatch env wth a4 a6 (mkBh BLOCK_TYPE_SYSDIG_EVENT total) si
      (set_type BLOCK_TYPE_SYSDIG_EVENT (set_block None wblock)) (forward fh 8)
    = Ok ((wth,
           set_internal false
             (set_frame_buffer data
                (set_rec
                   (mkRec REC_TYPE_SYSCALL (Z.lor WTAP_HAS_TS WTAP_HAS_CAP_LEN)
                          (time_t (ts / 1000000000)) (c_int (ts mod 1000000000))
                          WTAP_TSPREC_NSEC
                          (packet_header (wb_rec wblock))
                          (mkSyscall BLOCK_TYPE_SYSDIG_EVENT false (thread_id hdr)
                                     (event_len hdr)
                                     (event_filelen hdr + pad_to_4 (event_filelen hdr))
                                     (event_type hdr) 0 (cpu_id hdr))
                          (systemd_journal_record_len (wb_rec wblock))
                          (opt_comment (wb_rec wblock))
                          (packet_verdict (wb_rec wblock)))
                   (set_type BLOCK_TYPE_SYSDIG_EVENT (set_block None wblock)))),
           mkCalls [] []),
          forward fh (8 + (2 + (8 + (8 + (4 + (2 + length data)))))))
    /\ remaining (forward fh (8 + (2 + (8 + (8 + (4 + (2 + length data)))))))
       = le_bytes 4 total ++ post).
  { destruct (read_next 8 8 fh _ _ Hrem eq_refl eq_refl) as [_ Hrem1].
    unfold read_block_dispatch. cbn [block_type].
    change (BLOCK_TYPE_SYSDIG_EVENT =? BLOCK_TYPE_IDB) with false.
    change (BLOCK_TYPE_SYSDIG_EVENT =? BLOCK_TYPE_PB) with false.
    change (BLOCK_TYPE_SYSDIG_EVENT =? BLOCK_TYPE_SPB) with false.
    change (BLOCK_TYPE_SYSDIG_EVENT =? BLOCK_TYPE_EPB) with false.
    change (BLOCK_TYPE_SYSDIG_EVENT =? BLOCK_TYPE_NRB) with false.
    change (BLOCK_TYPE_SYSDIG_EVENT =? BLOCK_TYPE_ISB) with false.
    change (BLOCK_TYPE_SYSDIG_EVENT =? BLOCK_TYPE_DSB) with false.
    change (BLOCK_TYPE_SYSDIG_EVENT =? BLOCK_TYPE_SYSDIG_EVENT) with true.
    cbv beta iota zeta. cbn [orb].
    unfold pcapng_read_sysdig_event_block. cbn [block_type block_total_length].
    change (BLOCK_TYPE_SYSDIG_EVENT =? BLOCK_TYPE_SYSDIG_EVENT_V2) with false.
    cbv beta iota zeta. change MIN_SYSDIG_EVENT_SIZE with 36.
    destruct (Z.ltb_spec total 36) as [Hlt|_]; [lia|].
    destruct (read_next 2 2 _ _ _ Hrem1 eq_refl eq_refl) as [Hr2 Hrem2].
    rewrite !bind_assoc. rewrite (bind_run _ _ _ _ _ Hr2).
    destruct (read_next 8 8 _ _ _ Hrem2 eq_refl eq_refl) as [Hr3 Hrem3].
    rewrite !bind_assoc. rewrite (bind_run _ _ _ _ _ Hr3).
    destruct (read_next 8 8 _ _ _ Hrem3 eq_refl eq_refl) as [Hr4 Hrem4].
    rewrite !bind_assoc. rewrite (bind_run _ _ _ _ _ Hr4).
    destruct (read_next 4 4 _ _ _ Hrem4 eq_refl eq_refl) as [Hr5 Hrem5].
    rewrite !bind_assoc. rewrite (bind_run _ _ _ _ _ Hr5).
    destruct (read_next 2 2 _ _ _ Hrem5 eq_refl eq_refl) as [Hr6 Hrem6].
    rewrite !bind_assoc. rewrite (bind_run _ _ _ _ _ Hr6).
    rewrite !bind_assoc, bind_ret.
    assert (Hpt : padded_block_total_length (mkBh BLOCK_TYPE_SYSDIG_EVENT total) = total).
    { unfold padded_block_total_length. cbn [block_total_length].
      replace (total mod 4) with 0; [reflexivity|].
      rewrite Htotal.
      replace (36 + event_filelen hdr + pad_to_4 (event_filelen hdr))
        with ((event_filelen hdr + pad_to_4 (event_filelen hdr)) + 9 * 4) by lia.
      now rewrite Z.mod_add by lia. }
    rewrite Hpt.
    replace (guint32 (total - 36)) with (Z.of_nat (length data))
      by (rewrite Hdata, Htotal, guint32_small;
          [lia|change (2 ^ 32) with 4294967296; lia]).
    unfold wtap_read_packet_bytes.
    destruct (read_next (Z.of_nat (length data)) (length data) _ _ _ Hrem6 eq_refl eq_refl)
      as [Hr7 Hrem7].
    rewrite !bind_assoc. rewrite (bind_run _ _ _ _ _ Hr7).
    rewrite bind_ret. cbn [ret]. rewrite Hsw. unfold maybe_swap64, maybe_swap32, maybe_swap16.
    rewrite !le_uint_le_bytes.
    change (256 ^ Z.of_nat 2) with (2 ^ 16). change (256 ^ Z.of_nat 4) with (2 ^ 32).
    change (256 ^ Z.of_nat 8) with (2 ^ 64).
    rewrite (Z.mod_small (cpu_id hdr)), (Z.mod_small ts), (Z.mod_small (thread_id hdr)),
      (Z.mod_small (event_len hdr)), (Z.mod_small (event_type hdr)) by lia.
    rewrite !forward_forward in *. rewrite Hdata.
    replace (8 + 2 + 8 + 8 + 4 + 2 + length data)%nat
      with (8 + (2 + (8 + (8 + (4 + (2 + length data))))))%nat in * by lia.
    split; [reflexivity|exact Hrem7]. }
  destruct Hbody as [Hbody Hremb].
  destruct (pcapng_read_block_framed env wth a4 a6 si nsi wblock fh BLOCK_TYPE_SYSDIG_EVENT
              total _ _ _ _ _ post Hrem Hsw
              ltac:(change BLOCK_TYPE_SYSDIG_EVENT with 516; lia) ltac:(discriminate)
              ltac:(lia) Hbody Hremb) as [Hr Hpost].
  rewrite forward_forward in *.
  replace (length ((le_bytes 4 BLOCK_TYPE_SYSDIG_EVENT ++ le_bytes 4 total)
                   ++ le_bytes 2 (cpu_id hdr) ++ le_bytes 8 ts ++ le_bytes 8 (thread_id hdr)
                   ++ le_bytes 4 (event_len hdr) ++ le_bytes 2 (event_type hdr)
                   ++ data ++ le_bytes 4 total))
    with (8 + (2 + (8 + (8 + (4 + (2 + length data))))) + 4)%nat
    by (rewrite !length_app, !length_le_bytes; lia).
  split; assumption.
Qed.

(** X6: a system call record written by [pcapng_write_sysdig_event_block]
    and read back by [pcapng_read_block] in a section of the host's byte
    order.  The time stamp, the CPU, the thread and the event fields come
    back as they were; the event data come back with the padding of the
    block, counted in [event_filelen], so a length that is not a multiple
    of four is not kept.  [bytes_dumped] misses the four bytes of the
    block trailer.  The event data are at most
    [WTAP_MAX_PACKET_SIZE_STANDARD] bytes, the fields of the header fit
    their widths, and the time stamp is not before 1970, with its
    nanoseconds below 10^9 and its count of nanoseconds within 63 bits. *)
Theorem sysdig_write_then_read env wth a4 a6 si nsi wblock rec pd wdh :
  let hdr := syscall_header rec in
  byte_swapped si = false ->
  event_filelen hdr = Z.of_nat (length pd) ->
  event_filelen hdr <= WTAP_MAX_PACKET_SIZE_STANDARD ->
  0 <= cpu_id hdr < 2 ^ 16 -> 0 <= thread_id hdr < 2 ^ 64 ->
  0 <= event_len hdr < 2 ^ 32 -> 0 <= event_type hdr < 2 ^ 16 ->
  0 <= ts_secs rec -> (ts_secs rec + 1) * 10 ^ 9 < 2 ^ 63 ->
  0 <= ts_nsecs rec < 10 ^ 9 ->
  exists wdh' r fh',
    pcapng_write_sysdig_event_block rec pd wdh = (None, wdh')
    /\ bytes_dumped wdh' - bytes_dumped wdh
       = Z.of_nat (length (dump_out wdh')) - Z.of_nat (length (dump_out wdh)) - 4
    /\ pcapng_read_block env wth a4 a6 si nsi wblock
         (written_file wdh' (length (dump_out wdh))) = Ok (r, fh')
    /\ file_pos fh' = length (dump_out wdh')
    /\ wb_internal (res_wblock r) = false
    /\ rec_type (wb_rec (res_wblock r)) = REC_TYPE_SYSCALL
    /\ ts_secs (wb_rec (res_wblock r)) = ts_secs rec
    /\ ts_nsecs (wb_rec (res_wblock r)) = ts_nsecs rec
    /\ cpu_id (syscall_header (wb_rec (res_wblock r))) = cpu_id hdr
    /\ thread_id (syscall_header (wb_rec (res_wblock r))) = thread_id hdr
    /\ event_len (syscall_header (wb_rec (res_wblock r))) = event_len hdr
    /\ event_type (syscall_header (wb_rec (res_wblock r))) = event_type hdr
    /\ event_filelen (syscall_header (wb_rec (res_wblock r)))
       = event_filelen hdr + pad_to_4 (event_filelen hdr)
    /\ wb_frame_buffer (res_wblock r)
       = pd ++ repeat x00 (Z.to_nat (pad_to_4 (event_filelen hdr))).
Proof.
  intros hdr Hsw Hlen Hmax Hcpu Htid Helen Hetype Hs Hsfit Hn.
  pose proof (pcapng_write_sysdig_event_block_image rec pd
                ltac:(fold hdr; lia) ltac:(fold hdr; lia) wdh) as Hw.
  set (image := sysdig_block_image rec pd) in *.
  set (wdh' := appended wdh image _) in Hw.
  destruct (sysdig_block_image_read env wth a4 a6 si nsi wblock
              (written_file wdh' (length (dump_out wdh))) rec pd [])
    as [Hr _]; try assumption.
  { unfold wdh'. rewrite remaining_appended. fold image. now rewrite app_nil_r. }
  fold hdr in Hr. fold image in Hr.
  assert (Hts : sysdig_timestamp rec = ts_secs rec * 10 ^ 9 + ts_nsecs rec).
  { unfold sysdig_timestamp. change 1000000000 with (10 ^ 9).
    rewrite (guint64_small (ts_secs rec)) by nia.
    rewrite (guint64_small (ts_secs rec * 10 ^ 9)) by nia.
    apply guint64_small. nia. }
  eexists wdh', _, _. split; [exact Hw|]. split.
  { unfold wdh', appended. cbn [bytes_dumped dump_out]. rewrite length_app. lia. }
  split; [exact Hr|]. split.
  { unfold forward, written_file, wdh', appended. cbn [file_pos dump_out].
    now rewrite length_app. }
  cbn [res_wblock wb_internal set_internal set_frame_buffer set_rec wb_rec rec_type
       ts_secs ts_nsecs syscall_header cpu_id thread_id event_len event_type
       event_filelen wb_frame_buffer].
  rewrite Hts. change 1000000000 with (10 ^ 9).
  rewrite Z.div_add_l, Z.div_small, Z.add_0_r by lia.
  rewrite Z.add_comm, Z.mod_add, Z.mod_small by lia.
  rewrite time_t_small by nia. rewrite c_int_small by lia.
  repeat split.
Qed.

Lemma sysdig_write_then_read_witness :
  exists wdh' r fh',
    pcapng_write_sysdig_event_block sample_syscall_rec sample_syscall_data (fresh_dumper [])
    = (None, wdh')
    /\ bytes_dumped wdh' = 40
    /\ length (dump_out wdh') = 44%nat
    /\ pcapng_read_block plain_env (mkFileInfo 0 0) false false default_section
         default_section empty_wblock (written_file wdh' 0) = Ok (r, fh')
    /\ event_filelen (syscall_header (wb_rec (res_wblock r))) = 8
    /\ wb_frame_buffer (res_wblock r) = sample_syscall_data ++ [x00].
Proof.
  destruct (sysdig_write_then_read plain_env (mkFileInfo 0 0) false false default_section
              default_section empty_wblock sample_syscall_rec sample_syscall_data
              (fresh_dumper []))
    as (wdh' & r & fh' & Hw & Hb & Hr & _ & _ & _ & _ & _ & _ & _ & _ & _ & Hfl & Hbuf).
  - reflexivity.
  - reflexivity.
  - vm_compute. discriminate.
  - vm_compute. split; [discriminate|reflexivity].
  - vm_compute. split; [discriminate|reflexivity].
  - vm_compute. split; [discriminate|reflexivity].
  - vm_compute. split; [discriminate|reflexivity].
  - vm_compute. discriminate.
  - reflexivity.
  - vm_compute. split; [discriminate|reflexivity].
  - exists wdh', r, fh'. split; [exact Hw|].
    assert (Hlen : length (dump_out wdh') = 44%nat)
      by (vm_compute in Hw; inversion Hw; reflexivity).
    rewrite Hlen in Hb. change (bytes_dumped (fresh_dumper [])) with 0 in Hb.
    change (Z.of_nat (length (dump_out (fresh_dumper [])))) with 0 in Hb.
    split; [lia|]. split; [exact Hlen|]. split; [exact Hr|].
    split; [rewrite Hfl; reflexivity|rewrite Hbuf; reflexivity].
Defined.
(** ** systemd journal export blocks: written, then read *)

Lemma pcapng_write_systemd_journal_export_block_image rec pd :
  0 <= systemd_journal_record_len rec <= Z.of_nat (length pd) ->
  systemd_journal_record_len rec <= WTAP_MAX_PACKET_SIZE_STANDARD ->
  wr_appends (pcapng_write_systemd_journal_export_block rec pd) (journal_block_image rec pd)
             (Z.of_nat (length (journal_block_image rec pd)) - 4).
Proof.
  intros Hlen Hmax. unfold pcapng_write_systemd_journal_export_block.
  destruct (Z.gtb_spec (systemd_journal_record_len rec) WTAP_MAX_PACKET_SIZE_STANDARD);
    [lia|].
  pose proof (pad_to_4_range (systemd_journal_record_len rec)) as Hp.
  eapply wr_appends_eq.
  - apply wr_appends_seq; [apply wr_appends_counted|].
    apply wr_appends_seq; [apply wr_appends_bytes|].
    apply wr_appends_seq; [apply wr_appends_pad; lia|].
    apply wr_appends_of_uncounted.
  - unfold journal_block_image. repeat rewrite <- app_assoc. reflexivity.
  - unfold journal_block_image.
    rewrite !length_app, !length_le_bytes, length_firstn, repeat_length, !Nat2Z.inj_add.
    rewrite Nat.min_l by lia. rewrite !Z2Nat.id by lia. lia.
Qed.

Lemma strip_trailing_nuls_zeros n l :
  strip_trailing_nuls (repeat x00 n ++ l) = strip_trailing_nuls l.
Proof. induction n as [|n IH]; [reflexivity|exact IH]. Qed.

Lemma strip_trailing_nuls_padded pd n :
  byte_val (last pd x00) <> 0 ->
  rev (strip_trailing_nuls (rev (pd ++ repeat x00 n))) = pd.
Proof.
  intros Hlast. rewrite rev_app_distr, rev_repeat, strip_trailing_nuls_zeros.
  destruct (rev pd) as [|c r] eqn:E.
  - apply (f_equal (@rev byte)) in E. rewrite rev_involutive in E. subst pd.
    exfalso. apply Hlast. reflexivity.
  - assert (Hpd : pd = rev r ++ [c]).
    { apply (f_equal (@rev byte)) in E. now rewrite rev_involutive in E. }
    cbn [strip_trailing_nuls].
    rewrite Hpd, last_last in Hlast.
    destruct (Z.eqb_spec (byte_val c) 0) as [E0|_]; [contradiction|].
    cbn [rev]. now rewrite Hpd.
Qed.

(** X7: a journal entry written by
    [pcapng_write_systemd_journal_export_block] and read back by
    [pcapng_read_block] in a section of the host's byte order: an entry of
    at least 23 bytes that does not end in a NUL comes back with its own
    length as the record length, the padding of the block being dropped
    from the count but kept in the buffer, and a file without
    encapsulation becomes a per-packet one.  [bytes_dumped] misses the
    four bytes of the block trailer. *)
Theorem journal_write_then_read env wth a4 a6 si nsi wblock rec pd wdh :
  let record_len := systemd_journal_record_len rec in
  byte_swapped si = false ->
  record_len = Z.of_nat (length pd) ->
  MIN_SYSTEMD_JOURNAL_EXPORT_ENTRY_SIZE <= record_len <= WTAP_MAX_PACKET_SIZE_STANDARD ->
  byte_val (last pd x00) <> 0 ->
  exists wdh' r fh',
    pcapng_write_systemd_journal_export_block rec pd wdh = (None, wdh')
    /\ bytes_dumped wdh' - bytes_dumped wdh
       = Z.of_nat (length (dump_out wdh')) - Z.of_nat (length (dump_out wdh)) - 4
    /\ pcapng_read_block env wth a4 a6 si nsi wblock
         (written_file wdh' (length (dump_out wdh))) = Ok (r, fh')
    /\ file_pos fh' = length (dump_out wdh')
    /\ wb_internal (res_wblock r) = false
    /\ rec_type (wb_rec (res_wblock r)) = REC_TYPE_SYSTEMD_JOURNAL
    /\ systemd_journal_record_len (wb_rec (res_wblock r)) = record_len
    /\ wb_frame_buffer (res_wblock r) = pd ++ repeat x00 (Z.to_nat (pad_to_4 record_len))
    /\ file_encap (res_wth r)
       = (if file_encap wth =? WTAP_ENCAP_UNKNOWN then WTAP_ENCAP_PER_PACKET
          else file_encap wth).
Proof.
  intros record_len Hsw Hlen Hrange Hlast.
  assert (Hmaxv : MAX_BLOCK_SIZE = 134348832) by reflexivity.
  assert (Hstd : WTAP_MAX_PACKET_SIZE_STANDARD = 262144) by reflexivity.
  assert (Hmin : MIN_SYSTEMD_JOURNAL_EXPORT_ENTRY_SIZE = 23) by reflexivity.
  pose proof (pad_to_4_range record_len) as Hp.
  pose proof (pad_to_4_aligned record_len) as Hal.
  pose proof (pcapng_write_systemd_journal_export_block_image rec pd
                ltac:(fold record_len; lia) ltac:(fold record_len; lia) wdh) as Hw.
  set (image := journal_block_image rec pd) in *.
  set (wdh' := appended wdh image _) in Hw.
  assert (Htotal : journal_block_total_length rec = 12 + record_len + pad_to_4 record_len).
  { unfold journal_block_total_length. fold record_len.
    change sizeof_block_header with 8.
    rewrite guint32_small by (change (2 ^ 32) with 4294967296; lia). lia. }
  set (data := pd ++ repeat x00 (Z.to_nat (pad_to_4 record_len))).
  assert (Hdata : Z.of_nat (length data) = record_len + pad_to_4 record_len).
  { unfold data. rewrite length_app, repeat_length, Nat2Z.inj_add, Z2Nat.id by lia. lia. }
  assert (Himage : image
                   = (le_bytes 4 BLOCK_TYPE_SYSTEMD_JOURNAL
                      ++ le_bytes 4 (12 + record_len + pad_to_4 record_len))
                     ++ data ++ le_bytes 4 (12 + record_len + pad_to_4 record_len) ++ []).
  { unfold image, journal_block_image. fold record_len. rewrite Htotal.
    replace (firstn (Z.to_nat record_len) pd) with pd
      by (now rewrite Hlen, Nat2Z.id, firstn_all).
    fold data. now rewrite app_nil_r. }
  set (fh := written_file wdh' (length (dump_out wdh))).
  assert (Hrem : remaining fh = image) by (unfold fh, wdh'; apply remaining_appended).
  rewrite Himage in Hrem.
  set (total := 12 + record_len + pad_to_4 record_len) in *.
  set (entry := rev (strip_trailing_nuls (rev data))).
  assert (Hentry : entry = pd) by (apply strip_trailing_nuls_padded; exact Hlast).
  set (w :=
    let rt_ts :=
      match strstr entry SDJ__REALTIME_TIMESTAMP with
      | None => None
      | Some ts_pos =>
          if ts_pos + Z.of_nat (length SDJ__REALTIME_TIMESTAMP) >=? Z.of_nat (length entry)
          then None
          else ws_strtou64 env
                 (until_nul (skipn (Z.to_nat (ts_pos + Z.of_nat (length SDJ__REALTIME_TIMESTAMP)))
                                   entry))
      end in
    let old := wb_rec (set_type BLOCK_TYPE_SYSTEMD_JOURNAL (set_block None wblock)) in
    set_internal false
      (set_frame_buffer data
         (set_rec
            (match rt_ts with
             | Some t =>
                 mkRec REC_TYPE_SYSTEMD_JOURNAL (Z.lor WTAP_HAS_CAP_LEN WTAP_HAS_TS)
                       (time_t (t / 1000000)) (c_int ((t mod 1000000) * 1000))
                       WTAP_TSPREC_USEC
                       (packet_header old) (syscall_header old) (Z.of_nat (length entry))
                       (opt_comment old) (packet_verdict old)
             | None =>
                 mkRec REC_TYPE_SYSTEMD_JOURNAL WTAP_HAS_CAP_LEN
                       (ts_secs old) (ts_nsecs old) (tsprec old)
                       (packet_header old) (syscall_header old) (Z.of_nat (length entry))
                       (opt_comment old) (packet_verdict old)
             end)
            (set_type BLOCK_TYPE_SYSTEMD_JOURNAL (set_block None wblock))))).
  assert (Hbody :
    read_block_dispatch env wth a4 a6 (mkBh BLOCK_TYPE_SYSTEMD_JOURNAL total) si
      (set_type BLOCK_TYPE_SYSTEMD_JOURNAL (set_block None wblock)) (forward fh 8)
    = Ok ((mkFileInfo (if file_encap wth =? WTAP_ENCAP_UNKNOWN then WTAP_ENCAP_PER_PACKET
                       else file_encap wth) (file_tsprec wth), w, mkCalls [] []),
          forward fh (8 + length data))
    /\ remaining (forward fh (8 + length data)) = le_bytes 4 total ++ []).
  { destruct (read_next 8 8 fh _ _ Hrem eq_refl eq_refl) as [_ Hrem1].
    unfold read_block_dispatch. cbn [block_type].
    change (BLOCK_TYPE_SYSTEMD_JOURNAL =? BLOCK_TYPE_IDB) with false.
    change (BLOCK_TYPE_SYSTEMD_JOURNAL =? BLOCK_TYPE_PB) with false.
    change (BLOCK_TYPE_SYSTEMD_JOURNAL =? BLOCK_TYPE_SPB) with false.
    change (BLOCK_TYPE_SYSTEMD_JOURNAL =? BLOCK_TYPE_EPB) with false.
    change (BLOCK_TYPE_SYSTEMD_JOURNAL =? BLOCK_TYPE_NRB) with false.
    change (BLOCK_TYPE_SYSTEMD_JOURNAL =? BLOCK_TYPE_ISB) with false.
    change (BLOCK_TYPE_SYSTEMD_JOURNAL =? BLOCK_TYPE_DSB) with false.
    change ((BLOCK_TYPE_SYSTEMD_JOURNAL =? BLOCK_TYPE_SYSDIG_EVENT)
            || (BLOCK_TYPE_SYSTEMD_JOURNAL =? BLOCK_TYPE_SYSDIG_EVENT_V2)) with false.
    change (BLOCK_TYPE_SYSTEMD_JOURNAL =? BLOCK_TYPE_SYSTEMD_JOURNAL) with true.
    cbv beta iota zeta.
    unfold pcapng_read_systemd_journal_export_block. cbn [block_total_length].
    change MIN_SYSTEMD_JOURNAL_EXPORT_BLOCK_SIZE with 35.
    destruct (Z.ltb_spec total 35) as [Hlt|_]; [unfold total in Hlt; lia|].
    assert (Hpt : padded_block_total_length (mkBh BLOCK_TYPE_SYSTEMD_JOURNAL total) = total).
    { unfold padded_block_total_length. cbn [block_total_length].
      replace (total mod 4) with 0; [reflexivity|].
      unfold total.
      replace (12 + record_len + pad_to_4 record_len)
        with ((record_len + pad_to_4 record_len) + 3 * 4) by lia.
      now rewrite Z.mod_add by lia. }
    rewrite Hpt. change MIN_BLOCK_SIZE with 12.
    replace (guint32 (total - 12)) with (Z.of_nat (length data))
      by (rewrite Hdata; unfold total; rewrite guint32_small;
          [lia|change (2 ^ 32) with 4294967296; lia]).
    unfold wtap_read_packet_bytes.
    destruct (read_next (Z.of_nat (length data)) (length data) _ _ _ Hrem1 eq_refl eq_refl)
      as [Hr2 Hrem2].
    rewrite !bind_assoc. rewrite (bind_run _ _ _ _ _ Hr2).
    cbv beta zeta. fold entry.
    destruct (Z.ltb_spec (Z.of_nat (length entry)) MIN_SYSTEMD_JOURNAL_EXPORT_ENTRY_SIZE)
      as [Hlt|_]; [rewrite Hentry in Hlt; lia|].
    rewrite bind_ret. cbn [ret]. rewrite !forward_forward in *.
    split; [reflexivity|exact Hrem2]. }
  destruct Hbody as [Hbody Hremb].
  destruct (pcapng_read_block_framed env wth a4 a6 si nsi wblock fh
              BLOCK_TYPE_SYSTEMD_JOURNAL total _ _ _ _ _ [] Hrem Hsw
              ltac:(change BLOCK_TYPE_SYSTEMD_JOURNAL with 9; lia) ltac:(discriminate)
              ltac:(unfold total; lia) Hbody Hremb) as [Hr _].
  eexists wdh', _, _. split; [exact Hw|]. split.
  { unfold wdh', appended. cbn [bytes_dumped dump_out]. rewrite length_app. lia. }
  split; [exact Hr|]. split.
  { rewrite forward_forward. unfold forward, fh, written_file, wdh', appended.
    cbn [file_pos dump_out]. rewrite length_app. f_equal. rewrite Himage.
    rewrite !length_app, !length_le_bytes. cbn [length]. lia. }
  cbn [res_wblock res_wth file_encap]. unfold w. cbv zeta.
  rewrite Hentry.
  destruct (match strstr pd SDJ__REALTIME_TIMESTAMP with
            | Some ts_pos => _
            | None => None
            end) as [t|];
    cbn [wb_internal set_internal wb_rec set_frame_buffer set_rec rec_type
         systemd_journal_record_len wb_frame_buffer];
    rewrite <- Hlen; repeat split.
Qed.

Lemma journal_write_then_read_witness :
  exists wdh' r fh',
    pcapng_write_systemd_journal_export_block sample_journal_rec sample_journal_data
      (fresh_dumper []) = (None, wdh')
    /\ bytes_dumped wdh' = 36
    /\ length (dump_out wdh') = 40%nat
    /\ pcapng_read_block plain_env (mkFileInfo 0 0) false false default_section
         default_section empty_wblock (written_file wdh' 0) = Ok (r, fh')
    /\ systemd_journal_record_len (wb_rec (res_wblock r)) = 25
    /\ length (wb_frame_buffer (res_wblock r)) = 28%nat
    /\ file_encap (res_wth r) = WTAP_ENCAP_PER_PACKET.
Proof.
  destruct (journal_write_then_read plain_env (mkFileInfo 0 0) false false default_section
              default_section empty_wblock sample_journal_rec sample_journal_data
              (fresh_dumper []))
    as (wdh' & r & fh' & Hw & Hb & Hr & _ & _ & _ & Hlen & Hbuf & Henc).
  - reflexivity.
  - reflexivity.
  - vm_compute. split; discriminate.
  - vm_compute. discriminate.
  - exists wdh', r, fh'. split; [exact Hw|].
    assert (Hout : length (dump_out wdh') = 40%nat)
      by (vm_compute in Hw; inversion Hw; reflexivity).
    rewrite Hout in Hb. change (bytes_dumped (fresh_dumper [])) with 0 in Hb.
    change (Z.of_nat (length (dump_out (fresh_dumper [])))) with 0 in Hb.
    split; [lia|]. split; [exact Hout|]. split; [exact Hr|].
    split; [rewrite Hlen; reflexivity|].
    split; [rewrite Hbuf; reflexivity|rewrite Henc; reflexivity].
Defined.
(** ** Options: written, sized and read *)

Lemma option_loop_step {E St} (out : E) (body : Z -> St -> reader E (Z * St)) :
  (forall t s, advances (body t s)) ->
  forall t s fh t' s' fh',
    t <> 0 -> body t s fh = Ok ((t', s'), fh') ->
    option_loop out body t s fh = option_loop out body t' s' fh'.
Proof.
  intros Hadv t s fh t' s' fh' Ht Hb. unfold option_loop.
  cbn [while fst snd]. destruct (Z.eqb_spec t 0) as [E0|_]; [contradiction|].
  rewrite (bind_run _ _ _ _ _ Hb). cbn [ret].
  apply while_bound_suffices.
  - intros [t0 s0] fh0 [t1 s1] fh1 H. cbn [fst snd] in H.
    destruct (t0 =? 0); [discriminate|].
    destruct (body t0 s0 fh0) as [[[t2 s2] fh2]|e] eqn:Eb;
      [|unfold bind in H; rewrite Eb in H; discriminate].
    rewrite (bind_run _ _ _ _ _ Eb) in H. cbn [ret] in H. inversion H; subst.
    eapply Hadv; eauto.
  - eapply Hadv; eauto.
Qed.

Lemma pad_to_4_bounds n : 0 <= pad_to_4 n < 4.
Proof.
  unfold pad_to_4. pose proof (Z.mod_pos_bound n 4 ltac:(lia)).
  destruct (Z.eqb_spec (n mod 4) 0); cbn [negb]; lia.
Qed.

Lemma length_option_image code value :
  Z.of_nat (length (option_image code value))
  = 4 + Z.of_nat (length value) + pad_to_4 (Z.of_nat (length value)).
Proof.
  unfold option_image. rewrite !length_app, !length_le_bytes, repeat_length.
  pose proof (pad_to_4_bounds (Z.of_nat (length value))). lia.
Qed.

Lemma pcapng_read_option_image si len to_read fh code value post :
  byte_swapped si = false ->
  remaining fh = option_image code value ++ post ->
  0 <= code < 65536 ->
  Z.of_nat (length value) < 65536 ->
  4 + Z.of_nat (length value) <= to_read ->
  Z.of_nat (length value) <= len ->
  pcapng_read_option si len to_read fh
  = Ok ((Z.of_nat (length (option_image code value)),
         mkOh code (Z.of_nat (length value)), value),
        forward fh (length (option_image code value)))
  /\ remaining (forward fh (length (option_image code value))) = post.
Proof.
  intros Hsw Hrem Hcode Hlen Hto Hl.
  pose proof (pad_to_4_bounds (Z.of_nat (length value))) as Hp.
  pose proof (length_option_image code value) as Himg.
  unfold option_image in Hrem.
  set (n := Z.of_nat (length value)) in *.
  unfold pcapng_read_option. change sizeof_option_header with 4.
  destruct (Z.ltb_spec to_read 4) as [H|_]; [lia|].
  rewrite (app_assoc (le_bytes 2 code)) in Hrem. rewrite <- !app_assoc in Hrem.
  rewrite (app_assoc (le_bytes 2 code)) in Hrem.
  destruct (read_next 4 4 _ _ _ Hrem eq_refl eq_refl) as [Hr1 Hrem1].
  rewrite (bind_run _ _ _ _ _ Hr1). rewrite Hsw. unfold maybe_swap16.
  rewrite field_first, (field_at_end 2 2 (le_bytes 2 code)) by reflexivity.
  change (256 ^ Z.of_nat 2) with 65536.
  rewrite (Z.mod_small code), (Z.mod_small n) by lia.
  cbn [option_length option_code].
  destruct (Z.ltb_spec to_read (4 + n)) as [H|_]; [lia|].
  destruct (Z.ltb_spec len n) as [H|_]; [lia|].
  destruct (read_next n (length value) _ _ _ Hrem1 eq_refl eq_refl) as [Hr2 Hrem2].
  rewrite (bind_run _ _ _ _ _ Hr2). rewrite forward_forward in *.
  unfold pad_to_4 in *.
  destruct (Z.eqb_spec (n mod 4) 0) as [E|E]; cbn [negb] in *.
  - cbn [Z.to_nat repeat app] in Hrem2. unfold ret.
    replace (length (option_image code value)) with (4 + length value)%nat by lia.
    replace (Z.of_nat (4 + length value)) with (4 + n) by lia.
    split; [reflexivity|exact Hrem2].
  - destruct (read_next (4 - n mod 4) (Z.to_nat (4 - n mod 4)) _ _ _ Hrem2) as [Hr3 Hrem3];
      [apply repeat_length|lia|].
    rewrite (bind_run _ _ _ _ _ Hr3). rewrite forward_forward in *. unfold ret.
    replace (length (option_image code value))
      with (4 + length value + Z.to_nat (4 - n mod 4))%nat by lia.
    replace (Z.of_nat (4 + length value + Z.to_nat (4 - n mod 4)))
      with (4 + n + (4 - n mod 4)) by lia.
    split; [reflexivity|exact Hrem3].
Qed.

Lemma pad_to_4_aligns n : 0 <= n -> (n + pad_to_4 n) mod 4 = 0.
Proof.
  intros H. unfold pad_to_4. pose proof (Z.mod_pos_bound n 4 ltac:(lia)) as Hm.
  destruct (Z.eqb_spec (n mod 4) 0) as [E|E]; cbn [negb].
  - now rewrite Z.add_0_r.
  - rewrite (Z.div_mod n 4) at 1 by lia.
    replace (4 * (n / 4) + n mod 4 + (4 - n mod 4)) with ((n / 4 + 1) * 4) by lia.
    apply Z.mod_mul. lia.
Qed.

Lemma length_option_image_aligned code value :
  Z.of_nat (length (option_image code value)) mod 4 = 0.
Proof.
  rewrite length_option_image.
  pose proof (pad_to_4_aligns (Z.of_nat (length value)) ltac:(lia)) as H.
  rewrite <- Z.add_assoc. rewrite <- Zplus_mod_idemp_r, H. reflexivity.
Qed.

(** ** Options written *)

Lemma pcapng_write_option_string_image wdh option_id str :
  0 <= option_id < 65536 -> 0 < strlen str <= 65535 ->
  pcapng_write_option_string wdh option_id str
  = Ok (appended wdh (option_image option_id str)
          (Z.of_nat (length (option_image option_id str)))).
Proof.
  intros Hid Hs. rewrite length_option_image.
  unfold pcapng_write_option_string, option_image, pad_to_4. unfold strlen in *.
  set (n := Z.of_nat (length str)) in *.
  destruct (Z.eqb_spec n 0); [lia|]. destruct (Z.gtb_spec n 65535); [lia|].
  unfold guint16. change (2 ^ 16) with 65536. rewrite !Z.mod_small by lia.
  pose proof (Z.mod_pos_bound n 4 ltac:(lia)) as Hm.
  unfold wtap_dump_file_write, add_bytes_dumped, appended.
  cbn [dump_out bytes_dumped wdh_shb_hdrs].
  destruct (Z.eqb_spec (n mod 4) 0) as [E|E]; cbn [negb].
  - change (0 =? 0) with true. cbn [negb Z.to_nat repeat].
    rewrite app_nil_r, <- !app_assoc. do 2 f_equal. lia.
  - destruct (Z.eqb_spec (4 - n mod 4) 0); [lia|]. cbn [negb dump_out bytes_dumped wdh_shb_hdrs].
    rewrite <- !app_assoc. do 2 f_equal. lia.
Qed.

Lemma pcapng_write_option_uint64_image wdh option_id v :
  0 <= option_id < 65536 ->
  pcapng_write_option_uint64 wdh option_id v
  = Ok (appended wdh (option_image option_id (le_bytes 8 v))
          (Z.of_nat (length (option_image option_id (le_bytes 8 v))))).
Proof.
  intros Hid. unfold pcapng_write_option_uint64, option_image.
  rewrite !length_app, !length_le_bytes, repeat_length.
  unfold guint16. change (2 ^ 16) with 65536. rewrite !Z.mod_small by lia.
  rewrite !write_counted_appended. cbn [and_then]. rewrite write_counted_appended.
  rewrite appended_appended, !length_app, !length_le_bytes.
  change (pad_to_4 (Z.of_nat 8)) with 0. cbn [Z.to_nat repeat].
  rewrite app_nil_r, <- !app_assoc. reflexivity.
Qed.

Lemma pcapng_write_option_timestamp_image wdh option_id v :
  0 <= option_id < 65536 ->
  pcapng_write_option_timestamp wdh option_id v
  = Ok (appended wdh (option_image option_id (timestamp_option_value v))
          (Z.of_nat (length (option_image option_id (timestamp_option_value v))))).
Proof.
  intros Hid. unfold pcapng_write_option_timestamp, option_image, timestamp_option_value.
  rewrite !length_app, !length_le_bytes, repeat_length.
  unfold guint16. change (2 ^ 16) with 65536. rewrite !Z.mod_small by lia.
  rewrite !write_counted_appended. cbn [and_then]. rewrite write_counted_appended.
  cbn [and_then]. rewrite write_counted_appended.
  rewrite !appended_appended, !length_app, !length_le_bytes.
  change (pad_to_4 (Z.of_nat (4 + 4))) with 0. cbn [Z.to_nat repeat].
  rewrite app_nil_r, <- !app_assoc. reflexivity.
Qed.

Lemma pcapng_write_option_uint8_image wdh option_id v :
  0 <= option_id < 65536 ->
  pcapng_write_option_uint8 wdh option_id v
  = Ok (appended wdh (option_image option_id (le_bytes 1 v))
          (Z.of_nat (length (option_image option_id (le_bytes 1 v))))).
Proof.
  intros Hid. unfold pcapng_write_option_uint8, option_image.
  rewrite !length_app, !length_le_bytes, repeat_length.
  unfold guint16. change (2 ^ 16) with 65536. rewrite !Z.mod_small by lia.
  rewrite !write_counted_appended. cbn [and_then]. rewrite write_counted_appended.
  cbn [and_then]. rewrite write_counted_appended.
  rewrite !appended_appended, !length_app, !length_le_bytes, repeat_length.
  change (pad_to_4 (Z.of_nat 1)) with 3. change (Z.to_nat 3) with 3%nat.
  rewrite <- !app_assoc. reflexivity.
Qed.

(** The cases of an option of an interface statistics block. *)
Lemma isb_option_ok_cases p :
  isb_option_ok p = true ->
  (fst p = OPT_COMMENT /\ exists s, snd p = OptString s /\ option_string_ok s = true)
  \/ ((fst p = OPT_ISB_STARTTIME \/ fst p = OPT_ISB_ENDTIME)
      /\ exists v, snd p = OptUint64 v /\ 0 <= v < 2 ^ 64)
  \/ ((fst p = OPT_ISB_IFRECV \/ fst p = OPT_ISB_IFDROP \/ fst p = OPT_ISB_FILTERACCEPT
       \/ fst p = OPT_ISB_OSDROP \/ fst p = OPT_ISB_USRDELIV)
      /\ exists v, snd p = OptUint64 v /\ 0 <= v < 2 ^ 64).
Proof.
  destruct p as [code v]. unfold isb_option_ok. cbn [fst snd].
  destruct (Z.eqb_spec code OPT_COMMENT) as [E|E].
  - destruct v; try discriminate. intros H. left. eauto.
  - change OPT_ISB_STARTTIME with 2. change OPT_ISB_USRDELIV with 8.
    destruct (Z.leb_spec 2 code) as [Hlo|]; [|discriminate].
    destruct (Z.leb_spec code 8) as [Hhi|]; [|discriminate]. cbn [andb].
    destruct v as [|?|v|]; try discriminate. intros H.
    apply andb_prop in H. destruct H as [H1 H2].
    apply Z.leb_le in H1. apply Z.ltb_lt in H2.
    change OPT_ISB_STARTTIME with 2. change OPT_ISB_ENDTIME with 3.
    change OPT_ISB_IFRECV with 4. change OPT_ISB_IFDROP with 5.
    change OPT_ISB_FILTERACCEPT with 6. change OPT_ISB_OSDROP with 7.
    assert (Hc : code = 2 \/ code = 3 \/ code = 4 \/ code = 5 \/ code = 6 \/ code = 7
                 \/ code = 8) by lia.
    destruct Hc as [Hc|[Hc|Hc]]; [right; left|right; left|right; right];
      (split; [tauto|eauto]).
Qed.

Lemma option_string_ok_spec s :
  option_string_ok s = true ->
  0 < strlen s <= 65535 /\ until_nul s = s.
Proof.
  unfold option_string_ok. intros H.
  apply andb_prop in H. destruct H as [H H3].
  apply andb_prop in H. destruct H as [H1 H2].
  apply Z.ltb_lt in H1. apply Z.leb_le in H2. split; [lia|].
  clear H1 H2. induction s as [|c s IH]; [reflexivity|].
  cbn [forallb] in H3. apply andb_prop in H3. destruct H3 as [Hc Hs].
  cbn [until_nul]. destruct (byte_val c =? 0); [discriminate|]. now rewrite IH.
Qed.

Lemma write_wtap_isb_option_image p wdh :
  isb_option_ok p = true ->
  write_wtap_isb_option (fst p) (snd p) (Ok wdh)
  = Ok (appended wdh (isb_option_image p) (Z.of_nat (length (isb_option_image p)))).
Proof.
  intros Hok. unfold write_wtap_isb_option, isb_option_image.
  destruct (isb_option_ok_cases p Hok) as [[Hc (s & Hv & Hs)]|[[Hc (v & Hv & Hr)]|[Hc (v & Hv & Hr)]]];
    rewrite Hv; cbn [stringval uint64val].
  - rewrite Hc. change (OPT_COMMENT =? OPT_COMMENT) with true. cbv iota.
    apply pcapng_write_option_string_image; [cbv; intuition discriminate|].
    apply option_string_ok_spec, Hs.
  - destruct Hc as [Hc|Hc]; rewrite Hc; cbn -[pcapng_write_option_timestamp option_image];
      apply pcapng_write_option_timestamp_image; cbv; intuition discriminate.
  - destruct Hc as [Hc|[Hc|[Hc|[Hc|Hc]]]]; rewrite Hc;
      cbn -[pcapng_write_option_uint64 option_image];
      apply pcapng_write_option_uint64_image; cbv; intuition discriminate.
Qed.

Lemma isb_option_image_length p :
  isb_option_ok p = true ->
  8 <= Z.of_nat (length (isb_option_image p)) <= 65544
  /\ Z.of_nat (length (isb_option_image p)) mod 4 = 0.
Proof.
  intros Hok. unfold isb_option_image.
  destruct (isb_option_ok_cases p Hok) as [[Hc (s & Hv & Hs)]|[[Hc (v & Hv & Hr)]|[Hc (v & Hv & Hr)]]];
    rewrite Hv; cbn [stringval uint64val].
  - rewrite Hc. change (OPT_COMMENT =? OPT_COMMENT) with true. cbv iota.
    split; [|apply length_option_image_aligned].
    rewrite length_option_image. apply option_string_ok_spec in Hs.
    unfold strlen in Hs. destruct Hs as [Hs _].
    pose proof (pad_to_4_bounds (Z.of_nat (length s))) as Hp.
    pose proof (pad_to_4_aligns (Z.of_nat (length s)) ltac:(lia)) as Ha.
    split; [|lia].
    assert (Z.of_nat (length s) + pad_to_4 (Z.of_nat (length s)) <> 0) by lia.
    assert (Hq := Z.div_mod (Z.of_nat (length s) + pad_to_4 (Z.of_nat (length s))) 4 ltac:(lia)).
    lia.
  - destruct Hc as [Hc|Hc]; rewrite Hc; cbn -[option_image timestamp_option_value];
      (split; [|apply length_option_image_aligned]);
      rewrite length_option_image; unfold timestamp_option_value;
      rewrite length_app, !length_le_bytes; cbn; lia.
  - destruct Hc as [Hc|[Hc|[Hc|[Hc|Hc]]]]; rewrite Hc; cbn -[option_image le_bytes];
      (split; [|apply length_option_image_aligned]);
      rewrite length_option_image, length_le_bytes; cbn; lia.
Qed.

(** ** The options of a block, sized and written *)

Lemma add_option_size_aligned size bs :
  0 < size -> size mod 4 = 0 -> 0 <= bs -> bs mod 4 = 0 -> bs + size + 4 < 2 ^ 32 ->
  add_option_size size bs = bs + size + 4.
Proof.
  intros Hs Hs4 Hb Hb4 Hlt. unfold add_option_size.
  destruct (Z.gtb_spec size 0); [|lia].
  unfold guint32. rewrite (Z.mod_small (bs + size)) by lia.
  rewrite land_3_mod4 by lia.
  assert (H4 : (bs + size) mod 4 = 0) by (rewrite Zplus_mod, Hs4, Hb4; reflexivity).
  rewrite H4. cbn [Z.eqb negb].
  apply Z.mod_small. lia.
Qed.

Lemma pcapng_compute_option_string_size_small str :
  strlen str <= 65535 ->
  pcapng_compute_option_string_size str = strlen str + pad_to_4 (strlen str).
Proof.
  intros H. unfold pcapng_compute_option_string_size, pad_to_4, strlen in *.
  unfold guint32. rewrite (Z.mod_small (Z.of_nat (length str))) by
      (change (2 ^ 32) with 4294967296; lia).
  change 0xffff with (Z.ones 16). rewrite Z.land_ones by lia.
  rewrite (Z.mod_small (Z.of_nat (length str)) (2 ^ 16)) by (change (2 ^ 16) with 65536; lia).
  pose proof (Z.mod_pos_bound (Z.of_nat (length str)) 4 ltac:(lia)).
  apply Z.mod_small. change (2 ^ 32) with 4294967296.
  destruct (Z.eqb_spec (Z.of_nat (length str) mod 4) 0); cbn [negb]; lia.
Qed.

Section Options.

Variable compute : Z -> wtap_optval_t -> Z -> Z.
Variable write : Z -> wtap_optval_t -> res wtap_err wtap_dumper -> res wtap_err wtap_dumper.
Variable image : Z * wtap_optval_t -> list byte.
Variable ok : Z * wtap_optval_t -> bool.

Hypothesis image_length : forall p,
    ok p = true ->
    0 < Z.of_nat (length (image p)) /\ Z.of_nat (length (image p)) mod 4 = 0.
Hypothesis compute_image : forall p bs,
    ok p = true -> 0 <= bs -> bs mod 4 = 0 ->
    bs + Z.of_nat (length (image p)) < 2 ^ 32 ->
    compute (fst p) (snd p) bs = bs + Z.of_nat (length (image p)).
Hypothesis write_image : forall p wdh,
    ok p = true ->
    write (fst p) (snd p) (Ok wdh)
    = Ok (appended wdh (image p) (Z.of_nat (length (image p)))).

Lemma flat_map_image_aligned opts :
  forallb ok opts = true ->
  Z.of_nat (length (flat_map image opts)) mod 4 = 0
  /\ (opts <> [] -> 0 < Z.of_nat (length (flat_map image opts))).
Proof.
  induction opts as [|p opts IH]; intros H; cbn [flat_map forallb] in *.
  - split; [reflexivity|congruence].
  - apply andb_prop in H. destruct H as [Hp Ho].
    destruct (image_length p Hp) as [Hpos H4]. destruct (IH Ho) as [IH4 _].
    rewrite length_app, Nat2Z.inj_add. split; [|lia].
    rewrite Zplus_mod, H4, IH4. reflexivity.
Qed.

Lemma fold_compute_image opts :
  forallb ok opts = true ->
  forall bs, 0 <= bs -> bs mod 4 = 0 ->
    bs + Z.of_nat (length (flat_map image opts)) < 2 ^ 32 ->
    fold_left (fun acc p => compute (fst p) (snd p) acc) opts bs
    = bs + Z.of_nat (length (flat_map image opts)).
Proof.
  induction opts as [|p opts IH]; intros H bs Hb Hb4 Hlt; cbn [flat_map forallb fold_left] in *.
  - cbn [length]. lia.
  - apply andb_prop in H. destruct H as [Hp Ho].
    destruct (image_length p Hp) as [Hpos H4].
    rewrite length_app, Nat2Z.inj_add in *.
    rewrite compute_image by (auto; lia).
    rewrite IH; auto; try lia.
    rewrite Zplus_mod, Hb4, H4. reflexivity.
Qed.

Lemma fold_write_image opts :
  forallb ok opts = true ->
  forall wdh,
    fold_left (fun acc p => write (fst p) (snd p) acc) opts (Ok wdh)
    = Ok (appended wdh (flat_map image opts)
            (Z.of_nat (length (flat_map image opts)))).
Proof.
  induction opts as [|p opts IH]; intros H wdh; cbn [flat_map forallb fold_left] in *.
  - cbn [length]. now rewrite appended_nil.
  - apply andb_prop in H. destruct H as [Hp Ho].
    rewrite write_image by exact Hp. rewrite IH by exact Ho.
    rewrite appended_appended, length_app, Nat2Z.inj_add. reflexivity.
Qed.

Lemma options_block_size_image block :
  forallb ok (block_options block) = true ->
  Z.of_nat (length (options_image image (block_options block))) < 2 ^ 32 ->
  options_block_size block compute
  = Z.of_nat (length (options_image image (block_options block))).
Proof.
  intros Hok Hlt. unfold options_block_size, wtap_block_foreach_option, options_image in *.
  destruct (block_options block) as [|p opts] eqn:E; [reflexivity|].
  destruct (flat_map_image_aligned (p :: opts) Hok) as [_ Hpos].
  specialize (Hpos ltac:(discriminate)).
  rewrite length_app in Hlt. rewrite Nat2Z.inj_add in Hlt.
  change (Z.of_nat (length (le_bytes 2 OPT_EOFOPT ++ le_bytes 2 0))) with 4 in Hlt.
  rewrite fold_compute_image by (auto; try reflexivity; lia).
  rewrite Z.add_0_l.
  destruct (Z.gtb_spec (Z.of_nat (length (flat_map image (p :: opts)))) 0); [|lia].
  rewrite length_app, Nat2Z.inj_add.
  change (Z.of_nat (length (le_bytes 2 OPT_EOFOPT ++ le_bytes 2 0))) with 4.
  unfold guint32. apply Z.mod_small. lia.
Qed.

Lemma options_written block wdh :
  forallb ok (block_options block) = true ->
  Z.of_nat (length (options_image image (block_options block))) < 2 ^ 32 ->
  (if options_block_size block compute >? 0
   then and_then (wtap_block_foreach_option block write (Ok wdh))
                 (write_counted (le_bytes 2 OPT_EOFOPT ++ le_bytes 2 0))
   else Ok wdh)
  = Ok (appended wdh (options_image image (block_options block))
          (Z.of_nat (length (options_image image (block_options block))))).
Proof.
  intros Hok Hlt. rewrite options_block_size_image by assumption.
  unfold wtap_block_foreach_option, options_image in *.
  destruct (block_options block) as [|p opts] eqn:E.
  - cbn [length Z.of_nat Z.gtb Z.compare]. now rewrite appended_nil.
  - destruct (flat_map_image_aligned (p :: opts) Hok) as [_ Hpos].
    specialize (Hpos ltac:(discriminate)).
    destruct (Z.gtb_spec (Z.of_nat (length (flat_map image (p :: opts)
                                              ++ le_bytes 2 OPT_EOFOPT ++ le_bytes 2 0))) 0)
      as [_|Hle]; [|rewrite length_app in Hle; lia].
    rewrite fold_write_image by exact Hok. cbn [and_then].
    rewrite write_counted_appended, appended_appended.
    rewrite (length_app (flat_map image (p :: opts))), Nat2Z.inj_add. reflexivity.
Qed.

End Options.

Lemma compute_isb_option_size_image p bs :
  isb_option_ok p = true -> 0 <= bs -> bs mod 4 = 0 ->
  bs + Z.of_nat (length (isb_option_image p)) < 2 ^ 32 ->
  compute_isb_option_size (fst p) (snd p) bs
  = bs + Z.of_nat (length (isb_option_image p)).
Proof.
  intros Hok Hb Hb4 Hlt. unfold compute_isb_option_size. revert Hlt.
  unfold isb_option_image.
  destruct (isb_option_ok_cases p Hok) as [[Hc (s & Hv & Hs)]|[[Hc (v & Hv & Hr)]|[Hc (v & Hv & Hr)]]];
    rewrite Hv; cbn [stringval uint64val].
  - rewrite Hc. change (OPT_COMMENT =? OPT_COMMENT) with true. cbv iota.
    rewrite length_option_image. apply option_string_ok_spec in Hs. destruct Hs as [Hs _].
    rewrite pcapng_compute_option_string_size_small by lia. unfold strlen in *.
    pose proof (pad_to_4_bounds (Z.of_nat (length s))) as Hp.
    pose proof (pad_to_4_aligns (Z.of_nat (length s)) ltac:(lia)) as Ha.
    intros Hlt. rewrite add_option_size_aligned; lia.
  - destruct Hc as [Hc|Hc]; rewrite Hc; cbn -[option_image timestamp_option_value add_option_size];
      rewrite length_option_image; unfold timestamp_option_value;
      rewrite length_app, !length_le_bytes; cbn -[add_option_size Z.pow]; intros Hlt;
      rewrite add_option_size_aligned; try reflexivity; lia.
  - destruct Hc as [Hc|[Hc|[Hc|[Hc|Hc]]]]; rewrite Hc;
      cbn -[option_image le_bytes add_option_size];
      rewrite length_option_image, length_le_bytes; cbn -[add_option_size Z.pow]; intros Hlt;
      rewrite add_option_size_aligned; try reflexivity; lia.
Qed.

Lemma isb_option_image_length_pos p :
  isb_option_ok p = true ->
  0 < Z.of_nat (length (isb_option_image p))
  /\ Z.of_nat (length (isb_option_image p)) mod 4 = 0.
Proof. intros H. destruct (isb_option_image_length p H). split; [lia|assumption]. Qed.

Lemma isb_block_image_shape if_stats L :
  L = Z.of_nat (length (isb_block_image if_stats)) ->
  isb_block_image if_stats
  = le_bytes 4 BLOCK_TYPE_ISB ++ le_bytes 4 L
    ++ (le_bytes 4 (isb_interface_id (if_stats_mandatory if_stats))
        ++ le_bytes 4 (isb_ts_high (if_stats_mandatory if_stats))
        ++ le_bytes 4 (isb_ts_low (if_stats_mandatory if_stats))
        ++ options_image isb_option_image (block_options if_stats))
    ++ le_bytes 4 L.
Proof.
  intros ->. unfold isb_block_image.
  set (body := le_bytes 4 _ ++ le_bytes 4 _ ++ le_bytes 4 _ ++ options_image _ _).
  replace (Z.of_nat (length (le_bytes 4 BLOCK_TYPE_ISB
                               ++ le_bytes 4 (8 + Z.of_nat (length body) + 4)
                               ++ body ++ le_bytes 4 (8 + Z.of_nat (length body) + 4))))
    with (8 + Z.of_nat (length body) + 4)
    by (rewrite !length_app, !length_le_bytes; lia).
  reflexivity.
Qed.

(** The interface statistics block as written. *)
Lemma pcapng_write_interface_statistics_block_image wdh if_stats :
  forallb isb_option_ok (block_options if_stats) = true ->
  Z.of_nat (length (isb_block_image if_stats)) < 2 ^ 32 ->
  pcapng_write_interface_statistics_block wdh if_stats
  = Ok (appended wdh (isb_block_image if_stats)
          (Z.of_nat (length (isb_block_image if_stats))))
  /\ isb_block_total_length if_stats = Z.of_nat (length (isb_block_image if_stats)).
Proof.
  intros Hok Hlt.
  assert (Hlen : Z.of_nat (length (isb_block_image if_stats))
                 = 24 + Z.of_nat (length (options_image isb_option_image
                                            (block_options if_stats)))).
  { unfold isb_block_image. rewrite !length_app, !length_le_bytes. lia. }
  assert (Hsize : options_block_size if_stats compute_isb_option_size
                  = Z.of_nat (length (options_image isb_option_image
                                        (block_options if_stats)))).
  { apply (options_block_size_image _ _ isb_option_ok); auto.
    - apply isb_option_image_length_pos.
    - apply compute_isb_option_size_image.
    - lia. }
  assert (Htot : isb_block_total_length if_stats
                 = Z.of_nat (length (isb_block_image if_stats))).
  { unfold isb_block_total_length. rewrite Hsize, Hlen.
    change sizeof_block_header with 8. change sizeof_isb with 12.
    unfold guint32. rewrite Z.mod_small by lia. lia. }
  split; [|exact Htot].
  unfold pcapng_write_interface_statistics_block.
  rewrite write_counted_appended. cbn [and_then].
  rewrite write_counted_appended. cbn [and_then].
  rewrite (options_written compute_isb_option_size write_wtap_isb_option
             isb_option_image isb_option_ok)
    by (auto using isb_option_image_length_pos, compute_isb_option_size_image,
          write_wtap_isb_option_image; lia).
  cbn [and_then]. rewrite write_counted_appended, !appended_appended.
  rewrite Htot. remember (Z.of_nat (length (isb_block_image if_stats))) as L eqn:HL.
  rewrite (isb_block_image_shape if_stats L HL).
  rewrite <- !app_assoc. do 2 f_equal.
  rewrite !length_app, !length_le_bytes. lia.
Qed.
(** ** Interface statistics blocks: written, then read *)

Section StatisticsOptions.
Variable env : wiretap_env.

(** ** Options read *)

Lemma option_present_app code done p :
  option_present code (done ++ [p]) = option_present code done || (fst p =? code).
Proof.
  unfold option_present. rewrite existsb_app. cbn [existsb]. now rewrite orb_false_r.
Qed.

Lemma wtap_block_add_option_new code v mand done :
  code = OPT_COMMENT \/ option_present code done = false ->
  wtap_block_add_option code v (mkBlock mand done) = mkBlock mand (done ++ [(code, v)]).
Proof.
  intros H. unfold wtap_block_add_option. cbn [block_options block_mand].
  destruct H as [Hc | Hp]; [rewrite Hc | rewrite Hp].
  - reflexivity.
  - now rewrite andb_false_r.
Qed.

Lemma g_strndup_whole s : until_nul s = s -> g_strndup s (Z.of_nat (length s)) = s.
Proof. intros H. unfold g_strndup. now rewrite Nat2Z.id, firstn_all. Qed.

Lemma timestamp_option_value_read v :
  0 <= v < 2 ^ 64 ->
  guint64 (guint64 (Z.shiftl (field 0 4 (timestamp_option_value v)) 32)
           + field 4 4 (timestamp_option_value v)) = v.
Proof.
  intros Hv. unfold timestamp_option_value.
  rewrite field_first, (field_at_end 4 4 (le_bytes 4 _)) by reflexivity.
  change (256 ^ Z.of_nat 4) with (2 ^ 32).
  rewrite Z.shiftr_0_r, Z.shiftr_div_pow2, Z.shiftl_mul_pow2 by lia.
  unfold guint32, guint64. rewrite !Zmod_mod.
  change (2 ^ 32) with 4294967296 in *. change (2 ^ 64) with 18446744073709551616 in *.
  assert (H1 : 0 <= v / 4294967296 < 4294967296)
    by (split; [apply Z.div_pos; lia|apply Z.div_lt_upper_bound; lia]).
  pose proof (Z.mod_pos_bound v 4294967296 ltac:(lia)) as H2.
  pose proof (Z.div_mod v 4294967296 ltac:(lia)) as H3.
  rewrite (Z.mod_small (v / 4294967296)) by lia.
  rewrite (Z.mod_small (v / 4294967296 * 4294967296)) by lia.
  rewrite Z.mod_small by lia. lia.
Qed.

Lemma isb_option_image_read si L t mand done p fh post :
  byte_swapped si = false -> isb_option_ok p = true ->
  remaining fh = isb_option_image p ++ post ->
  Z.of_nat (length (isb_option_image p)) < t -> t <= L -> L < 2 ^ 32 ->
  (fst p = OPT_COMMENT \/ option_present (fst p) done = false) ->
  isb_option env si L t (mkBlock mand done) fh
  = Ok ((t - Z.of_nat (length (isb_option_image p)), mkBlock mand (done ++ [p])),
        forward fh (length (isb_option_image p)))
  /\ remaining (forward fh (length (isb_option_image p))) = post.
Proof.
  intros Hsw Hok Hrem Ht HL HL32 Hnew.
  assert (Himg : exists value,
             isb_option_image p = option_image (fst p) value
             /\ 0 <= fst p < 65536 /\ fst p <> OPT_EOFOPT
             /\ 0 < Z.of_nat (length value) < 65536
             /\ ((fst p = OPT_COMMENT /\ snd p = OptString value /\ until_nul value = value)
                 \/ ((fst p = OPT_ISB_STARTTIME \/ fst p = OPT_ISB_ENDTIME)
                     /\ exists v, snd p = OptUint64 v /\ 0 <= v < 2 ^ 64
                                  /\ value = timestamp_option_value v)
                 \/ ((fst p = OPT_ISB_IFRECV \/ fst p = OPT_ISB_IFDROP
                      \/ fst p = OPT_ISB_FILTERACCEPT
                      \/ fst p = OPT_ISB_OSDROP \/ fst p = OPT_ISB_USRDELIV)
                     /\ exists v, snd p = OptUint64 v /\ 0 <= v < 2 ^ 64
                                  /\ value = le_bytes 8 v))).
  { unfold isb_option_image.
    destruct (isb_option_ok_cases p Hok)
      as [[Hc (s & Hv & Hs)]|[[Hc (v & Hv & Hr)]|[Hc (v & Hv & Hr)]]];
      rewrite Hv; cbn [stringval uint64val].
    - apply option_string_ok_spec in Hs. destruct Hs as [Hs Hn]. unfold strlen in Hs.
      exists s. rewrite Hc. change (OPT_COMMENT =? OPT_COMMENT) with true. cbv iota.
      split; [reflexivity|]. split; [cbv; intuition discriminate|].
      split; [discriminate|]. split; [lia|]. left. auto.
    - exists (timestamp_option_value v).
      split; [destruct Hc as [Hc|Hc]; rewrite Hc; reflexivity|].
      split; [destruct Hc as [Hc|Hc]; rewrite Hc; cbv; intuition discriminate|].
      split; [destruct Hc as [Hc|Hc]; rewrite Hc; discriminate|].
      split; [unfold timestamp_option_value; rewrite length_app, !length_le_bytes;
              cbn; lia|].
      right; left. split; [exact Hc|]. exists v. auto.
    - exists (le_bytes 8 v).
      split; [destruct Hc as [Hc|[Hc|[Hc|[Hc|Hc]]]]; rewrite Hc; reflexivity|].
      split; [destruct Hc as [Hc|[Hc|[Hc|[Hc|Hc]]]]; rewrite Hc; cbv;
              intuition discriminate|].
      split; [destruct Hc as [Hc|[Hc|[Hc|[Hc|Hc]]]]; rewrite Hc; discriminate|].
      split; [rewrite length_le_bytes; cbn; lia|].
      right; right. split; [exact Hc|]. exists v. auto. }
  destruct Himg as (value & Himg & Hcode & Hne & Hlen & Hcases).
  rewrite Himg in *.
  pose proof (length_option_image (fst p) value) as Hli.
  pose proof (pad_to_4_bounds (Z.of_nat (length value))) as Hpad.
  destruct (pcapng_read_option_image si L t fh (fst p) value post Hsw Hrem Hcode)
    as [Hr Hrem']; try lia.
  split; [|exact Hrem'].
  unfold isb_option. rewrite (bind_run _ _ _ _ _ Hr). cbv beta iota.
  cbn [option_code option_length].
  destruct (Z.eqb_spec (fst p) OPT_EOFOPT) as [E|_]; [contradiction|].
  replace (guint32 (t - Z.of_nat (length (option_image (fst p) value))))
    with (t - Z.of_nat (length (option_image (fst p) value)))
    by (unfold guint32; rewrite Z.mod_small; lia).
  destruct Hcases as [(Hc & Hv & Hn)|[(Hc & v & Hv & Hr64 & Hval)|(Hc & v & Hv & Hr64 & Hval)]].
  - rewrite Hc. change (OPT_COMMENT =? OPT_COMMENT) with true. cbv iota.
    unfold pcapng_process_string_option. cbn [option_length option_code].
    destruct (Z.ltb_spec 0 (Z.of_nat (length value))); [|lia].
    destruct (Z.ltb_spec (Z.of_nat (length value)) L); [|lia]. cbn [andb].
    rewrite g_strndup_whole by exact Hn.
    rewrite wtap_block_add_option_new by (left; reflexivity).
    unfold ret. do 5 f_equal. destruct p as [c o]. cbn [fst snd] in *. congruence.
  - assert (Hlv : Z.of_nat (length value) = 8)
      by (rewrite Hval; unfold timestamp_option_value;
          now rewrite length_app, !length_le_bytes).
    assert (Hb : (fst p =? OPT_COMMENT) = false)
      by (destruct Hc as [Hc|Hc]; rewrite Hc; reflexivity).
    assert (Hb2 : (fst p =? OPT_ISB_STARTTIME) || (fst p =? OPT_ISB_ENDTIME) = true)
      by (destruct Hc as [Hc|Hc]; rewrite Hc; reflexivity).
    rewrite Hb, Hb2.
    unfold pcapng_process_timestamp_option. cbn [option_length option_code].
    rewrite Hlv. change (8 =? 8) with true.
    destruct (Z.ltb_spec 8 L); [|lia]. cbn [andb].
    rewrite Hsw. unfold maybe_swap32. rewrite Hval, timestamp_option_value_read by exact Hr64.
    rewrite wtap_block_add_option_new
      by (destruct Hnew as [Hn|Hn]; [rewrite Hn in Hb; discriminate|now right]).
    unfold ret. do 5 f_equal. destruct p as [c o]. cbn [fst snd] in *. congruence.
  - assert (Hlv : Z.of_nat (length value) = 8)
      by (rewrite Hval; now rewrite length_le_bytes).
    assert (Hb : (fst p =? OPT_COMMENT) = false)
      by (destruct Hc as [Hc|[Hc|[Hc|[Hc|Hc]]]]; rewrite Hc; reflexivity).
    assert (Hb2 : (fst p =? OPT_ISB_STARTTIME) || (fst p =? OPT_ISB_ENDTIME) = false)
      by (destruct Hc as [Hc|[Hc|[Hc|[Hc|Hc]]]]; rewrite Hc; reflexivity).
    assert (Hb3 : (fst p =? OPT_ISB_IFRECV) || (fst p =? OPT_ISB_IFDROP)
                  || (fst p =? OPT_ISB_FILTERACCEPT) || (fst p =? OPT_ISB_OSDROP)
                  || (fst p =? OPT_ISB_USRDELIV) = true)
      by (destruct Hc as [Hc|[Hc|[Hc|[Hc|Hc]]]]; rewrite Hc; reflexivity).
    rewrite Hb, Hb2, Hb3.
    unfold pcapng_process_uint64_option. cbn [option_length option_code].
    rewrite Hlv. change (8 =? 8) with true.
    destruct (Z.ltb_spec 8 L); [|lia]. cbn [andb].
    rewrite Hsw. unfold maybe_swap64. rewrite Hval, field_whole.
    change (256 ^ Z.of_nat 8) with (2 ^ 64). rewrite Z.mod_small by exact Hr64.
    rewrite wtap_block_add_option_new
      by (destruct Hnew as [Hn|Hn]; [rewrite Hn in Hb; discriminate|now right]).
    unfold ret. do 5 f_equal. destruct p as [c o]. cbn [fst snd] in *. congruence.
Qed.

Lemma isb_option_end si L t block fh post :
  byte_swapped si = false ->
  remaining fh = (le_bytes 2 OPT_EOFOPT ++ le_bytes 2 0) ++ post ->
  4 <= t -> 0 <= L ->
  isb_option env si L t block fh = Ok ((0, block), forward fh 4)
  /\ remaining (forward fh 4) = post.
Proof.
  intros Hsw Hrem Ht HL.
  change (le_bytes 2 OPT_EOFOPT ++ le_bytes 2 0) with (option_image OPT_EOFOPT []) in Hrem.
  destruct (pcapng_read_option_image si L t fh OPT_EOFOPT [] post Hsw Hrem)
    as [Hr Hrem']; try (change OPT_EOFOPT with 0; cbn [length Z.of_nat]; lia).
  split; [|exact Hrem'].
  unfold isb_option. rewrite (bind_run _ _ _ _ _ Hr). reflexivity.
Qed.

Lemma single_option_codes_cons p opts :
  single_option_codes (p :: opts)
  = if negb (fst p =? OPT_COMMENT) then fst p :: single_option_codes opts
    else single_option_codes opts.
Proof. reflexivity. Qed.

Lemma isb_options_read si L mand :
  byte_swapped si = false -> L < 2 ^ 32 ->
  forall opts done t fh post,
    forallb isb_option_ok opts = true ->
    NoDup (single_option_codes opts) ->
    (forall code, In code (single_option_codes opts) -> option_present code done = false) ->
    remaining fh
    = flat_map isb_option_image opts ++ (le_bytes 2 OPT_EOFOPT ++ le_bytes 2 0) ++ post ->
    t = Z.of_nat (length (flat_map isb_option_image opts)) + 4 ->
    t <= L ->
    option_loop ERR_LOOP_BOUND (isb_option env si L) t (mkBlock mand done) fh
    = Ok (mkBlock mand (done ++ opts),
          forward fh (length (flat_map isb_option_image opts) + 4))
    /\ remaining (forward fh (length (flat_map isb_option_image opts) + 4)) = post.
Proof.
  intros Hsw HL32.
  induction opts as [|p opts IH]; intros done t fh post Hok Hnd Hfresh Hrem Ht HL.
  - cbn [flat_map length app Nat.add] in *. change (Z.of_nat 0 + 4) with 4 in Ht. subst t.
    destruct (isb_option_end si L 4 (mkBlock mand done) fh post Hsw Hrem) as [Hr Hrem'];
      try lia.
    rewrite (option_loop_step ERR_LOOP_BOUND _ (isb_option_advances env si L) 4 _ _ _ _ _
               ltac:(lia) Hr).
    rewrite option_loop_zero, app_nil_r. split; [reflexivity|exact Hrem'].
  - cbn [flat_map forallb] in *. apply andb_prop in Hok. destruct Hok as [Hp Ho].
    rewrite <- app_assoc in Hrem. rewrite length_app, Nat2Z.inj_add in Ht.
    destruct (isb_option_image_length p Hp) as [Hlp _].
    assert (Hnew : fst p = OPT_COMMENT \/ option_present (fst p) done = false).
    { destruct (Z.eqb_spec (fst p) OPT_COMMENT) as [E|E]; [now left|right].
      apply Hfresh. rewrite single_option_codes_cons.
      destruct (Z.eqb_spec (fst p) OPT_COMMENT); [contradiction|]. now left. }
    destruct (isb_option_image_read si L t mand done p fh _ Hsw Hp Hrem) as [Hr Hrem'];
      auto; try lia.
    rewrite (option_loop_step ERR_LOOP_BOUND _ (isb_option_advances env si L) t _ _ _ _ _
               ltac:(lia) Hr).
    rewrite single_option_codes_cons in Hnd, Hfresh.
    destruct (IH (done ++ [p]) (t - Z.of_nat (length (isb_option_image p)))
                (forward fh (length (isb_option_image p))) post Ho) as [Hl Hrem''];
      auto; try lia.
    + destruct (Z.eqb_spec (fst p) OPT_COMMENT); cbn [negb] in Hnd; [exact Hnd|].
      now inversion Hnd.
    + intros code Hin. rewrite option_present_app.
      rewrite Hfresh
        by (destruct (Z.eqb_spec (fst p) OPT_COMMENT); cbn [negb]; [exact Hin|now right]).
      destruct (Z.eqb_spec (fst p) code) as [E|E]; [|reflexivity].
      destruct (Z.eqb_spec (fst p) OPT_COMMENT) as [E1|E1]; cbn [negb] in Hnd.
      * unfold single_option_codes in Hin. apply filter_In in Hin.
        destruct Hin as [_ Hin]. rewrite <- E, E1 in Hin. discriminate.
      * inversion Hnd; subst. contradiction.
    + rewrite forward_forward in *. rewrite <- app_assoc in Hl. cbn [app] in Hl.
      rewrite length_app.
      replace (length (isb_option_image p) + length (flat_map isb_option_image opts) + 4)%nat
        with (length (isb_option_image p) + (length (flat_map isb_option_image opts) + 4))%nat
        by lia.
      split; [exact Hl|exact Hrem''].
Qed.

End StatisticsOptions.

Section StatisticsBlock.
Variable env : wiretap_env.

Lemma isb_block_image_read wth a4 a6 si nsi wblock fh if_stats m post :
  remaining fh = isb_block_image if_stats ++ post ->
  byte_swapped si = false ->
  block_mand if_stats = WTAP_BLOCK_IF_STATISTICS m ->
  0 <= isb_interface_id m < 2 ^ 32 ->
  0 <= isb_ts_high m < 2 ^ 32 ->
  0 <= isb_ts_low m < 2 ^ 32 ->
  forallb isb_option_ok (block_options if_stats) = true ->
  NoDup (single_option_codes (block_options if_stats)) ->
  Z.of_nat (length (isb_block_image if_stats)) <= MAX_BLOCK_SIZE ->
  pcapng_read_block env wth a4 a6 si nsi wblock fh
  = Ok (mkResult wth nsi
          (set_internal true
             (set_block (Some if_stats)
                (set_type BLOCK_TYPE_ISB (set_block None wblock))))
          (mkCalls [] []),
        forward fh (length (isb_block_image if_stats)))
  /\ remaining (forward fh (length (isb_block_image if_stats))) = post.
Proof.
  intros Hrem Hsw Hm Hid Hhi Hlo Hok Hnd Hmax.
  assert (Hmaxv : MAX_BLOCK_SIZE = 134348832) by reflexivity.
  remember (Z.of_nat (length (isb_block_image if_stats))) as L eqn:HL.
  pose proof (isb_block_image_shape if_stats L HL) as Hshape.
  assert (Hlen : L = 24 + Z.of_nat (length (options_image isb_option_image
                                              (block_options if_stats)))).
  { rewrite HL. unfold isb_block_image. rewrite !length_app, !length_le_bytes. lia. }
  set (opts_img := options_image isb_option_image (block_options if_stats)) in *.
  unfold if_stats_mandatory in Hshape. rewrite Hm in Hshape.
  rewrite Hshape in Hrem. rewrite <- !app_assoc in Hrem.
  rewrite (app_assoc (le_bytes 4 BLOCK_TYPE_ISB)) in Hrem.
  destruct (read_next 8 8 fh _ _ Hrem eq_refl eq_refl) as [_ Hrem1].
  (* the body *)
  assert (Hbody :
    read_block_dispatch env wth a4 a6 (mkBh BLOCK_TYPE_ISB L) si
      (set_type BLOCK_TYPE_ISB (set_block None wblock)) (forward fh 8)
    = Ok ((wth,
           set_internal true
             (set_block (Some if_stats)
                (set_type BLOCK_TYPE_ISB (set_block None wblock))),
           mkCalls [] []),
          forward fh (8 + (12 + length opts_img)))
    /\ remaining (forward fh (8 + (12 + length opts_img))) = le_bytes 4 L ++ post).
  { unfold read_block_dispatch. cbn [block_type].
    change (BLOCK_TYPE_ISB =? BLOCK_TYPE_IDB) with false.
    change (BLOCK_TYPE_ISB =? BLOCK_TYPE_PB) with false.
    change (BLOCK_TYPE_ISB =? BLOCK_TYPE_SPB) with false.
    change (BLOCK_TYPE_ISB =? BLOCK_TYPE_EPB) with false.
    change (BLOCK_TYPE_ISB =? BLOCK_TYPE_NRB) with false.
    change (BLOCK_TYPE_ISB =? BLOCK_TYPE_ISB) with true. cbv beta iota zeta.
    unfold pcapng_read_interface_statistics_block. cbn [block_total_length].
    change MIN_ISB_SIZE with 24. change sizeof_isb with 12. change MIN_BLOCK_SIZE with 12.
    destruct (Z.ltb_spec L 24) as [Hlt|_]; [lia|].
    rewrite (app_assoc (le_bytes 4 (isb_interface_id m))) in Hrem1.
    rewrite (app_assoc (le_bytes 4 (isb_interface_id m) ++ _)) in Hrem1.
    destruct (read_next 12 12 _ _ _ Hrem1 eq_refl eq_refl) as [Hr2 Hrem2].
    rewrite !bind_assoc. rewrite (bind_run _ _ _ _ _ Hr2).
    rewrite Hsw. unfold maybe_swap32.
    rewrite <- !app_assoc. fields.
    change (256 ^ Z.of_nat 4) with (2 ^ 32).
    rewrite !Z.mod_small by assumption.
    replace (guint32 (L - (12 + 12))) with (Z.of_nat (length opts_img))
      by (unfold guint32; rewrite Z.mod_small; lia).
    rewrite forward_forward in *.
    assert (Hloop :
      option_loop ERR_LOOP_BOUND
        (isb_option env si (Z.of_nat (length opts_img)))
        (Z.of_nat (length opts_img))
        (mkBlock (WTAP_BLOCK_IF_STATISTICS
                    (mkIfStats (isb_interface_id m) (isb_ts_high m) (isb_ts_low m))) [])
        (forward fh (8 + 12))
      = Ok (if_stats, forward fh (8 + (12 + length opts_img)))
      /\ remaining (forward fh (8 + (12 + length opts_img))) = le_bytes 4 L ++ post).
    { assert (Hb : if_stats = mkBlock (WTAP_BLOCK_IF_STATISTICS
                       (mkIfStats (isb_interface_id m) (isb_ts_high m) (isb_ts_low m)))
                       (block_options if_stats)).
      { destruct if_stats as [bm bo]. cbn [block_mand block_options] in *. subst bm.
        destruct m. reflexivity. }
      unfold opts_img in *. unfold options_image in *.
      destruct (block_options if_stats) as [|p opts] eqn:Eo.
      - cbn [length Z.of_nat app] in *. rewrite option_loop_zero.
        rewrite Nat.add_0_r. rewrite <- Hb. split; [reflexivity|exact Hrem2].
      - rewrite <- app_assoc in Hrem2.
        rewrite length_app in *.
        change (length (le_bytes 2 OPT_EOFOPT ++ le_bytes 2 0)) with 4%nat in *.
        destruct (isb_options_read env si
                    (Z.of_nat (length (flat_map isb_option_image (p :: opts)) + 4))
                    (WTAP_BLOCK_IF_STATISTICS
                       (mkIfStats (isb_interface_id m) (isb_ts_high m) (isb_ts_low m)))
                    Hsw ltac:(change (2 ^ 32) with 4294967296; lia)
                    (p :: opts) []
                    (Z.of_nat (length (flat_map isb_option_image (p :: opts)) + 4))
                    _ _ Hok Hnd ltac:(reflexivity) Hrem2 ltac:(lia) ltac:(lia))
          as [Hl Hrem3].
        rewrite forward_forward in *. cbn [app] in Hl. rewrite <- Hb in Hl.
        rewrite Nat.add_assoc in *. split; [exact Hl|exact Hrem3]. }
    destruct Hloop as [Hl Hrem3].
    rewrite !bind_assoc. rewrite (bind_run _ _ _ _ _ Hl).
    rewrite bind_ret. split; [reflexivity|exact Hrem3]. }
  destruct Hbody as [Hbody Hremb].
  destruct (pcapng_read_block_framed env wth a4 a6 si nsi wblock fh BLOCK_TYPE_ISB L _
              _ _ _ _ post Hrem Hsw ltac:(change BLOCK_TYPE_ISB with 5; lia)
              ltac:(discriminate) ltac:(lia) Hbody Hremb) as [Hr Hrem'].
  rewrite forward_forward in *.
  replace (length (isb_block_image if_stats)) with (8 + (12 + length opts_img) + 4)%nat
    by lia.
  split; [exact Hr|exact Hrem'].
Qed.

End StatisticsBlock.

(** X8: an interface statistics block whose options are comments of 1 to
    65535 bytes and the time stamps and counters of the block, each of
    the latter at most once, is written by
    [pcapng_write_interface_statistics_block] with the total length it
    really has, and [pcapng_read_block], in a section of the host's byte
    order, reads the same block back: the same interface, time stamp and
    options in the same order.  The block must fit the largest block the
    reader accepts. *)
Theorem isb_write_then_read env wth a4 a6 si nsi wblock wdh if_stats m :
  block_mand if_stats = WTAP_BLOCK_IF_STATISTICS m ->
  byte_swapped si = false ->
  0 <= isb_interface_id m < 2 ^ 32 ->
  0 <= isb_ts_high m < 2 ^ 32 ->
  0 <= isb_ts_low m < 2 ^ 32 ->
  forallb isb_option_ok (block_options if_stats) = true ->
  NoDup (single_option_codes (block_options if_stats)) ->
  Z.of_nat (length (isb_block_image if_stats)) <= MAX_BLOCK_SIZE ->
  exists wdh' r fh',
    pcapng_write_interface_statistics_block wdh if_stats = Ok wdh'
    /\ dump_out wdh' = dump_out wdh ++ isb_block_image if_stats
    /\ bytes_dumped wdh' = bytes_dumped wdh + isb_block_total_length if_stats
    /\ isb_block_total_length if_stats = Z.of_nat (length (isb_block_image if_stats))
    /\ pcapng_read_block env wth a4 a6 si nsi wblock
         (written_file wdh' (length (dump_out wdh))) = Ok (r, fh')
    /\ wb_type (res_wblock r) = BLOCK_TYPE_ISB
    /\ wb_internal (res_wblock r) = true
    /\ wb_block (res_wblock r) = Some if_stats
    /\ file_pos fh' = length (dump_out wdh').
Proof.
  intros Hm Hsw Hid Hhi Hlo Hok Hnd Hmax.
  assert (Hmaxv : MAX_BLOCK_SIZE = 134348832) by reflexivity.
  destruct (pcapng_write_interface_statistics_block_image wdh if_stats Hok
              ltac:(change (2 ^ 32) with 4294967296; lia)) as [Hw Htot].
  set (wdh' := appended wdh _ _) in Hw.
  destruct (isb_block_image_read env wth a4 a6 si nsi wblock
              (written_file wdh' (length (dump_out wdh))) if_stats m [])
    as [Hr _]; auto.
  { rewrite app_nil_r. apply remaining_appended. }
  eexists wdh', _, _. split; [exact Hw|]. split; [reflexivity|].
  split; [rewrite Htot; reflexivity|]. split; [exact Htot|].
  split; [exact Hr|]. repeat split.
  unfold wdh', appended, forward, written_file. cbn [file_pos dump_out].
  now rewrite length_app.
Qed.

Lemma isb_write_then_read_witness :
  exists wdh' r fh',
    pcapng_write_interface_statistics_block (fresh_dumper []) sample_if_stats = Ok wdh'
    /\ bytes_dumped wdh' = 68
    /\ pcapng_read_block plain_env (mkFileInfo 0 0) false false default_section
         default_section empty_wblock (written_file wdh' 0) = Ok (r, fh')
    /\ wb_block (res_wblock r) = Some sample_if_stats
    /\ file_pos fh' = 68%nat.
Proof.
  destruct (isb_write_then_read plain_env (mkFileInfo 0 0) false false default_section
              default_section empty_wblock (fresh_dumper []) sample_if_stats
              (mkIfStats 0 0x0005A1B2 0xC3D4E5F6)
              eq_refl eq_refl ltac:(cbn; lia) ltac:(cbn; lia) ltac:(cbn; lia)
              ltac:(vm_compute; reflexivity)
              ltac:(repeat constructor; cbn; intuition discriminate)
              ltac:(vm_compute; discriminate))
    as (wdh' & r & fh' & Hw & Hout & Hn & _ & Hr & _ & _ & Hb & Hpos).
  exists wdh', r, fh'. split; [exact Hw|]. split; [rewrite Hn; reflexivity|].
  split; [exact Hr|]. split; [exact Hb|].
  rewrite Hpos, Hout. reflexivity.
Defined.
(** ** Interface description blocks: written, then read *)

Lemma idb_option_ok_cases p :
  idb_option_ok p = true ->
  ((fst p = OPT_COMMENT \/ fst p = OPT_IDB_NAME \/ fst p = OPT_IDB_DESCR
    \/ fst p = OPT_IDB_OS \/ fst p = OPT_IDB_HARDWARE)
   /\ exists s, snd p = OptString s /\ option_string_ok s = true)
  \/ (fst p = OPT_IDB_SPEED /\ exists v, snd p = OptUint64 v /\ 0 <= v < 2 ^ 64)
  \/ ((fst p = OPT_IDB_TSRESOL \/ fst p = OPT_IDB_FCSLEN)
      /\ exists v, snd p = OptUint8 v /\ 0 <= v < 2 ^ 8)
  \/ (fst p = OPT_IDB_FILTER
      /\ exists f, snd p = OptIfFilter f
                   /\ match f with
                      | if_filter_pcap s => strlen s <= 65534 /\ until_nul s = s
                      | if_filter_bpf prog =>
                          Z.of_nat (length prog) * 8 <= 65528
                          /\ forallb bpf_insn_ok prog = true
                      end).
Proof.
  destruct p as [code v]. unfold idb_option_ok. cbn [fst snd].
  change OPT_COMMENT with 1. change OPT_IDB_NAME with 2. change OPT_IDB_DESCR with 3.
  change OPT_IDB_OS with 12. change OPT_IDB_HARDWARE with 15.
  change OPT_IDB_SPEED with 8. change OPT_IDB_TSRESOL with 9.
  change OPT_IDB_FCSLEN with 13. change OPT_IDB_FILTER with 11.
  destruct (Z.eqb_spec code 1); [destruct v; try discriminate; intros H; left;
                                 split; [tauto|eauto]|].
  destruct (Z.eqb_spec code 2); [destruct v; try discriminate; intros H; left;
                                 split; [tauto|eauto]|].
  destruct (Z.eqb_spec code 3); [destruct v; try discriminate; intros H; left;
                                 split; [tauto|eauto]|].
  destruct (Z.eqb_spec code 12); [destruct v; try discriminate; intros H; left;
                                  split; [tauto|eauto]|].
  destruct (Z.eqb_spec code 15); [destruct v; try discriminate; intros H; left;
                                  split; [tauto|eauto]|].
  cbn [orb].
  destruct (Z.eqb_spec code 8).
  { destruct v as [|?|v|]; try discriminate. intros H.
    apply andb_prop in H. destruct H as [H1 H2].
    apply Z.leb_le in H1. apply Z.ltb_lt in H2. right; left. split; [assumption|eauto]. }
  destruct (Z.eqb_spec code 9).
  { destruct v as [|v|?|]; try discriminate. intros H.
    apply andb_prop in H. destruct H as [H1 H2].
    apply Z.leb_le in H1. apply Z.ltb_lt in H2. right; right; left.
    split; [tauto|eauto]. }
  destruct (Z.eqb_spec code 13).
  { destruct v as [|v|?|]; try discriminate. intros H.
    apply andb_prop in H. destruct H as [H1 H2].
    apply Z.leb_le in H1. apply Z.ltb_lt in H2. right; right; left.
    split; [tauto|eauto]. }
  cbn [orb].
  destruct (Z.eqb_spec code 11); [|discriminate].
  destruct v as [| | |f]; try discriminate. intros H. right; right; right.
  split; [assumption|]. exists f. split; [reflexivity|].
  destruct f as [s|prog]; apply andb_prop in H; destruct H as [H1 H2];
    apply Z.leb_le in H1; (split; [exact H1|]); [|exact H2].
  clear H1. induction s as [|c s IH]; [reflexivity|].
  cbn [forallb] in H2. apply andb_prop in H2. destruct H2 as [Hc Hs].
  cbn [until_nul]. destruct (byte_val c =? 0); [discriminate|]. now rewrite IH.
Qed.

Lemma length_bpf_prog_bytes prog :
  length (bpf_prog_bytes prog) = (8 * length prog)%nat.
Proof.
  induction prog as [|i prog IH]; [reflexivity|].
  unfold bpf_prog_bytes in *. cbn [flat_map]. rewrite length_app, IH.
  rewrite !length_app, !length_le_bytes. cbn [length]. lia.
Qed.

Lemma length_filter_option_value f :
  Z.of_nat (length (filter_option_value f))
  = 1 + match f with
        | if_filter_pcap s => strlen s
        | if_filter_bpf prog => Z.of_nat (length prog) * 8
        end.
Proof.
  destruct f as [s|prog]; unfold filter_option_value; rewrite length_app, length_le_bytes.
  - unfold strlen. lia.
  - rewrite length_bpf_prog_bytes. lia.
Qed.

Lemma write_idb_filter_option_image wdh option_id f :
  0 <= option_id < 65536 ->
  match f with
  | if_filter_pcap s => strlen s <= 65534
  | if_filter_bpf prog => Z.of_nat (length prog) * 8 <= 65528
  end ->
  write_idb_filter_option wdh option_id f
  = Ok (appended wdh (option_image option_id (filter_option_value f))
          (Z.of_nat (length (option_image option_id (filter_option_value f))))).
Proof.
  intros Hid Hf. pose proof (length_filter_option_value f) as Hlen.
  pose proof (length_option_image option_id (filter_option_value f)) as Himg.
  pose proof (pad_to_4_bounds (Z.of_nat (length (filter_option_value f)))) as Hp.
  unfold write_idb_filter_option, option_image in *.
  set (n := Z.of_nat (length (filter_option_value f))) in *.
  assert (Hn : 1 <= n <= 65535)
    by (destruct f; unfold strlen in *; lia).
  assert (Hbig : match f with
                 | if_filter_pcap _ =>
                     match f with
                     | if_filter_pcap s => strlen s
                     | if_filter_bpf prog => Z.of_nat (length prog) * 8
                     end >? 65534
                 | if_filter_bpf _ =>
                     match f with
                     | if_filter_pcap s => strlen s
                     | if_filter_bpf prog => Z.of_nat (length prog) * 8
                     end >? 65528
                 end = false).
  { destruct f as [s|prog];
      [destruct (Z.gtb_spec (strlen s) 65534)
      |destruct (Z.gtb_spec (Z.of_nat (length prog) * 8) 65528)];
      try reflexivity; lia. }
  rewrite Hbig.
  replace (guint32 (match f with
                    | if_filter_pcap s => strlen s
                    | if_filter_bpf prog => Z.of_nat (length prog) * 8
                    end + 1)) with n
    by (unfold guint32; rewrite Z.mod_small;
        [lia|change (2 ^ 32) with 4294967296; lia]).
  unfold guint16. change (2 ^ 16) with 65536. rewrite !Z.mod_small by lia.
  rewrite !write_counted_appended. cbn [and_then]. rewrite write_counted_appended.
  cbn [and_then]. rewrite write_counted_appended. cbn [and_then].
  rewrite !appended_appended.
  assert (Hdata : le_bytes 1 match f with
                             | if_filter_pcap _ => 0
                             | if_filter_bpf _ => 1
                             end
                  ++ match f with
                     | if_filter_pcap filter_str => filter_str
                     | if_filter_bpf bpf_prog => bpf_prog_bytes bpf_prog
                     end = filter_option_value f) by (destruct f; reflexivity).
  assert (Hdlen : Z.of_nat (length match f with
                                   | if_filter_pcap filter_str => filter_str
                                   | if_filter_bpf bpf_prog => bpf_prog_bytes bpf_prog
                                   end) = n - 1).
  { unfold n. rewrite <- Hdata. rewrite length_app, length_le_bytes. lia. }
  destruct (Z.eqb_spec (pad_to_4 n) 0) as [E|E]; cbn [negb].
  - rewrite E. cbn [Z.to_nat repeat]. rewrite app_nil_r.
    rewrite Hdata. rewrite <- !app_assoc.
    do 2 f_equal. rewrite !length_app, !length_le_bytes in *. lia.
  - rewrite write_counted_appended, appended_appended.
    rewrite <- !app_assoc. rewrite (app_assoc (le_bytes 1 _)), Hdata.
    do 2 f_equal. rewrite !length_app, !length_le_bytes, repeat_length in *. lia.
Qed.

Ltac idb_code Hc :=
  repeat match type of Hc with
         | _ \/ _ => destruct Hc as [Hc|Hc]
         end; rewrite Hc.

Lemma write_wtap_idb_option_image p wdh :
  idb_option_ok p = true ->
  write_wtap_idb_option (fst p) (snd p) (Ok wdh)
  = Ok (appended wdh (idb_option_image p) (Z.of_nat (length (idb_option_image p)))).
Proof.
  intros Hok. unfold write_wtap_idb_option, idb_option_image.
  destruct (idb_option_ok_cases p Hok)
    as [[Hc (s & Hv & Hs)]|[[Hc (v & Hv & Hr)]|[[Hc (v & Hv & Hr)]|[Hc (f & Hv & Hf)]]]];
    rewrite Hv; cbn [stringval uint64val uint8val].
  - apply option_string_ok_spec in Hs. destruct Hs as [Hs _].
    idb_code Hc; cbn -[pcapng_write_option_string option_image];
      apply pcapng_write_option_string_image; try assumption; cbv; intuition discriminate.
  - rewrite Hc. cbn -[pcapng_write_option_uint64 option_image le_bytes].
    apply pcapng_write_option_uint64_image. cbv; intuition discriminate.
  - idb_code Hc; cbn -[pcapng_write_option_uint8 option_image le_bytes];
      apply pcapng_write_option_uint8_image; cbv; intuition discriminate.
  - rewrite Hc. cbn -[write_idb_filter_option option_image filter_option_value].
    apply write_idb_filter_option_image; [cbv; intuition discriminate|].
    destruct f; tauto.
Qed.

Lemma idb_option_image_length p :
  idb_option_ok p = true ->
  8 <= Z.of_nat (length (idb_option_image p)) <= 65544
  /\ Z.of_nat (length (idb_option_image p)) mod 4 = 0.
Proof.
  intros Hok.
  assert (Hgen : forall code value,
             1 <= Z.of_nat (length value) <= 65535 ->
             8 <= Z.of_nat (length (option_image code value)) <= 65544
             /\ Z.of_nat (length (option_image code value)) mod 4 = 0).
  { intros code value Hl. split; [|apply length_option_image_aligned].
    rewrite length_option_image.
    pose proof (pad_to_4_bounds (Z.of_nat (length value))) as Hp.
    pose proof (pad_to_4_aligns (Z.of_nat (length value)) ltac:(lia)) as Ha.
    assert (Hq := Z.div_mod (Z.of_nat (length value) + pad_to_4 (Z.of_nat (length value)))
                    4 ltac:(lia)).
    lia. }
  unfold idb_option_image.
  destruct (idb_option_ok_cases p Hok)
    as [[Hc (s & Hv & Hs)]|[[Hc (v & Hv & Hr)]|[[Hc (v & Hv & Hr)]|[Hc (f & Hv & Hf)]]]];
    rewrite Hv; cbn [stringval uint64val uint8val].
  - apply option_string_ok_spec in Hs. destruct Hs as [Hs _]. unfold strlen in Hs.
    idb_code Hc; cbn -[option_image]; apply Hgen; lia.
  - rewrite Hc. cbn -[option_image le_bytes]. apply Hgen. rewrite length_le_bytes. lia.
  - idb_code Hc; cbn -[option_image le_bytes]; apply Hgen; rewrite length_le_bytes; lia.
  - rewrite Hc. cbn -[option_image filter_option_value]. apply Hgen.
    rewrite length_filter_option_value. destruct f; unfold strlen in *; lia.
Qed.

Lemma idb_option_image_length_pos p :
  idb_option_ok p = true ->
  0 < Z.of_nat (length (idb_option_image p))
  /\ Z.of_nat (length (idb_option_image p)) mod 4 = 0.
Proof. intros H. destruct (idb_option_image_length p H). split; [lia|assumption]. Qed.

Lemma add_option_size_padded size bs :
  0 < size -> 0 <= bs -> bs mod 4 = 0 -> bs + size + pad_to_4 size + 4 < 2 ^ 32 ->
  add_option_size size bs = bs + size + pad_to_4 size + 4.
Proof.
  intros Hs Hb Hb4 Hlt. pose proof (pad_to_4_bounds size) as Hp.
  unfold add_option_size.
  destruct (Z.gtb_spec size 0); [|lia].
  unfold guint32. rewrite (Z.mod_small (bs + size)) by lia.
  rewrite land_3_mod4 by lia.
  assert (H4 : (bs + size) mod 4 = size mod 4)
    by (rewrite Zplus_mod, Hb4, Z.add_0_l, Zmod_mod; reflexivity).
  rewrite H4. unfold pad_to_4 in *.
  destruct (Z.eqb_spec (size mod 4) 0) as [E|E]; cbn [negb] in *.
  - rewrite Z.mod_small by lia. lia.
  - rewrite (Z.mod_small (bs + size + (4 - size mod 4))) by lia.
    rewrite Z.mod_small by lia. lia.
Qed.

Lemma compute_idb_option_size_image p bs :
  idb_option_ok p = true -> 0 <= bs -> bs mod 4 = 0 ->
  bs + Z.of_nat (length (idb_option_image p)) < 2 ^ 32 ->
  compute_idb_option_size (fst p) (snd p) bs
  = bs + Z.of_nat (length (idb_option_image p)).
Proof.
  intros Hok Hb Hb4. unfold compute_idb_option_size, idb_option_image.
  destruct (idb_option_ok_cases p Hok)
    as [[Hc (s & Hv & Hs)]|[[Hc (v & Hv & Hr)]|[[Hc (v & Hv & Hr)]|[Hc (f & Hv & Hf)]]]];
    rewrite Hv; cbn [stringval uint64val uint8val].
  - apply option_string_ok_spec in Hs. destruct Hs as [Hs _].
    pose proof (pad_to_4_bounds (strlen s)) as Hp.
    pose proof (pad_to_4_aligns (strlen s) ltac:(lia)) as Ha.
    idb_code Hc; cbn -[option_image add_option_size pcapng_compute_option_string_size Z.pow];
      rewrite length_option_image, pcapng_compute_option_string_size_small by lia;
      unfold strlen in *; intros Hlt; rewrite add_option_size_aligned; lia.
  - rewrite Hc. cbn -[option_image add_option_size le_bytes Z.pow].
    rewrite length_option_image, length_le_bytes. cbn -[add_option_size Z.pow].
    intros Hlt. rewrite add_option_size_aligned; try reflexivity; lia.
  - idb_code Hc; cbn -[option_image add_option_size le_bytes Z.pow];
      rewrite length_option_image, length_le_bytes; cbn -[add_option_size Z.pow];
      intros Hlt; rewrite add_option_size_padded; try reflexivity; cbn; lia.
  - rewrite Hc. cbn -[option_image add_option_size filter_option_value Z.pow].
    rewrite length_option_image. pose proof (length_filter_option_value f) as Hlen.
    set (n := Z.of_nat (length (filter_option_value f))) in *.
    assert (Hn : 1 <= n <= 65535) by (destruct f; unfold strlen in *; lia).
    pose proof (pad_to_4_bounds n) as Hp.
    pose proof (pad_to_4_aligns n ltac:(lia)) as Ha.
    assert (Hsize : match f with
                    | if_filter_pcap filter_str =>
                        Z.land (guint32 (strlen filter_str + 1)) 0xffff
                    | if_filter_bpf bpf_prog =>
                        Z.land (guint32 (Z.of_nat (length bpf_prog) * 8 + 1)) 0xffff
                    end = n).
    { change 0xffff with (Z.ones 16).
      destruct f; rewrite Z.land_ones by lia; unfold guint32;
        rewrite (Z.mod_small _ (2 ^ 32)) by (change (2 ^ 32) with 4294967296; lia);
        rewrite Z.mod_small by (change (2 ^ 16) with 65536; lia); lia. }
    rewrite Hsize.
    replace (guint32 (n + pad_to_4 n)) with (n + pad_to_4 n)
      by (unfold guint32; rewrite Z.mod_small;
          [reflexivity|change (2 ^ 32) with 4294967296; lia]).
    intros Hlt. rewrite add_option_size_aligned; lia.
Qed.


Lemma idb_block_image_shape denv int_data L :
  L = Z.of_nat (length (idb_block_image denv int_data)) ->
  idb_block_image denv int_data
  = le_bytes 4 BLOCK_TYPE_IDB ++ le_bytes 4 L
    ++ (le_bytes 2 (guint16 (wtap_wtap_encap_to_pcap_encap denv
                               (idb_wtap_encap (if_descr_mandatory int_data))))
        ++ le_bytes 2 0 ++ le_bytes 4 (idb_snap_len (if_descr_mandatory int_data))
        ++ options_image idb_option_image (block_options int_data))
    ++ le_bytes 4 L.
Proof.
  intros ->. unfold idb_block_image.
  set (body := le_bytes 2 _ ++ le_bytes 2 _ ++ le_bytes 4 _ ++ options_image _ _).
  replace (Z.of_nat (length (le_bytes 4 BLOCK_TYPE_IDB
                               ++ le_bytes 4 (8 + Z.of_nat (length body) + 4)
                               ++ body ++ le_bytes 4 (8 + Z.of_nat (length body) + 4))))
    with (8 + Z.of_nat (length body) + 4)
    by (rewrite !length_app, !length_le_bytes; lia).
  reflexivity.
Qed.

Lemma length_idb_block_image denv int_data :
  Z.of_nat (length (idb_block_image denv int_data))
  = 20 + Z.of_nat (length (options_image idb_option_image (block_options int_data))).
Proof. unfold idb_block_image. rewrite !length_app, !length_le_bytes. lia. Qed.

(** The interface description block as written. *)
Lemma pcapng_write_if_descr_block_image denv wdh int_data :
  wtap_wtap_encap_to_pcap_encap denv (idb_wtap_encap (if_descr_mandatory int_data)) <> -1 ->
  forallb idb_option_ok (block_options int_data) = true ->
  Z.of_nat (length (idb_block_image denv int_data)) < 2 ^ 32 ->
  pcapng_write_if_descr_block denv wdh int_data
  = Ok (appended wdh (idb_block_image denv int_data)
          (Z.of_nat (length (idb_block_image denv int_data))))
  /\ idb_block_total_length int_data = Z.of_nat (length (idb_block_image denv int_data)).
Proof.
  intros Hlink Hok Hlt.
  pose proof (length_idb_block_image denv int_data) as Hlen.
  assert (Hsize : options_block_size int_data compute_idb_option_size
                  = Z.of_nat (length (options_image idb_option_image
                                        (block_options int_data)))).
  { apply (options_block_size_image _ _ idb_option_ok); auto.
    - apply idb_option_image_length_pos.
    - apply compute_idb_option_size_image.
    - lia. }
  assert (Htot : idb_block_total_length int_data
                 = Z.of_nat (length (idb_block_image denv int_data))).
  { unfold idb_block_total_length. rewrite Hsize, Hlen.
    change sizeof_block_header with 8. change sizeof_idb with 8.
    unfold guint32. rewrite Z.mod_small by lia. lia. }
  split; [|exact Htot].
  unfold pcapng_write_if_descr_block.
  destruct (Z.eqb_spec (wtap_wtap_encap_to_pcap_encap denv
                          (idb_wtap_encap (if_descr_mandatory int_data))) (-1))
    as [E|_]; [contradiction|]. cbn [andb].
  rewrite write_counted_appended. cbn [and_then].
  rewrite write_counted_appended. cbn [and_then].
  rewrite (options_written compute_idb_option_size write_wtap_idb_option
             idb_option_image idb_option_ok)
    by (auto using idb_option_image_length_pos, compute_idb_option_size_image,
          write_wtap_idb_option_image; lia).
  cbn [and_then]. rewrite write_counted_appended, !appended_appended.
  rewrite Htot. remember (Z.of_nat (length (idb_block_image denv int_data))) as L eqn:HL.
  rewrite (idb_block_image_shape denv int_data L HL).
  rewrite <- !app_assoc. do 2 f_equal.
  rewrite !length_app, !length_le_bytes. lia.
Qed.

(** The members of a BPF program come back from its image. *)
Lemma bpf_insns_bytes prog :
  forallb bpf_insn_ok prog = true ->
  bpf_insns false (length prog) (bpf_prog_bytes prog) = prog.
Proof.
  induction prog as [|i prog IH]; intros H; [reflexivity|].
  cbn [forallb] in H. apply andb_prop in H. destruct H as [Hi Hp].
  unfold bpf_insn_ok in Hi.
  repeat match type of Hi with
         | _ && _ = true => apply andb_prop in Hi; destruct Hi as [Hi ?]
         end.
  repeat match goal with
         | H : (_ <=? _) = true |- _ => apply Z.leb_le in H
         | H : (_ <? _) = true |- _ => apply Z.ltb_lt in H
         end.
  unfold bpf_prog_bytes in *. cbn [flat_map length bpf_insns].
  rewrite <- !app_assoc. unfold maybe_swap16, maybe_swap32.
  f_equal.
  - fields.
    change (256 ^ Z.of_nat 2) with (2 ^ 16). change (256 ^ Z.of_nat 1) with (2 ^ 8).
    change (256 ^ Z.of_nat 4) with (2 ^ 32).
    rewrite !Z.mod_small by lia. destruct i. reflexivity.
  - replace (skipn 8 (le_bytes 2 (insn_code i) ++ le_bytes 1 (insn_jt i)
                        ++ le_bytes 1 (insn_jf i) ++ le_bytes 4 (insn_k i)
                        ++ flat_map (fun i0 => le_bytes 2 (insn_code i0)
                                                 ++ le_bytes 1 (insn_jt i0)
                                                 ++ le_bytes 1 (insn_jf i0)
                                                 ++ le_bytes 4 (insn_k i0)) prog))
      with (flat_map (fun i0 => le_bytes 2 (insn_code i0) ++ le_bytes 1 (insn_jt i0)
                                  ++ le_bytes 1 (insn_jf i0) ++ le_bytes 4 (insn_k i0)) prog)
      by reflexivity.
    apply IH, Hp.
Qed.

Lemma content0_le_bytes v rest : 0 <= v < 2 ^ 8 -> content0 (le_bytes 1 v ++ rest) = v.
Proof.
  intros H. unfold content0. cbn [le_bytes app nth]. rewrite byte_val_of_Z.
  apply Z.mod_small. change (2 ^ 8) with 256 in H. lia.
Qed.

Lemma get_uint8_option_in code opts v :
  get_uint8_option code opts = Some v -> In code (map fst opts).
Proof.
  induction opts as [|[c o] opts IH]; [discriminate|]. cbn [get_uint8_option map fst In].
  destruct o; try (intros H; right; now apply IH).
  destruct (Z.eqb_spec c code) as [E|E]; [now left|intros H; right; now apply IH].
Qed.

(** The mandatory part after the options were read. *)
Lemma idb_mand_after_options opts :
  forallb idb_option_ok opts = true ->
  NoDup (single_option_codes opts) ->
  forall m,
    fold_left (fun m p => idb_mand_after_option p m) opts m
    = match get_uint8_option OPT_IDB_TSRESOL opts with
      | Some v => set_time_units (if_tsresol_time_units v)
                    (tsprecision_of_time_units (if_tsresol_time_units v)) m
      | None => m
      end.
Proof.
  induction opts as [|p opts IH]; intros Hok Hnd m; [reflexivity|].
  cbn [forallb fold_left] in *. apply andb_prop in Hok. destruct Hok as [Hp Ho].
  rewrite single_option_codes_cons in Hnd.
  destruct p as [code o]. cbn [fst snd] in *.
  unfold idb_mand_after_option at 2. cbn [fst snd].
  destruct (Z.eqb_spec code OPT_IDB_TSRESOL) as [E|E].
  - subst code. change (negb (OPT_IDB_TSRESOL =? OPT_COMMENT)) with true in Hnd.
    cbv iota in Hnd. inversion Hnd as [|? ? Hnin Hnd']; subst.
    rewrite IH by assumption.
    destruct (get_uint8_option OPT_IDB_TSRESOL opts) as [v'|] eqn:Eg.
    + exfalso. apply Hnin. unfold single_option_codes. apply filter_In.
      split; [eapply get_uint8_option_in; eauto|reflexivity].
    + destruct (idb_option_ok_cases _ Hp)
        as [[Hc _]|[[Hc _]|[[Hc (v & Hv & Hr)]|[Hc _]]]]; cbn [fst snd] in *;
        try (exfalso; revert Hc; cbv; intuition discriminate).
      rewrite Hv. cbn [get_uint8_option uint8val].
      now rewrite Z.eqb_refl.
  - rewrite IH; [|assumption|destruct (negb (code =? OPT_COMMENT)); [now inversion Hnd|exact Hnd]].
    cbn [get_uint8_option]. destruct o; try reflexivity.
    destruct (Z.eqb_spec code OPT_IDB_TSRESOL); [contradiction|reflexivity].
Qed.

Section DescriptionOptions.
Variable env : wiretap_env.

Lemma idb_option_image_value p :
  idb_option_ok p = true ->
  exists value,
    idb_option_image p = option_image (fst p) value
    /\ 0 < fst p < 65536
    /\ 0 < Z.of_nat (length value) < 65536
    /\ (((fst p = OPT_COMMENT \/ fst p = OPT_IDB_NAME \/ fst p = OPT_IDB_DESCR
          \/ fst p = OPT_IDB_OS \/ fst p = OPT_IDB_HARDWARE)
         /\ snd p = OptString value /\ until_nul value = value)
        \/ (fst p = OPT_IDB_SPEED
            /\ exists v, snd p = OptUint64 v /\ 0 <= v < 2 ^ 64 /\ value = le_bytes 8 v)
        \/ ((fst p = OPT_IDB_TSRESOL \/ fst p = OPT_IDB_FCSLEN)
            /\ exists v, snd p = OptUint8 v /\ 0 <= v < 2 ^ 8 /\ value = le_bytes 1 v)
        \/ (fst p = OPT_IDB_FILTER
            /\ exists f, snd p = OptIfFilter f
                         /\ match f with
                            | if_filter_pcap s => strlen s <= 65534 /\ until_nul s = s
                            | if_filter_bpf prog =>
                                Z.of_nat (length prog) * 8 <= 65528
                                /\ forallb bpf_insn_ok prog = true
                            end
                         /\ value = filter_option_value f)).
Proof.
  intros Hok. unfold idb_option_image.
  destruct (idb_option_ok_cases p Hok)
    as [[Hc (s & Hv & Hs)]|[[Hc (v & Hv & Hr)]|[[Hc (v & Hv & Hr)]|[Hc (f & Hv & Hf)]]]];
    rewrite Hv; cbn [stringval uint64val uint8val].
  - apply option_string_ok_spec in Hs. destruct Hs as [Hs Hn]. unfold strlen in Hs.
    exists s.
    split; [idb_code Hc; reflexivity|].
    split; [idb_code Hc; cbv; intuition discriminate|].
    split; [lia|]. left. auto.
  - exists (le_bytes 8 v).
    split; [rewrite Hc; reflexivity|].
    split; [rewrite Hc; cbv; intuition discriminate|].
    split; [rewrite length_le_bytes; cbn; lia|]. right; left. split; [exact Hc|eauto].
  - exists (le_bytes 1 v).
    split; [idb_code Hc; reflexivity|].
    split; [idb_code Hc; cbv; intuition discriminate|].
    split; [rewrite length_le_bytes; cbn; lia|]. right; right; left. split; [exact Hc|eauto].
  - exists (filter_option_value f).
    split; [rewrite Hc; reflexivity|].
    split; [rewrite Hc; cbv; intuition discriminate|].
    split; [rewrite length_filter_option_value; destruct f; unfold strlen in *; lia|].
    right; right; right. split; [exact Hc|eauto].
Qed.

Lemma idb_option_image_read si L t m done p fh post :
  byte_swapped si = false -> idb_option_ok p = true ->
  remaining fh = idb_option_image p ++ post ->
  Z.of_nat (length (idb_option_image p)) < t -> t <= L -> L < 2 ^ 32 ->
  (fst p = OPT_COMMENT \/ option_present (fst p) done = false) ->
  idb_option env si L t (mkBlock (WTAP_BLOCK_IF_ID_AND_INFO m) done) fh
  = Ok ((t - Z.of_nat (length (idb_option_image p)),
         mkBlock (WTAP_BLOCK_IF_ID_AND_INFO (idb_mand_after_option p m)) (done ++ [p])),
        forward fh (length (idb_option_image p)))
  /\ remaining (forward fh (length (idb_option_image p))) = post.
Proof.
  intros Hsw Hok Hrem Ht HL HL32 Hnew.
  destruct (idb_option_image_value p Hok) as (value & Himg & Hcode & Hlen & Hcases).
  pose proof (length_option_image (fst p) value) as Hli.
  pose proof (pad_to_4_bounds (Z.of_nat (length value))) as Hpad.
  rewrite Himg in Hrem, Ht.
  destruct (pcapng_read_option_image si L t fh (fst p) value post Hsw Hrem)
    as [Hr Hrem']; try lia.
  rewrite Himg. split; [|exact Hrem'].
  unfold idb_option. rewrite (bind_run _ _ _ _ _ Hr). cbv beta iota.
  cbn [option_code option_length].
  replace (guint32 (t - Z.of_nat (length (option_image (fst p) value))))
    with (t - Z.of_nat (length (option_image (fst p) value)))
    by (unfold guint32; rewrite Z.mod_small; lia).
  unfold idb_mand_after_option.
  assert (Hadd : forall mand v,
             wtap_block_add_option (fst p) v (mkBlock mand done)
             = mkBlock mand (done ++ [(fst p, v)]))
    by (intros; now apply wtap_block_add_option_new).
  clear Hr Hrem Hrem' Himg Hok.
  destruct (Z.ltb_spec 0 (Z.of_nat (length value))) as [_|?]; [|lia].
  destruct p as [code o]. cbn [fst snd] in *.
  destruct Hcases as [(Hc & Hv & Hn)|[(Hc & v & Hv & Hr & Hval)
                     |[(Hc & v & Hv & Hr & Hval)|(Hc & f & Hv & Hf & Hval)]]]; subst o.
  - assert (Hb0 : (code =? OPT_EOFOPT) = false) by (idb_code Hc; reflexivity).
    assert (Hb1 : (code =? OPT_COMMENT) || (code =? OPT_IDB_NAME) || (code =? OPT_IDB_DESCR)
                  || (code =? OPT_IDB_OS) || (code =? OPT_IDB_HARDWARE) = true)
      by (idb_code Hc; reflexivity).
    assert (Hb3 : (code =? OPT_IDB_TSRESOL) = false) by (idb_code Hc; reflexivity).
    rewrite Hb0, Hb1, Hb3.
    unfold pcapng_process_string_option. cbn [option_length option_code].
    destruct (Z.ltb_spec 0 (Z.of_nat (length value))); [|lia].
    destruct (Z.ltb_spec (Z.of_nat (length value)) L); [|lia]. cbn [andb].
    rewrite g_strndup_whole by exact Hn. rewrite Hadd. reflexivity.
  - subst code value.
    change (OPT_IDB_SPEED =? OPT_EOFOPT) with false.
    change ((OPT_IDB_SPEED =? OPT_COMMENT) || (OPT_IDB_SPEED =? OPT_IDB_NAME)
            || (OPT_IDB_SPEED =? OPT_IDB_DESCR) || (OPT_IDB_SPEED =? OPT_IDB_OS)
            || (OPT_IDB_SPEED =? OPT_IDB_HARDWARE)) with false.
    change (OPT_IDB_SPEED =? OPT_IDB_SPEED) with true.
    change (OPT_IDB_SPEED =? OPT_IDB_TSRESOL) with false. cbv iota.
    unfold pcapng_process_uint64_option. cbn [option_length option_code].
    rewrite length_le_bytes in *. change (Z.of_nat 8 =? 8) with true.
    destruct (Z.ltb_spec (Z.of_nat 8) L); [|lia]. cbn [andb].
    rewrite Hsw. unfold maybe_swap64. rewrite field_whole.
    change (256 ^ Z.of_nat 8) with (2 ^ 64). rewrite Z.mod_small by exact Hr.
    rewrite Hadd. reflexivity.
  - subst value. rewrite length_le_bytes in *.
    destruct Hc as [Hc|Hc]; subst code.
    + change (OPT_IDB_TSRESOL =? OPT_EOFOPT) with false.
      change ((OPT_IDB_TSRESOL =? OPT_COMMENT) || (OPT_IDB_TSRESOL =? OPT_IDB_NAME)
              || (OPT_IDB_TSRESOL =? OPT_IDB_DESCR) || (OPT_IDB_TSRESOL =? OPT_IDB_OS)
              || (OPT_IDB_TSRESOL =? OPT_IDB_HARDWARE)) with false.
      change (OPT_IDB_TSRESOL =? OPT_IDB_SPEED) with false.
      change (OPT_IDB_TSRESOL =? OPT_IDB_TSRESOL) with true. cbv iota.
      change (Z.of_nat 1 =? 1) with true. cbv iota.
      rewrite <- (app_nil_r (le_bytes 1 v)), content0_le_bytes by exact Hr.
      unfold with_if_descr_mand at 2. cbn [block_mand block_options].
      rewrite Hadd. unfold with_if_descr_mand. cbn [block_mand block_options uint8val].
      reflexivity.
    + change (OPT_IDB_FCSLEN =? OPT_EOFOPT) with false.
      change ((OPT_IDB_FCSLEN =? OPT_COMMENT) || (OPT_IDB_FCSLEN =? OPT_IDB_NAME)
              || (OPT_IDB_FCSLEN =? OPT_IDB_DESCR) || (OPT_IDB_FCSLEN =? OPT_IDB_OS)
              || (OPT_IDB_FCSLEN =? OPT_IDB_HARDWARE)) with false.
      change (OPT_IDB_FCSLEN =? OPT_IDB_SPEED) with false.
      change (OPT_IDB_FCSLEN =? OPT_IDB_TSRESOL) with false.
      change (OPT_IDB_FCSLEN =? OPT_IDB_FILTER) with false.
      change (OPT_IDB_FCSLEN =? OPT_IDB_FCSLEN) with true. cbv iota.
      change (Z.of_nat 1 =? 1) with true. cbv iota.
      rewrite <- (app_nil_r (le_bytes 1 v)), content0_le_bytes by exact Hr.
      rewrite Hadd. reflexivity.
  - subst code value.
    change (OPT_IDB_FILTER =? OPT_EOFOPT) with false.
    change ((OPT_IDB_FILTER =? OPT_COMMENT) || (OPT_IDB_FILTER =? OPT_IDB_NAME)
            || (OPT_IDB_FILTER =? OPT_IDB_DESCR) || (OPT_IDB_FILTER =? OPT_IDB_OS)
            || (OPT_IDB_FILTER =? OPT_IDB_HARDWARE)) with false.
    change (OPT_IDB_FILTER =? OPT_IDB_SPEED) with false.
    change (OPT_IDB_FILTER =? OPT_IDB_TSRESOL) with false.
    change (OPT_IDB_FILTER =? OPT_IDB_FILTER) with true. cbv iota.
    destruct (Z.ltb_spec 0 (Z.of_nat (length (filter_option_value f)))); [|lia].
    destruct (Z.ltb_spec (Z.of_nat (length (filter_option_value f))) L); [|lia].
    cbn [andb]. pose proof (length_filter_option_value f) as Hfl.
    destruct f as [s|prog]; unfold filter_option_value in *.
    + rewrite content0_le_bytes by (cbn; lia). change (0 =? 0) with true. cbv iota.
      change (skipn 1 (le_bytes 1 0 ++ s)) with s.
      replace (Z.of_nat (length (le_bytes 1 0 ++ s)) - 1) with (Z.of_nat (length s))
        by (unfold strlen in Hfl; lia).
      rewrite g_strndup_whole by tauto. rewrite Hadd. reflexivity.
    + rewrite content0_le_bytes by (cbn; lia). change (1 =? 0) with false.
      change (1 =? 1) with true. cbv iota.
      change (skipn 1 (le_bytes 1 1 ++ bpf_prog_bytes prog)) with (bpf_prog_bytes prog).
      replace (Z.to_nat ((Z.of_nat (length (le_bytes 1 1 ++ bpf_prog_bytes prog)) - 1) / 8))
        with (length prog).
      2:{ rewrite Hfl. replace (1 + Z.of_nat (length prog) * 8 - 1)
            with (Z.of_nat (length prog) * 8) by lia.
          rewrite Z.div_mul by lia. now rewrite Nat2Z.id. }
      rewrite Hsw, bpf_insns_bytes by tauto. rewrite Hadd. reflexivity.
Qed.

Lemma idb_option_end si L t block fh post :
  byte_swapped si = false ->
  remaining fh = (le_bytes 2 OPT_EOFOPT ++ le_bytes 2 0) ++ post ->
  4 <= t -> 0 <= L ->
  idb_option env si L t block fh = Ok ((0, block), forward fh 4)
  /\ remaining (forward fh 4) = post.
Proof.
  intros Hsw Hrem Ht HL.
  change (le_bytes 2 OPT_EOFOPT ++ le_bytes 2 0) with (option_image OPT_EOFOPT []) in Hrem.
  destruct (pcapng_read_option_image si L t fh OPT_EOFOPT [] post Hsw Hrem)
    as [Hr Hrem']; try (change OPT_EOFOPT with 0; cbn [length Z.of_nat]; lia).
  split; [|exact Hrem'].
  unfold idb_option. rewrite (bind_run _ _ _ _ _ Hr). reflexivity.
Qed.

Lemma idb_options_read si L :
  byte_swapped si = false -> L < 2 ^ 32 ->
  forall opts m done t fh post,
    forallb idb_option_ok opts = true ->
    NoDup (single_option_codes opts) ->
    (forall code, In code (single_option_codes opts) -> option_present code done = false) ->
    remaining fh
    = flat_map idb_option_image opts ++ (le_bytes 2 OPT_EOFOPT ++ le_bytes 2 0) ++ post ->
    t = Z.of_nat (length (flat_map idb_option_image opts)) + 4 ->
    t <= L ->
    option_loop ERR_LOOP_BOUND (idb_option env si L) t
      (mkBlock (WTAP_BLOCK_IF_ID_AND_INFO m) done) fh
    = Ok (mkBlock (WTAP_BLOCK_IF_ID_AND_INFO
                     (fold_left (fun m p => idb_mand_after_option p m) opts m))
                  (done ++ opts),
          forward fh (length (flat_map idb_option_image opts) + 4))
    /\ remaining (forward fh (length (flat_map idb_option_image opts) + 4)) = post.
Proof.
  intros Hsw HL32.
  induction opts as [|p opts IH]; intros m done t fh post Hok Hnd Hfresh Hrem Ht HL.
  - cbn [flat_map length app Nat.add fold_left] in *.
    change (Z.of_nat 0 + 4) with 4 in Ht. subst t.
    destruct (idb_option_end si L 4 (mkBlock (WTAP_BLOCK_IF_ID_AND_INFO m) done) fh post
                Hsw Hrem) as [Hr Hrem']; try lia.
    rewrite (option_loop_step ERR_LOOP_BOUND _ (idb_option_advances env si L) 4 _ _ _ _ _
               ltac:(lia) Hr).
    rewrite option_loop_zero, app_nil_r. split; [reflexivity|exact Hrem'].
  - cbn [flat_map forallb fold_left] in *. apply andb_prop in Hok. destruct Hok as [Hp Ho].
    rewrite <- app_assoc in Hrem. rewrite length_app, Nat2Z.inj_add in Ht.
    destruct (idb_option_image_length p Hp) as [Hlp _].
    assert (Hnew : fst p = OPT_COMMENT \/ option_present (fst p) done = false).
    { destruct (Z.eqb_spec (fst p) OPT_COMMENT) as [E|E]; [now left|right].
      apply Hfresh. rewrite single_option_codes_cons.
      destruct (Z.eqb_spec (fst p) OPT_COMMENT); [contradiction|]. now left. }
    destruct (idb_option_image_read si L t m done p fh _ Hsw Hp Hrem) as [Hr Hrem'];
      auto; try lia.
    rewrite (option_loop_step ERR_LOOP_BOUND _ (idb_option_advances env si L) t _ _ _ _ _
               ltac:(lia) Hr).
    rewrite single_option_codes_cons in Hnd, Hfresh.
    destruct (IH (idb_mand_after_option p m) (done ++ [p])
                (t - Z.of_nat (length (idb_option_image p)))
                (forward fh (length (idb_option_image p))) post Ho) as [Hl Hrem''];
      auto; try lia.
    + destruct (Z.eqb_spec (fst p) OPT_COMMENT); cbn [negb] in Hnd; [exact Hnd|].
      now inversion Hnd.
    + intros code Hin. rewrite option_present_app.
      rewrite Hfresh
        by (destruct (Z.eqb_spec (fst p) OPT_COMMENT); cbn [negb]; [exact Hin|now right]).
      destruct (Z.eqb_spec (fst p) code) as [E|E]; [|reflexivity].
      destruct (Z.eqb_spec (fst p) OPT_COMMENT) as [E1|E1]; cbn [negb] in Hnd.
      * unfold single_option_codes in Hin. apply filter_In in Hin.
        destruct Hin as [_ Hin]. rewrite <- E, E1 in Hin. discriminate.
      * inversion Hnd; subst. contradiction.
    + rewrite forward_forward in *. rewrite <- app_assoc in Hl. cbn [app] in Hl.
      rewrite length_app.
      replace (length (idb_option_image p) + length (flat_map idb_option_image opts) + 4)%nat
        with (length (idb_option_image p) + (length (flat_map idb_option_image opts) + 4))%nat
        by lia.
      split; [exact Hl|exact Hrem''].
Qed.

End DescriptionOptions.

Section DescriptionBlock.
Variable env : wiretap_env.

Lemma idb_block_image_read denv wth a4 a6 si nsi wblock fh int_data m post :
  remaining fh = idb_block_image denv int_data ++ post ->
  byte_swapped si = false ->
  block_mand int_data = WTAP_BLOCK_IF_ID_AND_INFO m ->
  0 <= wtap_wtap_encap_to_pcap_encap denv (idb_wtap_encap m) < 2 ^ 16 ->
  0 <= idb_snap_len m < 2 ^ 32 ->
  forallb idb_option_ok (block_options int_data) = true ->
  NoDup (single_option_codes (block_options int_data)) ->
  Z.of_nat (length (idb_block_image denv int_data)) <= MAX_BLOCK_SIZE ->
  exists wth',
    pcapng_read_block env wth a4 a6 si nsi wblock fh
    = Ok (mkResult wth' nsi
            (set_internal true
               (set_block (Some (idb_as_read env denv int_data))
                  (set_type BLOCK_TYPE_IDB (set_block None wblock))))
            (mkCalls [] []),
          forward fh (length (idb_block_image denv int_data)))
    /\ remaining (forward fh (length (idb_block_image denv int_data))) = post.
Proof.
  intros Hrem Hsw Hm Hlink Hsnap Hok Hnd Hmax.
  assert (Hmaxv : MAX_BLOCK_SIZE = 134348832) by reflexivity.
  remember (Z.of_nat (length (idb_block_image denv int_data))) as L eqn:HL.
  pose proof (idb_block_image_shape denv int_data L HL) as Hshape.
  pose proof (length_idb_block_image denv int_data) as Hlen. rewrite <- HL in Hlen.
  unfold idb_as_read.
  set (opts_img := options_image idb_option_image (block_options int_data)) in *.
  unfold if_descr_mandatory in *. rewrite Hm in *.
  set (link := wtap_wtap_encap_to_pcap_encap denv (idb_wtap_encap m)) in *.
  rewrite Hshape in Hrem. rewrite <- !app_assoc in Hrem.
  rewrite (app_assoc (le_bytes 4 BLOCK_TYPE_IDB)) in Hrem.
  destruct (read_next 8 8 fh _ _ Hrem eq_refl eq_refl) as [_ Hrem1].
  (* the body *)
  assert (Hbody : exists wth',
    read_block_dispatch env wth a4 a6 (mkBh BLOCK_TYPE_IDB L) si
      (set_type BLOCK_TYPE_IDB (set_block None wblock)) (forward fh 8)
    = Ok ((wth',
           set_internal true
             (set_block
                (Some (mkBlock (WTAP_BLOCK_IF_ID_AND_INFO
                          (mkIfDescr (wtap_pcap_encap_to_wtap_encap env link)
                             (idb_time_units (block_options int_data))
                             (tsprecision_of_time_units
                                (idb_time_units (block_options int_data)))
                             (idb_snap_len m) 0 []))
                         (block_options int_data)))
                (set_type BLOCK_TYPE_IDB (set_block None wblock))),
           mkCalls [] []),
          forward fh (8 + (8 + length opts_img)))
    /\ remaining (forward fh (8 + (8 + length opts_img))) = le_bytes 4 L ++ post).
  { unfold read_block_dispatch. cbn [block_type].
    change (BLOCK_TYPE_IDB =? BLOCK_TYPE_IDB) with true. cbv beta iota zeta.
    unfold pcapng_read_if_descr_block. cbn [block_total_length].
    change MIN_IDB_SIZE with 20. change sizeof_idb with 8.
    destruct (Z.ltb_spec L 20) as [Hlt|_]; [lia|].
    rewrite (app_assoc (le_bytes 2 (guint16 link))) in Hrem1.
    rewrite (app_assoc (le_bytes 2 (guint16 link) ++ _)) in Hrem1.
    destruct (read_next 8 8 _ _ _ Hrem1 eq_refl eq_refl) as [Hr2 Hrem2].
    rewrite !bind_assoc. rewrite (bind_run _ _ _ _ _ Hr2).
    rewrite Hsw. unfold maybe_swap32, maybe_swap16.
    rewrite <- !app_assoc. fields.
    change (256 ^ Z.of_nat 4) with (2 ^ 32). change (256 ^ Z.of_nat 2) with (2 ^ 16).
    unfold guint16. rewrite Zmod_mod. rewrite (Z.mod_small link) by assumption.
    rewrite (Z.mod_small (idb_snap_len m)) by assumption.
    replace (guint32 (L - 20)) with (Z.of_nat (length opts_img))
      by (unfold guint32; rewrite Z.mod_small; lia).
    rewrite forward_forward in *.
    set (m0 := mkIfDescr (wtap_pcap_encap_to_wtap_encap env link) 1000000 WTAP_TSPREC_USEC
                 (idb_snap_len m) 0 []).
    assert (Hloop :
      option_loop ERR_LOOP_BOUND
        (idb_option env si (Z.of_nat (length opts_img)))
        (Z.of_nat (length opts_img))
        (mkBlock (WTAP_BLOCK_IF_ID_AND_INFO m0) [])
        (forward fh (8 + 8))
      = Ok (mkBlock (WTAP_BLOCK_IF_ID_AND_INFO
                       (fold_left (fun m p => idb_mand_after_option p m)
                                  (block_options int_data) m0))
                    (block_options int_data),
            forward fh (8 + (8 + length opts_img)))
      /\ remaining (forward fh (8 + (8 + length opts_img))) = le_bytes 4 L ++ post).
    { unfold opts_img in *. unfold options_image in *.
      destruct (block_options int_data) as [|p opts] eqn:Eo.
      - cbn [length Z.of_nat app fold_left] in *. rewrite option_loop_zero.
        rewrite Nat.add_0_r. split; [reflexivity|exact Hrem2].
      - rewrite <- app_assoc in Hrem2.
        rewrite length_app in *.
        change (length (le_bytes 2 OPT_EOFOPT ++ le_bytes 2 0)) with 4%nat in *.
        destruct (idb_options_read env si
                    (Z.of_nat (length (flat_map idb_option_image (p :: opts)) + 4))
                    Hsw ltac:(change (2 ^ 32) with 4294967296; lia)
                    (p :: opts) m0 []
                    (Z.of_nat (length (flat_map idb_option_image (p :: opts)) + 4))
                    _ _ Hok Hnd ltac:(reflexivity) Hrem2 ltac:(lia) ltac:(lia))
          as [Hl Hrem3].
        rewrite forward_forward in *. cbn [app] in Hl.
        rewrite Nat.add_assoc in *. split; [exact Hl|exact Hrem3]. }
    destruct Hloop as [Hl Hrem3].
    rewrite !bind_assoc. rewrite (bind_run _ _ _ _ _ Hl).
    rewrite bind_ret.
    rewrite idb_mand_after_options by assumption.
    eexists. split; [|exact Hrem3].
    unfold ret. do 2 f_equal. f_equal. f_equal.
    unfold idb_time_units.
    destruct (get_uint8_option OPT_IDB_TSRESOL (block_options int_data)); reflexivity. }
  destruct Hbody as (wth' & Hbody & Hremb).
  destruct (pcapng_read_block_framed env wth a4 a6 si nsi wblock fh BLOCK_TYPE_IDB L _
              _ _ _ _ post Hrem Hsw ltac:(change BLOCK_TYPE_IDB with 1; lia)
              ltac:(discriminate) ltac:(lia) Hbody Hremb) as [Hr Hrem'].
  rewrite forward_forward in *.
  replace (length (idb_block_image denv int_data)) with (8 + (8 + length opts_img) + 4)%nat
    by lia.
  exists wth'. split; [exact Hr|exact Hrem'].
Qed.

End DescriptionBlock.

(** X9: an interface description block whose options are those the writer
    knows - strings of 1 to 65535 bytes, the speed, the time stamp
    resolution, the FCS length, a filter string of at most 65534 bytes or
    a BPF program of at most 65528 bytes - each but the comment at most
    once, is written by [pcapng_write_if_descr_block] with the total
    length it really has, and [pcapng_read_block], in a section of the
    host's byte order, reads it back with the same snapshot length and
    options, the encapsulation of its link type, and the time units of
    its [if_tsresol] (microseconds without one), whatever units the block
    given to the writer held.  The link type of the encapsulation is
    from 0 to 65535, the snapshot length fits 32 bits, and the block
    fits the largest block the reader accepts. *)
Theorem idb_write_then_read env denv wth a4 a6 si nsi wblock wdh int_data m :
  block_mand int_data = WTAP_BLOCK_IF_ID_AND_INFO m ->
  byte_swapped si = false ->
  0 <= wtap_wtap_encap_to_pcap_encap denv (idb_wtap_encap m) < 2 ^ 16 ->
  0 <= idb_snap_len m < 2 ^ 32 ->
  forallb idb_option_ok (block_options int_data) = true ->
  NoDup (single_option_codes (block_options int_data)) ->
  Z.of_nat (length (idb_block_image denv int_data)) <= MAX_BLOCK_SIZE ->
  exists wdh' r fh',
    pcapng_write_if_descr_block denv wdh int_data = Ok wdh'
    /\ dump_out wdh' = dump_out wdh ++ idb_block_image denv int_data
    /\ bytes_dumped wdh' = bytes_dumped wdh + idb_block_total_length int_data
    /\ idb_block_total_length int_data
       = Z.of_nat (length (idb_block_image denv int_data))
    /\ pcapng_read_block env wth a4 a6 si nsi wblock
         (written_file wdh' (length (dump_out wdh))) = Ok (r, fh')
    /\ wb_type (res_wblock r) = BLOCK_TYPE_IDB
    /\ wb_internal (res_wblock r) = true
    /\ wb_block (res_wblock r) = Some (idb_as_read env denv int_data)
    /\ file_pos fh' = length (dump_out wdh').
Proof.
  intros Hm Hsw Hlink Hsnap Hok Hnd Hmax.
  assert (Hmaxv : MAX_BLOCK_SIZE = 134348832) by reflexivity.
  destruct (pcapng_write_if_descr_block_image denv wdh int_data) as [Hw Htot]; auto.
  { unfold if_descr_mandatory. rewrite Hm. lia. }
  { change (2 ^ 32) with 4294967296; lia. }
  set (wdh' := appended wdh _ _) in Hw.
  destruct (idb_block_image_read env denv wth a4 a6 si nsi wblock
              (written_file wdh' (length (dump_out wdh))) int_data m [])
    as (wth' & Hr & _); auto.
  { rewrite app_nil_r. apply remaining_appended. }
  eexists wdh', _, _. split; [exact Hw|]. split; [reflexivity|].
  split; [rewrite Htot; reflexivity|]. split; [exact Htot|].
  split; [exact Hr|]. repeat split.
  unfold wdh', appended, forward, written_file. cbn [file_pos dump_out].
  now rewrite length_app.
Qed.

Lemma idb_write_then_read_witness :
  exists wdh' r fh',
    pcapng_write_if_descr_block plain_dump_env (fresh_dumper []) sample_idb_with_options
    = Ok wdh'
    /\ bytes_dumped wdh' = 68
    /\ pcapng_read_block plain_env (mkFileInfo 0 0) false false default_section
         default_section empty_wblock (written_file wdh' 0) = Ok (r, fh')
    /\ wb_block (res_wblock r) = Some sample_idb_with_options
    /\ file_pos fh' = 68%nat.
Proof.
  destruct (idb_write_then_read plain_env plain_dump_env (mkFileInfo 0 0) false false
              default_section default_section empty_wblock (fresh_dumper [])
              sample_idb_with_options
              (mkIfDescr 1 1000000000 WTAP_TSPREC_NSEC 65535 0 [])
              eq_refl eq_refl ltac:(cbn; lia) ltac:(cbn; lia)
              ltac:(vm_compute; reflexivity)
              ltac:(repeat constructor; cbn; intuition discriminate)
              ltac:(vm_compute; discriminate))
    as (wdh' & r & fh' & Hw & Hout & Hn & _ & Hr & _ & _ & Hb & Hpos).
  exists wdh', r, fh'. split; [exact Hw|]. split; [rewrite Hn; reflexivity|].
  split; [exact Hr|]. split; [exact Hb|].
  rewrite Hpos, Hout. reflexivity.
Defined.
(** ** The time units of an interface description block read *)




